(** * ESMValTool: checked properties of the MLR bookkeeping, the gtfgco2
      derivation, the ERA5 CMORizer and the cloud statistics

    Every definition below is a shallow embedding of one Python function of
    the repository; the name of the embedded function is kept and the source
    file is given in the comment in front of it.  Calls into third-party
    libraries (iris, numpy, cf_units, sklearn, lime) are either modelled by
    what the call does on the data that is kept here, or taken as a section
    variable when only their result matters. *)

From Stdlib Require Import ZArith QArith Qround Lia Bool Ascii String List.
From Stdlib Require Import Decimal DecimalString DecimalPos DecimalZ.
From stdpp Require Import base option list strings gmap.

Local Open Scope Z_scope.
Local Open Scope string_scope.
Local Open Scope list_scope.

(** ** Python results *)

(** The exceptions the embedded functions raise themselves or let escape. *)
Inductive exn : Type :=
  | ValueError
  | TypeError
  | KeyError
  | IndexError
  | NotFittedError
  | ConstraintMismatchError
  | CoordinateNotFoundError
  | UnboundLocalError
  | OverflowError
  | AttributeError.

(** A Python call either returns a value or raises. *)
Inductive result (A : Type) : Type :=
  | Ok (a : A)
  | Raise (e : exn).
Arguments Ok {A} a.
Arguments Raise {A} e.

Definition bind {A B : Type} (r : result A) (k : A -> result B) : result B :=
  match r with
  | Ok a => k a
  | Raise e => Raise e
  end.

Notation "'let!' x ':=' r 'in' k" := (bind r (fun x => k))
  (at level 10, x name, k at level 200).

Notation "'let!' ' p ':=' r 'in' k" := (bind r (fun p => k))
  (at level 10, p pattern, k at level 200).

Definition raises {A : Type} (r : result A) (e : exn) : Prop := r = Raise e.

Definition returns {A : Type} (r : result A) : Prop := exists a, r = Ok a.

(** ** Numbers *)

(** The numbers held by arrays, with the operations the embedded code applies
    to them.  Nothing is assumed about the operations: a statement proved for
    every instance holds for exact numbers and for machine numbers alike, as
    long as sums are taken in the order written.  [nan_to_num] is
    [np.nan_to_num] on one number; [square] is [x ** 2] and [sqrt] is
    [x ** 0.5]. *)
Class Arith (F : Type) : Type := {
  zero : F;
  add : F -> F -> F;
  sub : F -> F -> F;
  mul : F -> F -> F;
  div : F -> F -> F;
  square : F -> F;
  sqrt : F -> F;
  nan_to_num : F -> F
}.

(** Integers as an instance, used to evaluate the definitions on examples. *)
#[export] Instance Z_arith : Arith Z := {|
  zero := 0;
  add := Z.add;
  sub := Z.sub;
  mul := Z.mul;
  div := Z.div;
  square := fun x => x * x;
  sqrt := Z.sqrt;
  nan_to_num := fun x => x
|}.

(** Integers with a NaN ([None]) that every operation hands on, used to
    evaluate the definitions on examples in which [np.nan] occurs. *)
Definition Z_nan_arith : Arith (option Z) := {|
  zero := Some 0;
  add := fun x y =>
    match x, y with Some a, Some b => Some (a + b) | _, _ => None end;
  sub := fun x y =>
    match x, y with Some a, Some b => Some (a - b) | _, _ => None end;
  mul := fun x y =>
    match x, y with Some a, Some b => Some (a * b) | _, _ => None end;
  div := fun x y =>
    match x, y with
    | Some a, Some b => if (b =? 0)%Z then None else Some (a / b)
    | _, _ => None
    end;
  square := fun x => match x with Some a => Some (a * a) | None => None end;
  sqrt := fun x =>
    match x with
    | Some a => if (a <? 0)%Z then None else Some (Z.sqrt a)
    | None => None
    end;
  nan_to_num := fun x => Some (default 0 x)
|}.

(** The sum of a list, taken from the left starting at zero. *)
Definition sum_list {F : Type} `{Arith F} (l : list F) : F :=
  fold_left add l zero.

(** An elementwise numpy operation on two one-dimensional arrays: arrays of
    equal length are combined entry by entry, an array of length one is
    broadcast, any other pair of lengths is a ValueError. *)
Definition np_binop {F : Type} (op : F -> F -> F) (a b : list F)
    : result (list F) :=
  if (length a =? length b)%nat then Ok (zip_with op a b)
  else match a, b with
       | _, [y] => Ok (map (fun x => op x y) a)
       | [x], _ => Ok (map (fun y => op x y) b)
       | _, _ => Raise ValueError
       end.

(** [a[idx]] on an array. *)
Definition getitem {A : Type} (a : list A) (idx : nat) : result A :=
  match a !! idx with
  | Some x => Ok x
  | None => Raise IndexError
  end.

(** [pool.map(f, xs)] and the builtin [map]: the results in the order of the
    inputs, or the first exception. *)
Fixpoint map_result {A B : Type} (f : A -> result B) (xs : list A)
    : result (list B) :=
  match xs with
  | [] => Ok []
  | x :: rest =>
      let! y := f x in
      let! ys := map_result f rest in
      Ok (y :: ys)
  end.

(** ** esmvaltool/diag_scripts/mlr/models/__init__.py: dataset checks *)

Module MLRChecks.

(** The part of an iris coordinate that [_check_cube_dimensions] reads. *)
Record coord : Type := {
  coord_name : string;
  coord_shape : list nat;
  coord_points : list Q
}.

(** The part of an iris cube that [_check_cube_dimensions] reads:
    [cube.shape] and [cube.coords(dim_coords=True)]. *)
Record cube : Type := {
  shape : list nat;
  dim_coords : list coord
}.

(** The two warnings [_check_cube_dimensions] can log. *)
Inductive warning : Type :=
  | CoordinatesDiffer
  | PointsDiffer (name : string).

(** The recipe options read by the checks, with Python truthiness already
    applied ([self._cfg.get(key)] of a missing key is [None], hence false). *)
Record cfg : Type := {
  accept_only_scalar_data : bool;
  allow_missing_features : bool
}.

(** [f'{coord.name()}, shape {coord.shape}'] is compared as a string; two such
    strings are equal exactly when name and shape are, which is what is kept. *)
Definition coord_str (c : coord) : string * list nat :=
  (coord_name c, coord_shape c).

Section CheckCubeDimensions.

(** [np.allclose] on the points of two coordinates. *)
Variable allclose : list Q -> list Q -> bool.

(** The loop [for (idx, cube_coord) in enumerate(cube_coords)] with
    [ref_coord = ref_coords[idx]]; it is entered only when both lists have
    the same length. *)
Fixpoint check_points (cube_coords ref_coords : list coord) : list warning :=
  match cube_coords, ref_coords with
  | c :: cs, r :: rs =>
      (if allclose (coord_points c) (coord_points r) then []
       else [PointsDiffer (coord_name c)]) ++ check_points cs rs
  | _, _ => []
  end.

(** [MLRModel._check_cube_dimensions(self, cube, ref_cube, text=None)].
    The value is the list of warnings logged; the function returns [None]. *)
Definition _check_cube_dimensions (c : cfg) (cb : cube)
    (ref_cube : option cube) : result (list warning) :=
  if accept_only_scalar_data c then
    let allowed_shapes := [ []; [1%nat] ] in
    if negb (bool_decide (shape cb ∈ allowed_shapes)) then Raise ValueError
    else Ok []
  else
    match ref_cube with
    | None => Ok []
    | Some rc =>
        if bool_decide (shape cb ≠ shape rc) then Raise ValueError
        else
          let cube_coords := dim_coords cb in
          let ref_coords := dim_coords rc in
          let cube_coords_str := map coord_str cube_coords in
          let ref_coords_str := map coord_str ref_coords in
          if bool_decide (cube_coords_str ≠ ref_coords_str)
          then Ok [CoordinatesDiffer]
          else Ok (check_points cube_coords ref_coords)
    end.

End CheckCubeDimensions.

(** A dataset is a dictionary of attributes; these are the ones read here. *)
Record dataset : Type := {
  filename : string;
  tag : string;
  var_type : string;
  units : string
}.

(** Modelled from the spec: [select_metadata] of
    [esmvaltool.diag_scripts.shared] is not among the sources; the spec calls
    this step "matching datasets by attributes".  The datasets whose [tag] and
    [var_type] equal the requested ones are kept, in their order. *)
Definition select_metadata (datasets : list dataset) (tg vt : string)
    : list dataset :=
  filter (fun d => tag d = tg /\ var_type d = vt) datasets.

Section CheckDataset.

(** [cf_units.Unit]: the constructor from a string, which raises ValueError
    on a string it cannot parse, and the comparison [!=]. *)
Variable U : Type.
Variable Unit : string -> result U.
Variable unit_ne : U -> U -> bool.

(** [self.label_units] and [self.features_units], a pandas Series indexed
    by feature tag. *)
Record units_table : Type := {
  label_units : U;
  features_units : gmap string U
}.

(** The units expected for a dataset: [self.label_units] for the label,
    [self.features_units[tag]] otherwise (KeyError for an unknown tag). *)
Definition expected_units (m : units_table) (vt tg : string) : result U :=
  if (vt =? "label")%string then Ok (label_units m)
  else match features_units m !! tg with
       | Some u => Ok u
       | None => Raise KeyError
       end.

(** [MLRModel._check_dataset(self, datasets, var_type, tag, text=None)];
    [Ok None] is the Python [None]. *)
Definition _check_dataset (c : cfg) (m : units_table)
    (datasets : list dataset) (vt tg : string) : result (option dataset) :=
  let datasets := select_metadata datasets tg vt in
  match datasets with
  | [] =>
      if (vt =? "prediction_input_error")%string then Ok None
      else if (vt =? "prediction_reference")%string then Ok None
      else if (vt =? "label")%string then Raise ValueError
      else if negb (allow_missing_features c) then Raise ValueError
      else Ok None
  | d0 :: _ =>
      if (1 <? length datasets)%nat then Raise ValueError
      else
        let! units_ := expected_units m vt tg in
        let! found := Unit (units d0) in
        if unit_ne units_ found then Raise ValueError
        else Ok (Some d0)
  end.

End CheckDataset.

Arguments label_units {U} _.
Arguments features_units {U} _.

End MLRChecks.

(** ** esmvaltool/diag_scripts/mlr/models/__init__.py: pipeline construction *)

Module MLRPipeline.

(** The final regressor classes [_CLF_TYPE] of the registered MLR models:
    gbr_sklearn.py, gpr_sklearn.py and gbr_xgboost.py. *)
Inductive clf_type : Type :=
  | GradientBoostingRegressor
  | GaussianProcessRegressor
  | XGBRegressor.

(** The libraries the classes are imported from. *)
Inductive library : Type :=
  | sklearn
  | xgboost.

Section Pipeline.

(** Keyword arguments handed to constructors: the verbosity parameters of
    [_get_verbosity_parameters] and the parameters of the final regressor of
    [_load_final_parameters]. *)
Variable params : Type.

(** [StandardScaler(with_mean=..., with_std=...)] and [PCA()]. *)
Inductive transformer : Type :=
  | StandardScaler (with_mean with_std : bool)
  | PCA.

(** The final regressor: [self._CLF_TYPE] called with the final parameters
    as keyword arguments. *)
Inductive regressor : Type :=
  | FinalRegressor (cls : clf_type) (kwargs : params).

(** The objects that are put in a pipeline as steps, by constructor call. *)
Inductive estimator : Type :=
  | ColumnTransformer (transformers : list (string * transformer * list nat))
      (remainder : string)
  | SimpleImputer (strategy : string) (verbosity : params)
  | AdvancedTransformedTargetRegressor (transformer_ : transformer)
      (regressor_ : regressor).

(** The library class each object is an instance of.
    [AdvancedTransformedTargetRegressor] is declared in mlr/__init__.py as a
    subclass of [sklearn.compose.TransformedTargetRegressor]. *)
Definition transformer_class (t : transformer) : library * string :=
  match t with
  | StandardScaler _ _ => (sklearn, "preprocessing.StandardScaler")
  | PCA => (sklearn, "decomposition.PCA")
  end.

Definition regressor_class (r : regressor) : library * string :=
  match r with
  | FinalRegressor GradientBoostingRegressor _ =>
      (sklearn, "ensemble.GradientBoostingRegressor")
  | FinalRegressor GaussianProcessRegressor _ =>
      (sklearn, "gaussian_process.GaussianProcessRegressor")
  | FinalRegressor XGBRegressor _ => (xgboost, "XGBRegressor")
  end.

Definition estimator_class (e : estimator) : library * string :=
  match e with
  | ColumnTransformer _ _ => (sklearn, "compose.ColumnTransformer")
  | SimpleImputer _ _ => (sklearn, "impute.SimpleImputer")
  | AdvancedTransformedTargetRegressor _ _ =>
      (sklearn, "compose.TransformedTargetRegressor")
  end.

(** One row of [self._classes['features']]: the tag and whether the feature
    is categorical. *)
Record feature : Type := {
  ftag : string;
  categorical : bool
}.

(** The recipe options read by [_create_pipeline] and
    [_remove_missing_features]. *)
Record cfg : Type := {
  imputation_strategy : string;
  standardize_data : bool;
  pca : bool;
  cache_intermediate_results : bool;
  n_jobs : option Z;
  mlr_work_dir : string;
  accept_only_scalar_data : bool
}.

(** [mlr.AdvancedPipeline(steps, memory=memory)]. *)
Record pipeline : Type := {
  steps : list (string * estimator);
  memory : option string
}.

(** [self.features] and [self.numerical_features]. *)
Definition features (fs : list feature) : list string := map ftag fs.

Definition numerical_features (fs : list feature) : list string :=
  map ftag (filter (fun f => categorical f = false) fs).

(** [int(np.where(self.features == tag)[0][0])]: the first position of [tag],
    IndexError when there is none. *)
Fixpoint first_index (tags : list string) (tg : string) : result nat :=
  match tags with
  | [] => Raise IndexError
  | t :: rest =>
      if (t =? tg)%string then Ok 0%nat
      else let! i := first_index rest tg in Ok (S i)
  end.

(** The list comprehension over [self.numerical_features]. *)
Fixpoint indices_of (tags : list string) (wanted : list string)
    : result (list nat) :=
  match wanted with
  | [] => Ok []
  | tg :: rest =>
      let! i := first_index tags tg in
      let! others := indices_of tags rest in
      Ok (i :: others)
  end.

(** [steps.append(step)]. *)
Definition append (stps : list (string * estimator))
    (step : string * estimator) : list (string * estimator) :=
  stps ++ [step].

(** [MLRModel._create_pipeline(self)]: [Ok None] when no regressor class is
    given ([self._clf] is left as it is), otherwise the pipeline stored in
    [self._clf]. *)
Definition _create_pipeline (_CLF_TYPE : option clf_type) (c : cfg)
    (fs : list feature) (imputer_verbosity final_parameters : params)
    : result (option pipeline) :=
  match _CLF_TYPE with
  | None => Ok None
  | Some cls =>
      let stps := [] in
      let! numerical_features_idx :=
        indices_of (features fs) (numerical_features fs) in
      (* DataFrame to numpy converter *)
      let stps := append stps ("pandas_to_numpy_converter",
                               ColumnTransformer [] "passthrough") in
      (* Imputer *)
      let stps :=
        if negb (imputation_strategy c =? "remove")%string then
          let imputer :=
            SimpleImputer (imputation_strategy c) imputer_verbosity in
          append stps ("imputer", imputer)
        else stps in
      (* Scaler for numerical features *)
      let stps :=
        if standardize_data c then
          let x_scaler :=
            ColumnTransformer
              [("", StandardScaler true true, numerical_features_idx)]
              "passthrough" in
          append stps ("x_scaler", x_scaler)
        else stps in
      (* PCA for numerical features *)
      let stps :=
        if pca c then
          let pca_ :=
            ColumnTransformer [("", PCA, numerical_features_idx)]
              "passthrough" in
          append stps ("pca", pca_)
        else stps in
      (* Final regressor *)
      let final_regressor := FinalRegressor cls final_parameters in
      (* Transformer for labels *)
      let y_scaler :=
        if standardize_data c then StandardScaler true true
        else StandardScaler false false in
      let transformed_target_regressor :=
        AdvancedTransformedTargetRegressor y_scaler final_regressor in
      let stps := append stps ("final", transformed_target_regressor) in
      (* Final pipeline *)
      let memory_ :=
        if cache_intermediate_results c then
          match n_jobs c with
          | None => Some (mlr_work_dir c)
          | Some n => if (n =? 1)%Z then Some (mlr_work_dir c) else None
          end
        else None in
      Ok (Some {| steps := stps; memory := memory_ |})
  end.

(** The pipeline as the specification lists it: the converter, the imputer
    unless the strategy is 'remove', the scaler of the numerical features if
    data are standardized, the PCA of the numerical features if wanted, and
    the transformed-target regressor around the final regressor. *)
Definition spec_steps (cls : clf_type) (c : cfg) (idx : list nat)
    (imputer_verbosity final_parameters : params)
    : list (string * estimator) :=
  [("pandas_to_numpy_converter", ColumnTransformer [] "passthrough")]
  ++ (if bool_decide (imputation_strategy c = "remove") then []
      else [("imputer",
             SimpleImputer (imputation_strategy c) imputer_verbosity)])
  ++ (if standardize_data c
      then [("x_scaler",
             ColumnTransformer [("", StandardScaler true true, idx)]
               "passthrough")]
      else [])
  ++ (if pca c
      then [("pca", ColumnTransformer [("", PCA, idx)] "passthrough")]
      else [])
  ++ [("final",
       AdvancedTransformedTargetRegressor
         (StandardScaler (standardize_data c) (standardize_data c))
         (FinalRegressor cls final_parameters))].

(** Values of a data frame: [None] is a missing entry (NaN). *)
Variable value : Type.

(** [x_data.isnull().any(axis=1).values]. *)
Definition isnull_any (x_data : list (list (option value))) : list bool :=
  map (fun row => existsb (fun v => negb (bool_decide (is_Some v))) row)
    x_data.

(** [data[~mask]] by a boolean array.  When the mask does not have one entry
    per row, pandas raises ValueError ("Item wrong length") and numpy raises
    IndexError; [e] is the exception of the indexed container. *)
Fixpoint drop_masked {A : Type} (e : exn) (rows : list A) (mask : list bool)
    : result (list A) :=
  match rows, mask with
  | [], [] => Ok []
  | r :: rows', m :: mask' =>
      let! kept := drop_masked e rows' mask' in
      Ok (if m then kept else r :: kept)
  | _, _ => Raise e
  end.

(** A row with a missing feature value. *)
Definition has_missing (row : list (option value)) : bool :=
  existsb (fun v => match v with None => true | Some _ => false end) row.

(** [MLRModel._remove_missing_features(self, x_data, y_data)]; the third
    component is [self._classes['group_attributes']] after the call. *)
Definition _remove_missing_features (c : cfg) (group_attributes : list string)
    (x_data : list (list (option value))) (y_data : list (option value))
    : result (list (list (option value)) * list (option value) * list string) :=
  if negb (imputation_strategy c =? "remove")%string then
    Ok (x_data, y_data, group_attributes)
  else
    let mask := isnull_any x_data in
    let! x_data' := drop_masked ValueError x_data mask in
    let! y_data' := drop_masked ValueError y_data mask in
    let diff := (length mask - length y_data')%nat in
    if negb (diff =? 0)%nat then
      if accept_only_scalar_data c then
        let! kept_groups := drop_masked IndexError group_attributes mask in
        Ok (x_data', y_data', kept_groups)
      else Ok (x_data', y_data', group_attributes)
    else Ok (x_data', y_data', group_attributes).

End Pipeline.

Arguments ColumnTransformer {params} _ _.
Arguments SimpleImputer {params} _ _.
Arguments FinalRegressor {params} _ _.
Arguments AdvancedTransformedTargetRegressor {params} _ _.
Arguments regressor_class {params} _.
Arguments estimator_class {params} _.
Arguments steps {params} _.
Arguments memory {params} _.
Arguments _create_pipeline {params} _ _ _ _ _.
Arguments isnull_any {value} _.
Arguments has_missing {value} _.
Arguments drop_masked {A} _ _ _.
Arguments spec_steps {params} _ _ _ _ _.
Arguments _remove_missing_features {value} _ _ _ _.

End MLRPipeline.

(** ** esmvaltool/diag_scripts/mlr: prediction keywords *)

Module MLRPredict.

(** The Python values that occur as keyword arguments of [predict]. *)
Inductive pyval : Type :=
  | PyNone
  | PyBool (b : bool)
  | PyInt (z : Z)
  | PyStr (s : string).

(** Python truthiness. *)
Definition truthy (v : pyval) : bool :=
  match v with
  | PyNone => false
  | PyBool b => b
  | PyInt z => negb (z =? 0)%Z
  | PyStr s => negb (s =? "")%string
  end.

(** [d.pop(key, default)]: the value and the dictionary without the key. *)
Definition pop (key : string) (default : pyval) (d : gmap string pyval)
    : pyval * gmap string pyval :=
  (match d !! key with Some v => v | None => default end, delete key d).

(** [d.update(other)]: the entries of [other] win. *)
Definition update (d other : gmap string pyval) : gmap string pyval :=
  other ∪ d.

Section TransformedTargetRegressor.

(** numpy arrays with the operations used on them: [a.ndim], [a.shape[1]],
    [a.reshape(-1, 1)], [a.squeeze(axis=1)], elementwise [a * b] and
    [a ** 2]. *)
Variable ndarray : Type.
Variable ndim : ndarray -> nat.
Variable shape1 : ndarray -> nat.
Variable reshape_column : ndarray -> ndarray.
Variable squeeze1 : ndarray -> ndarray.
Variable times : ndarray -> ndarray -> ndarray.
Variable squared : ndarray -> ndarray.

(** The state of a regressor object: whether [regressor_] exists, the fitted
    transformer ([inverse_transform] and [scale_], which is [None] for a
    scaler built with [with_std=False]) and [_training_dim]. *)
Record regressor_state : Type := {
  fitted : bool;
  inverse_transform : ndarray -> ndarray;
  scale_ : option ndarray;
  _training_dim : nat
}.

(** The three ways [self.regressor_.predict] is called: with the remaining
    keywords only, with [return_std=True] added and with [return_cov=True]
    added. *)
Variable regressor_predict : ndarray -> gmap string pyval -> result ndarray.
Variable regressor_predict_std :
  ndarray -> gmap string pyval -> result (ndarray * ndarray).
Variable regressor_predict_cov :
  ndarray -> gmap string pyval -> result (ndarray * ndarray).

(** A call [f(x, key=True, **kwargs)] is a TypeError when [kwargs] has [key]
    already. *)
Definition call_with {A : Type} (key : string)
    (f : gmap string pyval -> result A) (kwargs : gmap string pyval)
    : result A :=
  match kwargs !! key with
  | Some _ => Raise TypeError
  | None => f kwargs
  end.

(** What [predict] returns: the prediction alone, or the pair of prediction
    and error. *)
Inductive prediction : Type :=
  | Prediction (pred : ndarray)
  | PredictionWithError (pred y_err : ndarray).

(** [AdvancedTransformedTargetRegressor.predict(self, x_data,
    always_return_1d=True, **predict_kwargs)] of mlr/__init__.py. *)
Definition predict (self : regressor_state) (x_data : ndarray)
    (always_return_1d : bool) (predict_kwargs : gmap string pyval)
    : result prediction :=
  if negb (fitted self) then Raise NotFittedError
  else
    let '(return_var, predict_kwargs) :=
      pop "return_var" (PyBool false) predict_kwargs in
    let '(return_cov, predict_kwargs) :=
      pop "return_cov" (PyBool false) predict_kwargs in
    let return_var := truthy return_var in
    let return_cov := truthy return_cov in
    let return_cov := if return_var && return_cov then false else return_cov in
    let! pred := regressor_predict x_data predict_kwargs in
    let pred_trans :=
      if (ndim pred =? 1)%nat
      then inverse_transform self (reshape_column pred)
      else inverse_transform self pred in
    let squeeze := (ndim pred_trans =? 2)%nat && (shape1 pred_trans =? 1)%nat in
    let squeeze :=
      if negb always_return_1d
      then squeeze && (_training_dim self =? 1)%nat
      else squeeze in
    let pred_trans := if squeeze then squeeze1 pred_trans else pred_trans in
    if negb (return_var || return_cov) then Ok (Prediction pred_trans)
    else
      let scale := scale_ self in
      let! y_err :=
        if return_var then
          let! '(_, y_err) :=
            call_with "return_std" (regressor_predict_std x_data)
              predict_kwargs in
          Ok (times y_err y_err)
        else
          let! '(_, y_err) :=
            call_with "return_cov" (regressor_predict_cov x_data)
              predict_kwargs in
          Ok y_err in
      let y_err :=
        match scale with
        | Some sc => times y_err (squared sc)
        | None => y_err
        end in
      Ok (PredictionWithError pred_trans y_err).

(** The prediction in the scale of the target, as [predict] computes it from
    the output of the regressor. *)
Definition transformed_prediction (self : regressor_state)
    (always_return_1d : bool) (pred : ndarray) : ndarray :=
  let pred_trans :=
    if (ndim pred =? 1)%nat
    then inverse_transform self (reshape_column pred)
    else inverse_transform self pred in
  if (ndim pred_trans =? 2)%nat && (shape1 pred_trans =? 1)%nat &&
     (always_return_1d || (_training_dim self =? 1)%nat)
  then squeeze1 pred_trans
  else pred_trans.

End TransformedTargetRegressor.

Arguments fitted {ndarray} _.
Arguments inverse_transform {ndarray} _ _.
Arguments scale_ {ndarray} _.
Arguments _training_dim {ndarray} _.
Arguments Prediction {ndarray} _.
Arguments PredictionWithError {ndarray} _ _.
Arguments predict {ndarray} _ _ _ _ _ _ _ _ _ _ _ _ _.
Arguments transformed_prediction {ndarray} _ _ _ _ _ _ _.

(** [MLRModel.predict(self, **kwargs)] of mlr/models/__init__.py, as the list
    of calls [self._get_prediction_dict(x_pred, x_err, y_ref,
    **predict_kwargs)] it makes: one per prediction name, each with the
    keyword arguments it is given.  [is_fitted] is [self._is_fitted()],
    [cfg_predict_kwargs] is [self._cfg.get('predict_kwargs', {})] and
    [prediction_names] are the keys of [self._datasets['prediction_input']]. *)
Definition predict_calls (is_fitted : bool)
    (cfg_predict_kwargs kwargs : gmap string pyval)
    (prediction_names : list string)
    : list (string * gmap string pyval) :=
  if negb is_fitted then []
  else
    let predict_kwargs := cfg_predict_kwargs in
    let predict_kwargs := update predict_kwargs kwargs in
    let predict_kwargs :=
      if bool_decide (is_Some (predict_kwargs !! "return_var")) &&
         bool_decide (is_Some (predict_kwargs !! "return_cov"))
      then snd (pop "return_cov" PyNone predict_kwargs)
      else predict_kwargs in
    map (fun pred_name => (pred_name, predict_kwargs)) prediction_names.

End MLRPredict.

(** ** How jobs are run, and [cmorization] of the ERA5 CMORizer *)

Module Execution.

(** What a function does to get its jobs done, in the order it does it:
    it calls a job itself, or it creates a process pool and hands a list of
    jobs to the [map] of the pool. *)
Inductive effect (J : Type) : Type :=
  | Called (job : J)
  | PoolCreated (processes : option Z)
  | PoolMapped (jobs : list J).
Arguments Called {J} _.
Arguments PoolCreated {J} _.
Arguments PoolMapped {J} _.

Definition is_pool {J : Type} (e : effect J) : bool :=
  match e with
  | Called _ => false
  | PoolCreated _ | PoolMapped _ => true
  end.

(** [pool = mp.ProcessPool(processes=n); pool.map(f, xs)]: the effects and
    the value. *)
Definition pool_map {A B : Type} (processes : option Z) (f : A -> result B)
    (xs : list A) : list (effect A) * result (list B) :=
  ([PoolCreated processes; PoolMapped xs], map_result f xs).

(** A [for] loop that calls [f] on every job itself: the jobs are called in
    order, and the first exception ends the loop. *)
Fixpoint call_each {A : Type} (f : A -> result unit) (xs : list A)
    : list (effect A) * result unit :=
  match xs with
  | [] => ([], Ok tt)
  | x :: rest =>
      match f x with
      | Ok _ => let '(effects, r) := call_each f rest in
                (Called x :: effects, r)
      | Raise e => ([Called x], Raise e)
      end
  end.

Section Cmorization.

(** One entry of [cfg['variables']]; a key that the entry does not have is
    [None]. *)
Record var : Type := {
  var_short_name : option string;
  file : option string;
  mip : string;
  raw : string
}.

(** The configuration of the CMORizer: [cfg['attributes']['comment']]
    ([None] when [cfg] has no 'attributes' or these have no 'comment'),
    whether [cfg] has the key 'cmor_table', and [cfg['variables']] in the
    order of the dictionary ([None] when [cfg] has no such key). *)
Record cfg : Type := {
  comment : option string;
  has_cmor_table : bool;
  variables : option (list (string * var))
}.

(** [comment.format(year=datetime.now().year)]: the comment with its
    replacement fields filled in; KeyError for a field of another name,
    IndexError for a positional field, ValueError for a brace that is not
    closed. *)
Variable format_year : string -> result string.

(** [sorted(Path(in_dir).glob(pattern))]; [glob] raises for a pattern that
    is empty or not relative. *)
Variable sorted_glob : string -> result (list string).

(** A job: the call [_extract_variable(in_file, var, cfg, out_dir)], given
    by the file, the variable and the comment of the attributes in [cfg],
    which is the formatted one. *)
Definition job : Type := string * var * string.

Variable _extract_variable : job -> result unit.

(** [var['short_name'] = short_name]. *)
Definition with_short_name (v : var) (short_name : string) : var :=
  {| var_short_name := Some short_name; file := file v; mip := mip v;
     raw := raw v |}.

(** The jobs of one item of [cfg['variables']]: its files in sorted
    order. *)
Definition jobs_of_variable (formatted : string) (item : string * var)
    : result (list job) :=
  let v := with_short_name item.2 item.1 in
  match file v with
  | None => Raise KeyError
  | Some pattern =>
      let! files := sorted_glob pattern in
      Ok (map (fun in_file => (in_file, v, formatted)) files)
  end.

(** The loop over [cfg['variables'].items()] with the loop over the files
    inside. *)
Fixpoint cmorize_variables (formatted : string) (vars : list (string * var))
    : list (effect job) * result unit :=
  match vars with
  | [] => ([], Ok tt)
  | item :: rest =>
      match jobs_of_variable formatted item with
      | Raise e => ([], Raise e)
      | Ok jobs =>
          let '(effects, r) := call_each _extract_variable jobs in
          match r with
          | Ok _ => let '(effects', r') := cmorize_variables formatted rest in
                    (effects ++ effects', r')
          | Raise e => (effects, Raise e)
          end
      end
  end.

(** [cmorization(in_dir, out_dir, cfg, _)]: the lines that created the
    [ProcessPoolExecutor] and submitted the jobs to it are comments in the
    source, the loop under [if True:] calls [_extract_variable] directly. *)
Definition cmorization (c : cfg) : list (effect job) * result unit :=
  match comment c with
  | None => ([], Raise KeyError)
  | Some cm =>
      match format_year cm with
      | Raise e => ([], Raise e)
      | Ok formatted =>
          if negb (has_cmor_table c) then ([], Raise KeyError)
          else
            match variables c with
            | None => ([], Raise KeyError)
            | Some vars => cmorize_variables formatted vars
            end
      end
  end.

(** All jobs of the variables: for every variable in turn, its files in
    sorted order. *)
Definition all_jobs (formatted : string) (vars : list (string * var))
    : result (list job) :=
  let! groups := map_result (jobs_of_variable formatted) vars in
  Ok (concat groups).

End Cmorization.

End Execution.

(** ** esmvaltool/diag_scripts/mlr/models/__init__.py: propagated errors *)

Module MLRPropagate.

Import MLRPredict.

(** Keys of the prediction dictionary: [None] for the prediction itself, a
    string for the named outputs, an integer for unnamed extra outputs. *)
Definition pred_type : Type := option (string + nat).

Definition name (s : string) : pred_type := Some (inl s).

(** The recipe options read by [_get_prediction_dict]. *)
Record cfg : Type := {
  estimate_mlr_model_error : bool;
  propagate_input_errors : option pyval;
  return_lime_importance : bool
}.

Section PredictionDict.

Context {F : Type} `{Arith F}.

(** [self.features] and [self.categorical_features]. *)
Variable features : list string.
Variable categorical_features : list string.

(** The LIME interpreter [self._skater['local_interpreter']]:
    [explain_instance(x, predict_fn).local_exp[1]], a list of pairs of a
    feature index and the coefficient of the local linear model, and
    [scaler.scale_]. *)
Variable explain_instance : list F -> result (list (nat * F)).
Variable scaler_scale_ : list F.

(** The [transform] of the 'imputer' step of the pipeline, if it has one. *)
Variable imputer : option (list (list F) -> list (list F)).

(** [self._clf.predict], [self._estimate_mlr_model_error] and
    [self._get_lime_feature_importance]. *)
Variable clf_predict :
  list (list F) -> gmap string pyval -> result (prediction (list F)).
Variable _estimate_mlr_model_error : nat -> result (list F * string).
Variable _get_lime_feature_importance : list (list F) -> result (list F).

(** [MLRModel._impute_nans(self, data_frame)]. *)
Definition _impute_nans (data_frame : list (list F)) : list (list F) :=
  match imputer with
  | Some transform => transform data_frame
  | None => data_frame
  end.

(** The loop of [_propagated_error] over [exp.local_exp[1]], with the value
    of [squared_error] so far. *)
Fixpoint propagated_error_loop (x_err_scaled : list F)
    (local_exp : list (nat * F)) (squared_error : F) : result F :=
  match local_exp with
  | [] => Ok squared_error
  | (idx, coef) :: rest =>
      let! f := getitem features idx in
      if bool_decide (f ∈ categorical_features)
      then propagated_error_loop x_err_scaled rest squared_error
      else
        let! e := getitem x_err_scaled idx in
        propagated_error_loop x_err_scaled rest
          (add squared_error (square (mul e coef)))
  end.

(** The inner function [_propagated_error] of [_propagate_input_errors]. *)
Definition _propagated_error (x_single_pred x_single_err : list F)
    : result F :=
  let! exp := explain_instance x_single_pred in
  let x_single_err := map nan_to_num x_single_err in
  let! x_err_scaled := np_binop div x_single_err scaler_scale_ in
  let squared_error := zero in
  propagated_error_loop x_err_scaled exp squared_error.

(** [MLRModel._propagate_input_errors(self, x_pred, x_err)]: the pool maps
    [_propagated_error] over the rows of both frames. *)
Definition _propagate_input_errors (x_pred x_err : list (list F))
    : result (list F) :=
  let x_pred := _impute_nans x_pred in
  map_result (fun '(p, e) => _propagated_error p e) (zip x_pred x_err).

(** [MLRModel._propagate_input_errors] with what it does to get the value:
    it creates a pool of [self._cfg['n_jobs']] processes and maps
    [_propagated_error] over the rows. *)
Definition _propagate_input_errors_run (n_jobs : option Z)
    (x_pred x_err : list (list F))
    : list (Execution.effect (list F * list F)) * result (list F) :=
  let x_pred := _impute_nans x_pred in
  Execution.pool_map n_jobs (fun '(p, e) => _propagated_error p e)
    (zip x_pred x_err).

(** [MLRModel._get_lime_feature_importance(self, x_pred)] in the same way;
    [_most_important_feature] is its inner function. *)
Definition _get_lime_feature_importance_run (n_jobs : option Z)
    (_most_important_feature : list F -> result F) (x_pred : list (list F))
    : list (Execution.effect (list F)) * result (list F) :=
  let x_pred := _impute_nans x_pred in
  Execution.pool_map n_jobs _most_important_feature x_pred.

(** [MLRModel._prediction_to_dict(self, pred_out, **kwargs)]. *)
Definition _prediction_to_dict (pred_out : prediction (list F))
    (kwargs : gmap string pyval) : gmap pred_type (list F) :=
  let pred_out :=
    match pred_out with
    | Prediction p => [p]
    | PredictionWithError p e => [p; e]
    end in
  let idx_to_name : gmap nat pred_type := {[ 0%nat := None ]} in
  let idx_to_name :=
    if bool_decide (is_Some (kwargs !! "return_var"))
    then <[ 1%nat := name "var" ]> idx_to_name
    else if bool_decide (is_Some (kwargs !! "return_cov"))
    then <[ 1%nat := name "cov" ]> idx_to_name
    else idx_to_name in
  fold_left
    (fun pred_dict '(idx, pred) =>
       <[ default (Some (inr idx)) (idx_to_name !! idx) := pred ]> pred_dict)
    (imap (fun idx pred => (idx, pred)) pred_out) ∅.

(** [MLRModel._get_residuals(y_pred, y_true)]. *)
Definition _get_residuals (y_pred y_true : list F) : result (list F) :=
  np_binop sub y_pred y_true.

(** [MLRModel._get_prediction_dict(self, x_pred, x_err, y_ref, **kwargs)]. *)
Definition _get_prediction_dict (c : cfg) (x_pred : list (list F))
    (x_err : option (list (list F))) (y_ref : option (list F))
    (kwargs : gmap string pyval) : result (gmap pred_type (list F)) :=
  let! y_preds := clf_predict x_pred kwargs in
  let pred_dict := _prediction_to_dict y_preds kwargs in
  let! pred_dict :=
    if estimate_mlr_model_error c then
      let! '(pred_error, err_type) :=
        _estimate_mlr_model_error (length x_pred) in
      Ok (<[ name ("squared_mlr_model_error_estim_" ++ err_type) :=
               pred_error ]> pred_dict)
    else Ok pred_dict in
  let! pred_dict :=
    match truthy (default (PyBool true) (propagate_input_errors c)), x_err with
    | true, Some x_err =>
        let! propagated := _propagate_input_errors x_pred x_err in
        Ok (<[ name "squared_propagated_input_error" := propagated ]>
              pred_dict)
    | _, _ => Ok pred_dict
    end in
  let! pred_dict :=
    if return_lime_importance c then
      let! lime := _get_lime_feature_importance x_pred in
      Ok (<[ name "lime" := lime ]> pred_dict)
    else Ok pred_dict in
  let! pred_dict :=
    match y_ref with
    | Some y_ref =>
        let! y_pred := match pred_dict !! None with
                       | Some y => Ok y
                       | None => Raise KeyError
                       end in
        let! residual := _get_residuals y_pred y_ref in
        Ok (<[ name "residual" := residual ]> pred_dict)
    | None => Ok pred_dict
    end in
  match pred_dict !! None with
  | Some _ => Ok pred_dict
  | None => Raise KeyError
  end.

(** The propagated squared error of one point as the specification words it:
    the sum, over the entries of the local linear model that belong to
    non-categorical features, of the square of the input error divided by
    the scaling factor and multiplied with the coefficient.  A missing input
    error (NaN) enters as [nan_to_num] makes it. *)
Definition spec_squared_error (x_single_err : list F)
    (local_exp : list (nat * F)) : F :=
  sum_list
    (map (fun '(idx, coef) =>
            square (mul (div (nan_to_num (default zero (x_single_err !! idx)))
                           (default zero (scaler_scale_ !! idx)))
                      coef))
       (filter (fun '(idx, _) =>
                  default "" (features !! idx) ∉ categorical_features)
          local_exp)).

End PredictionDict.

Arguments _propagate_input_errors {F _} _ _ _ _ _ _ _.
Arguments _propagate_input_errors_run {F _} _ _ _ _ _ _ _ _.
Arguments _get_lime_feature_importance_run {F} _ _ _ _.
Arguments _propagated_error {F _} _ _ _ _ _ _.
Arguments _get_prediction_dict {F _} _ _ _ _ _ _ _ _ _ _ _ _ _.
Arguments spec_squared_error {F _} _ _ _ _ _.

End MLRPropagate.

(** ** esmvaltool/preprocessor/_derive/gtfgco2.py *)

Module Gtfgco2.

Section Derivation.

Context {F : Type} `{Arith F}.

(** [cf_units.Unit] with its product, which cf_units refuses for some units
    (the unit 'no_unit', say). *)
Variable U : Type.
Variable unit_mul : U -> U -> result U.

(** [np.nan]. *)
Variable nan : F.

(** One entry of a numpy masked array: the number stored and whether the
    entry is masked. *)
Record cell : Type := {
  value : F;
  masked : bool
}.

(** The data of a cube, a numpy array: its shape, its entries in the order
    of the flattened array, and its mask.  [None] is [np.ma.nomask], the
    mask of a masked array without mask array; a plain array is such an
    array in every use made of it here. *)
Record ndarray : Type := {
  shape : list nat;
  entries : list F;
  mask : option (list bool)
}.

(** The number of entries of an array of a shape. *)
Definition size_of (shp : list nat) : nat := fold_right Nat.mul 1%nat shp.

(** [np.ma.getmaskarray(a)]. *)
Definition getmaskarray (a : ndarray) : list bool :=
  match mask a with
  | Some m => m
  | None => replicate (length (entries a)) false
  end.

(** The entries of an array, each with its mask. *)
Definition cells (a : ndarray) : list cell :=
  zip_with (fun v m => {| value := v; masked := m |}) (entries a)
    (getmaskarray a).

(** *** Broadcasting *)

(** The common shape of two shapes that are read from their last axis on:
    two lengths go together when they are equal or one of them is 1, and
    numpy raises ValueError otherwise. *)
Fixpoint broadcast_reversed (a b : list nat) : result (list nat) :=
  match a, b with
  | [], _ => Ok b
  | _, [] => Ok a
  | x :: a', y :: b' =>
      let! rest := broadcast_reversed a' b' in
      if (x =? y)%nat then Ok (x :: rest)
      else if (x =? 1)%nat then Ok (y :: rest)
      else if (y =? 1)%nat then Ok (x :: rest)
      else Raise ValueError
  end.

Definition broadcast_shapes (a b : list nat) : result (list nat) :=
  let! shp := broadcast_reversed (reverse a) (reverse b) in
  Ok (reverse shp).

(** A shape with axes of length 1 put in front of it, up to [n] axes. *)
Definition pad (n : nat) (shp : list nat) : list nat :=
  replicate (n - length shp) 1%nat ++ shp.

(** The first [n] pieces of length [size] of a list. *)
Fixpoint chunks {A : Type} (n size : nat) (l : list A) : list (list A) :=
  match n with
  | O => []
  | S n' => take size l :: chunks n' size (drop size l)
  end.

(** The entries of an array of shape [src] broadcast to the shape [dst] of
    as many axes: along an axis on which the lengths agree the pieces are
    broadcast one by one, along an axis of length 1 the one piece is
    repeated. *)
Fixpoint broadcast_entries {A : Type} (src dst : list nat) (data : list A)
    : list A :=
  match src, dst with
  | s :: src', d :: dst' =>
      if (s =? d)%nat
      then concat (map (fun piece => broadcast_entries src' dst' piece)
                     (chunks s (size_of src') data))
      else concat (replicate d (broadcast_entries src' dst' data))
  | _, _ => data
  end.

Definition broadcast_to {A : Type} (src dst : list nat) (data : list A)
    : list A :=
  broadcast_entries (pad (length dst) src) dst data.

(** *** Masked arrays *)

(** [a * b] on masked arrays.  The data are multiplied with broadcasting.
    The product has no mask array when neither factor has one; otherwise
    an entry is masked when it is in one of the factors, and a masked entry
    keeps the number of the first factor. *)
Definition ma_mul (a b : ndarray) : result ndarray :=
  let! shp := broadcast_shapes (shape a) (shape b) in
  let da := broadcast_to (shape a) shp (entries a) in
  let db := broadcast_to (shape b) shp (entries b) in
  match mask a, mask b with
  | None, None =>
      Ok {| shape := shp; entries := zip_with mul da db; mask := None |}
  | _, _ =>
      let m :=
        zip_with orb (broadcast_to (shape a) shp (getmaskarray a))
          (broadcast_to (shape b) shp (getmaskarray b)) in
      Ok {| shape := shp;
            entries :=
              zip_with (fun (xy : F * F) (k : bool) =>
                          if k then xy.1 else mul xy.1 xy.2)
                (zip da db) m;
            mask := Some m |}
  end.

(** [np.ma.masked_where(condition, a)] with the mask of an array of shape
    [cshape] as condition.  Without mask array as condition nothing is
    masked in addition and no shape is compared.  A mask array has to have
    the shape of [a] unless it has no axis at all (IndexError); an entry is
    then masked when the condition holds or it was masked already, and [a]
    gets a mask array if it had none and the condition holds somewhere. *)
Definition masked_where (cshape : list nat) (condition : option (list bool))
    (a : ndarray) : result ndarray :=
  match condition with
  | None => Ok a
  | Some cond =>
      if negb (bool_decide (cshape = [])) &&
         negb (bool_decide (cshape = shape a))
      then Raise IndexError
      else
        let m :=
          zip_with orb (broadcast_to cshape (shape a) cond)
            (getmaskarray a) in
        Ok {| shape := shape a; entries := entries a;
              mask := match mask a with
                      | Some _ => Some m
                      | None => if existsb id cond then Some m else None
                      end |}
  end.

(** [a.filled(0)] on one entry. *)
Definition filled0 (c : cell) : F := if masked c then zero else value c.

(** [a.sum()] of a masked array: the sum of the array filled with 0, or the
    constant [np.ma.masked] ([None] here) when the array has a mask array
    that holds no False. *)
Definition ma_sum (a : ndarray) : option F :=
  match mask a with
  | None => Some (sum_list (entries a))
  | Some m =>
      if forallb id m then None
      else Some (sum_list (map filled0 (cells a)))
  end.

(** [np.array(data)] on the list of sums: the constant [np.ma.masked] is
    converted to NaN. *)
Definition np_array (data_ : list (option F)) : list F :=
  map (default nan) data_.

(** What [cube[i].data] is for the data of a cube: an array, or for a cube
    of one dimension one entry of it.  iris makes a masked entry a masked
    array without axes, and an entry that is not masked a plain array
    without axes, which has no attribute [mask]. *)
Inductive item : Type :=
  | ItemArray (a : ndarray)
  | PlainScalar.

(** [a[i]] along the first axis; IndexError out of bounds and for an array
    without axes. *)
Definition getitem0 (a : ndarray) (i : nat) : result item :=
  match shape a with
  | [] => Raise IndexError
  | n :: rest =>
      if (n <=? i)%nat then Raise IndexError
      else
        let size := size_of rest in
        let piece {A : Type} (l : list A) := take size (drop (i * size) l) in
        let m := option_map piece (mask a) in
        match rest with
        | [] =>
            match m with
            | Some (true :: _) =>
                Ok (ItemArray {| shape := []; entries := piece (entries a);
                                 mask := Some [true] |})
            | _ => Ok PlainScalar
            end
        | _ => Ok (ItemArray {| shape := rest; entries := piece (entries a);
                                mask := m |})
        end
  end.

(** *** Cubes *)

(** The part of an iris cube used by the derivation: its name, its units,
    its data, and for every dimension of the data the name and the points
    of the coordinate of that dimension.  The cubes are those all of whose
    coordinates are dimension coordinates. *)
Record cube : Type := {
  name : string;
  units : U;
  dim_coords : list (string * list Q);
  data : ndarray
}.

(** [cubes.extract_strict(Constraint(name=...))]: the one cube of that name,
    ConstraintMismatchError when there is none or more than one. *)
Definition extract_strict (cubes : list cube) (nm : string) : result cube :=
  match filter (fun c => name c = nm) cubes with
  | [c] => Ok c
  | _ => Raise ConstraintMismatchError
  end.

(** [cube.coord(name).points]: CoordinateNotFoundError unless exactly one
    coordinate has the name. *)
Definition coord_points (c : cube) (nm : string) : result (list Q) :=
  match filter (fun co => co.1 = nm) (dim_coords c) with
  | [co] => Ok co.2
  | _ => Raise CoordinateNotFoundError
  end.

(** The loop of [calculate_total_flux] over [enumerate(times.points)]. *)
Fixpoint total_flux_loop (flux area : ndarray) (time_itr : nat)
    (times : list Q) : result (list (option F)) :=
  match times with
  | [] => Ok []
  | _ :: times' =>
      let! slice := getitem0 flux time_itr in
      match slice with
      | PlainScalar => Raise AttributeError
      | ItemArray slice =>
          let! total_flux := ma_mul slice area in
          let! total_flux :=
            masked_where (shape slice) (mask slice) total_flux in
          let! rest := total_flux_loop flux area (S time_itr) times' in
          Ok (ma_sum total_flux :: rest)
      end
  end.

(** [calculate_total_flux(fgco2_cube, cube_area)].  The slices are taken
    along the first dimension of the data, whichever the dimension of the
    time coordinate is: [time_dim] is not used. *)
Definition calculate_total_flux (fgco2_cube cube_area : cube)
    : result (list F) :=
  let! times := coord_points fgco2_cube "time" in
  let! data_ :=
    total_flux_loop (data fgco2_cube) (data cube_area) 0 times in
  Ok (np_array data_).

(** What is kept of the cube that [calculate] returns: its units, the names
    of the dimensions left and the data assigned to it. *)
Record derived : Type := {
  result_units : U;
  result_dims : list string;
  result_data : list F
}.

(** [cube.collapsed(coords, MEAN)] on the dimensions: the dimensions of the
    given coordinates are removed; a coordinate that the cube does not have
    is a CoordinateNotFoundError.  The value is the dimensions left, each
    with its length in the data. *)
Definition collapsed (c : cube) (coords : list string)
    : result (list (string * nat)) :=
  let! _ := map_result (coord_points c) coords in
  Ok (filter (fun d => d.1 ∉ coords)
        (zip (map fst (dim_coords c)) (shape (data c)))).

(** [DerivedVariable.calculate(self, cubes)].  When no cell-area cube is
    found the exception is swallowed and [cube_area] is unbound at its first
    use.  Assigning [result.data] needs data of the shape of the collapsed
    cube; the one exception iris makes is data of one entry for a cube
    without dimensions. *)
Definition calculate (cubes : list cube) : result derived :=
  let! fgco2_cube :=
    extract_strict cubes
      "surface_downward_mass_flux_of_carbon_dioxide_expressed_as_carbon" in
  let cube_area :=
    match extract_strict cubes "cell_area" with
    | Ok c => Some c
    | Raise _ => None
    end in
  match cube_area with
  | None => Raise UnboundLocalError
  | Some cube_area =>
      let! total_flux := calculate_total_flux fgco2_cube cube_area in
      let! result_dims_ :=
        collapsed fgco2_cube ["latitude"; "longitude"] in
      let! result_units_ := unit_mul (units fgco2_cube) (units cube_area) in
      let result_shape := map snd result_dims_ in
      if bool_decide (result_shape = [length total_flux]) ||
         (bool_decide (result_shape = []) && (length total_flux =? 1)%nat)
      then
        Ok {| result_units := result_units_;
              result_dims := map fst result_dims_;
              result_data := total_flux |}
      else Raise ValueError
  end.

(** The total flux of one time slice as the specification words it: the sum,
    over the grid cells that are unmasked in the flux, of the flux times the
    cell area. *)
Definition spec_total_flux (slice area : list cell) : F :=
  sum_list
    (map (fun '(c, a) => mul (value c) (value a))
       (filter (fun '(c, a) => masked c = false) (zip slice area))).

(** The same sum over the grid cells that are unmasked in the flux and in
    the cell areas. *)
Definition spec_total_flux_both (slice area : list cell) : F :=
  sum_list
    (map (fun '(c, a) => mul (value c) (value a))
       (filter (fun '(c, a) => masked c = false /\ masked a = false)
          (zip slice area))).

(** An array with as many entries, and as many entries in its mask array
    if it has one, as its shape holds. *)
Definition well_formed (a : ndarray) : Prop :=
  length (entries a) = size_of (shape a) /\
  forall m, mask a = Some m -> length m = size_of (shape a).

End Derivation.

Arguments cell F : clear implicits.
Arguments ndarray F : clear implicits.
Arguments cube F U : clear implicits.
Arguments derived F U : clear implicits.
Arguments shape {F} _.
Arguments entries {F} _.
Arguments mask {F} _.
Arguments name {F U} _.
Arguments units {F U} _.
Arguments dim_coords {F U} _.
Arguments data {F U} _.
Arguments extract_strict {F U} _ _.
Arguments coord_points {F U} _ _.
Arguments calculate_total_flux {F _ U} _ _ _.
Arguments calculate {F _ U} _ _ _.
Arguments result_units {F U} _.
Arguments result_dims {F U} _.
Arguments result_data {F U} _.

End Gtfgco2.

(** ** esmvaltool/diag_scripts/clouds_ecs/group_lat_lon.py *)

Module GroupLatLon.

Section Statistics.

Context {F : Type} `{Arith F}.

(** The horizontal grid of a cube (its latitude and longitude coordinates)
    and the attributes of a cube. *)
Variable grid : Type.
Context `{EqDecision grid}.
Variable attrs : Type.

(** [iris.analysis.cartography.area_weights(cube)]: one weight per grid cell,
    computed from the bounds of latitude and longitude; ValueError when the
    coordinates have no bounds. *)
Variable area_weights : grid -> result (list F).

(** A cube on a latitude-longitude grid: the data are kept cell by cell, in
    the order of the grid.  [None] as grid is the cube left after the grid
    has been collapsed, with one value. *)
Record cube : Type := {
  cube_grid : option grid;
  cube_data : list F;
  attributes : attrs
}.

(** [a - b] on cubes: iris refuses cubes with differing coordinates. *)
Definition cube_sub (a b : cube) : result cube :=
  if bool_decide (cube_grid a = cube_grid b) then
    let! d := np_binop sub (cube_data a) (cube_data b) in
    Ok {| cube_grid := cube_grid a; cube_data := d;
          attributes := attributes a |}
  else Raise ValueError.

(** [cube ** 2] and [cube ** 0.5]. *)
Definition cube_square (a : cube) : cube :=
  {| cube_grid := cube_grid a; cube_data := map square (cube_data a);
     attributes := attributes a |}.

Definition cube_sqrt (a : cube) : cube :=
  {| cube_grid := cube_grid a; cube_data := map sqrt (cube_data a);
     attributes := attributes a |}.

(** [cube.collapsed(['longitude', 'latitude'], iris.analysis.MEAN,
    weights=w)]: the weighted average of numpy, the sum of data times weight
    divided by the sum of the weights.  The weights must have the shape of
    the cube; a cube that has no grid left cannot be collapsed over it. *)
Definition collapsed_mean (a : cube) (weights : list F) : result cube :=
  match cube_grid a with
  | None => Raise CoordinateNotFoundError
  | Some _ =>
      if negb (length weights =? length (cube_data a))%nat
      then Raise ValueError
      else
        Ok {| cube_grid := None;
              cube_data :=
                [div (sum_list (zip_with mul (cube_data a) weights))
                   (sum_list weights)];
              attributes := attributes a |}
  end.

(** [area_weighted_mean(cube)]. *)
Definition area_weighted_mean (a : cube) : result cube :=
  match cube_grid a with
  | None => Raise CoordinateNotFoundError
  | Some g =>
      let! grid_areas := area_weights g in
      let! mean := collapsed_mean a grid_areas in
      Ok mean
  end.

(** [cube.attributes = attributes]. *)
Definition set_attributes (a : cube) (at_ : attrs) : cube :=
  {| cube_grid := cube_grid a; cube_data := cube_data a; attributes := at_ |}.

(** [calculate_bias(model_cube, obs_cube)]. *)
Definition calculate_bias (model_cube obs_cube : cube) : result cube :=
  let! diff := cube_sub model_cube obs_cube in
  let! bias := area_weighted_mean diff in
  Ok (set_attributes bias (attributes model_cube)).

(** [calculate_rmsd(model_cube, obs_cube)]. *)
Definition calculate_rmsd (model_cube obs_cube : cube) : result cube :=
  let! diff := cube_sub model_cube obs_cube in
  let! mean := area_weighted_mean (cube_square diff) in
  let rmsd := cube_sqrt mean in
  Ok (set_attributes rmsd (attributes model_cube)).

(** The statistics as the specification words them, over the grid cells with
    model value [m], observed value [o] and cell area [w]: the area-weighted
    mean of the difference, and the square root of the area-weighted mean of
    the squared difference. *)
Definition spec_bias (cells : list (F * F * F)) : F :=
  div (sum_list (map (fun '(m, o, w) => mul (sub m o) w) cells))
    (sum_list (map (fun '(m, o, w) => w) cells)).

Definition spec_rmsd (cells : list (F * F * F)) : F :=
  sqrt (div (sum_list (map (fun '(m, o, w) => mul (square (sub m o)) w) cells))
          (sum_list (map (fun '(m, o, w) => w) cells))).

(** The grid cells of two cubes with their weights. *)
Definition cells_of (model obs weights : list F) : list (F * F * F) :=
  zip (zip model obs) weights.

End Statistics.

Arguments cube F grid attrs : clear implicits.
Arguments cube_grid {F grid attrs} _.
Arguments cube_data {F grid attrs} _.
Arguments attributes {F grid attrs} _.
Arguments calculate_bias {F _ grid _ attrs} _ _ _.
Arguments calculate_rmsd {F _ grid _ attrs} _ _ _.
Arguments area_weighted_mean {F _ grid attrs} _ _.

End GroupLatLon.

(** ** esmvaltool/cmorizers/obs/cmorize_obs_cds_era5_monthly.py *)

Module Era5.

(** Neighbouring entries of a list are related by [R]: with [Qlt] the list
    is increasing, with [Qgt] decreasing. *)
Fixpoint chain {A : Type} (R : A -> A -> Prop) (l : list A) : Prop :=
  match l with
  | a :: (b :: _) as rest => R a b /\ chain R rest
  | _ => True
  end.

Definition increasing (l : list Q) : Prop := chain Qlt l.
Definition decreasing (l : list Q) : Prop := chain (fun a b => Qlt b a) l.

(** The entry of the CMOR table for a variable,
    [cmor_table.get_variable(mip, short_name)]. *)
Record variable_info (U : Type) : Type := {
  short_name : string;
  def_standard_name : option string;
  def_long_name : string;
  def_units : U
}.
Arguments short_name {U} _.
Arguments def_standard_name {U} _.
Arguments def_long_name {U} _.
Arguments def_units {U} _.

(** A coordinate of a cube. *)
Record coord : Type := {
  coord_var_name : option string;
  points_dtype : string;
  points : list Q;
  bounds : option (list (Q * Q))
}.

Section ExtractVariable.

(** Units, the data array and the global attributes are kept abstract. *)
Variables U D A : Type.

(** A cube with time, latitude and longitude as its dimensions, in this
    order. *)
Record cube : Type := {
  var_name : option string;
  standard_name : option string;
  long_name : option string;
  dtype : string;
  units : U;
  time : coord;
  latitude : coord;
  longitude : coord;
  data : D;
  attributes : A
}.

(** iris: the table of valid standard names, the bounds guessed from the
    points of a coordinate, the conversion of the data between units ([None]
    when the units cannot be converted), and the data with the second axis
    reversed. *)
Variable valid_standard_name : string -> bool.
Variable guessed : list Q -> list (Q * Q).
Variable convert : U -> U -> option (D -> D).
Variable reverse_axis1 : D -> D.

(** [cube.standard_name = name]: ValueError unless the name is None or a
    valid standard name. *)
Definition accepted_standard_name (nm : option string) : bool :=
  match nm with
  | None => true
  | Some s => valid_standard_name s
  end.

Definition set_standard_name (c : cube) (nm : option string) : result cube :=
  if accepted_standard_name nm then
    Ok {| var_name := var_name c; standard_name := nm;
          long_name := long_name c; dtype := dtype c; units := units c;
          time := time c; latitude := latitude c; longitude := longitude c;
          data := data c; attributes := attributes c |}
  else Raise ValueError.

(** [coord.var_name = nm]. *)
Definition set_coord_var_name (co : coord) (nm : string) : coord :=
  {| coord_var_name := Some nm; points_dtype := points_dtype co;
     points := points co; bounds := bounds co |}.

(** A coordinate whose bounds can be guessed: it has none yet and it has at
    least two points. *)
Definition guessable (co : coord) : Prop :=
  bounds co = None /\ (2 <= length (points co))%nat.

(** [coord.points = coord.core_points().astype('float64')] followed by
    [coord.guess_bounds()], which raises ValueError for a coordinate that has
    bounds already or has fewer than two points. *)
Definition fix_coord (co : coord) : result coord :=
  let co := {| coord_var_name := coord_var_name co;
               points_dtype := "float64";
               points := points co; bounds := bounds co |} in
  match bounds co with
  | Some _ => Raise ValueError
  | None =>
      if (length (points co) <? 2)%nat then Raise ValueError
      else Ok {| coord_var_name := coord_var_name co;
                 points_dtype := points_dtype co;
                 points := points co;
                 bounds := Some (guessed (points co)) |}
  end.

(** A coordinate under the index [::-1]. *)
Definition reverse_coord (co : coord) : coord :=
  {| coord_var_name := coord_var_name co; points_dtype := points_dtype co;
     points := rev (points co);
     bounds := option_map (@rev (Q * Q)) (bounds co) |}.

(** Modelled from the spec: [utilities.set_global_atts] of the CMORizers is
    not among the sources; it is the step that writes the global attributes
    (the spec: CMORization normalizes metadata, units and coordinates).  It
    is taken to replace the attributes of the cube and nothing else. *)
Definition set_global_atts (c : cube) (atts : A) : cube :=
  {| var_name := var_name c; standard_name := standard_name c;
     long_name := long_name c; dtype := dtype c; units := units c;
     time := time c; latitude := latitude c; longitude := longitude c;
     data := data c; attributes := atts |}.

(** [_extract_variable(in_file, var, cfg, out_dir)] from the cube that
    [iris.load_cube] returns to the cube handed to [utils.save_variable].
    The interactive shell that the function opens in between
    ([IPython.embed()]) is taken to be left without touching the cube. *)
Definition _extract_variable (definition : variable_info U) (atts : A)
    (loaded : cube) : result cube :=
  let cube_ := loaded in
  (* Set correct names *)
  let cube_ :=
    {| var_name := Some (short_name definition);
       standard_name := standard_name cube_; long_name := long_name cube_;
       dtype := dtype cube_; units := units cube_; time := time cube_;
       latitude := latitude cube_; longitude := longitude cube_;
       data := data cube_; attributes := attributes cube_ |} in
  let cube_ :=
    match set_standard_name cube_ (def_standard_name definition) with
    | Ok c => c
    | Raise _ => cube_
    end in
  let cube_ :=
    {| var_name := var_name cube_; standard_name := standard_name cube_;
       long_name := Some (def_long_name definition);
       (* Fix data type *)
       dtype := "float32"; units := units cube_; time := time cube_;
       (* Fix coordinates *)
       latitude := set_coord_var_name (latitude cube_) "lat";
       longitude := set_coord_var_name (longitude cube_) "lon";
       data := data cube_; attributes := attributes cube_ |} in
  let! lat := fix_coord (latitude cube_) in
  let! lon := fix_coord (longitude cube_) in
  let! tim := fix_coord (time cube_) in
  (* Convert units if required *)
  match convert (units cube_) (def_units definition) with
  | None => Raise ValueError
  | Some conv =>
      (* Make latitude increasing *)
      let cube_ :=
        {| var_name := var_name cube_; standard_name := standard_name cube_;
           long_name := long_name cube_; dtype := dtype cube_;
           units := def_units definition; time := tim;
           latitude := reverse_coord lat; longitude := lon;
           data := reverse_axis1 (conv (data cube_));
           attributes := attributes cube_ |} in
      (* Set global attributes *)
      Ok (set_global_atts cube_ atts)
  end.

End ExtractVariable.

Arguments var_name {U D A} _.
Arguments standard_name {U D A} _.
Arguments long_name {U D A} _.
Arguments dtype {U D A} _.
Arguments units {U D A} _.
Arguments time {U D A} _.
Arguments latitude {U D A} _.
Arguments longitude {U D A} _.
Arguments data {U D A} _.
Arguments attributes {U D A} _.
Arguments _extract_variable {U D A} _ _ _ _ _ _ _.

End Era5.

(** ** esmvaltool/diag_scripts/mlr/__init__.py: [units_power] *)

Module UnitsPower.

(** *** Python strings

    Strings are strings of ASCII characters, as the unit strings of the CF
    conventions are. *)

(** [c.isdigit()] and the class [\d] of [re]. *)
Definition is_digit (c : ascii) : bool :=
  let n := N_of_ascii c in ((48 <=? n) && (n <=? 57))%N.

(** The class [[A-Za-z]] of [re]. *)
Definition is_alpha (c : ascii) : bool :=
  let n := N_of_ascii c in
  (((65 <=? n) && (n <=? 90)) || ((97 <=? n) && (n <=? 122)))%N.

(** The whitespace at which [str.split()] splits. *)
Definition is_space (c : ascii) : bool :=
  let n := N_of_ascii c in
  ((n =? 32) || ((9 <=? n) && (n <=? 13)) || ((28 <=? n) && (n <=? 31)))%N.

(** [s.split()] with the word read so far. *)
Fixpoint split_from (cur : string) (s : string) : list string :=
  match s with
  | EmptyString => if (cur =? "")%string then [] else [cur]
  | String c rest =>
      if is_space c then
        (if (cur =? "")%string then [] else [cur]) ++ split_from "" rest
      else split_from (cur +:+ String c "") rest
  end.

Definition split (s : string) : list string := split_from "" s.

(** [s.split(sep)] for a separator of one character, with the piece read so
    far. *)
Fixpoint split_on_from (sep : ascii) (cur : string) (s : string)
    : list string :=
  match s with
  | EmptyString => [cur]
  | String c rest =>
      if (c =? sep)%char then cur :: split_on_from sep "" rest
      else split_on_from sep (cur +:+ String c "") rest
  end.

Definition split_on (sep : ascii) (s : string) : list string :=
  split_on_from sep "" s.

(** [sep.join(pieces)]. *)
Fixpoint join (sep : string) (pieces : list string) : string :=
  match pieces with
  | [] => ""
  | [x] => x
  | x :: rest => x +:+ sep +:+ join sep rest
  end.

(** [s[0]] and [s[-1]]. *)
Definition first_char (s : string) : result ascii :=
  match s with
  | EmptyString => Raise IndexError
  | String c _ => Ok c
  end.

Fixpoint last_char (s : string) : result ascii :=
  match s with
  | EmptyString => Raise IndexError
  | String c EmptyString => Ok c
  | String _ rest => last_char rest
  end.

Definition starts_with_digit (s : string) : bool :=
  match s with
  | String c _ => is_digit c
  | EmptyString => false
  end.

(** [re.findall(r'-?\d+', s)], with the match that is being read: a match
    starts at a digit, or at a minus sign in front of a digit, and takes all
    digits that follow. *)
Fixpoint findall_int_from (cur : option string) (s : string) : list string :=
  match s with
  | EmptyString => match cur with Some m => [m] | None => [] end
  | String c rest =>
      if is_digit c then
        findall_int_from (Some (default "" cur +:+ String c "")) rest
      else
        match cur with Some m => [m] | None => [] end ++
        (if (c =? "-")%char && starts_with_digit rest
         then findall_int_from (Some "-") rest
         else findall_int_from None rest)
  end.

Definition findall_int (s : string) : list string := findall_int_from None s.

(** [''.join(re.findall(r'[A-Za-z]', s))]: the letters of [s]. *)
Fixpoint letters (s : string) : string :=
  match s with
  | EmptyString => ""
  | String c rest =>
      if is_alpha c then String c (letters rest) else letters rest
  end.

(** [str(n)] and [int(s)] for integers in decimal notation; [int] is only
    applied to matches of [-?\d+]. *)
Definition str_int (z : Z) : string := NilEmpty.string_of_int (Z.to_int z).

Definition int_str (s : string) : result Z :=
  if (s =? "")%string || (s =? "-")%string then Raise ValueError
  else match NilEmpty.int_of_string s with
       | Some d => Ok (Z.of_int d)
       | None => Raise ValueError
       end.

(** *** Numbers

    A power is a Python int or a float: a finite float is a rational, the
    other floats are NaN and the two infinities. *)
Inductive number : Type :=
  | PyInt (z : Z)
  | PyFloat (q : Q)
  | PyNaN
  | PyInf (negative : bool).

(** [round(x)] of a float: to the nearest integer, ties to the even one. *)
Definition round_float (q : Q) : Z :=
  let fl := Qfloor q in
  match Qcompare (q - inject_Z fl) (1 # 2) with
  | Lt => fl
  | Gt => fl + 1
  | Eq => if Z.even fl then fl else fl + 1
  end.

(** [round(power) != power]: [round] raises ValueError for NaN and
    OverflowError for an infinity, which cannot be converted to an int. *)
Definition round_differs (power : number) : result bool :=
  match power with
  | PyInt _ => Ok false
  | PyFloat q => Ok (negb (Qeq_bool (inject_Z (round_float q)) q))
  | PyNaN => Raise ValueError
  | PyInf _ => Raise OverflowError
  end.

Section UnitsPower.

(** How a float is printed in an f-string. *)
Variable repr_float : Q -> string.

(** [f'{x}'] for a number and the product [exp * power] of an int with a
    number. *)
Definition format (x : number) : string :=
  match x with
  | PyInt z => str_int z
  | PyFloat q => repr_float q
  | PyNaN => "nan"
  | PyInf negative => if negative then "-inf" else "inf"
  end.

Definition int_times (exp : Z) (power : number) : number :=
  match power with
  | PyInt p => PyInt (exp * p)
  | PyFloat q => PyFloat (inject_Z exp * q)
  | PyNaN => PyNaN
  | PyInf negative =>
      if (exp =? 0)%Z then PyNaN else PyInf (xorb (exp <? 0)%Z negative)
  end.

(** *** Units *)

(** What [units_power] reads of a [cf_units.Unit]: whether it is the unit
    'no_unit' or 'unknown', and the string it was created from, if any. *)
Inductive category : Type :=
  | NoUnit
  | Unknown
  | Udunits.

Record cf_unit : Type := {
  unit_category : category;
  origin : option string
}.

Definition is_no_unit (u : cf_unit) : bool :=
  match unit_category u with NoUnit => true | _ => false end.

Definition is_unknown (u : cf_unit) : bool :=
  match unit_category u with Unknown => true | _ => false end.

(** [Unit(string)] and [units ** power] of cf_units. *)
Variable Unit : string -> result cf_unit.
Variable unit_pow : cf_unit -> number -> result cf_unit.

(** The body of the inner loop of [units_power] for one [elem]. *)
Definition power_elem (elem : string) (power : number) : result string :=
  let! c := last_char elem in
  if is_digit c then
    let! ds := map_result int_str (findall_int elem) in
    let! exp := getitem ds 0 in
    let val := letters elem in
    Ok (val +:+ format (int_times exp power))
  else Ok (elem +:+ format power).

(** [units_power(units, power)]. *)
Definition units_power (units_ : cf_unit) (power : number) : result cf_unit :=
  let! differs := round_differs power in
  if differs then Raise TypeError
  else if is_no_unit units_ || is_unknown units_ then Ok units_
  else
    match origin units_ with
    | None => unit_pow units_ power
    | Some origin_ =>
        let! first := getitem (split origin_) 0 in
        let! c := first_char first in
        if is_digit c then unit_pow units_ power
        else
          let! new_units_list :=
            map_result (fun elem => power_elem elem power)
              (flat_map (split_on ".") (split origin_)) in
          let new_units := join " " new_units_list in
          Unit new_units
    end.

End UnitsPower.

(** *** Symbolic products

    A product of unit symbols as the CF conventions write it: factors
    separated by a blank or a dot, each factor a symbol of letters with an
    optional integer exponent. *)
Record factor : Type := {
  symbol : string;
  exponent : option Z
}.

Definition render_factor (f : factor) : string :=
  symbol f +:+ match exponent f with
              | Some e => str_int e
              | None => ""
              end.

(** The factors come in groups: dots inside a group, blanks between the
    groups. *)
Definition render (groups : list (list factor)) : string :=
  join " " (map (fun g => join "." (map render_factor g)) groups).

(** Every character of a string satisfies [p]. *)
Fixpoint all_chars (p : ascii -> bool) (s : string) : bool :=
  match s with
  | EmptyString => true
  | String c rest => p c && all_chars p rest
  end.

Definition well_formed_factor (f : factor) : Prop :=
  symbol f <> "" /\ all_chars is_alpha (symbol f) = true.

Definition well_formed (groups : list (list factor)) : Prop :=
  groups <> [] /\
  Forall (fun g => g <> [] /\ Forall well_formed_factor g) groups.

(** The factor with its exponent multiplied by [p]; no exponent is the
    exponent 1. *)
Definition factor_power (p : Z) (f : factor) : factor :=
  {| symbol := symbol f; exponent := Some (default 1 (exponent f) * p) |}.

(** The product raised to the power [p], written with blanks. *)
Definition render_power (p : Z) (groups : list (list factor)) : string :=
  join " " (map (fun f => render_factor (factor_power p f)) (concat groups)).

End UnitsPower.

(** ** esmvaltool/diag_scripts/mlr/__init__.py: attributes of datasets *)

Module MLRMetadata.

Import MLRPredict.

(** The metadata dictionary of a dataset: attribute names with their
    values. *)
Definition metadata : Type := gmap string pyval.

(** [VAR_TYPES]. *)
Definition VAR_TYPES : list string :=
  ["feature"; "label"; "prediction_input"; "prediction_input_error";
   "prediction_output"; "prediction_output_error"; "prediction_output_misc";
   "prediction_reference"; "prediction_residual"].

(** [dataset[key]]. *)
Definition item (dataset : metadata) (key : string) : result pyval :=
  match dataset !! key with
  | Some v => Ok v
  | None => Raise KeyError
  end.

(** [dataset.get('var_type') not in VAR_TYPES], negated: the value is one of
    the strings of [VAR_TYPES].  A missing key gives [None], and neither
    [None] nor a number or a boolean is equal to a string. *)
Definition var_type_valid (dataset : metadata) : bool :=
  match dataset !! "var_type" with
  | Some (PyStr s) => bool_decide (s ∈ VAR_TYPES)
  | _ => false
  end.

(** [delimiter.join(alias)]: TypeError for an item that is not a string. *)
Definition str_join (delimiter : string) (alias : list pyval) : result string :=
  let! strings :=
    map_result (fun v => match v with
                         | PyStr s => Ok s
                         | _ => Raise TypeError
                         end) alias in
  Ok (UnitsPower.join delimiter strings).

(** The loop of [create_alias] over [attributes], with the alias so far. *)
Fixpoint alias_loop (dataset : metadata) (attributes : list string)
    (alias : list pyval) : list pyval :=
  match attributes with
  | [] => alias
  | attribute :: rest =>
      match dataset !! attribute with
      | Some v => alias_loop dataset rest (alias ++ [v])
      | None => alias_loop dataset rest alias
      end
  end.

(** [create_alias(dataset, attributes, default='dataset', delimiter='-')].
    The warning that is logged when no attribute is found reads
    [dataset['filename']]. *)
Definition create_alias (dataset : metadata) (attributes : list string)
    (default : string) (delimiter : string) : result string :=
  let alias := alias_loop dataset attributes [] in
  let! alias :=
    match alias with
    | [] =>
        let! v := item dataset default in
        let! _ := item dataset "filename" in
        Ok [v]
    | _ => Ok alias
    end in
  str_join delimiter alias.

Section Attributes.

(** [io.NECESSARY_KEYS] of [esmvaltool.diag_scripts.shared]. *)
Variable io_NECESSARY_KEYS : list string.

(** [NECESSARY_KEYS]. *)
Definition NECESSARY_KEYS : list string :=
  io_NECESSARY_KEYS ++ ["tag"; "var_type"].

(** The loop [for key in NECESSARY_KEYS] of [datasets_have_mlr_attributes]
    with the value of [output]. *)
Fixpoint missing_keys_loop (dataset : metadata) (keys : list string)
    (output : bool) : bool :=
  match keys with
  | [] => output
  | key :: rest =>
      if negb (bool_decide (is_Some (dataset !! key)))
      then missing_keys_loop dataset rest false
      else missing_keys_loop dataset rest output
  end.

(** The loop [for dataset in datasets] with the value of [output]. *)
Fixpoint datasets_loop (mode : option string) (datasets : list metadata)
    (output : bool) : result bool :=
  match datasets with
  | [] => Ok output
  | dataset :: rest =>
      let! path := item dataset "filename" in
      let output :=
        if bool_decide (mode <> Some "only_var_type")
        then missing_keys_loop dataset NECESSARY_KEYS output
        else output in
      let output :=
        if bool_decide (mode <> Some "only_missing") &&
           negb (var_type_valid dataset)
        then false
        else output in
      datasets_loop mode rest output
  end.

(** [datasets_have_mlr_attributes(datasets, log_level='debug', mode=None)];
    [log_level] only selects the method of the logger. *)
Definition datasets_have_mlr_attributes (datasets : list metadata)
    (mode : option string) : result bool :=
  let output := true in
  datasets_loop mode datasets output.

(** The loop of [get_input_data] and [_get_ancestor_datasets] over the
    datasets, with the list [valid_datasets] so far. *)
Fixpoint valid_datasets_loop (input_data valid_datasets : list metadata)
    : result (list metadata) :=
  match input_data with
  | [] => Ok valid_datasets
  | dataset :: rest =>
      let! valid := datasets_have_mlr_attributes [dataset] None in
      if valid then valid_datasets_loop rest (valid_datasets ++ [dataset])
      else
        let! _ := item dataset "filename" in
        valid_datasets_loop rest valid_datasets
  end.

(** [get_input_data(cfg, pattern=None)].  [cfg_input_data] is
    [cfg['input_data'].values()], if [cfg] has this key, and
    [netcdf_to_metadata] what [io.netcdf_to_metadata(cfg, pattern=pattern)]
    returns. *)
Definition get_input_data (cfg_input_data : option (list metadata))
    (netcdf_to_metadata : result (list metadata)) : result (list metadata) :=
  match cfg_input_data with
  | None => Raise KeyError
  | Some input_data =>
      let! ancestors := netcdf_to_metadata in
      let input_data := input_data ++ ancestors in
      let valid_datasets := [] in
      valid_datasets_loop input_data valid_datasets
  end.

(** [MLRModel._get_ancestor_datasets(self)] of mlr/models/__init__.py. *)
Definition _get_ancestor_datasets
    (netcdf_to_metadata : result (list metadata)) : result (list metadata) :=
  let! datasets := netcdf_to_metadata in
  match datasets with
  | [] => Ok []
  | _ =>
      let! _ := map_result (fun d => item d "filename") datasets in
      let valid_datasets := [] in
      valid_datasets_loop datasets valid_datasets
  end.

(** [write_cube(cube, attributes, path)]: the value is the list of the calls
    [io.metadata_to_netcdf(cube, attributes)] made. *)
Definition write_cube {C : Type} (cube : C) (attributes : metadata)
    (path : string) : result (list (C * metadata)) :=
  let! valid := datasets_have_mlr_attributes [attributes] None in
  if negb valid then Ok []
  else Ok [(cube, attributes)].

(** A dataset with every necessary attribute and a valid [var_type], which
    is what [get_input_data] and [write_cube] ask for. *)
Definition complete (dataset : metadata) : bool :=
  forallb (fun key => bool_decide (is_Some (dataset !! key))) NECESSARY_KEYS &&
  var_type_valid dataset.

(** What one dataset has to satisfy under a checking mode. *)
Definition accepted (mode : option string) (dataset : metadata) : Prop :=
  (mode <> Some "only_var_type" ->
   forall key, key ∈ NECESSARY_KEYS -> is_Some (dataset !! key)) /\
  (mode <> Some "only_missing" ->
   exists s, dataset !! "var_type" = Some (PyStr s) /\ s ∈ VAR_TYPES).

End Attributes.

(** The recipe options read by [_group_by_attributes]. *)
Record group_cfg : Type := {
  group_datasets_by_attributes : list string;
  group_accept_only_scalar_data : bool
}.

(** [dataset['group_attribute'] = value]. *)
Definition set_group_attribute (dataset : metadata) (value : pyval)
    : metadata :=
  <[ "group_attribute" := value ]> dataset.

(** [MLRModel._group_by_attributes(self, datasets)] of
    mlr/models/__init__.py; the datasets are changed in place and
    returned.  They are distinct dictionaries: [_load_input_datasets]
    selects them from its deep copy of the input data. *)
Definition _group_by_attributes (c : group_cfg) (datasets : list metadata)
    : result (list metadata) :=
  let attributes := group_datasets_by_attributes c in
  let with_alias (attributes : list string) :=
    map_result (fun dataset =>
                  let! alias := create_alias dataset attributes "dataset" "-" in
                  Ok (set_group_attribute dataset (PyStr alias)))
      datasets in
  match attributes with
  | [] =>
      if group_accept_only_scalar_data c then with_alias ["dataset"]
      else Ok (map (fun dataset => set_group_attribute dataset PyNone)
                 datasets)
  | _ => with_alias attributes
  end.

End MLRMetadata.

(** ** esmvaltool/diag_scripts/mlr: keyword arguments of [fit] *)

Module MLRFit.

(** *** Splitting at two underscores *)

Definition starts_with_underscore (s : string) : bool :=
  match s with
  | String c _ => (c =? "_")%char
  | EmptyString => false
  end.

(** [s[1:]]. *)
Definition tail (s : string) : string :=
  match s with
  | String _ rest => rest
  | EmptyString => ""
  end.

(** The first occurrence of '__' in a string, read from the left: the text
    in front of it and the text behind it. *)
Fixpoint find_dunder (s : string) : option (string * string) :=
  match s with
  | EmptyString => None
  | String c rest =>
      if (c =? "_")%char && starts_with_underscore rest
      then Some ("", tail rest)
      else match find_dunder rest with
           | Some (before, after) => Some (String c before, after)
           | None => None
           end
  end.

(** [s.split('__', 1)]. *)
Definition split_dunder_once (s : string) : list string :=
  match find_dunder s with
  | Some (before, after) => [before; after]
  | None => [s]
  end.

(** [s.split('__')[0]]. *)
Definition split_dunder_first (s : string) : string :=
  match find_dunder s with
  | Some (before, _) => before
  | None => s
  end.

Section FitKwargs.

(** The values of keyword arguments. *)
Variable V : Type.

(** The body of the loop of [_get_fit_kwargs] for one item of
    [fit_kwargs.items()]. *)
Definition get_fit_kwargs_step (kwargs : gmap string V * gmap string V)
    (item : string * V) : gmap string V * gmap string V :=
  let '(transformer_kwargs, regressor_kwargs) := kwargs in
  let '(param_name, param_val) := item in
  match split_dunder_once param_name with
  | [prefix; param] =>
      if (prefix =? "transformer")%string
      then (<[ param := param_val ]> transformer_kwargs, regressor_kwargs)
      else if (prefix =? "regressor")%string
      then (transformer_kwargs, <[ param := param_val ]> regressor_kwargs)
      else kwargs
  | _ => kwargs
  end.

(** [AdvancedTransformedTargetRegressor._get_fit_kwargs(self, fit_kwargs)]
    on the items of [fit_kwargs] in the order of the dictionary. *)
Definition _get_fit_kwargs (fit_kwargs : list (string * V))
    : gmap string V * gmap string V :=
  fold_left get_fit_kwargs_step fit_kwargs (∅, ∅).

(** [[s[0] for s in self.steps[:-1]]]. *)
Definition transformer_steps {E : Type} (steps : list (string * E))
    : list string :=
  map fst (take (length steps - 1) steps).

(** The keyword arguments that [AdvancedPipeline.fit_transformers_only]
    hands to [self._fit]. *)
Definition transformers_kwargs {E : Type} (steps : list (string * E))
    (fit_kwargs : gmap string V) : gmap string V :=
  filter (fun item => split_dunder_first item.1 ∈ transformer_steps steps)
    fit_kwargs.

(** [AdvancedPipeline.fit_transformers_only(self, x_data, y_data,
    **fit_kwargs)]. *)
Definition fit_transformers_only {E X Y R : Type}
    (_fit : X -> Y -> gmap string V -> R) (steps : list (string * E))
    (x_data : X) (y_data : Y) (fit_kwargs : gmap string V) : R :=
  _fit x_data y_data (transformers_kwargs steps fit_kwargs).

(** [MLRModel._update_fit_kwargs(self, fit_kwargs)] of
    mlr/models/__init__.py; [named_steps] are the names of the steps of
    [self._clf]. *)
Definition _update_fit_kwargs (named_steps : list string)
    (fit_kwargs : gmap string V) : gmap string V :=
  filter (fun item => split_dunder_first item.1 ∈ named_steps) fit_kwargs.

End FitKwargs.

Arguments _get_fit_kwargs {V} _.
Arguments transformers_kwargs {V E} _ _.
Arguments fit_transformers_only {V E X Y R} _ _ _ _ _.
Arguments _update_fit_kwargs {V} _ _.

End MLRFit.

(** ** esmvaltool/diag_scripts/mlr/models/__init__.py: data points *)

Module MLRData.

Import MLRPipeline.

Section Points.

(** Values of a data frame: [None] is a missing entry (NaN). *)
Variable value : Type.

(** A frame of features (one row per point, one column per feature) and a
    frame with the one column of the label. *)
Definition frame : Type := list (list (option value)).
Definition column : Type := list (option value).

(** [y_data.isnull().values] for the frame of the label: one entry per
    row. *)
Definition isnull (y_data : column) : list bool :=
  map (fun v => match v with None => true | Some _ => false end) y_data.

(** [MLRModel._remove_missing_labels(x_data, y_data)]. *)
Definition _remove_missing_labels (x_data : frame) (y_data : column)
    : result (frame * column) :=
  let mask := isnull y_data in
  let! new_x_data := drop_masked ValueError x_data mask in
  let! new_y_data := drop_masked ValueError y_data mask in
  Ok (new_x_data, new_y_data).

(** [MLRModel._extract_features_and_labels(self)] from the frames that
    [_extract_x_data] and [_extract_y_data] return; the third component is
    [self._classes['group_attributes']] after the call. *)
Definition _extract_features_and_labels (c : cfg)
    (group_attributes : list string) (x_data : frame) (y_data : column)
    : result (frame * column * list string) :=
  (* Check number of input points *)
  if negb (length x_data =? length y_data)%nat then Raise ValueError
  else
    (* Remove missing values in labels *)
    let! '(x_data, y_data) := _remove_missing_labels x_data y_data in
    (* Remove missing values in features (if desired) *)
    _remove_missing_features c group_attributes x_data y_data.

(** A point is kept by [_extract_features_and_labels] when its label is
    there and, if points with missing features are to be removed, none of
    its features is missing. *)
Definition kept_point (c : cfg) (p : list (option value) * option value)
    : bool :=
  bool_decide (is_Some p.2) &&
  (negb (imputation_strategy c =? "remove")%string || negb (has_missing p.1)).

(** [data[~mask].reset_index(drop=True)] for data that may be [None]. *)
Definition drop_masked_if_given {A : Type} (data : option (list A))
    (mask : list bool) : result (option (list A)) :=
  match data with
  | Some rows => let! kept := drop_masked ValueError rows mask in Ok (Some kept)
  | None => Ok None
  end.

(** [MLRModel._remove_missing_pred_input(self, x_pred, x_err=None,
    y_ref=None)]. *)
Definition _remove_missing_pred_input (c : cfg) (x_pred : frame)
    (x_err : option frame) (y_ref : option column)
    : result (frame * option frame * option column) :=
  if negb (imputation_strategy c =? "remove")%string
  then Ok (x_pred, x_err, y_ref)
  else
    let mask := isnull_any x_pred in
    let! x_pred := drop_masked ValueError x_pred mask in
    let! x_err := drop_masked_if_given x_err mask in
    let! y_ref := drop_masked_if_given y_ref mask in
    Ok (x_pred, x_err, y_ref).

(** The number of entries of an array of a shape. *)
Definition size_of (shape : list nat) : nat := fold_right Nat.mul 1%nat shape.

(** What is kept of the cube [x_cube]: its shape and the mask of its data
    ([np.ma.getmaskarray]), flattened. *)
Record x_cube : Type := {
  cube_shape : list nat;
  cube_mask : list bool
}.

(** [a.reshape(shape)] keeps the entries in their order and needs as many
    of them as the shape holds. *)
Definition reshape {A : Type} (a : list A) (shape : list nat)
    : result (list A) :=
  if (length a =? size_of shape)%nat then Ok a else Raise ValueError.

(** [MLRModel._extract_prediction_input(self, prediction_name)] from what
    the extraction of the three kinds of datasets returns.  [y_ref] is
    [None] when there are no 'prediction_reference' datasets of this name
    and is the value of [_extract_y_data] otherwise; [x_err] is [None] when
    there are no 'prediction_input_error' datasets of this name.  The cube
    returned has the rows with a missing feature masked, in addition to
    what was masked in it. *)
Definition _extract_prediction_input (c : cfg) (x_pred : frame)
    (cube : x_cube) (y_ref : option (option column)) (x_err : option frame)
    : result (frame * option frame * option column * x_cube) :=
  (* Prediction reference *)
  let! y_ref :=
    match y_ref with
    | None => Ok None
    | Some None => Ok None
    | Some (Some y_ref) =>
        if negb (length x_pred =? length y_ref)%nat then Raise ValueError
        else Ok (Some y_ref)
    end in
  (* Error *)
  let! x_err :=
    match x_err with
    | None => Ok None
    | Some x_err =>
        if negb (length x_pred =? length x_err)%nat then Raise ValueError
        else Ok (Some x_err)
    end in
  (* Assign correct mask to cube *)
  let! mask := reshape (isnull_any x_pred) (cube_shape cube) in
  let cube := {| cube_shape := cube_shape cube;
                 cube_mask := zip_with orb (cube_mask cube) mask |} in
  (* Remove missing values if necessary *)
  let! '(x_pred, x_err, y_ref) :=
    _remove_missing_pred_input c x_pred x_err y_ref in
  Ok (x_pred, x_err, y_ref, cube).

End Points.

Arguments isnull {value} _.
Arguments _remove_missing_labels {value} _ _.
Arguments _extract_features_and_labels {value} _ _ _ _.
Arguments kept_point {value} _ _.
Arguments _remove_missing_pred_input {value} _ _ _ _.
Arguments _extract_prediction_input {value} _ _ _ _ _.

Section MaskPrediction.

(** The numbers of a prediction array: [nan] is [np.nan], [is_invalid] is
    true for NaN and for the infinities, and [uninitialized] is what
    [np.empty] leaves in an entry. *)
Variable F : Type.
Variable nan : F.
Variable uninitialized : F.
Variable is_invalid : F -> bool.

(** [np.empty(n)]. *)
Definition np_empty (n : nat) : list F := replicate n uninitialized.

(** The entries of [values] put, in their order, where [selection] is
    true. *)
Fixpoint put (selection : list bool) (target values : list F) : list F :=
  match selection, target with
  | s :: selection', t :: target' =>
      if s then
        match values with
        | v :: values' => v :: put selection' target' values'
        | [] => t :: put selection' target' []
        end
      else t :: put selection' target' values
  | _, _ => target
  end.

(** The number of true entries. *)
Definition count_true (selection : list bool) : nat :=
  length (filter (fun s => s = true) selection).

(** [target[selection] = values] for a boolean array [selection] and a
    one-dimensional array [values]: an array with one entry is written to
    every selected entry, any other array needs one entry for each of them
    (ValueError otherwise). *)
Definition assign_where (selection : list bool) (target values : list F)
    : result (list F) :=
  if negb (length selection =? length target)%nat then Raise IndexError
  else
    match values with
    | [v] => Ok (zip_with (fun (s : bool) t => if s then v else t)
                   selection target)
    | _ =>
        if (length values =? count_true selection)%nat
        then Ok (put selection target values)
        else Raise ValueError
    end.

(** [np.ma.masked_invalid(a)] for an array without mask. *)
Definition masked_invalid (a : list F) : list (Gtfgco2.cell F) :=
  map (fun v => {| Gtfgco2.value := v; Gtfgco2.masked := is_invalid v |}) a.

(** [MLRModel._mask_prediction_array(self, y_pred, ref_cube)]; [ndim] is
    [y_pred.ndim], and an array of one dimension is given by its entries. *)
Definition _mask_prediction_array (ndim : nat) (y_pred : list F)
    (ref_cube : x_cube) : result (list (Gtfgco2.cell F)) :=
  let mask := cube_mask ref_cube in
  let! new_y_pred :=
    if (ndim =? 1)%nat && negb (length y_pred =? length mask)%nat then
      let new_y_pred := np_empty (length mask) in
      let! new_y_pred := assign_where mask new_y_pred [nan] in
      assign_where (map negb mask) new_y_pred y_pred
    else Ok y_pred in
  Ok (masked_invalid new_y_pred).

(** Whether [_save_prediction_cubes] makes the prediction cube a copy of
    [x_cube] with the new data
    ([y_pred.size == np.prod(x_cube.shape)]); otherwise it makes a cube with
    index coordinates. *)
Definition fits_cube (y_pred : list (Gtfgco2.cell F)) (cube : x_cube) : bool :=
  (length y_pred =? size_of (cube_shape cube))%nat.

End MaskPrediction.

Arguments _mask_prediction_array {F} _ _ _ _ _ _.
Arguments fits_cube {F} _ _.

End MLRData.

(** ** esmvaltool/diag_scripts/mlr/models/__init__.py: extraction of cubes *)

Module MLRExtract.

Import MLRChecks.

Section Extract.

(** [cf_units.Unit] and [np.allclose], as for the checks. *)
Variable U : Type.
Variable Unit : string -> result U.
Variable unit_ne : U -> U -> bool.
Variable allclose : list Q -> list Q -> bool.

(** Values of a data frame: [None] is a missing entry (NaN). *)
Variable value : Type.

(** [self._load_cube(dataset)] and [self._get_cube_data(cube)]. *)
Variable _load_cube : dataset -> result cube.
Variable _get_cube_data : cube -> list (option value).

(** [select_metadata(datasets, var_type=var_type)] and
    [select_metadata(datasets, group_attribute=group_attr)] of
    [esmvaltool.diag_scripts.shared]. *)
Variable select_var_type : list dataset -> string -> list dataset.
Variable select_group : list dataset -> option string -> list dataset.

(** The loop of [_extract_y_data] over the groups, with the frame [y_data]
    so far; [Ok None] is the Python [None]. *)
Fixpoint extract_y_loop (c : cfg) (m : units_table U)
    (datasets : list dataset) (var_type label : string)
    (groups : list (option string)) (y_data : list (option value))
    : result (option (list (option value))) :=
  match groups with
  | [] => Ok (Some y_data)
  | group_attr :: rest =>
      let group_datasets := select_group datasets group_attr in
      let! dataset :=
        _check_dataset U Unit unit_ne c m group_datasets var_type label in
      match dataset with
      | None => Ok None
      | Some dataset =>
          let! cube := _load_cube dataset in
          let! _ := _check_cube_dimensions allclose c cube None in
          let cube_data := _get_cube_data cube in
          extract_y_loop c m datasets var_type label rest
            (y_data ++ cube_data)
      end
  end.

(** [MLRModel._extract_y_data(self, datasets, var_type)];
    [group_attributes] is [self.group_attributes] and [label] is
    [self.label]. *)
Definition _extract_y_data (c : cfg) (m : units_table U)
    (group_attributes : list (option string)) (label : string)
    (datasets : list dataset) (var_type : string)
    : result (option (list (option value))) :=
  let allowed_types := ["label"; "prediction_reference"] in
  if negb (bool_decide (var_type ∈ allowed_types)) then Raise ValueError
  else
    let y_data := [] in
    (* Iterate over datasets *)
    let datasets := select_var_type datasets var_type in
    let groups :=
      if (var_type =? "label")%string then group_attributes else [None] in
    extract_y_loop c m datasets var_type label groups y_data.

(** What a group contributes to the frame of the label: the cube of the one
    dataset of the group with the tag of the label. *)
Definition contributes (c : cfg) (datasets : list dataset)
    (var_type label : string) (group_attr : option string) (cb : cube)
    : Prop :=
  exists d,
    select_metadata (select_group datasets group_attr) label var_type = [d] /\
    _load_cube d = Ok cb /\
    (accept_only_scalar_data c = true -> shape cb = [] \/ shape cb = [1%nat]).

(** The loop of [_get_reference_cube] over the regular features. *)
Fixpoint reference_cube_loop (c : cfg) (m : units_table U)
    (datasets : list dataset) (var_type : string)
    (regular_features : list string) : result cube :=
  match regular_features with
  | [] => Raise ValueError
  | tag :: rest =>
      let! dataset :=
        _check_dataset U Unit unit_ne c m datasets var_type tag in
      match dataset with
      | Some dataset => _load_cube dataset
      | None => reference_cube_loop c m datasets var_type rest
      end
  end.

(** [self.features[self.features_types == 'regular']] for the features
    given with their types. *)
Definition regular_features (features_types : list (string * string))
    : list string :=
  map fst (filter (fun ft => ft.2 = "regular") features_types).

(** [MLRModel._get_reference_cube(self, datasets, var_type, text=None)]. *)
Definition _get_reference_cube (c : cfg) (m : units_table U)
    (features_types : list (string * string)) (datasets : list dataset)
    (var_type : string) : result cube :=
  reference_cube_loop c m datasets var_type
    (regular_features features_types).

End Extract.

End MLRExtract.

(** ** esmvaltool/diag_scripts/mlr/models/__init__.py: the registry of
       models *)

Module MLRRegistry.

Section Registry.

(** The classes ([MLRModel] and its subclasses), the positional and keyword
    arguments of a constructor call, and the instances. *)
Variable C : Type.
Variable Args : Type.
Variable I : Type.

(** The call of a class with the arguments: the instance, or what
    [__init__] raises. *)
Variable construct : C -> Args -> result I.

(** [cls._MODELS], a dictionary from model types to subclasses; the items
    are kept in the order in which the keys were inserted. *)
Definition models : Type := list (string * C).

(** [d[key] = value]: the value of a key that is there is replaced, a new
    key is added at the end. *)
Fixpoint setitem (d : models) (key : string) (value : C) : models :=
  match d with
  | [] => [(key, value)]
  | (k, v) :: rest =>
      if (k =? key)%string then (k, value) :: rest
      else (k, v) :: setitem rest key value
  end.

(** [d[key]]. *)
Fixpoint getitem (d : models) (key : string) : result C :=
  match d with
  | [] => Raise KeyError
  | (k, v) :: rest =>
      if (k =? key)%string then Ok v else getitem rest key
  end.

(** [MLRModel.register_mlr_model(model_type)] applied to a subclass: the
    dictionary after the decorator has run. *)
Definition register_mlr_model (_MODELS : models) (model_type : string)
    (subclass : C) : models :=
  setitem _MODELS model_type subclass.

(** [MLRModel.create(model_type, *args, **kwargs)] on the class [cls], for
    a model type that is a string.  [_load_mlr_models] stands for the call
    [cls._load_mlr_models()], which imports the modules of the package: it
    is the dictionary [cls._MODELS] once the decorators of these modules
    have run, or the exception of an import, of which only ImportError is
    caught. *)
Definition create (cls : C) (_load_mlr_models : result models)
    (model_type : string) (args : Args) : result I :=
  let! _MODELS := _load_mlr_models in
  match _MODELS with
  | [] => construct cls args
  | (default_model_type, _) :: _ =>
      let model_type :=
        if negb (bool_decide (model_type ∈ map fst _MODELS))
        then default_model_type
        else model_type in
      let! subclass := getitem _MODELS model_type in
      construct subclass args
  end.

End Registry.

Arguments setitem {C} _ _ _.
Arguments getitem {C} _ _.
Arguments register_mlr_model {C} _ _ _.
Arguments create {C Args I} _ _ _ _ _.

End MLRRegistry.

(** ** Python string tests *)

Module PyStrings.

(** [s.startswith(prefix)]. *)
Fixpoint startswith (s prefix : string) : bool :=
  match prefix, s with
  | EmptyString, _ => true
  | String p prefix', String c s' => (c =? p)%char && startswith s' prefix'
  | String _ _, EmptyString => false
  end.

(** [sub in s]. *)
Fixpoint contains (sub s : string) : bool :=
  startswith s sub ||
  match s with
  | EmptyString => false
  | String _ s' => contains sub s'
  end.

End PyStrings.

(** ** esmvaltool/diag_scripts/mlr/models/__init__.py: the error of the
       model *)

Module MLRModelError.

Import MLRPredict.

(** [self._cfg['estimate_mlr_model_error']] as far as it is read: the type,
    and the keywords 'cv' and 'scoring' for [cross_val_score]; [None] is a
    missing key.  Type and scoring are strings, as a recipe gives them. *)
Record estimate_cfg : Type := {
  estimate_type : option string;
  estimate_cv : option pyval;
  estimate_scoring : option string
}.

Section ModelError.

Context {F : Type} `{Arith F}.

(** [-error] and [np.mean]. *)
Variable neg : F -> F.
Variable np_mean : list F -> F.

(** [metrics.mean_squared_error(self.get_y_array('test'),
    self._clf.predict(self.get_x_array('test')))], if [self.data] has test
    data, and [cross_val_score(self._clf, x_train, y_train, cv=...,
    scoring=...)]. *)
Variable test_error : option (result F).
Variable cross_val_score : pyval -> string -> result (list F).

(** [cf_units] as [units_power] uses it, and [self.label_units]. *)
Variable repr_float : Q -> string.
Variable Unit : string -> result UnitsPower.cf_unit.
Variable unit_pow :
  UnitsPower.cf_unit -> UnitsPower.number -> result UnitsPower.cf_unit.
Variable label_units : UnitsPower.cf_unit.

(** The error by cross-validation: the mean of the scores, negated for a
    scoring whose name starts with 'neg_' and squared for a scoring whose
    name does not contain 'squared'. *)
Definition cv_error (scoring : string) (scores : list F) : F :=
  let error := np_mean scores in
  let error :=
    if PyStrings.startswith scoring "neg_" then neg error else error in
  if negb (PyStrings.contains "squared" scoring) then mul error error
  else error.

(** [MLRModel._estimate_mlr_model_error(self, target_length)]. *)
Definition _estimate_mlr_model_error (cfg : estimate_cfg)
    (target_length : nat) : result (list F * string) :=
  let cfg_type := default "cv" (estimate_type cfg) in
  let cv := default (PyInt 5) (estimate_cv cfg) in
  let scoring := default "neg_mean_squared_error" (estimate_scoring cfg) in
  (* Check type *)
  let err_type := cfg_type in
  let allowed_types := ["test"; "cv"] in
  let err_type :=
    if negb (bool_decide (err_type ∈ allowed_types)) then "cv"
    else err_type in
  (* Test data set *)
  let! '(error, err_type) :=
    if (err_type =? "test")%string then
      match test_error with
      | Some test => let! error := test in Ok (Some error, err_type)
      | None => Ok (None, "cv")
      end
    else Ok (None, err_type) in
  (* CV *)
  let! error :=
    if (err_type =? "cv")%string then
      let! scores := cross_val_score cv scoring in
      Ok (cv_error scoring scores)
    else
      match error with
      | Some error => Ok error
      | None => Raise UnboundLocalError
      end in
  (* Get correct dtype *)
  let error_array := replicate target_length error in
  let! units :=
    UnitsPower.units_power repr_float Unit unit_pow label_units
      (UnitsPower.PyInt 2) in
  Ok (error_array, err_type).

End ModelError.

Arguments _estimate_mlr_model_error {F _} _ _ _ _ _ _ _ _ _ _.
Arguments cv_error {F _} _ _ _ _.

End MLRModelError.

(** ** esmvaltool/diag_scripts/mlr/models/__init__.py: metadata of
       prediction cubes *)

Module MLRPredictionCube.

Import MLRPredict.

Section Metadata.

(** The cell methods of a cube are kept abstract. *)
Variable M : Type.

(** [iris.cube.CubeMetadata], and what [_pred_type_to_metadata] reads of
    the cube. *)
Record metadata : Type := {
  standard_name : option string;
  long_name : option string;
  var_name : option string;
  units : UnitsPower.cf_unit;
  attributes : gmap string pyval;
  cell_methods : M
}.

(** [cf_units] as [units_power] uses it. *)
Variable repr_float : Q -> string.
Variable Unit : string -> result UnitsPower.cf_unit.
Variable unit_pow :
  UnitsPower.cf_unit -> UnitsPower.number -> result UnitsPower.cf_unit.

(** [x += s] for a name that may be [None]. *)
Definition iadd (x : option string) (s : string) : result (option string) :=
  match x with
  | Some x => Ok (Some (x +:+ s))
  | None => Raise TypeError
  end.

(** [mlr.units_power(cube.units, 2)]. *)
Definition squared_units (u : UnitsPower.cf_unit)
    : result UnitsPower.cf_unit :=
  UnitsPower.units_power repr_float Unit unit_pow u (UnitsPower.PyInt 2).

(** [attributes['var_type'] = var_type]. *)
Definition set_var_type (attributes : gmap string pyval) (var_type : string)
    : gmap string pyval :=
  <[ "var_type" := PyStr var_type ]> attributes.

(** [MLRModel._pred_type_to_metadata(self, pred_type, cube)]; [label] is
    [self.label] and [features] is
    [pformat(dict(enumerate(self.features)))]. *)
Definition _pred_type_to_metadata (label features : string)
    (pred_type : MLRPropagate.pred_type) (cube : metadata)
    : result metadata :=
  let var_name_ := var_name cube in
  let long_name_ := long_name cube in
  let units_ := units cube in
  let attributes_ := attributes cube in
  let! '(var_name_, long_name_, units_, attributes_) :=
    match pred_type with
    | None =>
        Ok (var_name_, long_name_, units_,
            set_var_type attributes_ "prediction_output")
    | Some (inr idx) =>
        let! var_name_ :=
          iadd var_name_ ("_" +:+ UnitsPower.str_int (Z.of_nat idx)) in
        let! long_name_ :=
          iadd long_name_ (" " +:+ UnitsPower.str_int (Z.of_nat idx)) in
        Ok (var_name_, long_name_, units_,
            set_var_type attributes_ "prediction_output_misc")
    | Some (inl pred_type) =>
        let suffix := "_" +:+ pred_type in
        if (pred_type =? "var")%string then
          let! var_name_ := iadd var_name_ suffix in
          let! long_name_ := iadd long_name_ " (variance)" in
          let! units_ := squared_units (units cube) in
          Ok (var_name_, long_name_, units_,
              set_var_type attributes_ "prediction_output_error")
        else if (pred_type =? "cov")%string then
          let! var_name_ := iadd var_name_ suffix in
          let! long_name_ := iadd long_name_ " (covariance)" in
          let! units_ := squared_units (units cube) in
          Ok (var_name_, long_name_, units_,
              set_var_type attributes_ "prediction_output_error")
        else if PyStrings.contains "squared_mlr_model_error_estim" pred_type
        then
          let! var_name_ := iadd var_name_ suffix in
          let! long_name_ :=
            iadd long_name_
              (" (squared MLR model error estimation using " +:+
               (if PyStrings.contains "cv" pred_type
                then "cross-validation"
                else "holdout test data set") +:+ ")") in
          let! units_ := squared_units (units cube) in
          Ok (var_name_, long_name_, units_,
              set_var_type attributes_ "prediction_output_error")
        else if (pred_type =? "squared_propagated_input_error")%string then
          let! var_name_ := iadd var_name_ suffix in
          let! long_name_ :=
            iadd long_name_
              " (squared propagated error of prediction input estimated by LIME)"
            in
          let! units_ := squared_units (units cube) in
          Ok (var_name_, long_name_, units_,
              set_var_type attributes_ "prediction_output_error")
        else if (pred_type =? "lime")%string then
          let var_name_ := Some "lime_feature_importance" in
          let long_name_ :=
            Some ("Most important feature for predicting " +:+ label +:+
                  " given by LIME") in
          let! units_ := Unit "no_unit" in
          let attributes_ := <[ "features" := PyStr features ]> attributes_ in
          Ok (var_name_, long_name_, units_,
              set_var_type attributes_ "prediction_output_misc")
        else if (pred_type =? "residual")%string then
          let! var_name_ := iadd var_name_ suffix in
          let! long_name_ := iadd long_name_ " (residual)" in
          let attributes_ :=
            <[ "residual" := PyStr "predicted minus true values" ]>
              attributes_ in
          Ok (var_name_, long_name_, units_,
              set_var_type attributes_ "prediction_residual")
        else
          Ok (var_name_, long_name_, units_,
              set_var_type attributes_ "prediction_output_misc")
    end in
  Ok {| standard_name := standard_name cube;
        long_name := long_name_;
        var_name := var_name_;
        units := units_;
        attributes := attributes_;
        cell_methods := cell_methods cube |}.

End Metadata.

Arguments standard_name {M} _.
Arguments long_name {M} _.
Arguments var_name {M} _.
Arguments units {M} _.
Arguments attributes {M} _.
Arguments cell_methods {M} _.
Arguments _pred_type_to_metadata {M} _ _ _ _ _ _ _.

End MLRPredictionCube.

(** ** esmvaltool/diag_scripts/mlr/models/__init__.py: broadcasting *)

Module MLRBroadcast.

(** An index into an axis of length [n] as numpy reads it: a negative index
    counts from the end, an index out of bounds is an IndexError. *)
Definition normalize_index (n : nat) (i : Z) : result nat :=
  if (i <? - Z.of_nat n)%Z || (Z.of_nat n <=? i)%Z then Raise IndexError
  else Ok (Z.to_nat (if (i <? 0)%Z then i + Z.of_nat n else i)).

(** [np.delete(np.arange(n), obj)] for a list of indices [obj]: the
    positions that are not listed. *)
Definition delete_arange (n : nat) (obj : list Z) : result (list nat) :=
  let! removed := map_result (normalize_index n) obj in
  Ok (filter (fun k => k ∉ removed) (seq 0 n)).

(** [np.expand_dims(a, axis)] on the shape of [a]: an axis of length 1 is
    put at position [axis], which is at most the number of dimensions. *)
Definition expand_dims (shape : list nat) (axis : nat) : result (list nat) :=
  if (axis <=? length shape)%nat
  then Ok (take axis shape ++ [1%nat] ++ drop axis shape)
  else Raise IndexError.

(** The loop [for idx in new_axis_pos] that expands the data. *)
Fixpoint expand_loop (shape : list nat) (new_axis_pos : list nat)
    : result (list nat) :=
  match new_axis_pos with
  | [] => Ok shape
  | idx :: rest =>
      let! shape := expand_dims shape idx in
      expand_loop shape rest
  end.

(** [np.broadcast_to(a, target_shape)] on the shape of [a]: read from the
    last axis, every axis of [a] has the length of the target or the
    length 1. *)
Definition broadcast_to (shape target_shape : list nat) : result (list nat) :=
  if (length shape <=? length target_shape)%nat &&
     forallb (fun st : nat * nat => (st.1 =? st.2)%nat || (st.1 =? 1)%nat)
       (zip (reverse shape) (reverse target_shape))
  then Ok target_shape
  else Raise ValueError.

(** The shape of the data in [MLRModel._get_broadcasted_cube(self, dataset,
    ref_cube, text=None)]: [target_shape] is [ref_cube.shape], [data_shape]
    the shape of the data of the cube loaded and [broadcast_from] is
    [dataset['broadcast_from']].  [MLRModel._get_coordinate_data] expands the
    points of a coordinate in the same way, with the dimensions of the
    coordinate as [broadcast_from]. *)
Definition broadcasted_shape (target_shape data_shape : list nat)
    (broadcast_from : list Z) : result (list nat) :=
  let! new_axis_pos := delete_arange (length target_shape) broadcast_from in
  let! data_shape := expand_loop data_shape new_axis_pos in
  broadcast_to data_shape target_shape.

(** The lengths of the axes [axes] of a shape, in the order of the axes of
    the shape. *)
Definition lengths_at (shape : list nat) (axes : list nat) : list nat :=
  map (fun k => nth k shape 0%nat)
    (filter (fun k => k ∈ axes) (seq 0 (length shape))).

(** A coordinate of a cube: the metadata by which iris tells coordinates
    apart (names, units, attributes, coordinate system), the dimensions of
    the cube that it spans, whether it is a dimension coordinate, and its
    points with their shape. *)
Record coord : Type := {
  metadata : string;
  dims : list nat;
  dim_coord : bool;
  points_shape : list nat;
  points : list Q
}.

(** Of a cube, the shape of the data and the coordinates.  The data are
    floating-point numbers, which np.nan can fill. *)
Record cube : Type := {
  shape : list nat;
  coords : list coord
}.

(** [cube.coord(dimensions=idx)]: the one coordinate whose dimensions are
    exactly [(idx,)], with its position among the coordinates;
    CoordinateNotFoundError when there is none or more than one.  The
    dimensions of a coordinate are never negative. *)
Definition coord_by_dimensions (c : cube) (idx : Z) : result (nat * coord) :=
  match filter (fun p : nat * coord => map Z.of_nat (dims p.2) = [idx])
          (zip (seq 0 (length (coords c))) (coords c)) with
  | [p] => Ok p
  | _ => Raise CoordinateNotFoundError
  end.

(** [cube.coord(coord)]: the one coordinate with the metadata of [coord]. *)
Definition coord_like (c : cube) (co : coord) : result coord :=
  match filter (fun co' => metadata co' = metadata co) (coords c) with
  | [found] => Ok found
  | _ => Raise CoordinateNotFoundError
  end.

Definition Qltb (a b : Q) : bool := negb (Qle_bool b a).

(** What iris asks of the points of a dimension coordinate: strictly
    increasing or strictly decreasing. *)
Definition strictly_monotonic (pts : list Q) : bool :=
  forallb (fun ab : Q * Q => Qltb ab.1 ab.2) (zip pts (tail pts)) ||
  forallb (fun ab : Q * Q => Qltb ab.2 ab.1) (zip pts (tail pts)).

(** [coord.points = pts] for points of shape [shp]: ValueError when the
    shape is not the one of the points that the coordinate has, and for a
    dimension coordinate when the points are not strictly monotonic. *)
Definition set_points (co : coord) (shp : list nat) (pts : list Q)
    : result coord :=
  if negb (bool_decide (shp = points_shape co)) then Raise ValueError
  else if dim_coord co && negb (strictly_monotonic pts) then Raise ValueError
  else Ok {| metadata := metadata co; dims := dims co;
             dim_coord := dim_coord co; points_shape := points_shape co;
             points := pts |}.

(** The loop [for idx in dataset['broadcast_from']] that takes the points
    of the coordinates from the cube loaded; the coordinate changed is the
    one of [new_cube]. *)
Fixpoint coord_loop (new_cube cube_to_broadcast : cube)
    (broadcast_from : list Z) : result cube :=
  match broadcast_from with
  | [] => Ok new_cube
  | idx :: rest =>
      let! found := coord_by_dimensions new_cube idx in
      let! source := coord_like cube_to_broadcast found.2 in
      let! new_coord :=
        set_points found.2 (points_shape source) (points source) in
      coord_loop
        {| shape := shape new_cube;
           coords := <[found.1 := new_coord]> (coords new_cube) |}
        cube_to_broadcast rest
  end.

(** [MLRModel._get_broadcasted_cube(self, dataset, ref_cube, text=None)],
    with [dataset['broadcast_from']] a list of integers and
    [cube_to_broadcast] the cube that [self._load_cube(dataset)] gives.
    The copy of the reference cube gets the broadcast data, whose shape is
    the one of the reference cube. *)
Definition _get_broadcasted_cube (broadcast_from : list Z)
    (ref_cube cube_to_broadcast : cube) : result cube :=
  let target_shape := shape ref_cube in
  let! data_shape :=
    broadcasted_shape target_shape (shape cube_to_broadcast) broadcast_from in
  let new_cube := {| shape := data_shape; coords := coords ref_cube |} in
  coord_loop new_cube cube_to_broadcast broadcast_from.

End MLRBroadcast.

(** ** esmvaltool/diag_scripts/mlr/models/__init__.py: names of features *)

Module MLRFeatureNames.

(** [range(n)] for an integer [n]: empty when [n] is not positive. *)
Definition range (n : Z) : list Z := map Z.of_nat (seq 0 (Z.to_nat n)).

(** The property [MLRModel.features_after_preprocessing] from the
    transformed training data on: [named_steps] are the names of the steps
    of [self._clf], [x_trans_columns] is [x_trans.shape[1]], and [features]
    and [categorical_features] are the properties of these names. *)
Definition features_after_preprocessing (named_steps : list string)
    (x_trans_columns : nat) (features categorical_features : list string)
    : list string :=
  if bool_decide ("pca" ∈ named_steps) then
    let n_numerical_features :=
      (Z.of_nat x_trans_columns - Z.of_nat (length categorical_features))%Z in
    let features :=
      map (fun idx => "Principal component " +:+ UnitsPower.str_int idx)
        (range n_numerical_features) in
    features ++ categorical_features
  else
    if negb (x_trans_columns =? length features)%nat then
      map (fun idx => "Unknown feature " +:+ UnitsPower.str_int idx)
        (range (Z.of_nat x_trans_columns))
    else features.

End MLRFeatureNames.

(** * Properties *)

(** ** Dataset checks of the MLR model *)

Section CheckCubeDimensionsFacts.

Import MLRChecks.
Variable allclose : list Q -> list Q -> bool.

(** [_check_cube_dimensions] raises in exactly two situations, and then it
    is a ValueError. *)
Lemma check_cube_dimensions_raise_iff c cb ref e :
  raises (_check_cube_dimensions allclose c cb ref) e <->
  e = ValueError /\
  ((accept_only_scalar_data c = true /\ shape cb <> [] /\
    shape cb <> [1%nat]) \/
   (accept_only_scalar_data c = false /\
    exists rc, ref = Some rc /\ shape cb <> shape rc)).
Proof.
  unfold raises, _check_cube_dimensions.
  destruct (accept_only_scalar_data c).
  - case_bool_decide as Hin; simpl.
    + split; [done|]. intros [_ [(_ & H0 & H1)|[? _]]]; [|done].
      apply elem_of_cons in Hin as [?|Hin]; [done|].
      apply elem_of_cons in Hin as [?|Hin]; [done|].
      by apply elem_of_nil in Hin.
    + split.
      * intros [= <-]. split; [done|]. left. repeat split; try done.
        all: intros Heq; apply Hin; rewrite Heq; set_solver.
      * by intros [-> _].
  - destruct ref as [rc|].
    + case_bool_decide as Hs.
      * split; [|by intros [-> _]].
        intros [= <-]. split; [done|]. right. eauto.
      * split; [by case_bool_decide|].
        intros [_ [[? _]|(_ & rc' & [= <-] & Hne)]]; [done|].
        by destruct Hs.
    + split; [done|]. intros [_ [[? _]|(_ & rc' & ? & _)]]; done.
Qed.

End CheckCubeDimensionsFacts.

(** C6: with [accept_only_scalar_data] set, a cube whose shape is neither ()
    nor (1,) makes [_check_cube_dimensions] raise ValueError; without it and
    with a reference cube, a cube whose shape differs from the reference
    shape raises ValueError and a cube of the reference shape never raises
    (it returns, possibly after logging warnings). *)
Theorem check_cube_dimensions_spec
    (allclose : list Q -> list Q -> bool)
    (c : MLRChecks.cfg) (cb rc : MLRChecks.cube) :
  (MLRChecks.accept_only_scalar_data c = true ->
   MLRChecks.shape cb <> [] -> MLRChecks.shape cb <> [1%nat] ->
   forall ref, raises (MLRChecks._check_cube_dimensions allclose c cb ref)
                 ValueError)
  /\
  (MLRChecks.accept_only_scalar_data c = false ->
   MLRChecks.shape cb <> MLRChecks.shape rc ->
   raises (MLRChecks._check_cube_dimensions allclose c cb (Some rc))
     ValueError)
  /\
  (MLRChecks.accept_only_scalar_data c = false ->
   MLRChecks.shape cb = MLRChecks.shape rc ->
   returns (MLRChecks._check_cube_dimensions allclose c cb (Some rc)) /\
   forall e, ~ raises (MLRChecks._check_cube_dimensions allclose c cb
                         (Some rc)) e).
Proof.
  repeat split.
  - intros Ha H0 H1 ref. apply check_cube_dimensions_raise_iff. eauto 6.
  - intros Ha Hne. apply check_cube_dimensions_raise_iff. eauto 8.
  - destruct (MLRChecks._check_cube_dimensions allclose c cb (Some rc))
      as [w|e] eqn:E; [by eexists|].
    apply (check_cube_dimensions_raise_iff allclose) in E
      as [_ [[? _]|(_ & rc' & [= <-] & Hne)]]; congruence.
  - intros e He%check_cube_dimensions_raise_iff.
    destruct He as [_ [[? _]|(_ & rc' & [= <-] & Hne)]]; congruence.
Qed.

Lemma check_cube_dimensions_spec_witness :
  let close := fun _ _ : list Q => true in
  let scalar_only := {| MLRChecks.accept_only_scalar_data := true;
                        MLRChecks.allow_missing_features := false |} in
  let any_shape := {| MLRChecks.accept_only_scalar_data := false;
                      MLRChecks.allow_missing_features := false |} in
  let grid := {| MLRChecks.shape := [2; 3]%nat; MLRChecks.dim_coords := [] |} in
  let line := {| MLRChecks.shape := [3]%nat; MLRChecks.dim_coords := [] |} in
  raises (MLRChecks._check_cube_dimensions close scalar_only grid None)
    ValueError /\
  raises (MLRChecks._check_cube_dimensions close any_shape grid (Some line))
    ValueError /\
  returns (MLRChecks._check_cube_dimensions close any_shape grid (Some grid)).
Proof.
  intros close scalar_only any_shape grid line.
  split; [|split].
  - apply (proj1 (check_cube_dimensions_spec close scalar_only grid grid));
      [reflexivity | discriminate | discriminate].
  - apply (proj1 (proj2 (check_cube_dimensions_spec close any_shape grid line)));
      [reflexivity | discriminate].
  - apply (proj2 (proj2 (check_cube_dimensions_spec close any_shape grid grid)));
      reflexivity.
Defined.

Section CheckDatasetFacts.

Import MLRChecks.
Context {U : Type}.
Variable Unit : string -> result U.
Variable unit_ne : U -> U -> bool.

Lemma check_dataset_not_unique c m datasets vt tg :
  (1 < length (select_metadata datasets tg vt))%nat ->
  _check_dataset U Unit unit_ne c m datasets vt tg = Raise ValueError.
Proof.
  unfold _check_dataset. intros Hlen.
  destruct (select_metadata datasets tg vt) as [|d0 rest] eqn:E.
  - simpl in Hlen. lia.
  - apply Nat.ltb_lt in Hlen. by rewrite Hlen.
Qed.

Lemma check_dataset_wrong_units c m datasets vt tg d0 expected found :
  select_metadata datasets tg vt = [d0] ->
  expected_units U m vt tg = Ok expected ->
  Unit (units d0) = Ok found ->
  unit_ne expected found = true ->
  _check_dataset U Unit unit_ne c m datasets vt tg = Raise ValueError.
Proof.
  unfold _check_dataset. intros -> -> Hf Hne. simpl.
  by rewrite Hf; simpl; rewrite Hne.
Qed.

Lemma check_dataset_missing_label c m datasets tg :
  select_metadata datasets tg "label" = [] ->
  _check_dataset U Unit unit_ne c m datasets "label" tg = Raise ValueError.
Proof. unfold _check_dataset. by intros ->. Qed.

Lemma check_dataset_missing_feature c m datasets tg :
  select_metadata datasets tg "feature" = [] ->
  _check_dataset U Unit unit_ne c m datasets "feature" tg =
    if allow_missing_features c then Ok None else Raise ValueError.
Proof.
  unfold _check_dataset. intros ->. simpl.
  by destruct (allow_missing_features c).
Qed.

End CheckDatasetFacts.

(** X25: the errors of [_check_dataset] for the datasets of a group
    matching [(var_type, tag)].  It raises ValueError when more than one
    dataset matches; when exactly one matches, units are expected for the
    tag and the units it declares differ from them; and when no 'label'
    dataset matches.  When no 'feature' dataset matches it raises ValueError
    exactly when [allow_missing_features] is not set, and returns None
    otherwise.  When exactly one dataset matches for another type than
    'label' and a tag that is not a feature, it raises KeyError, whatever
    the units are. *)
Theorem check_dataset_errors_spec {U : Type}
    (Unit : string -> result U) (unit_ne : U -> U -> bool)
    (c : MLRChecks.cfg) (m : MLRChecks.units_table U)
    (datasets : list MLRChecks.dataset) (vt tg : string) :
  let check := MLRChecks._check_dataset U Unit unit_ne c m datasets in
  ((1 < length (MLRChecks.select_metadata datasets tg vt))%nat ->
   raises (check vt tg) ValueError)
  /\
  (forall d0 expected found,
     MLRChecks.select_metadata datasets tg vt = [d0] ->
     MLRChecks.expected_units U m vt tg = Ok expected ->
     Unit (MLRChecks.units d0) = Ok found ->
     unit_ne expected found = true ->
     raises (check vt tg) ValueError)
  /\
  (MLRChecks.select_metadata datasets tg "label" = [] ->
   raises (check "label" tg) ValueError)
  /\
  (MLRChecks.select_metadata datasets tg "feature" = [] ->
   (raises (check "feature" tg) ValueError <->
    MLRChecks.allow_missing_features c = false) /\
   (MLRChecks.allow_missing_features c = true ->
    check "feature" tg = Ok None))
  /\
  (forall d0,
     MLRChecks.select_metadata datasets tg vt = [d0] ->
     vt <> "label" ->
     MLRChecks.features_units m !! tg = None ->
     raises (check vt tg) KeyError).
Proof.
  intros check. unfold raises, check.
  split; [|split; [|split; [|split]]].
  - apply check_dataset_not_unique.
  - intros d0 expected found. apply check_dataset_wrong_units.
  - apply check_dataset_missing_label.
  - intros Hnone. rewrite check_dataset_missing_feature by done.
    destruct (MLRChecks.allow_missing_features c); by repeat split.
  - intros d0 Hsel Hvt Htg.
    unfold MLRChecks._check_dataset, MLRChecks.expected_units.
    rewrite Hsel. simpl.
    apply String.eqb_neq in Hvt. by rewrite Hvt, Htg.
Qed.

Lemma check_dataset_errors_spec_witness :
  let Unit := fun s : string => Ok s in
  let unit_ne := fun a b : string => negb (a =? b)%string in
  let strict := {| MLRChecks.accept_only_scalar_data := false;
                   MLRChecks.allow_missing_features := false |} in
  let m := {| MLRChecks.label_units := "K";
              MLRChecks.features_units := {["tas" := "K"]} |} in
  let tas1 := {| MLRChecks.filename := "a.nc"; MLRChecks.tag := "tas";
                 MLRChecks.var_type := "feature"; MLRChecks.units := "K" |} in
  let tas2 := {| MLRChecks.filename := "b.nc"; MLRChecks.tag := "tas";
                 MLRChecks.var_type := "feature";
                 MLRChecks.units := "degC" |} in
  let ref := {| MLRChecks.filename := "c.nc"; MLRChecks.tag := "gpp";
                MLRChecks.var_type := "prediction_reference";
                MLRChecks.units := "K" |} in
  raises (MLRChecks._check_dataset string Unit unit_ne strict m [tas1; tas2]
            "feature" "tas") ValueError /\
  raises (MLRChecks._check_dataset string Unit unit_ne strict m [tas2]
            "feature" "tas") ValueError /\
  raises (MLRChecks._check_dataset string Unit unit_ne strict m [tas1]
            "label" "tas") ValueError /\
  raises (MLRChecks._check_dataset string Unit unit_ne strict m []
            "feature" "tas") ValueError /\
  raises (MLRChecks._check_dataset string Unit unit_ne strict m [ref]
            "prediction_reference" "gpp") KeyError.
Proof.
  intros Unit unit_ne strict m tas1 tas2 ref.
  split; [|split; [|split; [|split]]].
  - apply (proj1 (check_dataset_errors_spec Unit unit_ne strict m
                    [tas1; tas2] "feature" "tas")).
    vm_compute. lia.
  - apply (proj1 (proj2 (check_dataset_errors_spec Unit unit_ne strict m
                           [tas2] "feature" "tas")) tas2 "K" "degC");
      reflexivity.
  - apply (proj1 (proj2 (proj2 (check_dataset_errors_spec Unit unit_ne
                                  strict m [tas1] "feature" "tas")))).
    reflexivity.
  - apply (proj1 (proj2 (proj2 (proj2 (check_dataset_errors_spec Unit
                                         unit_ne strict m [] "feature"
                                         "tas"))))); reflexivity.
  - apply (proj2 (proj2 (proj2 (proj2 (check_dataset_errors_spec Unit
                                         unit_ne strict m [ref]
                                         "prediction_reference" "gpp"))))
             ref).
    + reflexivity.
    + discriminate.
    + reflexivity.
Defined.

(** C5: for ('prediction_reference', tag of the label), as
    [_extract_y_data] calls it, [_check_dataset] does not compare the units
    of the one matching dataset with the units of the label: it looks the
    tag up among the units of the features and raises KeyError, whether the
    units of the dataset are those of the label or differ from them. *)
Theorem check_dataset_prediction_reference_key_error :
  let Unit := fun s : string => Ok s in
  let unit_ne := fun a b : string => negb (a =? b)%string in
  let c := {| MLRChecks.accept_only_scalar_data := false;
              MLRChecks.allow_missing_features := false |} in
  let m := {| MLRChecks.label_units := "kg m-2 s-1";
              MLRChecks.features_units :=
                {["tas" := "K"; "pr" := "kg m-2 s-1"]} |} in
  let ref := fun units_ =>
    {| MLRChecks.filename := "gpp_ref.nc"; MLRChecks.tag := "gpp";
       MLRChecks.var_type := "prediction_reference";
       MLRChecks.units := units_ |} in
  MLRChecks._check_dataset string Unit unit_ne c m [ref "kg m-2 s-1"]
    "prediction_reference" "gpp" = Raise KeyError /\
  MLRChecks._check_dataset string Unit unit_ne c m [ref "g m-2 s-1"]
    "prediction_reference" "gpp" = Raise KeyError.
Proof.
  intros Unit unit_ne c m ref. split; reflexivity.
Qed.

(** ** Pipeline construction of the MLR model *)

Section PipelineFacts.

Import MLRPipeline.
Context {params value : Type}.

Lemma first_index_found tags tg :
  tg ∈ tags -> exists i, first_index tags tg = Ok i /\ tags !! i = Some tg.
Proof.
  induction tags as [|t tags IH]; intros Hin.
  - by apply elem_of_nil in Hin.
  - simpl. destruct (String.eqb_spec t tg) as [->|Hne].
    + by exists 0%nat.
    + apply elem_of_cons in Hin as [?|Hin]; [congruence|].
      destruct (IH Hin) as (i & -> & Hi). by exists (S i).
Qed.

Lemma indices_of_found tags wanted :
  wanted ⊆ tags ->
  exists idx, indices_of tags wanted = Ok idx /\
              Forall2 (fun i tg => tags !! i = Some tg) idx wanted.
Proof.
  induction wanted as [|tg wanted IH]; intros Hsub.
  - by exists [].
  - destruct (first_index_found tags tg) as (i & Hi & Hl); [set_solver|].
    destruct IH as (idx & Hidx & Hall); [set_solver|].
    exists (i :: idx). simpl. rewrite Hi, Hidx. simpl.
    by split; [|constructor].
Qed.

Lemma numerical_features_subseteq (fs : list feature) :
  numerical_features fs ⊆ features fs.
Proof.
  unfold numerical_features, features. intros tg Hin.
  apply list_elem_of_fmap in Hin as (f & -> & Hf).
  apply list_elem_of_filter in Hf as [_ Hf].
  apply list_elem_of_fmap. eauto.
Qed.

Lemma drop_masked_filter {A : Type} (e : exn) (P : A -> bool) (rows : list A) :
  drop_masked e rows (map P rows) = Ok (filter (fun r => P r = false) rows).
Proof.
  induction rows as [|r rows IH]; [done|].
  simpl. rewrite IH. simpl. rewrite filter_cons.
  destruct (P r); by case_decide.
Qed.

Lemma drop_masked_zip {A : Type} (e : exn) (rows : list A) (mask : list bool) :
  length rows = length mask ->
  drop_masked e rows mask =
    Ok (map fst (filter (fun rm => snd rm = false) (zip rows mask))).
Proof.
  revert mask. induction rows as [|r rows IH]; intros [|m mask] Hlen;
    try done.
  simpl. rewrite IH by (simpl in Hlen; lia). simpl. rewrite filter_cons.
  destruct m; by case_decide.
Qed.

Lemma isnull_any_has_missing (x_data : list (list (option value))) :
  isnull_any x_data = map has_missing x_data.
Proof.
  unfold isnull_any, has_missing. apply map_ext. intros row.
  induction row as [|[v|] row IH]; simpl; [done| |done].
  by rewrite IH.
Qed.

End PipelineFacts.

Section RemoveMissingFacts.

Import MLRPipeline.
Context {value : Type}.

Lemma drop_masked_labels (e : exn) (x_data : list (list (option value)))
    (y_data : list (option value)) :
  length y_data = length x_data ->
  drop_masked e y_data (map has_missing x_data) =
    Ok (map snd (filter (fun xy => has_missing (fst xy) = false)
                   (zip x_data y_data))).
Proof.
  revert y_data. induction x_data as [|x xs IH]; intros [|y ys] Hlen;
    try done.
  simpl. rewrite IH by (simpl in Hlen; lia). simpl. rewrite filter_cons. simpl.
  destruct (has_missing x); by case_decide.
Qed.

Lemma remove_missing_features_remove c groups
    (x_data : list (list (option value))) (y_data : list (option value)) :
  imputation_strategy c = "remove" ->
  length y_data = length x_data ->
  (accept_only_scalar_data c = true -> length groups = length x_data) ->
  exists groups',
    _remove_missing_features c groups x_data y_data =
      Ok (filter (fun r => has_missing r = false) x_data,
          map snd (filter (fun xy => has_missing (fst xy) = false)
                     (zip x_data y_data)),
          groups').
Proof.
  intros Hs Hy Hg. unfold _remove_missing_features. rewrite Hs. simpl.
  rewrite isnull_any_has_missing, drop_masked_filter, drop_masked_labels
    by done.
  simpl. destruct (negb _); [|by eexists].
  destruct (accept_only_scalar_data c); [|by eexists].
  rewrite drop_masked_zip by (rewrite length_map; auto). by eexists.
Qed.

Lemma remove_missing_features_keep c groups
    (x_data : list (list (option value))) (y_data : list (option value)) :
  imputation_strategy c <> "remove" ->
  _remove_missing_features c groups x_data y_data =
    Ok (x_data, y_data, groups).
Proof.
  intros Hs. unfold _remove_missing_features.
  by destruct (String.eqb_spec (imputation_strategy c) "remove").
Qed.

End RemoveMissingFacts.

Section CreatePipelineFacts.

Import MLRPipeline.
Context {params : Type}.

Lemma create_pipeline_steps cls c (fs : list feature) (iv fp : params) :
  exists idx p,
    _create_pipeline (Some cls) c fs iv fp = Ok (Some p) /\
    Forall2 (fun i tg => features fs !! i = Some tg) idx
      (numerical_features fs) /\
    steps p = spec_steps cls c idx iv fp.
Proof.
  destruct (indices_of_found (features fs) (numerical_features fs))
    as (idx & Hidx & Hall); [apply numerical_features_subseteq|].
  exists idx. eexists. unfold _create_pipeline. rewrite Hidx. simpl.
  split; [reflexivity|]. split; [done|]. simpl.
  unfold spec_steps, append.
  destruct (String.eqb_spec (imputation_strategy c) "remove") as [He|He];
    [rewrite bool_decide_eq_true_2 by done
    |rewrite bool_decide_eq_false_2 by done];
    destruct (standardize_data c), (pca c); reflexivity.
Qed.

Lemma spec_steps_imputer cls c idx (iv fp : params) :
  (exists e, ("imputer", e) ∈ spec_steps cls c idx iv fp) <->
  imputation_strategy c <> "remove".
Proof.
  unfold spec_steps. split.
  - intros [e He]. case_bool_decide as Hs; [|done].
    exfalso. destruct (standardize_data c), (pca c); simpl in He;
      repeat (apply elem_of_cons in He as [He|He]; [discriminate He|]);
      by apply elem_of_nil in He.
  - intros Hs. rewrite bool_decide_eq_false_2 by done.
    eexists. simpl. apply list_elem_of_further, list_elem_of_here.
Qed.

Lemma spec_steps_sklearn cls c idx (iv fp : params) :
  Forall (fun st => fst (estimator_class (snd st)) = sklearn)
    (spec_steps cls c idx iv fp).
Proof.
  unfold spec_steps.
  repeat (apply Forall_app; split);
    repeat match goal with |- context [if ?b then _ else _] => destruct b end;
    repeat constructor.
Qed.

End CreatePipelineFacts.



(** ** Prediction keywords [return_var] and [return_cov] *)

Section PredictFacts.

Import MLRPredict.
Context {ndarray : Type}.
Variables (ndim shape1 : ndarray -> nat).
Variables (reshape_column squeeze1 squared : ndarray -> ndarray).
Variable times : ndarray -> ndarray -> ndarray.
Variable regressor_predict : ndarray -> gmap string pyval -> result ndarray.
Variables regressor_predict_std regressor_predict_cov :
  ndarray -> gmap string pyval -> result (ndarray * ndarray).

Let predict_ :=
  predict ndim shape1 reshape_column squeeze1 times squared
    regressor_predict regressor_predict_std regressor_predict_cov.

(** With both keywords set, only the call with [return_std=True] is made and
    its standard deviation is squared; the result is multiplied with the
    squared scale of the target transformer if it has one. *)
Lemma predict_var_and_cov self x_data always_return_1d kwargs
    return_var return_cov pred pred' std :
  fitted self = true ->
  kwargs !! "return_var" = Some return_var -> truthy return_var = true ->
  kwargs !! "return_cov" = Some return_cov -> truthy return_cov = true ->
  let rest := delete "return_cov" (delete "return_var" kwargs) in
  rest !! "return_std" = None ->
  regressor_predict x_data rest = Ok pred ->
  regressor_predict_std x_data rest = Ok (pred', std) ->
  predict_ self x_data always_return_1d kwargs =
    Ok (PredictionWithError
          (transformed_prediction ndim shape1 reshape_column squeeze1
             self always_return_1d pred)
          (match scale_ self with
           | Some sc => times (times std std) (squared sc)
           | None => times std std
           end)).
Proof.
  intros Hfit Hv Htv Hc Htc rest Hstd Hpred Hpstd.
  unfold predict_, predict, pop. rewrite Hfit, Hv. simpl.
  rewrite lookup_delete_ne, Hc by done. rewrite Htv, Htc. simpl.
  fold rest. rewrite Hpred. simpl.
  unfold call_with. rewrite Hstd, Hpstd. simpl.
  unfold transformed_prediction.
  destruct (ndim pred =? 1)%nat, always_return_1d; simpl;
    repeat match goal with
      | |- context [(?a =? ?b)%nat] => destruct (a =? b)%nat; simpl
      end;
    by destruct (scale_ self).
Qed.

End PredictFacts.

Section PredictCallsFacts.

Import MLRPredict.

Lemma predict_calls_names cfg_kwargs kwargs names :
  map fst (predict_calls true cfg_kwargs kwargs names) = names.
Proof.
  unfold predict_calls. simpl. rewrite map_map. simpl. apply map_id.
Qed.

Lemma predict_calls_drop_cov is_fitted cfg_kwargs kwargs names name kw :
  (name, kw) ∈ predict_calls is_fitted cfg_kwargs kwargs names ->
  is_Some (update cfg_kwargs kwargs !! "return_var") ->
  is_Some (update cfg_kwargs kwargs !! "return_cov") ->
  kw = delete "return_cov" (update cfg_kwargs kwargs).
Proof.
  unfold predict_calls. destruct is_fitted; simpl.
  - intros Hin Hv Hc. apply list_elem_of_fmap in Hin as (n & [= _ ->] & _).
    by rewrite !bool_decide_eq_true_2.
  - by intros ?%elem_of_nil.
Qed.

End PredictCallsFacts.

(** C10 (amended): when [predict] of the transformed-target regressor is
    called on a fitted regressor with [return_var] and [return_cov] both true,
    the covariance is not asked for: for every covariance method, the result
    is the prediction together with the squared standard deviation, multiplied
    with the square of the scale of the target transformer when that scale is
    not None and left as it is otherwise.  Every call that [MLRModel.predict]
    makes to [_get_prediction_dict] has the merged keywords without
    'return_cov' whenever both keywords are present in them. *)
Theorem predict_return_var_spec {ndarray : Type}
    (ndim shape1 : ndarray -> nat)
    (reshape_column squeeze1 squared : ndarray -> ndarray)
    (times : ndarray -> ndarray -> ndarray)
    (regressor_predict :
       ndarray -> gmap string MLRPredict.pyval -> result ndarray)
    (regressor_predict_std regressor_predict_cov :
       ndarray -> gmap string MLRPredict.pyval -> result (ndarray * ndarray))
    (self : MLRPredict.regressor_state ndarray) (x_data : ndarray)
    (always_return_1d : bool) (kwargs : gmap string MLRPredict.pyval)
    (return_var return_cov : MLRPredict.pyval) (pred pred' std : ndarray)
    (is_fitted : bool) (cfg_kwargs call_kwargs : gmap string MLRPredict.pyval)
    (names : list string) :
  (MLRPredict.fitted self = true ->
   kwargs !! "return_var" = Some return_var ->
   MLRPredict.truthy return_var = true ->
   kwargs !! "return_cov" = Some return_cov ->
   MLRPredict.truthy return_cov = true ->
   let rest := delete "return_cov" (delete "return_var" kwargs) in
   rest !! "return_std" = None ->
   regressor_predict x_data rest = Ok pred ->
   regressor_predict_std x_data rest = Ok (pred', std) ->
   MLRPredict.predict ndim shape1 reshape_column squeeze1 times squared
     regressor_predict regressor_predict_std regressor_predict_cov
     self x_data always_return_1d kwargs =
   Ok (MLRPredict.PredictionWithError
         (MLRPredict.transformed_prediction ndim shape1 reshape_column
            squeeze1 self always_return_1d pred)
         (match MLRPredict.scale_ self with
          | Some sc => times (times std std) (squared sc)
          | None => times std std
          end)))
  /\
  (let merged := MLRPredict.update cfg_kwargs call_kwargs in
   is_Some (merged !! "return_var") ->
   is_Some (merged !! "return_cov") ->
   forall name kw,
     (name, kw) ∈ MLRPredict.predict_calls is_fitted cfg_kwargs call_kwargs
                    names ->
     kw = delete "return_cov" merged /\
     kw !! "return_cov" = None /\
     kw !! "return_var" = merged !! "return_var").
Proof.
  split.
  - apply predict_var_and_cov.
  - intros merged Hv Hc name kw Hin.
    apply predict_calls_drop_cov in Hin; [|done..]. subst kw.
    split; [done|]. split.
    + apply lookup_delete_eq.
    + by apply lookup_delete_ne.
Qed.

Lemma predict_return_var_spec_witness :
  let both : gmap string MLRPredict.pyval :=
    {[ "return_var" := MLRPredict.PyBool true;
       "return_cov" := MLRPredict.PyBool true ]} in
  let self := {| MLRPredict.fitted := true;
                 MLRPredict.inverse_transform := fun y : Z => 2 * y;
                 MLRPredict.scale_ := Some 2;
                 MLRPredict._training_dim := 1 |} in
  MLRPredict.predict (fun _ => 1%nat) (fun _ => 1%nat) id id Z.mul
    (fun z => z * z)
    (fun x _ => Ok (x + 1)) (fun x _ => Ok (x + 1, 3))
    (fun x _ => Ok (x + 1, 100)) self 7 true both =
    Ok (MLRPredict.PredictionWithError 16 36) /\
  forall name kw,
    (name, kw) ∈ MLRPredict.predict_calls true both ∅ ["obs"] ->
    kw !! "return_cov" = None.
Proof.
  intros both self. split.
  - exact (proj1 (predict_return_var_spec (fun _ => 1%nat) (fun _ => 1%nat)
                    id id (fun z => z * z) Z.mul
                    (fun x _ => Ok (x + 1)) (fun x _ => Ok (x + 1, 3))
                    (fun x _ => Ok (x + 1, 100)) self 7 true both
                    (MLRPredict.PyBool true) (MLRPredict.PyBool true)
                    8 8 3 true both ∅ ["obs"])
             eq_refl eq_refl eq_refl eq_refl eq_refl eq_refl eq_refl eq_refl).
  - intros name kw Hin.
    apply (proj2 (predict_return_var_spec (fun _ => 1%nat) (fun _ => 1%nat)
                    id id (fun z => z * z) Z.mul
                    (fun x _ => Ok (x + 1)) (fun x _ => Ok (x + 1, 3))
                    (fun x _ => Ok (x + 1, 100)) self 7 true both
                    (MLRPredict.PyBool true) (MLRPredict.PyBool true)
                    8 8 3 true both ∅ ["obs"])
             ltac:(by eexists) ltac:(by eexists) name kw Hin).
Defined.

(** C10 as stated fails for a target transformer without scale (a
    [StandardScaler] built with [with_std=False], as [_create_pipeline] does
    when data are not standardized): the variance is returned unscaled. *)
Lemma predict_variance_unscaled_counterexample :
  let both : gmap string MLRPredict.pyval :=
    {[ "return_var" := MLRPredict.PyBool true;
       "return_cov" := MLRPredict.PyBool true ]} in
  let self := {| MLRPredict.fitted := true;
                 MLRPredict.inverse_transform := fun y : Z => y;
                 MLRPredict.scale_ := None;
                 MLRPredict._training_dim := 1 |} in
  let result_ :=
    MLRPredict.predict (fun _ => 1%nat) (fun _ => 1%nat) id id Z.mul
      (fun z => z * z)
      (fun x _ => Ok (x + 1)) (fun x _ => Ok (x + 1, 3))
      (fun x _ => Ok (x + 1, 100)) self 7 true both in
  result_ = Ok (MLRPredict.PredictionWithError 8 9) /\
  ~ (exists sc, MLRPredict.scale_ self = Some sc /\
                result_ = Ok (MLRPredict.PredictionWithError 8
                                (3 * 3 * (sc * sc)))).
Proof.
  intros both self result_. split.
  - reflexivity.
  - intros (sc & Hsc & _). discriminate Hsc.
Qed.

(** ** Propagation of prediction input errors *)

Lemma bind_Ok {A B : Type} (r : result A) (k : A -> result B) b :
  bind r k = Ok b -> exists a, r = Ok a /\ k a = Ok b.
Proof. destruct r as [a|e]; simpl; [eauto|done]. Qed.

Lemma map_result_Forall2 {A B : Type} (f : A -> result B) xs ys :
  map_result f xs = Ok ys -> Forall2 (fun x y => f x = Ok y) xs ys.
Proof.
  revert ys. induction xs as [|x xs IH]; simpl; intros ys Hm.
  - injection Hm as <-. constructor.
  - destruct (f x) as [y|] eqn:Hy; [|done]. simpl in Hm.
    destruct (map_result f xs) as [ys'|]; [|done]. simpl in Hm.
    injection Hm as <-. constructor; auto.
Qed.

Lemma np_binop_same_length {F : Type} (op : F -> F -> F) a b :
  length a = length b -> np_binop op a b = Ok (zip_with op a b).
Proof. intros Hl. unfold np_binop. by rewrite Hl, Nat.eqb_refl. Qed.

Section PropagateFacts.

Import MLRPredict MLRPropagate.
Context {F : Type} `{Arith F}.
Variables features categorical_features : list string.
Variable explain_instance : list F -> result (list (nat * F)).
Variable scaler_scale_ : list F.
Variable imputer : option (list (list F) -> list (list F)).
Variable clf_predict :
  list (list F) -> gmap string pyval -> result (prediction (list F)).
Variable _estimate_mlr_model_error : nat -> result (list F * string).
Variable _get_lime_feature_importance : list (list F) -> result (list F).

(** The loop adds to the running sum the terms of the entries that belong to
    non-categorical features, in the order of the entries. *)
Lemma propagated_error_loop_sum x_single_err local_exp acc r :
  propagated_error_loop features categorical_features
    (zip_with div (map nan_to_num x_single_err) scaler_scale_)
    local_exp acc = Ok r ->
  r = fold_left add
        (map (fun '(idx, coef) =>
                square (mul (div (nan_to_num
                                    (default zero (x_single_err !! idx)))
                               (default zero (scaler_scale_ !! idx)))
                          coef))
           (filter (fun '(idx, _) =>
                      default "" (features !! idx) ∉ categorical_features)
              local_exp))
        acc.
Proof.
  revert acc. induction local_exp as [|[idx coef] rest IH]; simpl; intros acc.
  - by intros [= <-].
  - unfold getitem at 1. destruct (features !! idx) as [f|] eqn:Hf; [|done].
    simpl. rewrite filter_cons. simpl. rewrite Hf. simpl.
    case_bool_decide as Hcat.
    + rewrite decide_False by (by intros ?). apply IH.
    + rewrite decide_True by done. unfold getitem.
      rewrite lookup_zip_with, list_lookup_fmap.
      destruct (x_single_err !! idx) as [e|] eqn:He; [|done]. simpl.
      destruct (scaler_scale_ !! idx) as [sc|] eqn:Hsc; [|done]. simpl.
      intros Hr. apply IH in Hr. rewrite Hr. simpl. by rewrite ?He, ?Hsc.
Qed.

Lemma propagated_error_spec x_single_pred x_single_err r :
  length x_single_err = length scaler_scale_ ->
  _propagated_error features categorical_features explain_instance
    scaler_scale_ x_single_pred x_single_err = Ok r ->
  exists local_exp,
    explain_instance x_single_pred = Ok local_exp /\
    r = spec_squared_error features categorical_features scaler_scale_
          x_single_err local_exp.
Proof.
  intros Hlen. unfold _propagated_error.
  destruct (explain_instance x_single_pred) as [local_exp|]; [|done]. simpl.
  rewrite np_binop_same_length by (by rewrite length_map). simpl.
  intros Hloop. exists local_exp. split; [done|].
  by apply propagated_error_loop_sum in Hloop.
Qed.

Lemma propagate_input_errors_points x_pred x_err arr :
  Forall (fun e => length e = length scaler_scale_) x_err ->
  _propagate_input_errors features categorical_features explain_instance
    scaler_scale_ imputer x_pred x_err = Ok arr ->
  length arr = length (zip (_impute_nans imputer x_pred) x_err) /\
  forall k p e,
    _impute_nans imputer x_pred !! k = Some p -> x_err !! k = Some e ->
    exists local_exp,
      explain_instance p = Ok local_exp /\
      arr !! k = Some (spec_squared_error features categorical_features
                         scaler_scale_ e local_exp).
Proof.
  intros Hlens Hm. unfold _propagate_input_errors in Hm.
  apply map_result_Forall2 in Hm. split.
  - symmetry. by eapply Forall2_length.
  - intros k p e Hp He.
    assert (zip (_impute_nans imputer x_pred) x_err !! k = Some (p, e)) as Hz.
    { apply lookup_zip_with_Some. eauto. }
    destruct (Forall2_lookup_l _ _ _ _ _ Hm Hz) as (r & Hr & Hpe).
    simpl in Hpe. apply propagated_error_spec in Hpe as (le & Hle & ->).
    + eauto.
    + eapply Forall_lookup_1 in Hlens; eauto.
Qed.

Lemma get_prediction_dict_propagated c x_pred x_err y_ref kwargs pred_dict :
  truthy (default (PyBool true) (propagate_input_errors c)) = true ->
  _get_prediction_dict features categorical_features explain_instance
    scaler_scale_ imputer clf_predict _estimate_mlr_model_error
    _get_lime_feature_importance c x_pred (Some x_err) y_ref kwargs =
    Ok pred_dict ->
  exists arr,
    pred_dict !! name "squared_propagated_input_error" = Some arr /\
    _propagate_input_errors features categorical_features explain_instance
      scaler_scale_ imputer x_pred x_err = Ok arr.
Proof.
  intros Hp. unfold _get_prediction_dict. rewrite Hp. intros Hd.
  apply bind_Ok in Hd as (y_preds & _ & Hd).
  apply bind_Ok in Hd as (d1 & _ & Hd).
  apply bind_Ok in Hd as (d2 & Hd2 & Hd).
  apply bind_Ok in Hd2 as (arr & Harr & [= <-]).
  exists arr. split; [|done].
  apply bind_Ok in Hd as (d3 & Hd3 & Hd).
  apply bind_Ok in Hd as (d4 & Hd4 & Hd).
  destruct (d4 !! None); [|done]. injection Hd as <-.
  assert (d3 !! name "squared_propagated_input_error" = Some arr) as H3.
  { destruct (return_lime_importance c).
    - apply bind_Ok in Hd3 as (lime & _ & [= <-]).
      by rewrite lookup_insert_ne, lookup_insert_eq.
    - injection Hd3 as <-. by rewrite lookup_insert_eq. }
  destruct y_ref as [y_ref|].
  - apply bind_Ok in Hd4 as (y_pred & _ & Hd4).
    apply bind_Ok in Hd4 as (residual & _ & [= <-]).
    by rewrite lookup_insert_ne.
  - by injection Hd4 as <-.
Qed.

End PropagateFacts.

(** C7: when prediction input errors are given and [propagate_input_errors]
    is enabled (it is by default), the prediction dictionary returned by
    [_get_prediction_dict] has under 'squared_propagated_input_error' an
    array with one value per prediction point, and the value of a point is
    the sum, over the entries of the local linear model of that point that
    belong to non-categorical features, of the square of the input error
    divided by the scaling factor of the explainer and multiplied with the
    coefficient. *)
Theorem propagated_input_error_spec {F : Type} `{Arith F}
    (features categorical_features : list string)
    (explain_instance : list F -> result (list (nat * F)))
    (scaler_scale_ : list F)
    (imputer : option (list (list F) -> list (list F)))
    (clf_predict :
       list (list F) -> gmap string MLRPredict.pyval ->
       result (MLRPredict.prediction (list F)))
    (_estimate_mlr_model_error : nat -> result (list F * string))
    (_get_lime_feature_importance : list (list F) -> result (list F))
    (c : MLRPropagate.cfg) (x_pred x_err : list (list F))
    (y_ref : option (list F)) (kwargs : gmap string MLRPredict.pyval)
    (pred_dict : gmap MLRPropagate.pred_type (list F)) :
  MLRPredict.truthy
    (default (MLRPredict.PyBool true) (MLRPropagate.propagate_input_errors c))
    = true ->
  Forall (fun e => length e = length scaler_scale_) x_err ->
  MLRPropagate._get_prediction_dict features categorical_features
    explain_instance scaler_scale_ imputer clf_predict
    _estimate_mlr_model_error _get_lime_feature_importance
    c x_pred (Some x_err) y_ref kwargs = Ok pred_dict ->
  exists arr,
    pred_dict !! MLRPropagate.name "squared_propagated_input_error"
      = Some arr /\
    length arr =
      length (zip (MLRPropagate._impute_nans imputer x_pred) x_err) /\
    forall k p e,
      MLRPropagate._impute_nans imputer x_pred !! k = Some p ->
      x_err !! k = Some e ->
      exists local_exp,
        explain_instance p = Ok local_exp /\
        arr !! k =
          Some (MLRPropagate.spec_squared_error features categorical_features
                  scaler_scale_ e local_exp).
Proof.
  intros Hp Hlens Hd.
  apply get_prediction_dict_propagated in Hd as (arr & Hlook & Harr); [|done].
  exists arr. split; [done|].
  by apply propagate_input_errors_points.
Qed.

Lemma propagated_input_error_spec_witness :
  let features := ["tas"; "pr"; "land"] in
  let categorical_features := ["land"] in
  let explain_instance := fun _ : list Z => Ok [(0%nat, 2); (2%nat, 5); (1%nat, 3)] in
  let scaler_scale_ := [1; 2; 1] in
  let clf_predict :=
    fun (x : list (list Z)) (_ : gmap string MLRPredict.pyval) =>
      Ok (MLRPredict.Prediction (map (fun _ => 0) x)) in
  let c := {| MLRPropagate.estimate_mlr_model_error := false;
              MLRPropagate.propagate_input_errors := None;
              MLRPropagate.return_lime_importance := false |} in
  let run :=
    MLRPropagate._get_prediction_dict features categorical_features
      explain_instance scaler_scale_ None clf_predict
      (fun _ => Raise ValueError) (fun _ => Raise ValueError)
      c [[1; 2; 3]] (Some [[4; 6; 9]]) None ∅ in
  exists pred_dict,
    run = Ok pred_dict /\
    pred_dict !! MLRPropagate.name "squared_propagated_input_error"
      = Some [145].
Proof.
  intros features categorical_features explain_instance scaler_scale_
    clf_predict c run.
  destruct run as [pred_dict|] eqn:Hrun; [|by vm_compute in Hrun].
  exists pred_dict. split; [done|].
  destruct (propagated_input_error_spec features categorical_features
              explain_instance scaler_scale_ None clf_predict
              (fun _ => Raise ValueError) (fun _ => Raise ValueError)
              c [[1; 2; 3]] [[4; 6; 9]] None ∅ pred_dict
              eq_refl ltac:(by repeat constructor) Hrun)
    as (arr & Hlook & Hlen & Hpts).
  rewrite Hlook. f_equal.
  destruct (Hpts 0%nat [1; 2; 3] [4; 6; 9] eq_refl eq_refl)
    as (local_exp & [= <-] & H0).
  destruct arr as [|v [|]]; try done.
  by injection H0 as ->.
Defined.

(** ** Derivation of gtfgco2 *)

Section BroadcastFacts0.

Import Gtfgco2.

Lemma chunks_concat {A : Type} (n size : nat) (l : list A) :
  length l = (n * size)%nat -> concat (chunks n size l) = l.
Proof.
  revert l. induction n as [|n IH]; intros l Hl; simpl.
  - by destruct l.
  - rewrite IH by (rewrite length_drop; lia). apply take_drop.
Qed.

Lemma chunks_lengths {A : Type} (n size : nat) (l : list A) :
  length l = (n * size)%nat ->
  Forall (fun piece => length piece = size) (chunks n size l).
Proof.
  revert l. induction n as [|n IH]; intros l Hl; simpl; constructor.
  - rewrite length_take. lia.
  - apply IH. rewrite length_drop. lia.
Qed.

Lemma broadcast_entries_same {A : Type} (shp : list nat) (l : list A) :
  length l = size_of shp -> broadcast_entries shp shp l = l.
Proof.
  revert l. induction shp as [|n shp IH]; intros l Hl; [done|].
  simpl in *. rewrite Nat.eqb_refl.
  rewrite <- (chunks_concat n (size_of shp) l) at 2 by done.
  f_equal. rewrite <- (map_id (chunks n (size_of shp) l)) at 2.
  apply Forall_fmap_ext_1.
  eapply Forall_impl; [by apply chunks_lengths|].
  intros piece Hp. by apply IH.
Qed.

Lemma broadcast_to_same {A : Type} (shp : list nat) (l : list A) :
  length l = size_of shp -> broadcast_to shp shp l = l.
Proof.
  intros Hl. unfold broadcast_to, pad. rewrite Nat.sub_diag. simpl.
  by apply broadcast_entries_same.
Qed.

Lemma broadcast_reversed_same (shp : list nat) :
  broadcast_reversed shp shp = Ok shp.
Proof.
  induction shp as [|n shp IH]; [done|].
  simpl. rewrite IH. simpl. by rewrite Nat.eqb_refl.
Qed.

Lemma broadcast_shapes_same (shp : list nat) :
  broadcast_shapes shp shp = Ok shp.
Proof.
  unfold broadcast_shapes. rewrite broadcast_reversed_same. simpl.
  by rewrite reverse_involutive.
Qed.

End BroadcastFacts0.

Section Gtfgco2Facts.

Import Gtfgco2.
Context {F : Type} `{Arith F} {U : Type}.
Variable unit_mul : U -> U -> result U.
Variable nan : F.

(** The only law of the arithmetic that is used: adding the zero that fills
    a masked entry changes nothing. *)
Hypothesis add_zero_r : forall x : F, add x zero = x.

(** The entry of [masked_where(slice.mask, slice * area)]. *)
Let flux_cell (c a : cell F) : cell F :=
  {| value := if masked c || masked a then value c
              else mul (value c) (value a);
     masked := masked c || masked a |}.

Let both_unmasked (p : cell F * cell F) : Prop :=
  masked p.1 = false /\ masked p.2 = false.

Lemma getmaskarray_length (a : ndarray F) :
  well_formed a -> length (getmaskarray a) = length (entries a).
Proof.
  intros [He Hm]. unfold getmaskarray.
  destruct (mask a) as [m|] eqn:Hmask.
  - by rewrite (Hm m), He.
  - by rewrite length_replicate.
Qed.

Lemma cells_length (a : ndarray F) :
  well_formed a -> length (cells a) = size_of (shape a).
Proof.
  intros Hwf. unfold cells.
  rewrite length_zip_with, getmaskarray_length by done.
  destruct Hwf as [He _]. lia.
Qed.

Lemma flux_cells (sv av : list F) (sm am : list bool) :
  length sm = length sv -> length av = length sv -> length am = length sv ->
  zip_with (fun v m => {| value := v; masked := m |})
    (zip_with (fun (xy : F * F) (k : bool) =>
                 if k then xy.1 else mul xy.1 xy.2)
       (zip sv av) (zip_with orb sm am))
    (zip_with orb sm (zip_with orb sm am)) =
  map (fun p => flux_cell p.1 p.2)
    (zip (zip_with (fun v m => {| value := v; masked := m |}) sv sm)
       (zip_with (fun v m => {| value := v; masked := m |}) av am)).
Proof.
  revert av sm am.
  induction sv as [|x sv IH]; intros [|y av] [|k sm] [|k' am] H1 H2 H3;
    try done.
  simpl in *. rewrite IH by lia. f_equal.
  unfold flux_cell. simpl. by destruct k, k'.
Qed.

Lemma unmasked_product (sv av : list F) (n : nat) :
  zip_with (fun (xy : F * F) (k : bool) => if k then xy.1 else mul xy.1 xy.2)
    (zip sv av) (zip_with orb (replicate n false) (replicate n false)) =
  take n (zip_with mul sv av).
Proof.
  revert sv av. induction n as [|n IH]; intros sv av.
  - simpl. by destruct (zip sv av).
  - destruct sv as [|x sv], av as [|y av]; try done. simpl. by rewrite IH.
Qed.

Lemma orb_replicate_false (n : nat) :
  zip_with orb (replicate n false) (replicate n false) = replicate n false.
Proof. induction n as [|n IH]; [done|]. simpl. by rewrite IH. Qed.

Lemma sum_filled_from (pairs : list (cell F * cell F)) (acc : F) :
  fold_left add (map filled0 (map (fun p => flux_cell p.1 p.2) pairs)) acc =
  fold_left add
    (map (fun '(c, a) => mul (value c) (value a))
       (filter (fun '(c, a) => masked c = false /\ masked a = false) pairs))
    acc.
Proof.
  revert acc. induction pairs as [|[c a] pairs IH]; intros acc; [done|].
  assert (filled0 (flux_cell c a) =
          if masked c || masked a then zero else mul (value c) (value a))
    as Hcell.
  { unfold filled0, flux_cell. simpl. by destruct (masked c), (masked a). }
  simpl. rewrite filter_cons, Hcell.
  case_decide as Hd.
  - destruct Hd as [-> ->]. simpl. apply IH.
  - rewrite <- IH.
    destruct (masked c) eqn:Hc, (masked a) eqn:Ha; simpl;
      rewrite ?add_zero_r; try done.
    by destruct Hd.
Qed.

Lemma forallb_masked_none (pairs : list (cell F * cell F)) :
  forallb id (map masked (map (fun p => flux_cell p.1 p.2) pairs)) = true <->
  ~ Exists both_unmasked pairs.
Proof.
  induction pairs as [|[c a] pairs IH]; simpl.
  - split; [|done]. intros _ Hex. by apply Exists_nil in Hex.
  - rewrite andb_true_iff, IH, Exists_cons. unfold both_unmasked. simpl.
    destruct (masked c), (masked a); simpl; intuition congruence.
Qed.

Lemma masked_cells (vs : list F) (ms : list bool) :
  length vs = length ms ->
  map masked (zip_with (fun v m => {| value := v; masked := m |}) vs ms) = ms.
Proof.
  revert ms. induction vs as [|v vs IH]; intros [|m ms] Hl; try done.
  simpl in *. f_equal. apply IH. lia.
Qed.

Lemma orb_absorb (sm am : list bool) :
  zip_with orb sm (zip_with orb sm am) = zip_with orb sm am.
Proof.
  revert am. induction sm as [|k sm IH]; intros [|k' am]; try done.
  simpl. rewrite IH. f_equal. by destruct k, k'.
Qed.

Lemma unmasked_cells (sv av : list F) :
  length av = length sv ->
  map filled0
    (map (fun p => flux_cell p.1 p.2)
       (zip (zip_with (fun v m => {| value := v; masked := m |}) sv
               (replicate (length sv) false))
          (zip_with (fun v m => {| value := v; masked := m |}) av
             (replicate (length av) false)))) =
  zip_with mul sv av.
Proof.
  revert av. induction sv as [|x sv IH]; intros [|y av] Hl; try done.
  simpl in *. f_equal. apply IH. lia.
Qed.

(** The sum of an array with a mask array whose cells are those of the
    product of a slice and the cell areas. *)
Lemma ma_sum_masked (total : ndarray F) (pairs : list (cell F * cell F))
    (m : list bool) :
  mask total = Some m -> length (entries total) = length m ->
  cells total = map (fun p => flux_cell p.1 p.2) pairs ->
  (Exists both_unmasked pairs ->
   ma_sum total =
     Some (sum_list
             (map (fun '(c, a) => mul (value c) (value a))
                (filter (fun '(c, a) => masked c = false /\ masked a = false)
                   pairs)))) /\
  (~ Exists both_unmasked pairs -> ma_sum total = None).
Proof.
  intros Hm Hl Hcells. unfold ma_sum. rewrite Hm.
  assert (m = map masked (map (fun p => flux_cell p.1 p.2) pairs)) as Hmask.
  { rewrite <- Hcells. unfold cells, getmaskarray. rewrite Hm.
    by rewrite masked_cells. }
  destruct (forallb id m) eqn:Hall.
  - rewrite Hmask in Hall. apply forallb_masked_none in Hall. by split.
  - split.
    + intros _. f_equal. rewrite Hcells. apply sum_filled_from.
    + intros Hno. rewrite Hmask in Hall.
      apply forallb_masked_none in Hno. congruence.
Qed.

(** What the body of the loop computes for a slice and cell areas of one
    shape. *)
Lemma flux_slice (slice area : ndarray F) :
  shape area = shape slice -> well_formed slice -> well_formed area ->
  let pairs := zip (cells slice) (cells area) in
  exists product total,
    ma_mul slice area = Ok product /\
    masked_where (shape slice) (mask slice) product = Ok total /\
    (Exists both_unmasked pairs ->
     ma_sum total = Some (spec_total_flux_both (cells slice) (cells area))) /\
    (~ Exists both_unmasked pairs ->
     (is_Some (mask slice) \/ is_Some (mask area)) ->
     ma_sum total = None).
Proof.
  intros Hshape Hs Ha pairs.
  pose proof (getmaskarray_length slice Hs) as Hgs.
  pose proof (getmaskarray_length area Ha) as Hga.
  destruct Hs as [Hse Hsmask], Ha as [Hae Hamask].
  rewrite Hshape in Hae, Hamask. rewrite Hse in Hgs. rewrite Hae in Hga.
  unfold ma_mul. rewrite Hshape, broadcast_shapes_same. cbn [bind].
  rewrite !broadcast_to_same by done.
  unfold spec_total_flux_both. fold pairs.
  assert (forall total m,
            mask total = Some m ->
            entries total =
              zip_with (fun (xy : F * F) (k : bool) =>
                          if k then xy.1 else mul xy.1 xy.2)
                (zip (entries slice) (entries area))
                (zip_with orb (getmaskarray slice) (getmaskarray area)) ->
            m = zip_with orb (getmaskarray slice)
                  (zip_with orb (getmaskarray slice) (getmaskarray area)) ->
            (Exists both_unmasked pairs ->
             ma_sum total =
               Some (sum_list
                       (map (fun '(c, a) => mul (value c) (value a))
                          (filter (fun '(c, a) =>
                                     masked c = false /\ masked a = false)
                             pairs)))) /\
            (~ Exists both_unmasked pairs ->
             is_Some (mask slice) \/ is_Some (mask area) ->
             ma_sum total = None)) as Hsum.
  { intros total m Hm He ->.
    destruct (ma_sum_masked total pairs _ Hm) as [H1 H2].
    - rewrite He, !length_zip_with. lia.
    - unfold cells at 1, getmaskarray at 1. rewrite Hm, He.
      unfold pairs, cells. apply flux_cells; lia.
    - split; [exact H1|]. intros Hno _. by apply H2. }
  destruct (mask slice) as [sm|] eqn:Hms.
  - assert (getmaskarray slice = sm) as Hsm
      by (unfold getmaskarray; by rewrite Hms).
    destruct (mask area) as [am|] eqn:Hma.
    all: eexists _, _; split; [done|].
    all: unfold masked_where; cbn [shape mask entries].
    all: rewrite (bool_decide_eq_true_2 (shape slice = shape slice)) by done.
    all: rewrite andb_false_r; cbn [negb].
    all: rewrite broadcast_to_same by (rewrite <- Hsm; lia).
    all: split; [done|].
    all: eapply Hsum; [done|done|].
    all: cbn [getmaskarray mask]; by rewrite Hsm.
  - destruct (mask area) as [am|] eqn:Hma.
    + eexists _, _. split; [done|]. unfold masked_where. split; [done|].
      eapply Hsum; [done|done|]. by rewrite orb_absorb.
    + eexists _, _. split; [done|]. unfold masked_where. split; [done|].
      split; [|by intros _ [[? ?]|[? ?]]].
      intros _. unfold ma_sum. cbn [mask entries]. f_equal.
      unfold pairs, cells, getmaskarray. rewrite Hms, Hma.
      rewrite <- (unmasked_cells (entries slice) (entries area)) by lia.
      apply sum_filled_from.
Qed.

(** [cube[i].data] for a cube of more than one dimension. *)
Lemma getitem0_slice (flux : ndarray F) (n r i : nat) (rest : list nat) :
  shape flux = n :: r :: rest -> well_formed flux -> (i < n)%nat ->
  exists slice,
    getitem0 flux i = Ok (ItemArray slice) /\
    shape slice = r :: rest /\ well_formed slice.
Proof.
  intros Hshape [He Hm] Hi. unfold getitem0. rewrite Hshape.
  destruct (n <=? i)%nat eqn:Hle; [apply Nat.leb_le in Hle; lia|].
  eexists. split; [reflexivity|]. split; [done|].
  rewrite Hshape in He, Hm. change (size_of (n :: r :: rest))
    with (n * size_of (r :: rest))%nat in He, Hm.
  assert (i * size_of (r :: rest) + size_of (r :: rest)
          <= n * size_of (r :: rest))%nat as Hfit by nia.
  split; cbn [entries shape mask].
  - rewrite length_take, length_drop, He. lia.
  - intros m Hmask. destruct (mask flux) as [fm|]; [|done].
    cbn [option_map] in Hmask. injection Hmask as <-.
    rewrite length_take, length_drop, (Hm fm) by done.
    change (r * size_of rest)%nat with (size_of (r :: rest)). lia.
Qed.

(** The loop over the time points of a flux of more than one dimension
    whose slices have the shape of the cell areas. *)
Lemma total_flux_loop_slices (flux area : ndarray F) (n r : nat)
    (rest : list nat) (times : list Q) (i : nat) :
  shape flux = n :: r :: rest -> shape area = r :: rest ->
  well_formed flux -> well_formed area ->
  (i + length times <= n)%nat ->
  exists out,
    total_flux_loop flux area i times = Ok out /\
    length out = length times /\
    forall k, (k < length times)%nat ->
      exists slice,
        getitem0 flux (i + k) = Ok (ItemArray slice) /\
        (Exists both_unmasked (zip (cells slice) (cells area)) ->
         out !! k =
           Some (Some (spec_total_flux_both (cells slice) (cells area)))) /\
        (~ Exists both_unmasked (zip (cells slice) (cells area)) ->
         is_Some (mask slice) \/ is_Some (mask area) ->
         out !! k = Some None).
Proof.
  intros Hshape Hashape Hwf Hawf. revert i.
  induction times as [|t times IH]; intros i Hi.
  - exists []. repeat split. intros k Hk. simpl in Hk. lia.
  - simpl in Hi.
    destruct (getitem0_slice flux n r i rest Hshape Hwf)
      as (slice & Hget & Hsshape & Hswf); [lia|].
    destruct (flux_slice slice area) as (product & total & Hmul & Hwhere & Hsum);
      [congruence|done|done|].
    destruct (IH (S i)) as (out & Hout & Hlen & Hpts); [lia|].
    exists (ma_sum total :: out). simpl.
    rewrite Hget. simpl. rewrite Hmul. simpl. rewrite Hwhere. simpl.
    rewrite Hout. simpl. split; [done|]. split; [by rewrite Hlen|].
    intros [|k] Hk.
    + rewrite Nat.add_0_r. exists slice. split; [done|]. simpl.
      destruct Hsum as [Hsome Hnone]. split.
      * intros Hex. f_equal. by apply Hsome.
      * intros Hno Hmask. f_equal. by apply Hnone.
    + simpl. replace (i + S k)%nat with (S i + k)%nat by lia.
      apply Hpts. lia.
Qed.

Lemma spec_total_flux_unmasked_area (slice area : list (cell F)) :
  Forall (fun a => masked a = false) area ->
  spec_total_flux_both slice area = spec_total_flux slice area.
Proof.
  intros Ha. unfold spec_total_flux_both, spec_total_flux. do 2 f_equal.
  revert area Ha. induction slice as [|c l IH]; intros [|a l'] Hf; try done.
  simpl. apply Forall_cons in Hf as [Hm Hf]. rewrite !filter_cons.
  rewrite (IH l' Hf). repeat case_decide; try done.
  all: intuition congruence.
Qed.

Lemma exists_both_unmasked (slice area : list (cell F)) :
  length area = length slice ->
  Forall (fun a => masked a = false) area ->
  Exists (fun c => masked c = false) slice ->
  Exists both_unmasked (zip slice area).
Proof.
  revert area. induction slice as [|c l IH]; intros [|a l'] Hl Hf Hex;
    try done.
  - by apply Exists_nil in Hex.
  - apply Forall_cons in Hf as [Hm Hf]. simpl.
    apply Exists_cons in Hex as [Hc|Hex].
    + by apply Exists_cons_hd.
    + apply Exists_cons_tl. simpl in Hl. apply IH; [lia|done|done].
Qed.

(** [calculate] on a flux with time as first of three dimensions and cell
    areas on the grid of the flux. *)
Lemma calculate_returns (cubes : list (cube F U))
    (fgco2_cube cube_area : cube F U) (times lats lons : list Q) (u : U) :
  extract_strict cubes
    "surface_downward_mass_flux_of_carbon_dioxide_expressed_as_carbon"
    = Ok fgco2_cube ->
  extract_strict cubes "cell_area" = Ok cube_area ->
  dim_coords fgco2_cube =
    [("time", times); ("latitude", lats); ("longitude", lons)] ->
  shape (data fgco2_cube) = [length times; length lats; length lons] ->
  unit_mul (units fgco2_cube) (units cube_area) = Ok u ->
  forall out,
    total_flux_loop (data fgco2_cube) (data cube_area) 0 times = Ok out ->
    length out = length times ->
    calculate unit_mul nan cubes =
      Ok {| result_units := u; result_dims := ["time"];
            result_data := np_array nan out |}.
Proof.
  intros Hflux Harea Hdims Hshape Hu out Hout Hlen.
  unfold calculate. rewrite Hflux, Harea. cbn [bind].
  unfold calculate_total_flux, collapsed, coord_points.
  rewrite Hdims, Hshape. 
  change (filter (fun co : string * list Q => co.1 = "time")
            [("time", times); ("latitude", lats); ("longitude", lons)])
    with [("time", times)].
  cbn [bind snd]. rewrite Hout. cbn [bind].
  change (map_result _ ["latitude"; "longitude"]) with
    (Ok [lats; lons] : result (list (list Q))).
  cbn [bind]. rewrite Hu. cbn [bind].
  change (filter _ (zip _ _)) with [("time", length times)].
  cbn [map fst snd].
  assert (length (np_array nan out) = length times) as Hnl
    by (unfold np_array; by rewrite List.length_map).
  rewrite Hnl. by rewrite bool_decide_eq_true_2.
Qed.

End Gtfgco2Facts.

Lemma Z_nan_add_zero_r (x : option Z) :
  @add _ Z_nan_arith x (@zero _ Z_nan_arith) = x.
Proof.
  destruct x as [a|]; [|done]. simpl. f_equal. lia.
Qed.

(** C1 (amended): given exactly one fgco2 cube with the dimensions time,
    latitude and longitude, in this order, and exactly one cell-area cube on
    the grid of the flux, whose units have a product with the units of the
    flux, [DerivedVariable.calculate] returns a cube with time as only
    dimension, with that product as units, and with one value per time
    point.  At every time index t at which some grid cell is masked neither
    in fgco2[t] nor in the cell areas, the value is the sum, over these grid
    cells, of fgco2[t] times the cell area.  When no cell area is masked
    this is the sum over the cells unmasked in fgco2[t]. *)
Theorem gtfgco2_calculate_spec {F : Type} `{Arith F} {U : Type}
    (unit_mul : U -> U -> result U) (nan : F)
    (cubes : list (Gtfgco2.cube F U)) (fgco2_cube cube_area : Gtfgco2.cube F U)
    (times lats lons : list Q) (u : U) :
  (forall x : F, add x zero = x) ->
  Gtfgco2.extract_strict cubes
    "surface_downward_mass_flux_of_carbon_dioxide_expressed_as_carbon"
    = Ok fgco2_cube ->
  Gtfgco2.extract_strict cubes "cell_area" = Ok cube_area ->
  Gtfgco2.dim_coords fgco2_cube =
    [("time", times); ("latitude", lats); ("longitude", lons)] ->
  Gtfgco2.shape (Gtfgco2.data fgco2_cube) =
    [length times; length lats; length lons] ->
  Gtfgco2.shape (Gtfgco2.data cube_area) = [length lats; length lons] ->
  Gtfgco2.well_formed (Gtfgco2.data fgco2_cube) ->
  Gtfgco2.well_formed (Gtfgco2.data cube_area) ->
  unit_mul (Gtfgco2.units fgco2_cube) (Gtfgco2.units cube_area) = Ok u ->
  exists r,
    Gtfgco2.calculate unit_mul nan cubes = Ok r /\
    Gtfgco2.result_units r = u /\
    Gtfgco2.result_dims r = ["time"] /\
    length (Gtfgco2.result_data r) = length times /\
    forall t, (t < length times)%nat ->
      exists slice,
        Gtfgco2.getitem0 (Gtfgco2.data fgco2_cube) t
          = Ok (Gtfgco2.ItemArray slice) /\
        (Exists (fun p => Gtfgco2.masked p.1 = false /\
                          Gtfgco2.masked p.2 = false)
           (zip (Gtfgco2.cells slice)
              (Gtfgco2.cells (Gtfgco2.data cube_area))) ->
         Gtfgco2.result_data r !! t =
           Some (Gtfgco2.spec_total_flux_both (Gtfgco2.cells slice)
                   (Gtfgco2.cells (Gtfgco2.data cube_area)))) /\
        (Forall (fun a => Gtfgco2.masked a = false)
           (Gtfgco2.cells (Gtfgco2.data cube_area)) ->
         Exists (fun c => Gtfgco2.masked c = false) (Gtfgco2.cells slice) ->
         Gtfgco2.result_data r !! t =
           Some (Gtfgco2.spec_total_flux (Gtfgco2.cells slice)
                   (Gtfgco2.cells (Gtfgco2.data cube_area)))).
Proof.
  intros Hadd Hflux Harea Hdims Hshape Hashape Hwf Hawf Hu.
  destruct (total_flux_loop_slices Hadd (Gtfgco2.data fgco2_cube)
              (Gtfgco2.data cube_area) (length times) (length lats)
              [length lons] times 0 Hshape Hashape Hwf Hawf)
    as (out & Hout & Hlen & Hpts); [simpl; lia|].
  eexists. split.
  { by apply (calculate_returns unit_mul nan cubes fgco2_cube cube_area
                times lats lons u). }
  cbn [Gtfgco2.result_units Gtfgco2.result_dims Gtfgco2.result_data].
  split; [done|]. split; [done|].
  split; [unfold Gtfgco2.np_array; by rewrite List.length_map|].
  intros t Ht. destruct (Hpts t Ht) as (slice & Hget & Hsome & _).
  change (0 + t)%nat with t in Hget.
  exists slice. split; [exact Hget|].
  assert (forall v, out !! t = Some (Some v) ->
                    Gtfgco2.np_array nan out !! t = Some v) as Hnp.
  { intros v Hv. unfold Gtfgco2.np_array.
    change (map (default nan) out) with (default nan <$> out).
    by rewrite list_lookup_fmap, Hv. }
  split.
  - intros Hex. by apply Hnp, Hsome.
  - intros Hunmasked Hex.
    rewrite <- (spec_total_flux_unmasked_area _ _ Hunmasked).
    apply Hnp, Hsome, exists_both_unmasked; [|done|done].
    destruct (getitem0_slice (Gtfgco2.data fgco2_cube) (length times)
                (length lats) t [length lons] Hshape Hwf Ht)
      as (slice' & Hget' & Hsshape & Hswf).
    rewrite Hget in Hget'. injection Hget' as <-.
    rewrite !cells_length by done. congruence.
Qed.

Lemma gtfgco2_calculate_spec_witness :
  let fgco2_cube :=
    {| Gtfgco2.name :=
         "surface_downward_mass_flux_of_carbon_dioxide_expressed_as_carbon";
       Gtfgco2.units := "kg m-2 s-1";
       Gtfgco2.dim_coords :=
         [("time", [0%Q; 1%Q]); ("latitude", [0%Q]);
          ("longitude", [0%Q; 1%Q])];
       Gtfgco2.data :=
         {| Gtfgco2.shape := [2; 1; 2]%nat;
            Gtfgco2.entries := [Some 3; Some 5; Some 1; Some 4];
            Gtfgco2.mask := Some [false; false; true; false] |} |} in
  let cube_area :=
    {| Gtfgco2.name := "cell_area";
       Gtfgco2.units := "m2";
       Gtfgco2.dim_coords :=
         [("latitude", [0%Q]); ("longitude", [0%Q; 1%Q])];
       Gtfgco2.data :=
         {| Gtfgco2.shape := [1; 2]%nat;
            Gtfgco2.entries := [Some 2; Some 7];
            Gtfgco2.mask := None |} |} in
  let unit_mul := fun a b : string => Ok (a +:+ " " +:+ b) in
  @Gtfgco2.calculate _ Z_nan_arith _ unit_mul None [cube_area; fgco2_cube] =
    Ok {| Gtfgco2.result_units := "kg m-2 s-1 m2";
          Gtfgco2.result_dims := ["time"];
          Gtfgco2.result_data := [Some 41; Some 28] |}.
Proof.
  intros fgco2_cube cube_area unit_mul.
  destruct (@gtfgco2_calculate_spec (option Z) Z_nan_arith string unit_mul
              None [cube_area; fgco2_cube] fgco2_cube cube_area
              [0%Q; 1%Q] [0%Q] [0%Q; 1%Q] "kg m-2 s-1 m2"
              Z_nan_add_zero_r eq_refl eq_refl eq_refl eq_refl eq_refl
              ltac:(split; [reflexivity|];
                    intros m Hm; injection Hm as <-; reflexivity)
              ltac:(split; [reflexivity|]; intros m Hm; discriminate Hm)
              eq_refl)
    as (r & Hr & _).
  rewrite Hr. vm_compute in Hr. by injection Hr as <-.
Defined.

(** C1 as stated fails in two ways.  A grid cell that is masked in the
    cell-area cube and not in the flux does not enter the sum: for the flux
    [3, 5] and the areas [2, 7] with the second area masked the value is 6,
    not 41.  And for a time slice all of whose cells are masked, the sum of
    numpy is the masked constant, which [np.array] makes NaN, not the 0 of
    a sum over no cell. *)
Lemma gtfgco2_masked_area_counterexample :
  let unit_mul := fun a b : string => Ok (a +:+ " " +:+ b) in
  let coords :=
    [("time", [0%Q]); ("latitude", [0%Q]); ("longitude", [0%Q; 1%Q])] in
  let flux_name :=
    "surface_downward_mass_flux_of_carbon_dioxide_expressed_as_carbon" in
  let slice :=
    {| Gtfgco2.shape := [1; 2]%nat; Gtfgco2.entries := [Some 3; Some 5];
       Gtfgco2.mask := None |} in
  let fgco2_cube :=
    {| Gtfgco2.name := flux_name; Gtfgco2.units := "kg m-2 s-1";
       Gtfgco2.dim_coords := coords;
       Gtfgco2.data :=
         {| Gtfgco2.shape := [1; 1; 2]%nat;
            Gtfgco2.entries := [Some 3; Some 5];
            Gtfgco2.mask := None |} |} in
  let masked_area :=
    {| Gtfgco2.shape := [1; 2]%nat; Gtfgco2.entries := [Some 2; Some 7];
       Gtfgco2.mask := Some [false; true] |} in
  let area :=
    {| Gtfgco2.shape := [1; 2]%nat; Gtfgco2.entries := [Some 2; Some 7];
       Gtfgco2.mask := None |} in
  let cube_of := fun a =>
    {| Gtfgco2.name := "cell_area"; Gtfgco2.units := "m2";
       Gtfgco2.dim_coords := tail coords; Gtfgco2.data := a |} in
  let land_slice :=
    {| Gtfgco2.shape := [1; 2]%nat; Gtfgco2.entries := [Some 3; Some 5];
       Gtfgco2.mask := Some [true; true] |} in
  let land_cube :=
    {| Gtfgco2.name := flux_name; Gtfgco2.units := "kg m-2 s-1";
       Gtfgco2.dim_coords :=
         [("time", [0%Q; 1%Q]); ("latitude", [0%Q]);
          ("longitude", [0%Q; 1%Q])];
       Gtfgco2.data :=
         {| Gtfgco2.shape := [2; 1; 2]%nat;
            Gtfgco2.entries := [Some 3; Some 5; Some 1; Some 4];
            Gtfgco2.mask := Some [true; true; false; false] |} |} in
  (exists r,
     @Gtfgco2.calculate _ Z_nan_arith _ unit_mul None
       [fgco2_cube; cube_of masked_area] = Ok r /\
     Gtfgco2.getitem0 (Gtfgco2.data fgco2_cube) 0
       = Ok (Gtfgco2.ItemArray slice) /\
     Gtfgco2.result_data r = [Some 6] /\
     @Gtfgco2.spec_total_flux _ Z_nan_arith (Gtfgco2.cells slice)
       (Gtfgco2.cells masked_area) = Some 41 /\
     Gtfgco2.result_data r !! 0%nat <>
       Some (@Gtfgco2.spec_total_flux _ Z_nan_arith (Gtfgco2.cells slice)
               (Gtfgco2.cells masked_area))) /\
  (exists r,
     @Gtfgco2.calculate _ Z_nan_arith _ unit_mul None
       [land_cube; cube_of area] = Ok r /\
     Gtfgco2.getitem0 (Gtfgco2.data land_cube) 0
       = Ok (Gtfgco2.ItemArray land_slice) /\
     Gtfgco2.result_data r = [None; Some 30] /\
     @Gtfgco2.spec_total_flux _ Z_nan_arith (Gtfgco2.cells land_slice)
       (Gtfgco2.cells area) = Some 0 /\
     Gtfgco2.result_data r !! 0%nat <>
       Some (@Gtfgco2.spec_total_flux _ Z_nan_arith
               (Gtfgco2.cells land_slice) (Gtfgco2.cells area))).
Proof.
  intros unit_mul coords flux_name slice fgco2_cube masked_area area cube_of
    land_slice land_cube.
  split.
  - eexists. split; [vm_compute; reflexivity|]. simpl.
    split; [reflexivity|]. split; [reflexivity|].
    split; [reflexivity|]. discriminate.
  - eexists. split; [vm_compute; reflexivity|]. simpl.
    split; [reflexivity|]. split; [reflexivity|].
    split; [reflexivity|]. discriminate.
Qed.

(** ** Bias and RMSD of the cloud diagnostics *)

Section GroupLatLonFacts.

Import GroupLatLon.
Context {F : Type} `{Arith F} {grid : Type} `{EqDecision grid} {attrs : Type}.
Variable area_weights : grid -> result (list F).

Lemma weighted_sum_cells (f : F -> F) (model obs weights : list F) :
  length model = length obs -> length weights = length model ->
  zip_with mul (map f (zip_with sub model obs)) weights =
    map (fun '(m, o, w) => mul (f (sub m o)) w) (cells_of model obs weights) /\
  weights = map (fun '(m, o, w) => w) (cells_of model obs weights).
Proof.
  unfold cells_of. revert obs weights.
  induction model as [|m model IH]; intros [|o obs] [|w weights] Ho Hw;
    try done.
  simpl in *. destruct (IH obs weights) as [IH1 IH2]; [lia..|].
  split; f_equal; done.
Qed.

Lemma area_weighted_mean_data (a : cube F grid attrs) g weights :
  cube_grid a = Some g -> area_weights g = Ok weights ->
  length weights = length (cube_data a) ->
  area_weighted_mean area_weights a =
    Ok {| cube_grid := None;
          cube_data := [div (sum_list (zip_with mul (cube_data a) weights))
                          (sum_list weights)];
          attributes := attributes a |}.
Proof.
  intros Hg Hw Hl. unfold area_weighted_mean, collapsed_mean.
  rewrite Hg, Hw. simpl. by rewrite Hl, Nat.eqb_refl.
Qed.

End GroupLatLonFacts.

(** C2: for a model cube and an observation cube on the same grid,
    [calculate_bias] returns the area-weighted mean over the grid of the
    difference model minus observation, and [calculate_rmsd] the square root
    of the area-weighted mean of the squared difference; both carry the
    attributes of the model cube. *)
Theorem bias_rmsd_spec {F : Type} `{Arith F} {grid : Type} `{EqDecision grid}
    {attrs : Type} (area_weights : grid -> result (list F))
    (model_cube obs_cube : GroupLatLon.cube F grid attrs)
    (g : grid) (weights : list F) :
  GroupLatLon.cube_grid model_cube = Some g ->
  GroupLatLon.cube_grid obs_cube = Some g ->
  length (GroupLatLon.cube_data model_cube) =
    length (GroupLatLon.cube_data obs_cube) ->
  area_weights g = Ok weights ->
  length weights = length (GroupLatLon.cube_data model_cube) ->
  let cells :=
    GroupLatLon.cells_of (GroupLatLon.cube_data model_cube)
      (GroupLatLon.cube_data obs_cube) weights in
  GroupLatLon.calculate_bias area_weights model_cube obs_cube =
    Ok {| GroupLatLon.cube_grid := None;
          GroupLatLon.cube_data := [GroupLatLon.spec_bias cells];
          GroupLatLon.attributes := GroupLatLon.attributes model_cube |}
  /\
  GroupLatLon.calculate_rmsd area_weights model_cube obs_cube =
    Ok {| GroupLatLon.cube_grid := None;
          GroupLatLon.cube_data := [GroupLatLon.spec_rmsd cells];
          GroupLatLon.attributes := GroupLatLon.attributes model_cube |}.
Proof.
  intros Hm Ho Hlen Hw Hwl cells.
  destruct (weighted_sum_cells (fun x => x) (GroupLatLon.cube_data model_cube)
              (GroupLatLon.cube_data obs_cube) weights Hlen Hwl) as [Hb Hws].
  destruct (weighted_sum_cells square (GroupLatLon.cube_data model_cube)
              (GroupLatLon.cube_data obs_cube) weights Hlen Hwl) as [Hr _].
  rewrite map_id in Hb.
  unfold GroupLatLon.calculate_bias, GroupLatLon.calculate_rmsd,
    GroupLatLon.cube_sub.
  rewrite Hm, Ho, bool_decide_eq_true_2 by done.
  rewrite np_binop_same_length by done. simpl. split.
  - erewrite area_weighted_mean_data; [|done|done|].
    + simpl. unfold GroupLatLon.set_attributes, GroupLatLon.spec_bias. simpl.
      unfold cells. by rewrite Hb, <- Hws.
    + simpl. rewrite length_zip_with. lia.
  - erewrite area_weighted_mean_data; [|done|done|].
    + simpl. unfold GroupLatLon.set_attributes, GroupLatLon.spec_rmsd. simpl.
      unfold cells. by rewrite Hr, <- Hws.
    + simpl. rewrite length_map, length_zip_with. lia.
Qed.

Lemma bias_rmsd_spec_witness :
  let area_weights := fun _ : unit => Ok [1; 3] in
  let model_cube := {| GroupLatLon.cube_grid := Some tt;
                       GroupLatLon.cube_data := [5; 7];
                       GroupLatLon.attributes := "model" |} in
  let obs_cube := {| GroupLatLon.cube_grid := Some tt;
                     GroupLatLon.cube_data := [2; 4];
                     GroupLatLon.attributes := "obs" |} in
  GroupLatLon.calculate_bias area_weights model_cube obs_cube =
    Ok {| GroupLatLon.cube_grid := None; GroupLatLon.cube_data := [3];
          GroupLatLon.attributes := "model" |} /\
  GroupLatLon.calculate_rmsd area_weights model_cube obs_cube =
    Ok {| GroupLatLon.cube_grid := None; GroupLatLon.cube_data := [3];
          GroupLatLon.attributes := "model" |}.
Proof.
  intros area_weights model_cube obs_cube.
  exact (@bias_rmsd_spec Z Z_arith unit _ string area_weights model_cube
           obs_cube tt [1; 3] eq_refl eq_refl eq_refl eq_refl eq_refl).
Defined.

(** ** The ERA5 CMORizer *)

Lemma chain_snoc {A : Type} (R : A -> A -> Prop) (l : list A) (a : A) :
  Era5.chain R l ->
  match last l with Some b => R b a | None => True end ->
  Era5.chain R (l ++ [a]).
Proof.
  induction l as [|x [|y l] IH]; simpl; intros Hc Hl; try done.
  destruct Hc as [Hxy Hc]. split; [done|]. by apply IH.
Qed.

Lemma chain_rev {A : Type} (R : A -> A -> Prop) (l : list A) :
  Era5.chain R l -> Era5.chain (fun a b => R b a) (rev l).
Proof.
  induction l as [|x l IH]; [done|]. intros Hc. simpl rev.
  apply chain_snoc.
  - apply IH. by destruct l as [|y l]; [|destruct Hc].
  - destruct l as [|y l]; [done|]. simpl rev. rewrite last_snoc.
    by destruct Hc.
Qed.

Lemma decreasing_rev_increasing (l : list Q) :
  Era5.decreasing l -> Era5.increasing (rev l).
Proof. apply (chain_rev (fun a b => Qlt b a)). Qed.

Section Era5Facts.

Import Era5.
Context {U D A : Type}.
Variable valid_standard_name : string -> bool.
Variable guessed : list Q -> list (Q * Q).
Variable convert : U -> U -> option (D -> D).
Variable reverse_axis1 : D -> D.

Lemma fix_coord_guessable co :
  guessable co ->
  fix_coord guessed co =
    Ok {| coord_var_name := coord_var_name co; points_dtype := "float64";
          points := points co; bounds := Some (guessed (points co)) |}.
Proof.
  unfold fix_coord, guessable. simpl. intros [-> Hl].
  destruct (Nat.ltb_spec (length (points co)) 2); [lia|done].
Qed.

Lemma fix_coord_Ok co co' :
  fix_coord guessed co = Ok co' -> guessable co.
Proof.
  unfold fix_coord, guessable. simpl. destruct (bounds co); [done|].
  destruct (Nat.ltb_spec (length (points co)) 2); [done|]. by intros _.
Qed.

Lemma extract_variable_returns definition atts (loaded : cube U D A) :
  returns (_extract_variable valid_standard_name guessed convert
             reverse_axis1 definition atts loaded) <->
  guessable (latitude loaded) /\ guessable (longitude loaded) /\
  guessable (time loaded) /\
  is_Some (convert (units loaded) (def_units definition)).
Proof.
  unfold returns, _extract_variable, set_standard_name.
  set (ok := accepted_standard_name valid_standard_name
               (def_standard_name definition)).
  split.
  - intros [saved Hs]. destruct ok; simpl in Hs.
    all: apply bind_Ok in Hs as (lat & Hlat%fix_coord_Ok & Hs);
      apply bind_Ok in Hs as (lon & Hlon%fix_coord_Ok & Hs);
      apply bind_Ok in Hs as (tim & Htim%fix_coord_Ok & Hs);
      destruct (convert _ _); [|done];
      (split; [exact Hlat|split; [exact Hlon|split; [exact Htim|by eexists]]]).
  - intros (Hlat & Hlon & Htim & [conv Hconv]).
    destruct ok; simpl.
    all: rewrite !fix_coord_guessable by done; simpl;
      rewrite Hconv; by eexists.
Qed.

Lemma extract_variable_saved definition atts (loaded saved : cube U D A) :
  _extract_variable valid_standard_name guessed convert reverse_axis1
    definition atts loaded = Ok saved ->
  exists conv,
    convert (units loaded) (def_units definition) = Some conv /\
    saved =
      {| var_name := Some (short_name definition);
         standard_name :=
           if accepted_standard_name valid_standard_name
                (def_standard_name definition)
           then def_standard_name definition
           else standard_name loaded;
         long_name := Some (def_long_name definition);
         dtype := "float32";
         units := def_units definition;
         time :=
           {| coord_var_name := coord_var_name (time loaded);
              points_dtype := "float64";
              points := points (time loaded);
              bounds := Some (guessed (points (time loaded))) |};
         latitude :=
           {| coord_var_name := Some "lat";
              points_dtype := "float64";
              points := rev (points (latitude loaded));
              bounds := Some (rev (guessed (points (latitude loaded)))) |};
         longitude :=
           {| coord_var_name := Some "lon";
              points_dtype := "float64";
              points := points (longitude loaded);
              bounds := Some (guessed (points (longitude loaded))) |};
         data := reverse_axis1 (conv (data loaded));
         attributes := atts |}.
Proof.
  intros Hs.
  assert (returns (_extract_variable valid_standard_name guessed convert
                     reverse_axis1 definition atts loaded)) as Hr
    by (by eexists).
  apply extract_variable_returns in Hr as (Hlat & Hlon & Htim & [conv Hconv]).
  exists conv. split; [done|].
  unfold _extract_variable, set_standard_name in Hs.
  destruct (accepted_standard_name _ _); simpl in Hs.
  all: rewrite !fix_coord_guessable in Hs by done; simpl in Hs;
    rewrite Hconv in Hs; by injection Hs as <-.
Qed.

End Era5Facts.

(** C3 (amended): [_extract_variable] hands a cube to [save_variable] exactly
    when the bounds of latitude, longitude and time can be guessed and the
    units can be converted.  In that cube var_name and long_name are those of
    the CMOR definition; standard_name is the one of the definition when
    iris accepts it, and otherwise the one the cube was loaded with; the data
    are float32; latitude and longitude are named lat and lon and have
    float64 points and guessed bounds; the units are those of the definition,
    with the data converted; and the latitude axis is reversed, so that
    latitude is increasing when it is decreasing in the file. *)
Theorem extract_variable_spec {U D A : Type}
    (valid_standard_name : string -> bool)
    (guessed : list Q -> list (Q * Q))
    (convert : U -> U -> option (D -> D)) (reverse_axis1 : D -> D)
    (definition : Era5.variable_info U) (atts : A)
    (loaded : Era5.cube U D A) :
  let run := Era5._extract_variable valid_standard_name guessed convert
               reverse_axis1 definition atts loaded in
  (returns run <->
   Era5.guessable (Era5.latitude loaded) /\
   Era5.guessable (Era5.longitude loaded) /\
   Era5.guessable (Era5.time loaded) /\
   is_Some (convert (Era5.units loaded) (Era5.def_units definition)))
  /\
  forall saved, run = Ok saved ->
    Era5.var_name saved = Some (Era5.short_name definition) /\
    Era5.standard_name saved =
      (if Era5.accepted_standard_name valid_standard_name
            (Era5.def_standard_name definition)
       then Era5.def_standard_name definition
       else Era5.standard_name loaded) /\
    Era5.long_name saved = Some (Era5.def_long_name definition) /\
    Era5.dtype saved = "float32" /\
    Era5.coord_var_name (Era5.latitude saved) = Some "lat" /\
    Era5.coord_var_name (Era5.longitude saved) = Some "lon" /\
    Era5.points_dtype (Era5.latitude saved) = "float64" /\
    Era5.points_dtype (Era5.longitude saved) = "float64" /\
    Era5.bounds (Era5.latitude saved) =
      Some (rev (guessed (Era5.points (Era5.latitude loaded)))) /\
    Era5.bounds (Era5.longitude saved) =
      Some (guessed (Era5.points (Era5.longitude loaded))) /\
    Era5.units saved = Era5.def_units definition /\
    (exists conv,
       convert (Era5.units loaded) (Era5.def_units definition) = Some conv /\
       Era5.data saved = reverse_axis1 (conv (Era5.data loaded))) /\
    Era5.points (Era5.latitude saved) =
      rev (Era5.points (Era5.latitude loaded)) /\
    (Era5.decreasing (Era5.points (Era5.latitude loaded)) ->
     Era5.increasing (Era5.points (Era5.latitude saved))).
Proof.
  intros run. split; [apply extract_variable_returns|].
  intros saved Hs. apply extract_variable_saved in Hs as (conv & Hconv & ->).
  simpl. repeat split; eauto using decreasing_rev_increasing.
Qed.

Lemma extract_variable_spec_witness :
  let valid := fun s => (s =? "air_temperature")%string in
  let guessed := fun pts : list Q => map (fun p => (p, p)) pts in
  let convert := fun a b : string =>
    if (a =? b)%string then Some (fun d : list Z => d) else None in
  let definition :=
    {| Era5.short_name := "tas";
       Era5.def_standard_name := Some "air_temperature";
       Era5.def_long_name := "Near-Surface Air Temperature";
       Era5.def_units := "K" |} in
  let axis := fun pts =>
    {| Era5.coord_var_name := None; Era5.points_dtype := "float32";
       Era5.points := pts; Era5.bounds := None |} in
  let loaded :=
    {| Era5.var_name := Some "t2m"; Era5.standard_name := None;
       Era5.long_name := Some "2 metre temperature";
       Era5.dtype := "int16"; Era5.units := "K";
       Era5.time := axis [0%Q; 31%Q];
       Era5.latitude := axis [90%Q; 0%Q; (-90)%Q];
       Era5.longitude := axis [0%Q; 180%Q];
       Era5.data := [1; 2; 3]; Era5.attributes := "raw" |} in
  exists saved,
    Era5._extract_variable valid guessed convert (@rev Z) definition "cmor"
      loaded = Ok saved /\
    Era5.standard_name saved = Some "air_temperature" /\
    Era5.increasing (Era5.points (Era5.latitude saved)).
Proof.
  intros valid guessed convert definition axis loaded.
  destruct (extract_variable_spec valid guessed convert (@rev Z) definition
              "cmor" loaded) as [Hret Hsaved].
  destruct (proj2 Hret) as [saved Hs].
  { repeat split; simpl; try lia. by eexists. }
  exists saved. split; [done|].
  destruct (Hsaved saved Hs)
    as (_ & Hstd & _ & _ & _ & _ & _ & _ & _ & _ & _ & _ & _ & Hinc).
  split; [exact Hstd|]. apply Hinc. repeat split; reflexivity.
Defined.

(** C3 as stated fails for a CMOR definition whose standard name iris does
    not accept (the empty standard name of a custom table entry): the error
    is logged and the cube keeps the standard name it was loaded with. *)
Lemma extract_variable_standard_name_counterexample :
  let valid := fun s => (s =? "surface_net_upward_longwave_flux")%string in
  let guessed := fun pts : list Q => map (fun p => (p, p)) pts in
  let convert := fun a b : string =>
    if (a =? b)%string then Some (fun d : list Z => d) else None in
  let definition :=
    {| Era5.short_name := "rlns";
       Era5.def_standard_name := Some "";
       Era5.def_long_name := "Surface Net Upward Longwave Radiation";
       Era5.def_units := "W m-2" |} in
  let axis := fun pts =>
    {| Era5.coord_var_name := None; Era5.points_dtype := "float32";
       Era5.points := pts; Era5.bounds := None |} in
  let loaded :=
    {| Era5.var_name := Some "str";
       Era5.standard_name := Some "surface_net_upward_longwave_flux";
       Era5.long_name := Some "Surface net thermal radiation";
       Era5.dtype := "int16"; Era5.units := "W m-2";
       Era5.time := axis [0%Q; 31%Q];
       Era5.latitude := axis [90%Q; 0%Q; (-90)%Q];
       Era5.longitude := axis [0%Q; 180%Q];
       Era5.data := [1; 2; 3]; Era5.attributes := "raw" |} in
  exists saved,
    Era5._extract_variable valid guessed convert (@rev Z) definition "cmor"
      loaded = Ok saved /\
    Era5.standard_name saved = Some "surface_net_upward_longwave_flux" /\
    Era5.standard_name saved <> Era5.def_standard_name definition.
Proof.
  intros valid guessed convert definition axis loaded.
  eexists. split; [vm_compute; reflexivity|]. simpl. split; [done|].
  discriminate.
Qed.

(** ** How the CMORizer and the MLR model run their jobs *)

Section ExecutionFacts.

Import Execution.

Lemma call_each_all {A : Type} (f : A -> result unit) (xs : list A) :
  Forall (fun x => returns (f x)) xs ->
  call_each f xs = (map Called xs, Ok tt).
Proof.
  induction 1 as [|x xs [[] Hx] _ IH]; [done|].
  simpl. by rewrite Hx, IH.
Qed.

Lemma call_each_first_raise {A : Type} (f : A -> result unit) (xs : list A)
    (k : nat) (x : A) (e : exn) :
  xs !! k = Some x ->
  Forall (fun y => returns (f y)) (take k xs) ->
  f x = Raise e ->
  call_each f xs = (map Called (take (S k) xs), Raise e).
Proof.
  revert k. induction xs as [|y xs IH]; intros k Hk Hbefore Hx; [done|].
  destruct k as [|k].
  - injection Hk as ->. simpl. by rewrite Hx.
  - simpl in Hk, Hbefore. apply Forall_cons in Hbefore as [[[] Hy] Hbefore].
    cbn [call_each]. rewrite Hy, (IH k Hk Hbefore Hx). done.
Qed.

Lemma call_each_no_pool {A : Type} (f : A -> result unit) (xs : list A) :
  Forall (fun e => is_pool e = false) (fst (call_each f xs)).
Proof.
  induction xs as [|x xs IH]; [by constructor|].
  simpl. destruct (f x) as [[]|e].
  - destruct (call_each f xs) as [effects r]. by constructor.
  - by repeat constructor.
Qed.

Variable format_year : string -> result string.
Variable sorted_glob : string -> result (list string).
Variable _extract_variable : job -> result unit.

Lemma cmorize_variables_no_pool formatted vars :
  Forall (fun e => is_pool e = false)
    (fst (cmorize_variables sorted_glob _extract_variable formatted vars)).
Proof.
  induction vars as [|item vars IH]; [by constructor|].
  simpl. destruct (jobs_of_variable sorted_glob formatted item) as [jobs|e];
    [|by constructor].
  pose proof (call_each_no_pool _extract_variable jobs) as Hjobs.
  destruct (call_each _extract_variable jobs) as [effects [[]|e]];
    simpl in *; [|done].
  destruct (cmorize_variables _ _ _ vars) as [effects' r']. simpl in *.
  by apply Forall_app.
Qed.

Lemma cmorize_variables_all formatted vars jobs :
  all_jobs sorted_glob formatted vars = Ok jobs ->
  Forall (fun j => returns (_extract_variable j)) jobs ->
  cmorize_variables sorted_glob _extract_variable formatted vars =
    (map Called jobs, Ok tt).
Proof.
  unfold all_jobs. revert jobs.
  induction vars as [|item vars IH]; intros jobs Hall Hret.
  - by injection Hall as <-.
  - simpl in Hall. apply bind_Ok in Hall as (groups & Hgroups & [= <-]).
    apply bind_Ok in Hgroups as (g & Hg & Hgroups).
    apply bind_Ok in Hgroups as (gs & Hgs & [= <-]).
    simpl in Hret. apply Forall_app in Hret as [H1 H2].
    simpl. rewrite Hg, call_each_all by done.
    rewrite (IH (concat gs)) by (by rewrite ?Hgs). simpl.
    by rewrite map_app.
Qed.

Lemma cmorize_variables_first_raise formatted vars jobs k j e :
  all_jobs sorted_glob formatted vars = Ok jobs ->
  jobs !! k = Some j ->
  Forall (fun j' => returns (_extract_variable j')) (take k jobs) ->
  _extract_variable j = Raise e ->
  cmorize_variables sorted_glob _extract_variable formatted vars =
    (map Called (take (S k) jobs), Raise e).
Proof.
  unfold all_jobs. revert jobs k.
  induction vars as [|item vars IH]; intros jobs k Hall Hk Hbefore Hj.
  - by injection Hall as <-.
  - simpl in Hall. apply bind_Ok in Hall as (groups & Hgroups & [= <-]).
    apply bind_Ok in Hgroups as (g & Hg & Hgroups).
    apply bind_Ok in Hgroups as (gs & Hgs & [= <-]).
    simpl in Hk, Hbefore |- *. rewrite Hg.
    destruct (decide (k < length g)%nat) as [Hlt|Hge].
    + rewrite lookup_app_l in Hk by done.
      rewrite take_app_le in Hbefore by lia.
      rewrite (call_each_first_raise _extract_variable g k j e) by done.
      by rewrite take_app_le by lia.
    + rewrite lookup_app_r in Hk by lia.
      rewrite take_app_ge in Hbefore by lia.
      apply Forall_app in Hbefore as [H1 H2].
      rewrite call_each_all by done.
      rewrite (IH (concat gs) (k - length g)%nat) by (by rewrite ?Hgs).
      simpl. rewrite <- map_app. do 2 f_equal.
      rewrite (take_app_ge g) by lia. do 2 f_equal. lia.
Qed.

End ExecutionFacts.




(** ** Symbol-preserving powers of units *)

Section StringFacts.

Import UnitsPower.

Lemma append_cons (c : ascii) (a b : string) :
  String c a +:+ b = String c (a +:+ b).
Proof. reflexivity. Qed.

Lemma append_nil_l (s : string) : "" +:+ s = s.
Proof. reflexivity. Qed.

Lemma append_nil_r (s : string) : s +:+ "" = s.
Proof.
  induction s as [|c s IH]; [done|]. by rewrite append_cons, IH.
Qed.

Lemma append_assoc (a b c : string) : (a +:+ b) +:+ c = a +:+ (b +:+ c).
Proof.
  induction a as [|x a IH]; [done|]. by rewrite !append_cons, IH.
Qed.

Lemma append_snoc (a b : string) (c : ascii) :
  (a +:+ String c "") +:+ b = a +:+ String c b.
Proof. by rewrite append_assoc, append_cons, append_nil_l. Qed.

Lemma append_eq_nil (a b : string) : a +:+ b = "" -> a = "" /\ b = "".
Proof. by destruct a. Qed.

Lemma all_chars_append p (a b : string) :
  all_chars p (a +:+ b) = all_chars p a && all_chars p b.
Proof.
  induction a as [|c a IH]; [done|].
  rewrite append_cons. simpl. by rewrite IH, andb_assoc.
Qed.

Lemma all_chars_impl (p q : ascii -> bool) (s : string) :
  (forall c, p c = true -> q c = true) ->
  all_chars p s = true -> all_chars q s = true.
Proof.
  intros Hpq. induction s as [|c s IH]; simpl; [done|].
  intros [Hc Hs]%andb_prop. by rewrite (Hpq c Hc), IH.
Qed.

(** Splitting at a separator undoes joining pieces that are free of it. *)
Lemma split_on_from_free sep cur t :
  all_chars (fun c => negb (c =? sep)%char) t = true ->
  split_on_from sep cur t = [cur +:+ t].
Proof.
  revert cur. induction t as [|c t IH]; simpl; intros cur.
  - by rewrite append_nil_r.
  - intros [Hc Ht]%andb_prop. apply negb_true_iff in Hc. rewrite Hc.
    by rewrite IH, append_snoc.
Qed.

Lemma split_on_from_sep sep cur t rest :
  all_chars (fun c => negb (c =? sep)%char) t = true ->
  split_on_from sep cur (t +:+ String sep rest) =
    (cur +:+ t) :: split_on_from sep "" rest.
Proof.
  revert cur. induction t as [|c t IH]; intros cur.
  - rewrite append_nil_l, append_nil_r. simpl. by rewrite Ascii.eqb_refl.
  - rewrite append_cons. simpl.
    intros [Hc Ht]%andb_prop. apply negb_true_iff in Hc. rewrite Hc.
    by rewrite IH, append_snoc.
Qed.

Lemma split_on_join sep (pieces : list string) :
  pieces <> [] ->
  Forall (fun t => all_chars (fun c => negb (c =? sep)%char) t = true)
    pieces ->
  split_on sep (join (String sep "") pieces) = pieces.
Proof.
  unfold split_on. intros Hne Hfree.
  induction Hfree as [|t pieces Ht Hfree IH]; [done|].
  destruct pieces as [|t' pieces].
  - simpl. by rewrite split_on_from_free.
  - change (join (String sep "") (t :: t' :: pieces))
      with (t +:+ String sep (join (String sep "") (t' :: pieces))).
    rewrite split_on_from_sep, append_nil_l by done. by rewrite IH.
Qed.

(** The same for [split()] and blanks, for pieces that are not empty. *)
Lemma split_from_free cur t :
  all_chars (fun c => negb (is_space c)) t = true ->
  cur +:+ t <> "" ->
  split_from cur t = [cur +:+ t].
Proof.
  revert cur. induction t as [|c t IH]; simpl; intros cur.
  - rewrite append_nil_r. intros _ Hne.
    by destruct (String.eqb_spec cur "").
  - intros [Hc Ht]%andb_prop Hne. apply negb_true_iff in Hc. rewrite Hc.
    rewrite IH; rewrite ?append_snoc; done.
Qed.

Lemma split_from_blank cur t rest :
  all_chars (fun c => negb (is_space c)) t = true ->
  cur +:+ t <> "" ->
  split_from cur (t +:+ String " " rest) = (cur +:+ t) :: split_from "" rest.
Proof.
  revert cur. induction t as [|c t IH]; intros cur.
  - rewrite append_nil_l, append_nil_r. simpl. intros _ Hne.
    by destruct (String.eqb_spec cur "").
  - rewrite append_cons. simpl.
    intros [Hc Ht]%andb_prop Hne. apply negb_true_iff in Hc. rewrite Hc.
    rewrite IH; rewrite ?append_snoc; done.
Qed.

Lemma split_join (pieces : list string) :
  Forall (fun t => all_chars (fun c => negb (is_space c)) t = true /\
                   t <> "") pieces ->
  split (join " " pieces) = pieces.
Proof.
  unfold split. induction 1 as [|t pieces [Ht Hne] Hfree IH]; [done|].
  destruct pieces as [|t' pieces].
  - simpl. by rewrite split_from_free.
  - change (join " " (t :: t' :: pieces))
      with (t +:+ String " " (join " " (t' :: pieces))).
    rewrite split_from_blank, append_nil_l by done. by rewrite IH.
Qed.

End StringFacts.

Section DecimalFacts.

Import UnitsPower.

Lemma uint_digits (d : uint) :
  all_chars is_digit (NilEmpty.string_of_uint d) = true.
Proof. induction d; simpl; done. Qed.

Lemma uint_nonempty (d : uint) :
  d <> Nil -> NilEmpty.string_of_uint d <> "".
Proof. by destruct d. Qed.

(** [str(n)] is a string of digits that is not empty, with a minus sign in
    front for a negative number. *)
Lemma str_int_cases (z : Z) :
  exists ds, all_chars is_digit ds = true /\ ds <> "" /\
             (str_int z = ds \/ str_int z = String "-" ds).
Proof.
  unfold str_int. destruct z as [|p|p]; simpl.
  - exists "0". by repeat split; [|left].
  - exists (NilEmpty.string_of_uint (Pos.to_uint p)).
    split; [apply uint_digits|]. split; [|by left].
    apply uint_nonempty, Unsigned.to_uint_nonnil.
  - exists (NilEmpty.string_of_uint (Pos.to_uint p)).
    split; [apply uint_digits|]. split; [|by right].
    apply uint_nonempty, Unsigned.to_uint_nonnil.
Qed.

Lemma int_str_str_int (z : Z) : int_str (str_int z) = Ok z.
Proof.
  unfold int_str.
  destruct (str_int_cases z) as (ds & Hd & Hne & Hz).
  assert ((str_int z =? "")%string || (str_int z =? "-")%string = false)
    as ->.
  { destruct Hz as [->| ->].
    - destruct ds as [|c ds]; [done|]. simpl in Hd.
      apply andb_prop in Hd as [Hc _].
      destruct (String.eqb_spec (String c ds) "-") as [[= -> ->]|]; done.
    - destruct ds; [done|]. by destruct (String.eqb_spec (String "-" (String a ds)) "-"). }
  unfold str_int. by rewrite NilEmpty.isi, DecimalZ.of_to.
Qed.

End DecimalFacts.

Section FactorFacts.

Import UnitsPower.

(** The characters of a rendered factor. *)
Let is_unit_char (c : ascii) : bool :=
  is_alpha c || is_digit c || (c =? "-")%char.

Lemma alpha_class (c : ascii) :
  is_alpha c = true ->
  is_digit c = false /\ (c =? "-")%char = false /\ is_unit_char c = true.
Proof. by destruct c as [[] [] [] [] [] [] [] []]. Qed.

Lemma digit_class (c : ascii) :
  is_digit c = true ->
  is_alpha c = false /\ (c =? "-")%char = false /\ is_unit_char c = true.
Proof. by destruct c as [[] [] [] [] [] [] [] []]. Qed.

Lemma unit_char_class (c : ascii) :
  is_unit_char c = true ->
  negb (c =? ".")%char = true /\ negb (is_space c) = true.
Proof. by destruct c as [[] [] [] [] [] [] [] []]. Qed.

Lemma str_int_unit_chars (z : Z) : all_chars is_unit_char (str_int z) = true.
Proof.
  destruct (str_int_cases z) as (ds & Hd & _ & [-> | ->]); simpl.
  all: eapply all_chars_impl; [|exact Hd].
  all: by intros c (_ & _ & ?)%digit_class.
Qed.

Lemma render_factor_unit_chars (f : factor) :
  well_formed_factor f ->
  all_chars is_unit_char (render_factor f) = true /\ render_factor f <> "".
Proof.
  intros [Hne Halpha]. unfold render_factor. split.
  - rewrite all_chars_append. apply andb_true_intro. split.
    + eapply all_chars_impl; [|exact Halpha].
      by intros c (_ & _ & ?)%alpha_class.
    + destruct (exponent f); [apply str_int_unit_chars|done].
  - by intros [? _]%append_eq_nil.
Qed.

Lemma last_char_append (a b : string) :
  b <> "" -> last_char (a +:+ b) = last_char b.
Proof.
  intros Hb. induction a as [|c a IH]; [done|].
  rewrite append_cons. simpl. rewrite IH.
  destruct (a +:+ b) eqn:E; [|done].
  by apply append_eq_nil in E as [_ ?].
Qed.

Lemma last_char_all p (s : string) :
  all_chars p s = true -> s <> "" ->
  exists c, last_char s = Ok c /\ p c = true.
Proof.
  induction s as [|c s IH]; [done|]. simpl.
  intros [Hc Hs]%andb_prop _. destruct s as [|c' s]; [eauto|].
  by apply IH.
Qed.

Lemma findall_int_skip_alpha (sym rest : string) :
  all_chars is_alpha sym = true ->
  findall_int_from None (sym +:+ rest) = findall_int_from None rest.
Proof.
  induction sym as [|c sym IH]; [done|]. rewrite append_cons. simpl.
  intros [Hc Hs]%andb_prop. apply alpha_class in Hc as (-> & -> & _).
  simpl. by apply IH.
Qed.

Lemma findall_int_digits (m ds : string) :
  all_chars is_digit ds = true ->
  findall_int_from (Some m) ds = [m +:+ ds].
Proof.
  revert m. induction ds as [|c ds IH]; simpl; intros m.
  - by rewrite append_nil_r.
  - intros [-> Hs]%andb_prop. rewrite IH by done. simpl.
    by rewrite append_snoc.
Qed.

Lemma findall_int_str_int (z : Z) :
  findall_int_from None (str_int z) = [str_int z].
Proof.
  destruct (str_int_cases z) as (ds & Hd & Hne & [-> | ->]).
  - destruct ds as [|c ds]; [done|]. simpl in *.
    apply andb_prop in Hd as [-> Hd]. by rewrite findall_int_digits.
  - simpl. destruct ds as [|c ds]; [done|]. simpl in *.
    apply andb_prop in Hd as [Hc Hd]. rewrite Hc. simpl.
    by rewrite findall_int_digits.
Qed.

Lemma letters_append (a b : string) :
  letters (a +:+ b) = letters a +:+ letters b.
Proof.
  induction a as [|c a IH]; [done|]. rewrite append_cons. simpl.
  destruct (is_alpha c); [|done]. by rewrite append_cons, IH.
Qed.

Lemma letters_alpha (s : string) :
  all_chars is_alpha s = true -> letters s = s.
Proof.
  induction s as [|c s IH]; [done|]. simpl.
  intros [-> Hs]%andb_prop. by rewrite IH.
Qed.

Lemma letters_str_int (z : Z) : letters (str_int z) = "".
Proof.
  assert (forall ds, all_chars is_digit ds = true -> letters ds = "") as Hds.
  { induction ds as [|c ds IH]; [done|]. simpl.
    intros [Hc Hs]%andb_prop. apply digit_class in Hc as (-> & _).
    by apply IH. }
  destruct (str_int_cases z) as (ds & Hd & _ & [-> | ->]); simpl; auto.
Qed.

Variable repr_float : Q -> string.

(** One factor through the body of the loop: the symbol is kept and the
    exponent is multiplied. *)
Lemma power_elem_factor (f : factor) (p : Z) :
  well_formed_factor f ->
  power_elem repr_float (render_factor f) (PyInt p) =
    Ok (render_factor (factor_power p f)).
Proof.
  intros [Hne Halpha]. unfold power_elem, render_factor, factor_power.
  destruct (exponent f) as [e|]; simpl.
  - destruct (str_int_cases e) as (ds & Hd & Hdne & He).
    assert (exists c, last_char (str_int e) = Ok c /\ is_digit c = true)
      as (c & Hlast & Hc).
    { destruct He as [-> | ->].
      - by apply last_char_all.
      - change (String "-" ds) with ("-" +:+ ds).
        rewrite last_char_append by done. by apply last_char_all. }
    rewrite last_char_append, Hlast by (destruct He as [-> | ->]; done).
    simpl. rewrite Hc. unfold findall_int.
    rewrite findall_int_skip_alpha, findall_int_str_int by done. simpl.
    rewrite int_str_str_int. simpl.
    by rewrite letters_append, letters_alpha, letters_str_int, append_nil_r.
  - rewrite append_nil_r.
    destruct (last_char_all is_alpha (symbol f)) as (c & -> & Hc); [done..|].
    simpl. apply alpha_class in Hc as (-> & _).
    by rewrite Z.mul_1_l.
Qed.

Lemma power_elems (fs : list factor) (p : Z) :
  Forall well_formed_factor fs ->
  map_result (fun elem => power_elem repr_float elem (PyInt p))
    (map render_factor fs) =
  Ok (map (fun f => render_factor (factor_power p f)) fs).
Proof.
  induction 1 as [|f fs Hf _ IH]; [done|].
  simpl. by rewrite power_elem_factor, IH.
Qed.

(** Splitting a rendered product gives back its factors. *)
Lemma split_render (groups : list (list factor)) :
  well_formed groups ->
  split (render groups) = map (fun g => join "." (map render_factor g)) groups
  /\
  flat_map (split_on ".") (split (render groups)) =
    map render_factor (concat groups).
Proof.
  intros [_ Hgroups].
  assert (split (render groups) =
          map (fun g => join "." (map render_factor g)) groups) as Hsplit.
  { apply split_join, Forall_fmap. eapply Forall_impl; [exact Hgroups|].
    intros g [Hne Hfs]. simpl. clear Hgroups.
    induction Hfs as [|f fs Hf Hfs IH]; [done|].
    destruct (render_factor_unit_chars f Hf) as [Hchars Hnonempty].
    assert (all_chars (fun c => negb (is_space c)) (render_factor f) = true)
      as Hf'.
    { eapply all_chars_impl; [|exact Hchars].
      by intros c [_ ?]%unit_char_class. }
    destruct fs as [|f' fs]; [done|].
    change (join "." (map render_factor (f :: f' :: fs)))
      with (render_factor f +:+ String "." (join "." (map render_factor (f' :: fs)))).
    destruct IH as [IH1 IH2]; [done|]. split.
    - rewrite all_chars_append, Hf'. simpl. exact IH1.
    - by intros [? _]%append_eq_nil. }
  split; [done|]. rewrite Hsplit. clear Hsplit.
  induction Hgroups as [|g groups [Hne Hfs] _ IH]; [done|].
  simpl. rewrite IH, map_app. f_equal.
  apply (split_on_join "."); [by destruct g|].
  apply Forall_fmap. eapply Forall_impl; [exact Hfs|].
  intros f Hf. simpl. destruct (render_factor_unit_chars f Hf) as [Hchars _].
  eapply all_chars_impl; [|exact Hchars].
  by intros c [? _]%unit_char_class.
Qed.

End FactorFacts.

Section UnitsPowerFacts.

Import UnitsPower.
Variable repr_float : Q -> string.
Variable Unit : string -> result cf_unit.
Variable unit_pow : cf_unit -> number -> result cf_unit.

Lemma round_differs_non_integer (q : Q) :
  (forall z : Z, ~ q == inject_Z z) -> round_differs (PyFloat q) = Ok true.
Proof.
  intros Hq. unfold round_differs. f_equal. apply negb_true_iff.
  destruct (Qeq_bool _ q) eqn:E; [|done].
  apply Qeq_bool_eq in E. destruct (Hq (round_float q)). by symmetry.
Qed.

Lemma units_power_symbolic (u : cf_unit) (p : Z) (origin_ first : string)
    (c : ascii) :
  unit_category u = Udunits ->
  origin u = Some origin_ ->
  getitem (split origin_) 0 = Ok first ->
  first_char first = Ok c ->
  is_digit c = false ->
  units_power repr_float Unit unit_pow u (PyInt p) =
    (let! new_units_list :=
       map_result (fun elem => power_elem repr_float elem (PyInt p))
         (flat_map (split_on ".") (split origin_)) in
     Unit (join " " new_units_list)).
Proof.
  intros Hcat Horigin Hfirst Hc Hdigit.
  unfold units_power, is_no_unit, is_unknown.
  rewrite Hcat, Horigin, Hfirst. simpl. rewrite Hc. simpl. by rewrite Hdigit.
Qed.

Lemma units_power_product (u : cf_unit) (groups : list (list factor))
    (p : Z) :
  unit_category u = Udunits ->
  origin u = Some (render groups) ->
  well_formed groups ->
  units_power repr_float Unit unit_pow u (PyInt p) =
    Unit (render_power p groups).
Proof.
  intros Hcat Horigin Hwf.
  destruct (split_render groups Hwf) as [Hsplit Hflat].
  destruct Hwf as [Hne Hgroups].
  assert (Forall well_formed_factor (concat groups)) as Hall.
  { apply Forall_concat. eapply Forall_impl; [exact Hgroups|].
    by intros g' [_ ?]. }
  destruct groups as [|g groups]; [done|].
  apply Forall_cons in Hgroups as [[Hg Hfs] Hgroups].
  destruct g as [|f g]; [done|].
  apply Forall_cons in Hfs as [[Hsym Halpha] Hfs].
  assert (exists c rest, render_factor f = String c rest /\
                         is_digit c = false) as (c & rest & Hf & Hc).
  { unfold render_factor. destruct (symbol f) as [|c sym]; [done|].
    simpl in Halpha. apply andb_prop in Halpha as [Hc _].
    apply alpha_class in Hc as [Hc _]. rewrite append_cons. eauto. }
  assert (exists rest',
            join "." (map render_factor (f :: g)) = String c rest')
    as [rest' Hfirst].
  { destruct g as [|f' g].
    - by exists rest.
    - change (join "." (map render_factor (f :: f' :: g)))
        with (render_factor f +:+ "." +:+
              join "." (map render_factor (f' :: g))).
      rewrite Hf, append_cons. eauto. }
  rewrite (units_power_symbolic u p (render ((f :: g) :: groups))
             (join "." (map render_factor (f :: g))) c Hcat Horigin).
  - by rewrite Hflat, power_elems.
  - by rewrite Hsplit.
  - by rewrite Hfirst.
  - done.
Qed.

End UnitsPowerFacts.

(** X24: [units_power] on finite powers.  It raises TypeError for every
    finite power that is not an integer; for the units 'no_unit' and
    'unknown' and an integer power it returns the units it was given; and
    for units whose origin is a product of symbols of letters with integer
    exponents and an int as power it returns the units of the same product
    with every exponent multiplied by the power, the symbols kept: 'J' to
    the power 2 is the unit 'J2'. *)
Theorem units_power_finite_spec
    (repr_float : Q -> string)
    (Unit : string -> result UnitsPower.cf_unit)
    (unit_pow : UnitsPower.cf_unit -> UnitsPower.number ->
                result UnitsPower.cf_unit)
    (u : UnitsPower.cf_unit) :
  let units_power := UnitsPower.units_power repr_float Unit unit_pow in
  (forall q : Q, (forall z : Z, ~ q == inject_Z z) ->
     units_power u (UnitsPower.PyFloat q) = Raise TypeError)
  /\
  (forall power, UnitsPower.round_differs power = Ok false ->
     UnitsPower.is_no_unit u || UnitsPower.is_unknown u = true ->
     units_power u power = Ok u)
  /\
  (forall (groups : list (list UnitsPower.factor)) (p : Z),
     UnitsPower.unit_category u = UnitsPower.Udunits ->
     UnitsPower.origin u = Some (UnitsPower.render groups) ->
     UnitsPower.well_formed groups ->
     units_power u (UnitsPower.PyInt p) =
       Unit (UnitsPower.render_power p groups))
  /\
  (UnitsPower.unit_category u = UnitsPower.Udunits ->
   UnitsPower.origin u = Some "J" ->
   units_power u (UnitsPower.PyInt 2) = Unit "J2").
Proof.
  intros units_power. unfold units_power. repeat split.
  - intros q Hq. unfold UnitsPower.units_power.
    by rewrite round_differs_non_integer.
  - intros power Hround Hcat. unfold UnitsPower.units_power.
    rewrite Hround. simpl. by rewrite Hcat.
  - apply units_power_product.
  - intros Hcat Horigin.
    apply (units_power_product repr_float Unit unit_pow u
             [[ {| UnitsPower.symbol := "J";
                   UnitsPower.exponent := None |} ]] 2 Hcat Horigin).
    split; [done|]. by repeat constructor.
Qed.

Lemma units_power_finite_spec_witness :
  let Unit := fun s => Ok {| UnitsPower.unit_category := UnitsPower.Udunits;
                             UnitsPower.origin := Some s |} in
  let unit_pow := fun (u : UnitsPower.cf_unit) (_ : UnitsPower.number) =>
                    Ok u in
  let units_power := UnitsPower.units_power (fun _ => "") Unit unit_pow in
  let flux := {| UnitsPower.unit_category := UnitsPower.Udunits;
                 UnitsPower.origin := Some "kg m-2.s-1" |} in
  let none := {| UnitsPower.unit_category := UnitsPower.NoUnit;
                 UnitsPower.origin := Some "no_unit" |} in
  units_power flux (UnitsPower.PyFloat (5 # 2)) = Raise TypeError /\
  units_power none (UnitsPower.PyInt 2) = Ok none /\
  units_power flux (UnitsPower.PyInt 2) = Unit "kg2 m-4 s-2".
Proof.
  intros Unit unit_pow units_power flux none.
  split; [|split].
  - apply (proj1 (units_power_finite_spec (fun _ => "") Unit unit_pow flux)).
    intros z Hz. unfold Qeq in Hz. simpl in Hz. lia.
  - by apply (proj1 (proj2 (units_power_finite_spec (fun _ => "") Unit unit_pow
                              none))).
  - apply (proj1 (proj2 (proj2 (units_power_finite_spec (fun _ => "") Unit unit_pow
                                  flux)))
             [[ {| UnitsPower.symbol := "kg"; UnitsPower.exponent := None |} ];
              [ {| UnitsPower.symbol := "m";
                   UnitsPower.exponent := Some (-2) |};
                {| UnitsPower.symbol := "s";
                   UnitsPower.exponent := Some (-1) |} ]]
             2 eq_refl eq_refl).
    split; [done|]. by repeat constructor.
Defined.


(** ** Attributes of datasets *)

Section MetadataFacts.

Import MLRPredict MLRMetadata.

Variable io_NECESSARY_KEYS : list string.



Lemma var_type_valid_iff (dataset : metadata) :
  var_type_valid dataset = true <->
  exists s, dataset !! "var_type" = Some (PyStr s) /\ s ∈ VAR_TYPES.
Proof.
  unfold var_type_valid. split.
  - destruct (dataset !! "var_type") as [[| | |s]|]; try done.
    intros Hs%bool_decide_eq_true. eauto.
  - intros (s & -> & Hs). by apply bool_decide_eq_true.
Qed.

Lemma missing_keys_loop_iff (dataset : metadata) ks output :
  missing_keys_loop dataset ks output = true <->
  output = true /\ forall key, key ∈ ks -> is_Some (dataset !! key).
Proof.
  revert output. induction ks as [|key ks IH]; intros output; simpl.
  - split; [intros ->; split; [done|]|by intros [-> _]].
    intros key Hin. by apply elem_of_nil in Hin.
  - case_bool_decide as Hk; simpl; rewrite IH.
    + split.
      * intros [-> Hall]. split; [done|].
        intros k [->|Hin]%elem_of_cons; auto.
      * intros [-> Hall]. split; [done|].
        intros k Hin. apply Hall. by right.
    + split; [by intros [? _]|].
      intros [_ Hall]. exfalso. apply Hk, Hall. by left.
Qed.

Lemma datasets_loop_returns mode (datasets : list metadata) output :
  Forall (fun d => is_Some (d !! "filename")) datasets ->
  exists b,
    datasets_loop io_NECESSARY_KEYS mode datasets output = Ok b /\
    (b = true <-> output = true /\ Forall (accepted io_NECESSARY_KEYS mode) datasets).
Proof.
  intros Hf. revert output.
  induction Hf as [|d ds [path Hpath] _ IH]; intros output; simpl.
  - exists output. split; [done|]. split; [by intros ->|by intros [-> _]].
  - unfold item. rewrite Hpath. simpl.
    match goal with |- context [datasets_loop _ _ _ ?o] =>
      destruct (IH o) as (b & -> & Hb) end.
    exists b. split; [done|]. rewrite Hb, Forall_cons. unfold accepted.
    clear Hb IH.
    destruct (var_type_valid d) eqn:Hv; simpl.
    + assert (exists s, d !! "var_type" = Some (PyStr s) /\ s ∈ VAR_TYPES)
        as Hs by (by apply var_type_valid_iff).
      rewrite andb_false_r.
      case_bool_decide as Hm.
      * rewrite missing_keys_loop_iff. intuition.
      * intuition.
    + assert (~ exists s, d !! "var_type" = Some (PyStr s) /\ s ∈ VAR_TYPES)
        as Hs.
      { intros Hs%var_type_valid_iff. congruence. }
      rewrite andb_true_r.
      case_bool_decide as Hm'.
      * split; [by intros [? _]|]. intros [_ [[_ Hx] _]]. exfalso. auto.
      * case_bool_decide as Hm.
        -- rewrite missing_keys_loop_iff. intuition.
        -- intuition.
Qed.

Lemma datasets_loop_raises mode (datasets : list metadata) output :
  ~ Forall (fun d => is_Some (d !! "filename")) datasets ->
  datasets_loop io_NECESSARY_KEYS mode datasets output = Raise KeyError.
Proof.
  revert output. induction datasets as [|d ds IH]; intros output Hn; simpl.
  - destruct Hn. constructor.
  - unfold item. destruct (d !! "filename") as [path|] eqn:Hpath; [|done].
    simpl. apply IH. intros Hf. apply Hn. constructor; [by eexists|done].
Qed.

Lemma complete_accepted (dataset : metadata) :
  complete io_NECESSARY_KEYS dataset = true <->
  accepted io_NECESSARY_KEYS None dataset.
Proof.
  unfold complete, accepted.
  rewrite andb_true_iff, forallb_forall, var_type_valid_iff. split.
  - intros [Hk Hv]. split; [|done]. intros _ key Hin.
    eapply bool_decide_eq_true, Hk. by apply list_elem_of_In.
  - intros [Hk Hv]. split; [|by apply Hv].
    intros key Hin%list_elem_of_In. apply bool_decide_eq_true. by apply Hk.
Qed.

Lemma single_dataset_valid (dataset : metadata) :
  is_Some (dataset !! "filename") ->
  datasets_have_mlr_attributes io_NECESSARY_KEYS [dataset] None =
    Ok (complete io_NECESSARY_KEYS dataset).
Proof.
  intros Hf. unfold datasets_have_mlr_attributes.
  destruct (datasets_loop_returns None [dataset] true) as (b & -> & Hb).
  { by constructor. }
  f_equal. apply eq_true_iff_eq. rewrite Hb, complete_accepted.
  rewrite Forall_singleton. intuition.
Qed.

Lemma valid_datasets_loop_filter (input_data valid : list metadata) :
  Forall (fun d => is_Some (d !! "filename")) input_data ->
  valid_datasets_loop io_NECESSARY_KEYS input_data valid =
    Ok (valid ++ filter (fun d => complete io_NECESSARY_KEYS d = true) input_data).
Proof.
  intros Hf. revert valid.
  induction Hf as [|d ds Hd _ IH]; intros valid; simpl.
  - by rewrite app_nil_r.
  - rewrite single_dataset_valid by done. simpl. rewrite filter_cons.
    case_decide as Hc.
    + rewrite Hc, IH. by rewrite <- app_assoc.
    + apply not_true_is_false in Hc. rewrite Hc.
      destruct Hd as [path Hpath]. unfold item. rewrite Hpath. simpl.
      by rewrite IH.
Qed.

Lemma valid_datasets_loop_raises (input_data valid : list metadata) :
  ~ Forall (fun d => is_Some (d !! "filename")) input_data ->
  valid_datasets_loop io_NECESSARY_KEYS input_data valid = Raise KeyError.
Proof.
  revert valid. induction input_data as [|d ds IH]; intros valid Hn; simpl.
  - destruct Hn. constructor.
  - destruct (d !! "filename") as [path|] eqn:Hpath.
    + rewrite single_dataset_valid by (by eexists). simpl.
      assert (~ Forall (fun d => is_Some (d !! "filename")) ds) as Hn'.
      { intros Hf. apply Hn. constructor; [by eexists|done]. }
      destruct (complete io_NECESSARY_KEYS d); [by apply IH|].
      unfold item. rewrite Hpath. simpl. by apply IH.
    + unfold datasets_have_mlr_attributes. simpl. unfold item.
      by rewrite Hpath.
Qed.

Lemma alias_loop_present (dataset : metadata) attributes alias :
  alias_loop dataset attributes alias =
    alias ++ omap (fun attribute => dataset !! attribute) attributes.
Proof.
  revert alias. induction attributes as [|a attributes IH]; intros alias;
    simpl.
  - by rewrite app_nil_r.
  - destruct (dataset !! a) as [v|]; rewrite IH; [|done].
    by rewrite <- app_assoc.
Qed.

Lemma str_join_strings delimiter (names : list string) :
  str_join delimiter (map PyStr names) = Ok (UnitsPower.join delimiter names).
Proof.
  unfold str_join.
  assert (map_result (fun v => match v with
                               | PyStr s => Ok s
                               | _ => Raise TypeError
                               end) (map PyStr names) = Ok names) as ->.
  { induction names as [|s names IH]; [done|]. simpl. by rewrite IH. }
  done.
Qed.

End MetadataFacts.

(** X1: [datasets_have_mlr_attributes] returns True exactly when every
    dataset passes the checks of the mode: unless the mode is
    'only_var_type', the dataset has every key of [NECESSARY_KEYS] (the
    shared keys, 'tag' and 'var_type'), and unless the mode is
    'only_missing', its 'var_type' is one of the strings of [VAR_TYPES].  A
    list without datasets is accepted.  The function does not return but
    raises KeyError as soon as one dataset has no 'filename', whatever the
    mode. *)
Theorem datasets_have_mlr_attributes_spec (io_NECESSARY_KEYS : list string)
    (datasets : list MLRMetadata.metadata) (mode : option string) :
  let check :=
    MLRMetadata.datasets_have_mlr_attributes io_NECESSARY_KEYS datasets mode in
  let has_filename := fun d : MLRMetadata.metadata =>
    is_Some (d !! "filename") in
  let accepted := fun d : MLRMetadata.metadata =>
    (mode <> Some "only_var_type" ->
     forall key, key ∈ MLRMetadata.NECESSARY_KEYS io_NECESSARY_KEYS ->
                 is_Some (d !! key)) /\
    (mode <> Some "only_missing" ->
     exists s, d !! "var_type" = Some (MLRPredict.PyStr s) /\
               s ∈ MLRMetadata.VAR_TYPES) in
  (Forall has_filename datasets ->
   exists b, check = Ok b /\ (b = true <-> Forall accepted datasets))
  /\
  (~ Forall has_filename datasets -> raises check KeyError)
  /\
  (datasets = [] -> check = Ok true).
Proof.
  intros check has_filename accepted. split; [|split].
  - intros Hf.
    destruct (datasets_loop_returns io_NECESSARY_KEYS mode datasets true Hf)
      as (b & Hb & Hiff).
    exists b. split; [done|]. rewrite Hiff. intuition.
  - intros Hn. by apply datasets_loop_raises.
  - by intros ->.
Qed.

Lemma datasets_have_mlr_attributes_spec_witness :
  let tas : MLRMetadata.metadata :=
    {[ "filename" := MLRPredict.PyStr "tas.nc";
       "tag" := MLRPredict.PyStr "tas";
       "var_type" := MLRPredict.PyStr "feature" ]} in
  let odd : MLRMetadata.metadata :=
    {[ "filename" := MLRPredict.PyStr "pr.nc";
       "var_type" := MLRPredict.PyStr "predictor" ]} in
  let lost : MLRMetadata.metadata :=
    {[ "tag" := MLRPredict.PyStr "tas";
       "var_type" := MLRPredict.PyStr "feature" ]} in
  (exists b,
     MLRMetadata.datasets_have_mlr_attributes ["filename"] [tas; odd]
       (Some "only_missing") = Ok b /\
     (b = true <->
      Forall (fun d : MLRMetadata.metadata =>
                (Some "only_missing" <> Some "only_var_type" ->
                 forall key,
                   key ∈ MLRMetadata.NECESSARY_KEYS ["filename"] ->
                   is_Some (d !! key)) /\
                (Some "only_missing" <> Some "only_missing" ->
                 exists s, d !! "var_type" = Some (MLRPredict.PyStr s) /\
                           s ∈ MLRMetadata.VAR_TYPES))
        [tas; odd]))
  /\
  raises (MLRMetadata.datasets_have_mlr_attributes ["filename"] [tas; lost]
            None) KeyError.
Proof.
  intros tas odd lost. split.
  - apply (proj1 (datasets_have_mlr_attributes_spec ["filename"] [tas; odd]
                    (Some "only_missing"))).
    repeat constructor; by eexists.
  - apply (proj1 (proj2 (datasets_have_mlr_attributes_spec ["filename"]
                           [tas; lost] None))).
    intros Hf. apply Forall_cons in Hf as [_ Hf].
    apply Forall_cons in Hf as [[v Hv] _]. vm_compute in Hv. discriminate.
Defined.

(** X2: [get_input_data] returns, in their order, exactly the datasets of
    [cfg['input_data']] followed by those of the ancestor files that have
    every necessary key (the shared keys, 'tag' and 'var_type') and a
    'var_type' that is one of [VAR_TYPES]; the others are skipped without an
    error.  This needs every dataset to have a 'filename': with one that has
    none, the function raises KeyError instead of skipping it. *)
Theorem get_input_data_spec (io_NECESSARY_KEYS : list string)
    (input_data ancestors : list MLRMetadata.metadata) :
  let all := input_data ++ ancestors in
  let has_filename := fun d : MLRMetadata.metadata =>
    is_Some (d !! "filename") in
  let valid := fun d : MLRMetadata.metadata =>
    MLRMetadata.complete io_NECESSARY_KEYS d = true in
  (Forall has_filename all ->
   MLRMetadata.get_input_data io_NECESSARY_KEYS (Some input_data)
     (Ok ancestors) = Ok (filter valid all))
  /\
  (forall d,
     valid d <->
     (forall key, key ∈ io_NECESSARY_KEYS ++ ["tag"; "var_type"] ->
                  is_Some (d !! key)) /\
     (exists s, d !! "var_type" = Some (MLRPredict.PyStr s) /\
                s ∈ MLRMetadata.VAR_TYPES))
  /\
  (~ Forall has_filename all ->
   raises (MLRMetadata.get_input_data io_NECESSARY_KEYS (Some input_data)
             (Ok ancestors)) KeyError).
Proof.
  intros all has_filename valid. split; [|split].
  - intros Hf. unfold MLRMetadata.get_input_data. simpl.
    by rewrite valid_datasets_loop_filter.
  - intros d. unfold valid. rewrite complete_accepted.
    unfold MLRMetadata.accepted, MLRMetadata.NECESSARY_KEYS. split.
    + intros [Hk Hv]. split; [by apply Hk|by apply Hv].
    + intros [Hk Hv]. by split.
  - intros Hn. unfold MLRMetadata.get_input_data. simpl.
    by apply valid_datasets_loop_raises.
Qed.

Lemma get_input_data_spec_witness :
  let tas : MLRMetadata.metadata :=
    {[ "filename" := MLRPredict.PyStr "tas.nc";
       "tag" := MLRPredict.PyStr "tas";
       "var_type" := MLRPredict.PyStr "feature" ]} in
  let odd : MLRMetadata.metadata :=
    {[ "filename" := MLRPredict.PyStr "pr.nc";
       "var_type" := MLRPredict.PyStr "predictor" ]} in
  let lost : MLRMetadata.metadata :=
    {[ "tag" := MLRPredict.PyStr "tas";
       "var_type" := MLRPredict.PyStr "feature" ]} in
  MLRMetadata.get_input_data ["filename"] (Some [odd]) (Ok [tas]) =
    Ok (filter (fun d => MLRMetadata.complete ["filename"] d = true)
          ([odd] ++ [tas]))
  /\
  raises (MLRMetadata.get_input_data ["filename"] (Some [tas]) (Ok [lost]))
    KeyError.
Proof.
  intros tas odd lost. split.
  - apply (proj1 (get_input_data_spec ["filename"] [odd] [tas])).
    repeat constructor; by eexists.
  - apply (proj2 (proj2 (get_input_data_spec ["filename"] [tas] [lost]))).
    intros Hf. apply Forall_cons in Hf as [_ Hf].
    apply Forall_cons in Hf as [[v Hv] _]. vm_compute in Hv. discriminate.
Defined.

(** X3: [write_cube] and [get_input_data] agree on what a valid dataset is:
    for attributes with a 'filename', [write_cube] either writes the cube
    with these attributes or writes nothing, and [get_input_data] keeps a
    dataset with these attributes exactly when [write_cube] writes it.
    Without 'filename' [write_cube] raises KeyError. *)
Theorem write_cube_get_input_data {C : Type} (io_NECESSARY_KEYS : list string)
    (cube : C) (attributes : MLRMetadata.metadata) (path : string) :
  (is_Some (attributes !! "filename") ->
   exists writes,
     MLRMetadata.write_cube io_NECESSARY_KEYS cube attributes path =
       Ok writes /\
     (writes = [] \/ writes = [(cube, attributes)]) /\
     MLRMetadata.get_input_data io_NECESSARY_KEYS (Some []) (Ok [attributes]) =
       Ok (map snd writes))
  /\
  (attributes !! "filename" = None ->
   raises (MLRMetadata.write_cube io_NECESSARY_KEYS cube attributes path)
     KeyError).
Proof.
  split.
  - intros Hf. unfold MLRMetadata.write_cube, MLRMetadata.get_input_data.
    rewrite single_dataset_valid by done. cbn [bind app].
    rewrite valid_datasets_loop_filter by (by constructor). simpl.
    rewrite filter_cons, filter_nil.
    case_decide as Hc.
    + rewrite Hc. simpl. eexists. split; [done|]. split; [by right|done].
    + apply not_true_is_false in Hc. rewrite Hc. simpl.
      eexists. split; [done|]. split; [by left|done].
  - intros Hf. unfold MLRMetadata.write_cube,
      MLRMetadata.datasets_have_mlr_attributes. simpl.
    unfold MLRMetadata.item. by rewrite Hf.
Qed.

Lemma write_cube_get_input_data_witness :
  let tas : MLRMetadata.metadata :=
    {[ "filename" := MLRPredict.PyStr "tas.nc";
       "tag" := MLRPredict.PyStr "tas";
       "var_type" := MLRPredict.PyStr "feature" ]} in
  let lost : MLRMetadata.metadata :=
    {[ "tag" := MLRPredict.PyStr "tas";
       "var_type" := MLRPredict.PyStr "feature" ]} in
  (exists writes,
     MLRMetadata.write_cube ["filename"] 0%nat tas "tas.nc" = Ok writes /\
     (writes = [] \/ writes = [(0%nat, tas)]) /\
     MLRMetadata.get_input_data ["filename"] (Some []) (Ok [tas]) =
       Ok (map snd writes))
  /\
  raises (MLRMetadata.write_cube ["filename"] 0%nat lost "tas.nc") KeyError.
Proof.
  intros tas lost. split.
  - apply (proj1 (write_cube_get_input_data ["filename"] 0%nat tas "tas.nc")).
    by eexists.
  - apply (proj2 (write_cube_get_input_data ["filename"] 0%nat lost
                    "tas.nc")).
    reflexivity.
Defined.

Lemma str_join_not_string delimiter (alias : list MLRPredict.pyval) v :
  v ∈ alias -> (forall s, v <> MLRPredict.PyStr s) ->
  MLRMetadata.str_join delimiter alias = Raise TypeError.
Proof.
  intros Hin Hv. unfold MLRMetadata.str_join.
  assert (map_result (fun v => match v with
                               | MLRPredict.PyStr s => Ok s
                               | _ => Raise TypeError
                               end) alias = Raise TypeError) as ->; [|done].
  induction alias as [|w alias IH]; [by apply elem_of_nil in Hin|].
  simpl. apply elem_of_cons in Hin as [<-|Hin].
  - destruct v; try done. by destruct (Hv s).
  - destruct w; try done. simpl. by rewrite IH.
Qed.

(** X4: the alias that [create_alias] gives a dataset.  With [present] the
    values of those of the given attributes that the dataset has, in the
    order of the attributes: when [present] is not empty and holds strings
    only, the alias is these strings joined by the delimiter; a value that
    is not a string (a year given as a number, say) makes it a TypeError.
    When the dataset has none of the attributes, the alias is the value of
    the default attribute, and the function raises KeyError when the dataset
    lacks the default attribute or lacks 'filename', which the warning
    reads. *)
Theorem create_alias_spec (dataset : MLRMetadata.metadata)
    (attributes : list string) (default delimiter : string) :
  let present := omap (fun attribute => dataset !! attribute) attributes in
  let alias := MLRMetadata.create_alias dataset attributes default delimiter in
  (forall names,
     present = map MLRPredict.PyStr names -> names <> [] ->
     alias = Ok (UnitsPower.join delimiter names))
  /\
  (forall v,
     v ∈ present -> (forall s, v <> MLRPredict.PyStr s) ->
     raises alias TypeError)
  /\
  (forall s,
     present = [] -> dataset !! default = Some (MLRPredict.PyStr s) ->
     is_Some (dataset !! "filename") ->
     alias = Ok s)
  /\
  (present = [] ->
   dataset !! default = None \/ dataset !! "filename" = None ->
   raises alias KeyError).
Proof.
  intros present alias. unfold alias, MLRMetadata.create_alias.
  rewrite alias_loop_present. simpl. fold present.
  split; [|split; [|split]].
  - intros names -> Hn. destruct names as [|s names]; [done|]. simpl.
    apply (str_join_strings delimiter (s :: names)).
  - intros v Hin Hv. destruct present as [|w rest] eqn:Hp;
      [by apply elem_of_nil in Hin|].
    simpl. by apply (str_join_not_string delimiter (w :: rest) v).
  - intros s -> Hd [path Hpath]. unfold MLRMetadata.item.
    rewrite Hd, Hpath. simpl. apply (str_join_strings delimiter [s]).
  - intros -> Hmiss. unfold MLRMetadata.item.
    destruct (dataset !! default) as [v|]; [|done]. simpl.
    destruct Hmiss as [Hd|Hf]; [done|]. by rewrite Hf.
Qed.

Lemma create_alias_spec_witness :
  let dataset : MLRMetadata.metadata :=
    {[ "filename" := MLRPredict.PyStr "tas.nc";
       "dataset" := MLRPredict.PyStr "ERA5";
       "exp" := MLRPredict.PyStr "historical";
       "start_year" := MLRPredict.PyInt 1979 ]} in
  let nameless : MLRMetadata.metadata :=
    {[ "dataset" := MLRPredict.PyStr "ERA5" ]} in
  MLRMetadata.create_alias dataset ["exp"; "ensemble"; "dataset"] "dataset"
    "-" = Ok (UnitsPower.join "-" ["historical"; "ERA5"])
  /\
  raises (MLRMetadata.create_alias dataset ["exp"; "start_year"] "dataset"
            "-") TypeError
  /\
  MLRMetadata.create_alias dataset ["ensemble"] "dataset" "-" = Ok "ERA5"
  /\
  raises (MLRMetadata.create_alias nameless ["ensemble"] "dataset" "-")
    KeyError.
Proof.
  intros dataset nameless. split; [|split; [|split]].
  - apply (proj1 (create_alias_spec dataset ["exp"; "ensemble"; "dataset"]
                    "dataset" "-")); [reflexivity|done].
  - apply (proj1 (proj2 (create_alias_spec dataset ["exp"; "start_year"]
                           "dataset" "-")) (MLRPredict.PyInt 1979)).
    + vm_compute. apply list_elem_of_In. right. by left.
    + done.
  - apply (proj1 (proj2 (proj2 (create_alias_spec dataset ["ensemble"]
                                  "dataset" "-")))).
    + reflexivity.
    + reflexivity.
    + by eexists.
  - apply (proj2 (proj2 (proj2 (create_alias_spec nameless ["ensemble"]
                                  "dataset" "-")))).
    + reflexivity.
    + by right.
Defined.

(** X5: what [_group_by_attributes] does to the datasets when it returns:
    it keeps their number and order, and changes nothing of a dataset but
    its 'group_attribute'.  Without grouping attributes in the recipe this
    is None, unless only scalar data are accepted: then it is the 'dataset'
    attribute of the dataset, which has to be a string.  With grouping
    attributes it is the alias made from them. *)
Theorem group_by_attributes_spec (c : MLRMetadata.group_cfg)
    (datasets grouped : list MLRMetadata.metadata) :
  MLRMetadata._group_by_attributes c datasets = Ok grouped ->
  Forall2
    (fun d d' =>
       exists v,
         d' = <[ "group_attribute" := v ]> d /\
         match MLRMetadata.group_datasets_by_attributes c with
         | [] =>
             if MLRMetadata.group_accept_only_scalar_data c
             then d !! "dataset" = Some v /\ exists s, v = MLRPredict.PyStr s
             else v = MLRPredict.PyNone
         | attributes =>
             exists alias,
               v = MLRPredict.PyStr alias /\
               MLRMetadata.create_alias d attributes "dataset" "-" = Ok alias
         end)
    datasets grouped.
Proof.
  unfold MLRMetadata._group_by_attributes.
  destruct (MLRMetadata.group_datasets_by_attributes c) as [|a attributes].
  - destruct (MLRMetadata.group_accept_only_scalar_data c).
    + intros Hm%map_result_Forall2.
      eapply Forall2_impl; [exact Hm|]. simpl. intros d d' Hd.
      apply bind_Ok in Hd as (alias & Halias & Hd). injection Hd as <-.
      exists (MLRPredict.PyStr alias). split; [done|].
      revert Halias. unfold MLRMetadata.create_alias. simpl.
      destruct (d !! "dataset") as [v|] eqn:Hv; simpl.
      * unfold MLRMetadata.str_join. simpl.
        destruct v; try done. simpl. intros [= <-]. eauto.
      * unfold MLRMetadata.item. by rewrite Hv.
    + intros [= <-]. apply Forall2_fmap_r, Forall_Forall2_diag.
      apply Forall_true. intros d. by exists MLRPredict.PyNone.
  - intros Hm%map_result_Forall2.
    eapply Forall2_impl; [exact Hm|]. simpl. intros d d' Hd.
    apply bind_Ok in Hd as (alias & Halias & Hd). injection Hd as <-.
    exists (MLRPredict.PyStr alias). split; [done|]. by exists alias.
Qed.

Lemma group_by_attributes_spec_witness :
  let scalar := {| MLRMetadata.group_datasets_by_attributes := [];
                   MLRMetadata.group_accept_only_scalar_data := true |} in
  let era5 : MLRMetadata.metadata :=
    {[ "filename" := MLRPredict.PyStr "tas.nc";
       "dataset" := MLRPredict.PyStr "ERA5" ]} in
  Forall2
    (fun d d' : MLRMetadata.metadata =>
       exists v,
         d' = <[ "group_attribute" := v ]> d /\
         (d !! "dataset" = Some v /\ exists s, v = MLRPredict.PyStr s))
    [era5] [<[ "group_attribute" := MLRPredict.PyStr "ERA5" ]> era5].
Proof.
  intros scalar era5.
  apply (group_by_attributes_spec scalar [era5]
           [<[ "group_attribute" := MLRPredict.PyStr "ERA5" ]> era5]).
  reflexivity.
Defined.

(** ** Keyword arguments of [fit] *)

Section FitFacts.

Import MLRFit.

Lemma starts_with_underscore_append (p a b : string) :
  starts_with_underscore (p +:+ String "_" a) =
  starts_with_underscore (p +:+ String "_" b).
Proof. by destruct p. Qed.

Lemma find_dunder_sound (s before after : string) :
  find_dunder s = Some (before, after) -> s = before +:+ "__" +:+ after.
Proof.
  revert before. induction s as [|c s IH]; intros before; simpl; [done|].
  destruct ((c =? "_")%char && starts_with_underscore s) eqn:Ht.
  - intros [= <- <-]. apply andb_prop in Ht as [Hc Hs].
    apply Ascii.eqb_eq in Hc as ->.
    destruct s as [|c' s]; [done|]. simpl in Hs.
    by apply Ascii.eqb_eq in Hs as ->.
  - destruct (find_dunder s) as [[b a]|]; [|done].
    intros [= <- <-]. by rewrite (IH b).
Qed.

(** A prefix that neither contains two underscores in a row nor ends with
    an underscore is what [split] finds in front of '__'. *)
Lemma find_dunder_prefix (p after : string) :
  find_dunder (p +:+ "_") = None ->
  find_dunder (p +:+ "__" +:+ after) = Some (p, after).
Proof.
  change ("__" +:+ after) with (String "_" (String "_" after)).
  induction p as [|c p IH]; [done|].
  rewrite !append_cons. simpl.
  rewrite (starts_with_underscore_append p (String "_" after) "").
  destruct ((c =? "_")%char && starts_with_underscore (p +:+ "_")); [done|].
  destruct (find_dunder (p +:+ "_")) as [[b a]|] eqn:Hp; [done|].
  intros _. by rewrite IH.
Qed.

Lemma split_dunder_first_prefix (p after : string) :
  find_dunder (p +:+ "_") = None ->
  split_dunder_first (p +:+ "__" +:+ after) = p.
Proof.
  intros Hp. unfold split_dunder_first. by rewrite find_dunder_prefix.
Qed.

Context {V : Type}.

Lemma get_fit_kwargs_step_lookup (tk rk : gmap string V) name val param :
  let kwargs := get_fit_kwargs_step V (tk, rk) (name, val) in
  kwargs.1 !! param =
    (if decide (name = "transformer__" +:+ param) then Some val
     else tk !! param) /\
  kwargs.2 !! param =
    (if decide (name = "regressor__" +:+ param) then Some val
     else rk !! param).
Proof.
  assert (forall q, find_dunder ("transformer__" +:+ q) =
                    Some ("transformer", q)) as Ht.
  { intros q. by apply (find_dunder_prefix "transformer"). }
  assert (forall q, find_dunder ("regressor__" +:+ q) =
                    Some ("regressor", q)) as Hr.
  { intros q. by apply (find_dunder_prefix "regressor"). }
  unfold get_fit_kwargs_step, split_dunder_once. simpl.
  destruct (find_dunder name) as [[prefix q]|] eqn:Hn; simpl.
  - destruct (String.eqb_spec prefix "transformer") as [->|Hpt]; simpl.
    + split.
      * case_decide as Hd.
        -- subst name. rewrite Ht in Hn. injection Hn as <-.
           apply lookup_insert_eq.
        -- apply lookup_insert_ne. intros ->. apply Hd.
           by apply find_dunder_sound in Hn.
      * rewrite decide_False; [done|].
        intros ->. by rewrite Hr in Hn.
    + destruct (String.eqb_spec prefix "regressor") as [->|Hpr]; simpl.
      * split.
        -- rewrite decide_False; [done|].
           intros ->. by rewrite Ht in Hn.
        -- case_decide as Hd.
           ++ subst name. rewrite Hr in Hn. injection Hn as <-.
              apply lookup_insert_eq.
           ++ apply lookup_insert_ne. intros ->. apply Hd.
              by apply find_dunder_sound in Hn.
      * split; (rewrite decide_False; [done|]); intros ->.
        -- rewrite Ht in Hn. by injection Hn as <- _.
        -- rewrite Hr in Hn. by injection Hn as <- _.
  - split; (rewrite decide_False; [done|]); intros ->.
    + by rewrite Ht in Hn.
    + by rewrite Hr in Hn.
Qed.

Lemma get_fit_kwargs_items (fit_kwargs : list (string * V)) param v :
  NoDup (map fst fit_kwargs) ->
  ((_get_fit_kwargs fit_kwargs).1 !! param = Some v <->
   ("transformer__" +:+ param, v) ∈ fit_kwargs) /\
  ((_get_fit_kwargs fit_kwargs).2 !! param = Some v <->
   ("regressor__" +:+ param, v) ∈ fit_kwargs).
Proof.
  unfold _get_fit_kwargs.
  induction fit_kwargs as [|[name val] items IH] using rev_ind; intros Hnd.
  - simpl. rewrite !lookup_empty, !elem_of_nil. by split; split.
  - rewrite fmap_app in Hnd. apply NoDup_app in Hnd as (Hnd & Hfresh & _).
    destruct (IH Hnd) as [IHt IHr]. clear IH.
    rewrite fold_left_app. cbn [fold_left].
    destruct (fold_left (get_fit_kwargs_step V) items (∅, ∅)) as [tk rk].
    destruct (get_fit_kwargs_step_lookup tk rk name val param) as [Ht Hr].
    cbn [fst snd] in IHt, IHr.
    rewrite Ht, Hr, !elem_of_app, !list_elem_of_singleton. clear Ht Hr.
    assert (forall key w, (key, w) ∈ items -> key <> name) as Hne.
    { intros key w Hin ->. apply (Hfresh name).
      - apply list_elem_of_fmap. by exists (name, w).
      - simpl. by left. }
    split; case_decide as Hd.
    + split; [intros [= ->]; right; by rewrite Hd|].
      intros [Hin|[= _ ->]]; [|done]. by destruct (Hne _ _ Hin).
    + rewrite IHt. split; [by left|]. intros [Hin|[= Hk _]]; [done|].
      by destruct Hd.
    + split; [intros [= ->]; right; by rewrite Hd|].
      intros [Hin|[= _ ->]]; [|done]. by destruct (Hne _ _ Hin).
    + rewrite IHr. split; [by left|]. intros [Hin|[= Hk _]]; [done|].
      by destruct Hd.
Qed.

End FitFacts.

Lemma lookup_filter_first_piece {V : Type} (names : list string)
    (m : gmap string V) (k : string) :
  filter (fun item => MLRFit.split_dunder_first item.1 ∈ names) m !! k =
    if decide (MLRFit.split_dunder_first k ∈ names) then m !! k else None.
Proof.
  case_decide as Hk.
  - destruct (m !! k) as [v|] eqn:Hm.
    + by apply map_lookup_filter_Some_2.
    + apply map_lookup_filter_None_2. by left.
  - apply map_lookup_filter_None_2. right. by intros v _.
Qed.

(** X6: [_get_fit_kwargs] sorts the keywords of [fit] by their prefix.  The
    keywords for the regressor hold under [param] exactly the value that was
    given as 'regressor__param', those for the transformer the value given
    as 'transformer__param'.  The name is split at its first '__' only, so
    'regressor__a__b' is the parameter 'a__b' of the regressor; a keyword
    without '__' or with another prefix is in neither dictionary. *)
Theorem get_fit_kwargs_spec {V : Type} (fit_kwargs : list (string * V))
    (param : string) (v : V) :
  NoDup (map fst fit_kwargs) ->
  let kwargs := MLRFit._get_fit_kwargs fit_kwargs in
  let transformer_kwargs := kwargs.1 in
  let regressor_kwargs := kwargs.2 in
  (regressor_kwargs !! param = Some v <->
   ("regressor__" +:+ param, v) ∈ fit_kwargs)
  /\
  (transformer_kwargs !! param = Some v <->
   ("transformer__" +:+ param, v) ∈ fit_kwargs).
Proof.
  intros Hnd. simpl.
  destruct (get_fit_kwargs_items fit_kwargs param v Hnd) as [Ht Hr].
  by split.
Qed.

Lemma get_fit_kwargs_spec_witness :
  let fit_kwargs := [("regressor__sample_weight", 3); ("verbose", 1);
                     ("transformer__copy", 0); ("regressor__a__b", 7);
                     ("final__regressor__c", 5)] in
  ((MLRFit._get_fit_kwargs fit_kwargs).2 !! "a__b" = Some 7 <->
   ("regressor__" +:+ "a__b", 7) ∈ fit_kwargs)
  /\
  ((MLRFit._get_fit_kwargs fit_kwargs).1 !! "a__b" = Some 7 <->
   ("transformer__" +:+ "a__b", 7) ∈ fit_kwargs).
Proof.
  intros fit_kwargs.
  apply (get_fit_kwargs_spec fit_kwargs "a__b" 7).
  compute_done.
Defined.

Section PipelineFitFacts.

Import MLRPipeline MLRFit.

Context {params V : Type}.

(** The names that the steps of a created pipeline can have. *)
Let step_names : list string :=
  ["pandas_to_numpy_converter"; "imputer"; "x_scaler"; "pca"; "final"].

Lemma step_names_split (step param : string) :
  step ∈ step_names ->
  split_dunder_first (step +:+ "__" +:+ param) = step.
Proof.
  intros Hin. apply split_dunder_first_prefix.
  unfold step_names in Hin. rewrite !elem_of_cons in Hin.
  destruct Hin as [->|[->|[->|[->|[->|Hin]]]]]; try reflexivity.
  by apply elem_of_nil in Hin.
Qed.

Lemma spec_steps_names cls c idx (iv fp : params) :
  exists front,
    spec_steps cls c idx iv fp = front ++ [("final",
       AdvancedTransformedTargetRegressor
         (StandardScaler (standardize_data c) (standardize_data c))
         (FinalRegressor cls fp))] /\
    map fst front ⊆ step_names /\ "final" ∉ map fst front.
Proof.
  unfold spec_steps. eexists. rewrite !app_assoc. split; [reflexivity|].
  unfold step_names.
  case_bool_decide; destruct (standardize_data c), (pca c); simpl;
    split; try (intros x; rewrite !elem_of_cons, ?elem_of_nil; intuition);
    rewrite ?not_elem_of_cons; intuition (try done);
    by match goal with H : _ ∈ [] |- _ => apply elem_of_nil in H end.
Qed.

Lemma transformer_steps_snoc {E : Type} (front : list (string * E)) last :
  transformer_steps (front ++ [last]) = map fst front.
Proof.
  unfold transformer_steps. rewrite length_app. simpl.
  replace (length front + 1 - 1)%nat with (length front) by lia.
  by rewrite take_app_length.
Qed.

Lemma created_pipeline_fit_kwargs cls c fs (iv fp : params)
    (p : pipeline params) (fit_kwargs : gmap string V) :
  _create_pipeline (Some cls) c fs iv fp = Ok (Some p) ->
  let named_steps := map fst (steps p) in
  let to_fit := _update_fit_kwargs named_steps fit_kwargs in
  let to_transformers := transformers_kwargs (steps p) to_fit in
  "final" ∈ named_steps /\
  (forall step param,
     step ∈ named_steps ->
     to_fit !! (step +:+ "__" +:+ param) =
       fit_kwargs !! (step +:+ "__" +:+ param)) /\
  (forall key, split_dunder_first key ∉ named_steps -> to_fit !! key = None) /\
  (forall param, to_transformers !! ("final__" +:+ param) = None) /\
  (forall step param,
     step ∈ named_steps -> step <> "final" ->
     to_transformers !! (step +:+ "__" +:+ param) =
       fit_kwargs !! (step +:+ "__" +:+ param)).
Proof.
  intros Hp.
  destruct (create_pipeline_steps cls c fs iv fp) as (idx & p' & Hp' & _ & Hs).
  rewrite Hp in Hp'. injection Hp' as <-.
  destruct (spec_steps_names cls c idx iv fp) as (front & Hfront & Hsub & Hnf).
  rewrite Hfront in Hs. clear Hfront. simpl.
  unfold _update_fit_kwargs, transformers_kwargs.
  rewrite Hs, transformer_steps_snoc, fmap_app. simpl.
  assert (forall step, step ∈ map fst front ++ ["final"] ->
                       step ∈ step_names) as Hnames.
  { intros step [Hin|Hin]%elem_of_app; [by apply Hsub|].
    apply list_elem_of_singleton in Hin as ->. unfold step_names.
    rewrite !elem_of_cons. tauto. }
  split; [|split; [|split; [|split]]].
  - apply elem_of_app. right. by left.
  - intros step param Hin. rewrite lookup_filter_first_piece.
    rewrite step_names_split by auto. by rewrite decide_True.
  - intros key Hkey. rewrite lookup_filter_first_piece. by rewrite decide_False.
  - intros param. rewrite lookup_filter_first_piece.
    change ("final__" +:+ param) with ("final" +:+ "__" +:+ param).
    rewrite (step_names_split "final" param)
      by (unfold step_names; rewrite !elem_of_cons; tauto).
    by rewrite decide_False.
  - intros step param Hin Hne. rewrite !lookup_filter_first_piece.
    rewrite step_names_split by auto.
    apply elem_of_app in Hin as [Hin|Hin].
    + rewrite decide_True by done. rewrite decide_True; [done|].
      apply elem_of_app. by left.
    + by apply list_elem_of_singleton in Hin.
Qed.

End PipelineFitFacts.

(** X7: which keywords of [fit] reach a pipeline that [_create_pipeline]
    has built.  [_update_fit_kwargs] passes a keyword 'step__param' on
    unchanged when 'step' names a step of the pipeline, and drops every
    keyword whose text in front of the first '__' names no step.  Of the
    keywords passed on, [fit_transformers_only] hands those of all steps but
    the last to the fit of the transformers: a keyword 'final__param' of the
    final regressor is never among them. *)
Theorem created_pipeline_fit_kwargs_spec {params V : Type}
    (cls : MLRPipeline.clf_type) (c : MLRPipeline.cfg)
    (fs : list MLRPipeline.feature) (iv fp : params)
    (p : MLRPipeline.pipeline params) (fit_kwargs : gmap string V) :
  MLRPipeline._create_pipeline (Some cls) c fs iv fp = Ok (Some p) ->
  let named_steps := map fst (MLRPipeline.steps p) in
  let to_fit := MLRFit._update_fit_kwargs named_steps fit_kwargs in
  let to_transformers :=
    MLRFit.transformers_kwargs (MLRPipeline.steps p) to_fit in
  "final" ∈ named_steps /\
  (forall step param,
     step ∈ named_steps ->
     to_fit !! (step +:+ "__" +:+ param) =
       fit_kwargs !! (step +:+ "__" +:+ param)) /\
  (forall key,
     MLRFit.split_dunder_first key ∉ named_steps -> to_fit !! key = None) /\
  (forall param, to_transformers !! ("final__" +:+ param) = None) /\
  (forall step param,
     step ∈ named_steps -> step <> "final" ->
     to_transformers !! (step +:+ "__" +:+ param) =
       fit_kwargs !! (step +:+ "__" +:+ param)).
Proof.
  intros Hp.
  exact (created_pipeline_fit_kwargs cls c fs iv fp p fit_kwargs Hp).
Qed.

Lemma created_pipeline_fit_kwargs_spec_witness :
  let c := {| MLRPipeline.imputation_strategy := "remove";
              MLRPipeline.standardize_data := true;
              MLRPipeline.pca := false;
              MLRPipeline.cache_intermediate_results := true;
              MLRPipeline.n_jobs := Some 1;
              MLRPipeline.mlr_work_dir := "work";
              MLRPipeline.accept_only_scalar_data := false |} in
  let fs := [ {| MLRPipeline.ftag := "pr"; MLRPipeline.categorical := false |};
              {| MLRPipeline.ftag := "tas";
                 MLRPipeline.categorical := false |} ] in
  let fit_kwargs : gmap string Z :=
    {[ "final__sample_weight" := 1; "preprocessor__copy" := 0;
       "scaler__copy" := 2 ]} in
  exists p,
    MLRPipeline._create_pipeline (Some MLRPipeline.GradientBoostingRegressor)
      c fs tt tt = Ok (Some p) /\
    let named_steps := map fst (MLRPipeline.steps p) in
    let to_fit := MLRFit._update_fit_kwargs named_steps fit_kwargs in
    let to_transformers :=
      MLRFit.transformers_kwargs (MLRPipeline.steps p) to_fit in
    "final" ∈ named_steps /\
    (forall step param,
       step ∈ named_steps ->
       to_fit !! (step +:+ "__" +:+ param) =
         fit_kwargs !! (step +:+ "__" +:+ param)) /\
    (forall key,
       MLRFit.split_dunder_first key ∉ named_steps -> to_fit !! key = None) /\
    (forall param, to_transformers !! ("final__" +:+ param) = None) /\
    (forall step param,
       step ∈ named_steps -> step <> "final" ->
       to_transformers !! (step +:+ "__" +:+ param) =
         fit_kwargs !! (step +:+ "__" +:+ param)).
Proof.
  intros c fs fit_kwargs. eexists. split; [reflexivity|].
  apply (created_pipeline_fit_kwargs_spec
           MLRPipeline.GradientBoostingRegressor c fs tt tt _ fit_kwargs).
  reflexivity.
Defined.

(** ** Data points of the MLR model *)

Section PointsFacts.

Import MLRPipeline MLRData.

Lemma drop_masked_length_ne {A : Type} (e : exn) (rows : list A)
    (mask : list bool) :
  length rows <> length mask -> drop_masked e rows mask = Raise e.
Proof.
  revert mask. induction rows as [|r rows IH]; intros [|m mask] Hl;
    simpl in *; try done.
  rewrite IH by lia. done.
Qed.

Lemma drop_masked_pairs {A B : Type} (e : exn) (P : A * B -> bool)
    (xs : list A) (ys : list B) :
  length xs = length ys ->
  let kept := filter (fun p => P p = false) (zip xs ys) in
  drop_masked e xs (map P (zip xs ys)) = Ok (map fst kept) /\
  drop_masked e ys (map P (zip xs ys)) = Ok (map snd kept).
Proof.
  revert ys. induction xs as [|x xs IH]; intros [|y ys] Hl; try done.
  simpl in Hl. destruct (IH ys) as [IHx IHy]; [lia|].
  simpl. rewrite IHx, IHy. simpl. rewrite filter_cons.
  destruct (P (x, y)) eqn:HP.
  - by rewrite decide_False by done.
  - by rewrite decide_True by done.
Qed.

Lemma filter_all {A : Type} (P : A -> Prop) `{forall x, Decision (P x)}
    (l : list A) :
  Forall P l -> filter P l = l.
Proof.
  induction 1 as [|x l Hx _ IH]; [done|].
  by rewrite filter_cons_True, IH.
Qed.

Context {value : Type}.

Lemma isnull_zip (x : frame value) (y : column value) :
  length x = length y ->
  isnull y = map (fun p => negb (bool_decide (is_Some p.2))) (zip x y).
Proof.
  revert y. induction x as [|r x IH]; intros [|v y] Hl; try done.
  simpl in *. rewrite <- IH by lia. by destruct v.
Qed.

Lemma isnull_any_zip (x : frame value) (y : column value) :
  length x = length y ->
  isnull_any x = map (fun p => has_missing p.1) (zip x y).
Proof.
  intros Hl. rewrite isnull_any_has_missing.
  revert y Hl. induction x as [|r x IH]; intros [|v y] Hl; try done.
  simpl in *. by rewrite <- IH by lia.
Qed.

Lemma remove_missing_labels_kept (x : frame value) (y : column value) :
  length x = length y ->
  let kept := filter (fun p => is_Some p.2) (zip x y) in
  _remove_missing_labels x y = Ok (map fst kept, map snd kept).
Proof.
  intros Hl kept. unfold _remove_missing_labels.
  rewrite (isnull_zip x y Hl).
  destruct (drop_masked_pairs ValueError
              (fun p : list (option value) * option value =>
                 negb (bool_decide (is_Some p.2))) x y Hl) as [-> ->].
  simpl. do 3 f_equal; apply list_filter_iff; intros p;
    by rewrite negb_false_iff, bool_decide_eq_true.
Qed.

Lemma remove_missing_features_kept c groups (x x' : frame value)
    (y y' : column value) groups' :
  length x = length y ->
  _remove_missing_features c groups x y = Ok (x', y', groups') ->
  let kept :=
    filter (fun p : list (option value) * option value =>
              negb (imputation_strategy c =? "remove")%string ||
              negb (has_missing p.1) = true) (zip x y) in
  x' = map fst kept /\ y' = map snd kept.
Proof.
  intros Hl. unfold _remove_missing_features.
  destruct (imputation_strategy c =? "remove")%string; simpl.
  - rewrite (isnull_any_zip x y Hl).
    destruct (drop_masked_pairs ValueError
                (fun p : list (option value) * option value =>
                   has_missing p.1) x y Hl) as [-> ->].
    simpl. intros Hr.
    assert (x' = map fst (filter (fun p : list (option value) * option value
                                  => has_missing p.1 = false) (zip x y)) /\
            y' = map snd (filter (fun p : list (option value) * option value
                                  => has_missing p.1 = false) (zip x y)))
      as [-> ->].
    { destruct (negb _); [destruct (accept_only_scalar_data c)|];
        [apply bind_Ok in Hr as (? & _ & Hr)| |]; by injection Hr as <- <- _. }
    split; f_equal; apply list_filter_iff; intros p;
      by rewrite negb_true_iff.
  - intros [= <- <- _]. rewrite filter_all by (by apply Forall_true).
    split; [by rewrite fst_zip by lia|by rewrite snd_zip by lia].
Qed.

Lemma extract_features_and_labels_kept c groups (x x' : frame value)
    (y y' : column value) groups' :
  _extract_features_and_labels c groups x y = Ok (x', y', groups') ->
  length x = length y /\
  x' = map fst (filter (fun p => kept_point c p = true) (zip x y)) /\
  y' = map snd (filter (fun p => kept_point c p = true) (zip x y)).
Proof.
  unfold _extract_features_and_labels.
  destruct (Nat.eqb_spec (length x) (length y)) as [Hl|]; [|done]. simpl.
  rewrite remove_missing_labels_kept by done. simpl. intros Hr.
  apply remove_missing_features_kept in Hr as [-> ->];
    [|by rewrite !length_fmap].
  split; [done|]. rewrite zip_fst_snd, list_filter_filter.
  split; f_equal; apply list_filter_iff; intros p; unfold kept_point;
    rewrite andb_true_iff, bool_decide_eq_true; tauto.
Qed.

End PointsFacts.

(** X8: the training points that [_extract_features_and_labels] returns.
    Frames with different numbers of rows are a ValueError.  When the
    function returns, the points returned are, in their order, exactly the
    points whose label is not missing and, under the imputation strategy
    'remove', whose features are all there: features and labels stay
    aligned, no label is missing, and under 'remove' no feature is missing.
    Unless only scalar data are accepted, the function returns for all
    frames with equally many rows. *)
Theorem extract_features_and_labels_spec {value : Type} (c : MLRPipeline.cfg)
    (group_attributes : list string)
    (x_data : MLRData.frame value) (y_data : MLRData.column value) :
  let extracted :=
    MLRData._extract_features_and_labels c group_attributes x_data y_data in
  let kept :=
    filter (fun p => MLRData.kept_point c p = true) (zip x_data y_data) in
  (length x_data <> length y_data -> raises extracted ValueError)
  /\
  (forall x y groups,
     extracted = Ok (x, y, groups) ->
     x = map fst kept /\ y = map snd kept /\ length x = length y /\
     Forall is_Some y /\
     (MLRPipeline.imputation_strategy c = "remove" ->
      Forall (fun row => MLRPipeline.has_missing row = false) x))
  /\
  (length x_data = length y_data ->
   MLRPipeline.accept_only_scalar_data c = false ->
   returns extracted).
Proof.
  intros extracted kept. split; [|split].
  - intros Hl. unfold extracted, MLRData._extract_features_and_labels.
    by destruct (Nat.eqb_spec (length x_data) (length y_data)).
  - intros x y groups Hr.
    apply extract_features_and_labels_kept in Hr as (Hl & -> & ->).
    fold kept. split; [done|]. split; [done|].
    split; [by rewrite !List.length_map|].
    assert (Forall (fun p => MLRData.kept_point c p = true) kept) as Hk.
    { apply Forall_forall. intros p Hp.
      by apply list_elem_of_filter in Hp as [Hp _]. }
    split.
    + apply Forall_fmap. eapply Forall_impl; [exact Hk|].
      intros p [Hp _]%andb_prop. by apply bool_decide_eq_true in Hp.
    + intros Hs. apply Forall_fmap. eapply Forall_impl; [exact Hk|].
      intros p [_ Hp]%andb_prop. rewrite Hs in Hp. simpl in Hp.
      by apply negb_true_iff in Hp.
  - intros Hl Hscalar. unfold extracted, MLRData._extract_features_and_labels.
    rewrite Hl, Nat.eqb_refl. simpl.
    rewrite remove_missing_labels_kept by done. simpl.
    match goal with |- returns (MLRPipeline._remove_missing_features _ _ ?x ?y)
      => set (x1 := x); set (y1 := y) end.
    assert (length y1 = length x1) as Hl1
      by (unfold x1, y1; by rewrite !List.length_map).
    destruct (decide (MLRPipeline.imputation_strategy c = "remove")) as [Hs|Hs].
    + destruct (remove_missing_features_remove c group_attributes x1 y1)
        as (groups & ->); try done; [congruence|by eexists].
    + rewrite remove_missing_features_keep by done. by eexists.
Qed.

Lemma extract_features_and_labels_spec_witness :
  let c := {| MLRPipeline.imputation_strategy := "remove";
              MLRPipeline.standardize_data := true;
              MLRPipeline.pca := false;
              MLRPipeline.cache_intermediate_results := true;
              MLRPipeline.n_jobs := Some 1;
              MLRPipeline.mlr_work_dir := "work";
              MLRPipeline.accept_only_scalar_data := false |} in
  let x_data := [[Some 1; Some 2]; [None; Some 4]; [Some 5; Some 6]] in
  let y_data := [Some 10; Some 20; None] in
  raises (MLRData._extract_features_and_labels c [] x_data [Some 10])
    ValueError
  /\
  ([[Some 1; Some 2]] =
     map fst (filter (fun p => MLRData.kept_point c p = true)
                (zip x_data y_data)) /\
   [Some 10] =
     map snd (filter (fun p => MLRData.kept_point c p = true)
                (zip x_data y_data)) /\
   length [[Some 1; Some 2]] = length [Some 10] /\
   Forall is_Some [Some 10] /\
   (MLRPipeline.imputation_strategy c = "remove" ->
    Forall (fun row => MLRPipeline.has_missing row = false)
      [[Some 1; Some 2]]))
  /\
  returns (MLRData._extract_features_and_labels c [] x_data y_data).
Proof.
  intros c x_data y_data. split; [|split].
  - apply (proj1 (extract_features_and_labels_spec c [] x_data [Some 10])).
    simpl. lia.
  - apply (proj1 (proj2 (extract_features_and_labels_spec c [] x_data y_data))
             [[Some 1; Some 2]] [Some 10] []).
    reflexivity.
  - apply (proj2 (proj2 (extract_features_and_labels_spec c [] x_data y_data)));
      reflexivity.
Defined.

(** X9: when only scalar data are accepted there is one training point per
    group, and [_remove_missing_features] removes from the group attributes
    by a mask that has one entry per point left after the points with a
    missing label have been removed.  So under the strategy 'remove' the
    function does not return but raises IndexError when one point has no
    label and another point, which has a label, has a missing feature. *)
Theorem extract_features_and_labels_scalar_index_error {value : Type}
    (c : MLRPipeline.cfg) (group_attributes : list string)
    (x_data : MLRData.frame value) (y_data : MLRData.column value)
    (i j : nat) (row : list (option value)) (label : value) :
  MLRPipeline.accept_only_scalar_data c = true ->
  MLRPipeline.imputation_strategy c = "remove" ->
  length x_data = length y_data ->
  length group_attributes = length y_data ->
  y_data !! i = Some None ->
  x_data !! j = Some row -> y_data !! j = Some (Some label) ->
  MLRPipeline.has_missing row = true ->
  raises
    (MLRData._extract_features_and_labels c group_attributes x_data y_data)
    IndexError.
Proof.
  intros Hscalar Hs Hl Hg Hi Hxj Hyj Hrow.
  unfold raises, MLRData._extract_features_and_labels.
  rewrite Hl, Nat.eqb_refl. simpl.
  rewrite remove_missing_labels_kept by done. simpl.
  set (kept := filter (fun p : list (option value) * option value =>
                         is_Some p.2) (zip x_data y_data)).
  assert (length kept < length y_data)%nat as Hlt.
  { destruct (lookup_lt_is_Some_2 x_data i) as [r Hr].
    { rewrite Hl. by apply lookup_lt_is_Some_1. }
    unfold kept.
    assert (length y_data = length (zip x_data y_data)) as ->
      by (rewrite length_zip; lia).
    apply (length_filter_lt _ _ (r, None)).
    - apply list_elem_of_lookup. exists i. by apply lookup_zip_Some.
    - simpl. by intros [? ?]. }
  assert ((row, Some label) ∈ kept) as Hin.
  { apply list_elem_of_filter. split; [by eexists|].
    apply list_elem_of_lookup. exists j. by apply lookup_zip_Some. }
  unfold MLRPipeline._remove_missing_features. rewrite Hs. simpl.
  rewrite isnull_any_has_missing, drop_masked_filter. simpl.
  rewrite drop_masked_labels by (by rewrite !List.length_map). simpl.
  rewrite zip_fst_snd, !List.length_map.
  assert (length (filter (fun xy : list (option value) * option value =>
                            MLRPipeline.has_missing xy.1 = false) kept)
          < length kept)%nat as Hlt'.
  { apply (length_filter_lt _ _ (row, Some label)); [done|].
    simpl. by rewrite Hrow. }
  destruct (Nat.eqb_spec
              (length kept -
               length (filter (fun xy : list (option value) * option value
                               => MLRPipeline.has_missing xy.1 = false) kept))
              0) as [Heq|_]; [lia|].
  simpl. rewrite Hscalar.
  rewrite drop_masked_length_ne; [done|]. rewrite !List.length_map. lia.
Qed.

Lemma extract_features_and_labels_scalar_index_error_witness :
  let c := {| MLRPipeline.imputation_strategy := "remove";
              MLRPipeline.standardize_data := true;
              MLRPipeline.pca := false;
              MLRPipeline.cache_intermediate_results := true;
              MLRPipeline.n_jobs := Some 1;
              MLRPipeline.mlr_work_dir := "work";
              MLRPipeline.accept_only_scalar_data := true |} in
  raises
    (MLRData._extract_features_and_labels c ["a"; "b"; "c"]
       [[Some 1]; [None]; [Some 3]] [None; Some 20; Some 30])
    IndexError.
Proof.
  intros c.
  apply (extract_features_and_labels_scalar_index_error c ["a"; "b"; "c"]
           [[Some 1]; [None]; [Some 3]] [None; Some 20; Some 30]
           0%nat 1%nat [None] 20); reflexivity.
Defined.

Section PredictionInputFacts.

Import MLRPipeline MLRData.

Context {value : Type}.

Lemma drop_masked_if_given_Ok {A : Type} (data data' : option (list A))
    (mask : list bool) :
  drop_masked_if_given data mask = Ok data' ->
  match data, data' with
  | Some rows, Some kept =>
      length rows = length mask /\
      kept = map fst (filter (fun rm => rm.2 = false) (zip rows mask))
  | None, None => True
  | _, _ => False
  end.
Proof.
  unfold drop_masked_if_given. destruct data as [rows|].
  - destruct (decide (length rows = length mask)) as [Hl|Hl].
    + rewrite drop_masked_zip by done. simpl. by intros [= <-].
    + by rewrite drop_masked_length_ne.
  - by intros [= <-].
Qed.

Lemma kept_rows_length {A B : Type} (rows : list A) (others : list B)
    (mask : list bool) :
  length rows = length mask -> length others = length mask ->
  length (map fst (filter (fun rm : A * bool => rm.2 = false)
                     (zip rows mask))) =
  length (map fst (filter (fun rm : B * bool => rm.2 = false)
                     (zip others mask))).
Proof.
  revert others mask.
  induction rows as [|r rows IH]; intros [|o others] [|m mask] Hr Ho;
    try done.
  simpl in *. rewrite !filter_cons. simpl.
  destruct m; simpl; [|f_equal]; apply IH; lia.
Qed.

Lemma remove_missing_pred_input_lengths c (x_pred x_pred' : frame value)
    x_err x_err' y_ref y_ref' :
  _remove_missing_pred_input c x_pred x_err y_ref =
    Ok (x_pred', x_err', y_ref') ->
  (forall e, x_err = Some e -> length e = length x_pred) ->
  (forall r, y_ref = Some r -> length r = length x_pred) ->
  (forall e, x_err' = Some e -> length e = length x_pred') /\
  (forall r, y_ref' = Some r -> length r = length x_pred') /\
  (is_Some x_err' <-> is_Some x_err) /\ (is_Some y_ref' <-> is_Some y_ref) /\
  x_pred' =
    (if (imputation_strategy c =? "remove")%string
     then filter (fun row => has_missing row = false) x_pred
     else x_pred).
Proof.
  unfold _remove_missing_pred_input.
  destruct (imputation_strategy c =? "remove")%string; simpl.
  - rewrite isnull_any_has_missing.
    set (mask := map has_missing x_pred).
    assert (length x_pred = length mask) as Hm
      by (unfold mask; by rewrite List.length_map).
    rewrite (drop_masked_zip ValueError x_pred mask Hm). simpl.
    intros Hr He Hy.
    apply bind_Ok in Hr as (e' & He' & Hr).
    apply bind_Ok in Hr as (r' & Hr' & Hr). injection Hr as <- <- <-.
    apply drop_masked_if_given_Ok in He', Hr'.
    split; [|split; [|split; [|split]]].
    + intros e ->. destruct x_err as [e0|]; [|done].
      destruct He' as [Hl ->]. by apply kept_rows_length.
    + intros r ->. destruct y_ref as [r0|]; [|done].
      destruct Hr' as [Hl ->]. by apply kept_rows_length.
    + destruct x_err, e'; try done; by split; eauto.
    + destruct y_ref, r'; try done; by split; eauto.
    + pose proof (drop_masked_filter ValueError has_missing x_pred) as Hf.
      fold mask in Hf.
      rewrite (drop_masked_zip ValueError x_pred mask Hm) in Hf.
      by injection Hf.
  - intros [= <- <- <-] He Hy. by repeat split.
Qed.

End PredictionInputFacts.

Section MaskPredictionFacts.

Import MLRPipeline MLRData.

Context {F : Type}.

Lemma count_true_cons (s : bool) (selection : list bool) :
  count_true (s :: selection) =
    ((if s then 1 else 0) + count_true selection)%nat.
Proof.
  unfold count_true. rewrite filter_cons. by destruct s.
Qed.

Lemma count_true_le (selection : list bool) :
  (count_true selection <= length selection)%nat.
Proof. apply length_filter. Qed.

Lemma count_unmasked_all (mask : list bool) :
  count_true (map negb mask) = length mask -> Forall (fun m => m = false) mask.
Proof.
  induction mask as [|m mask IH]; [constructor|].
  simpl. rewrite count_true_cons.
  pose proof (count_true_le (map negb mask)) as Hle.
  rewrite List.length_map in Hle.
  destruct m; simpl; [lia|]. intros Hc. constructor; [done|].
  apply IH. lia.
Qed.

Lemma count_unmasked_filter {A : Type} (P : A -> bool) (rows : list A) :
  count_true (map negb (map P rows)) =
  length (filter (fun row => P row = false) rows).
Proof.
  induction rows as [|r rows IH]; [done|].
  simpl. rewrite count_true_cons, filter_cons, IH.
  by destruct (P r).
Qed.

Lemma drop_masked_none {A : Type} (e : exn) (rows : list A)
    (mask : list bool) :
  length rows = length mask -> Forall (fun m => m = false) mask ->
  drop_masked e rows mask = Ok rows.
Proof.
  intros Hl Hm. revert rows Hl.
  induction Hm as [|m mask -> _ IH]; intros [|r rows] Hl; try done.
  simpl in *. by rewrite IH by lia.
Qed.

Lemma drop_masked_map {A B : Type} (e : exn) (f : A -> B) (rows : list A)
    (mask : list bool) (kept : list A) :
  drop_masked e rows mask = Ok kept ->
  drop_masked e (map f rows) mask = Ok (map f kept).
Proof.
  revert mask kept.
  induction rows as [|r rows IH]; intros [|m mask] kept; simpl; try done.
  - by intros [= <-].
  - intros Hk. apply bind_Ok in Hk as (k & Hk & Hr).
    rewrite (IH _ _ Hk). simpl. injection Hr as <-. by destruct m.
Qed.

Lemma put_spec (e : exn) (mask : list bool) (target values : list F) :
  length target = length mask ->
  length values = count_true (map negb mask) ->
  let out := put F (map negb mask) target values in
  length out = length mask /\
  drop_masked e out mask = Ok values /\
  (forall i, mask !! i = Some true -> out !! i = target !! i).
Proof.
  revert target values.
  induction mask as [|m mask IH]; intros [|t target] values Hl Hc;
    try done.
  - simpl in *. unfold count_true in Hc. simpl in Hc.
    destruct values; [|done]. split; [done|]. split; [done|].
    by intros i Hi.
  - simpl in Hl. simpl map in Hc. rewrite count_true_cons in Hc.
    destruct m; simpl in Hc |- *.
    + destruct (IH target values) as (Hlen & Hdrop & Hmasked); [lia|lia|].
      split; [by rewrite Hlen|]. split; [by rewrite Hdrop|].
      intros [|i] Hi; [done|]. simpl in *. by apply Hmasked.
    + destruct values as [|v values]; [done|]. simpl in Hc.
      destruct (IH target values) as (Hlen & Hdrop & Hmasked); [lia|lia|].
      simpl. split; [by rewrite Hlen|]. split; [by rewrite Hdrop|].
      intros [|i] Hi; [done|]. simpl in *. by apply Hmasked.
Qed.

Lemma broadcast_spec (e : exn) (mask : list bool) (target : list F) (v : F) :
  length target = length mask ->
  let out := zip_with (fun (s : bool) t => if s then v else t)
               (map negb mask) target in
  length out = length mask /\
  drop_masked e out mask =
    Ok (replicate (count_true (map negb mask)) v) /\
  (forall i, mask !! i = Some true -> out !! i = target !! i).
Proof.
  revert target.
  induction mask as [|m mask IH]; intros [|t target] Hl; try done.
  simpl in Hl. destruct (IH target) as (Hlen & Hdrop & Hmasked); [lia|].
  simpl map. rewrite count_true_cons. simpl.
  split; [by rewrite Hlen|]. rewrite Hdrop. simpl.
  split; [by destruct m|].
  intros [|i] Hi; simpl in *; [by injection Hi as ->|by apply Hmasked].
Qed.

Variable nan : F.
Variable uninitialized : F.
Variable is_invalid : F -> bool.

Lemma mask_prediction_array_scatter (y_pred : list F) (cube : x_cube) :
  length y_pred = count_true (map negb (cube_mask cube)) ->
  exists out,
    _mask_prediction_array nan uninitialized is_invalid 1 y_pred cube =
      Ok out /\
    length out = length (cube_mask cube) /\
    drop_masked IndexError out (cube_mask cube) =
      Ok (masked_invalid F is_invalid y_pred) /\
    (forall i,
       cube_mask cube !! i = Some true ->
       out !! i = Some {| Gtfgco2.value := nan;
                          Gtfgco2.masked := is_invalid nan |}).
Proof.
  intros Hc. unfold _mask_prediction_array.
  set (mask := cube_mask cube) in *.
  change (1 =? 1)%nat with true. cbn [andb].
  destruct (Nat.eqb_spec (length y_pred) (length mask)) as [Hl|Hl];
    cbn [negb bind].
  - eexists. split; [done|].
    assert (Forall (fun m => m = false) mask) as Hall
      by (apply count_unmasked_all; congruence).
    split; [unfold masked_invalid; by rewrite List.length_map|].
    split.
    + apply drop_masked_none; [|done].
      unfold masked_invalid. by rewrite List.length_map.
    + intros i Hi. eapply Forall_lookup_1 in Hall; [|exact Hi]. done.
  - set (blank := np_empty F uninitialized (length mask)).
    assert (length blank = length mask) as Hblank
      by (unfold blank, np_empty; by rewrite length_replicate).
    unfold assign_where at 1. rewrite Hblank, Nat.eqb_refl. cbn [negb bind].
    set (marked := zip_with (fun (s : bool) t => if s then nan else t)
                     mask blank).
    assert (length marked = length mask) as Hmarked
      by (unfold marked; rewrite length_zip_with; lia).
    assert (forall i, mask !! i = Some true -> marked !! i = Some nan)
      as Hnan.
    { intros i Hi. unfold marked. apply lookup_zip_with_Some.
      destruct (lookup_lt_is_Some_2 blank i) as [b Hb].
      { rewrite Hblank. by apply lookup_lt_is_Some_1. }
      by exists true, b. }
    unfold assign_where. rewrite List.length_map, Hmarked, Nat.eqb_refl.
    cbn [negb].
    assert (exists filled,
              match y_pred with
              | [v] => Ok (zip_with (fun (s : bool) t => if s then v else t)
                             (map negb mask) marked)
              | _ =>
                  if (length y_pred =? count_true (map negb mask))%nat
                  then Ok (put F (map negb mask) marked y_pred)
                  else Raise ValueError
              end = Ok filled /\
              length filled = length mask /\
              drop_masked IndexError filled mask = Ok y_pred /\
              (forall i, mask !! i = Some true ->
                         filled !! i = marked !! i))
      as (filled & -> & Hlen & Hdrop & Hmasked).
    { destruct y_pred as [|v [|w rest]].
      - rewrite Hc, Nat.eqb_refl. eexists. split; [done|].
        apply put_spec; [done|by rewrite <- Hc].
      - eexists. split; [done|].
        destruct (broadcast_spec IndexError mask marked v Hmarked)
          as (H1 & H2 & H3).
        split; [done|]. split; [|done]. by rewrite H2, <- Hc.
      - rewrite Hc, Nat.eqb_refl. eexists. split; [done|].
        apply put_spec; [done|by rewrite <- Hc]. }
    cbn [bind]. eexists. split; [done|].
    split; [unfold masked_invalid; by rewrite List.length_map|].
    split; [by apply drop_masked_map|].
    intros i Hi. unfold masked_invalid.
    pose proof (list_lookup_fmap
                  (fun v => {| Gtfgco2.value := v;
                               Gtfgco2.masked := is_invalid v |})
                  filled i) as Hf.
    rewrite (Hmasked i Hi), (Hnan i Hi) in Hf. exact Hf.
Qed.

Lemma mask_prediction_array_mismatch (y_pred : list F) (cube : x_cube) :
  length y_pred <> length (cube_mask cube) ->
  length y_pred <> 1%nat ->
  length y_pred <> count_true (map negb (cube_mask cube)) ->
  _mask_prediction_array nan uninitialized is_invalid 1 y_pred cube =
    Raise ValueError.
Proof.
  intros Hl H1 Hc. unfold _mask_prediction_array.
  set (mask := cube_mask cube) in *.
  change (1 =? 1)%nat with true. cbn [andb].
  destruct (Nat.eqb_spec (length y_pred) (length mask)) as [|_]; [done|].
  cbn [negb bind].
  set (blank := np_empty F uninitialized (length mask)).
  assert (length blank = length mask) as Hblank
    by (unfold blank, np_empty; by rewrite length_replicate).
  unfold assign_where at 1. rewrite Hblank, Nat.eqb_refl. cbn [negb bind].
  unfold assign_where.
  rewrite List.length_map, length_zip_with, Hblank.
  replace (length mask `min` length mask)%nat with (length mask) by lia.
  rewrite Nat.eqb_refl. cbn [negb].
  destruct (Nat.eqb_spec (length y_pred) (count_true (map negb mask)))
    as [|_]; [done|].
  by destruct y_pred as [|v [|w rest]].
Qed.

End MaskPredictionFacts.

Lemma zip_with_orb_subset (cube_mask missing : list bool) :
  length cube_mask = length missing ->
  (forall i, cube_mask !! i = Some true -> missing !! i = Some true) ->
  zip_with orb cube_mask missing = missing.
Proof.
  revert missing.
  induction cube_mask as [|m cube_mask IH]; intros [|n missing] Hl Hsub;
    try done.
  simpl in *. rewrite IH; [|lia|intros i Hi; by apply (Hsub (S i))].
  destruct m; [|done]. by injection (Hsub 0%nat eq_refl) as ->.
Qed.

(** X10: the prediction input that [_extract_prediction_input] returns.
    A reference or an input error with another number of points than the
    prediction input is a ValueError, and so is a prediction input that has
    not one point for each cell of its cube.  When the function returns,
    the input errors and the reference, if given, have one row for each
    point returned; under the strategy 'remove' the points returned are the
    points without missing feature, in their order, and otherwise all
    points.  The cube returned has the shape of the cube given and is
    masked, in addition, where a feature is missing: when all cells masked
    in the cube given are points with a missing feature, then under
    'remove' the cube returned has as many unmasked cells as points are
    returned. *)
Theorem extract_prediction_input_spec {value : Type} (c : MLRPipeline.cfg)
    (x_pred : MLRData.frame value) (cube : MLRData.x_cube)
    (y_ref : option (option (MLRData.column value)))
    (x_err : option (MLRData.frame value)) :
  let extracted :=
    MLRData._extract_prediction_input c x_pred cube y_ref x_err in
  let missing := map MLRPipeline.has_missing x_pred in
  (forall r, y_ref = Some (Some r) -> length r <> length x_pred ->
             raises extracted ValueError)
  /\
  (forall e, x_err = Some e -> length e <> length x_pred ->
             raises extracted ValueError)
  /\
  (length x_pred <> MLRData.size_of (MLRData.cube_shape cube) ->
   raises extracted ValueError)
  /\
  (forall x e r cube',
     extracted = Ok (x, e, r, cube') ->
     x = (if (MLRPipeline.imputation_strategy c =? "remove")%string
          then filter (fun row => MLRPipeline.has_missing row = false) x_pred
          else x_pred) /\
     (forall rows, e = Some rows -> length rows = length x) /\
     (forall rows, r = Some rows -> length rows = length x) /\
     (is_Some e <-> is_Some x_err) /\
     (is_Some r <-> exists rows, y_ref = Some (Some rows)) /\
     MLRData.cube_shape cube' = MLRData.cube_shape cube /\
     MLRData.cube_mask cube' = zip_with orb (MLRData.cube_mask cube) missing /\
     (MLRPipeline.imputation_strategy c = "remove" ->
      length (MLRData.cube_mask cube) = length x_pred ->
      (forall i, MLRData.cube_mask cube !! i = Some true ->
                 missing !! i = Some true) ->
      MLRData.count_true (map negb (MLRData.cube_mask cube')) = length x)).
Proof.
  intros extracted missing.
  unfold extracted, MLRData._extract_prediction_input.
  split; [|split; [|split]].
  - intros r -> Hr.
    destruct (Nat.eqb_spec (length x_pred) (length r)) as [Heq|_]; [|done].
    by destruct Hr.
  - intros e -> He.
    assert ((length x_pred =? length e)%nat = false) as Hne
      by (apply Nat.eqb_neq; congruence).
    destruct y_ref as [[r|]|]; simpl;
      [destruct (length x_pred =? length r)%nat; simpl; [|done]| |];
      by rewrite Hne.
  - intros Hsize.
    match goal with |- raises (bind ?t _) _ => destruct t as [y|err] eqn:Hy end.
    + simpl.
      match goal with |- raises (bind ?t _) _ =>
        destruct t as [e|err] eqn:He end.
      * simpl. unfold MLRData.reshape.
        rewrite isnull_any_has_missing, List.length_map.
        by destruct (Nat.eqb_spec (length x_pred)
                       (MLRData.size_of (MLRData.cube_shape cube))).
      * destruct x_err as [e|]; [|done].
        destruct (length x_pred =? length e)%nat; [done|].
        by injection He as <-.
    + destruct y_ref as [[r|]|]; try done.
      destruct (length x_pred =? length r)%nat; [done|].
      by injection Hy as <-.
  - intros x e r cube' Hok.
    apply bind_Ok in Hok as (r0 & Hr0 & Hok).
    apply bind_Ok in Hok as (e0 & He0 & Hok).
    apply bind_Ok in Hok as (mask & Hmask & Hok).
    apply bind_Ok in Hok as ([[x1 e1] r1] & Hrem & Hok).
    injection Hok as <- <- <- <-.
    assert (mask = missing) as ->.
    { unfold MLRData.reshape in Hmask.
      destruct (_ =? _)%nat; [|done]. injection Hmask as <-.
      apply isnull_any_has_missing. }
    assert (forall rows, e0 = Some rows -> length rows = length x_pred) as He.
    { intros rows ->. destruct x_err as [rows'|]; [|done].
      destruct (Nat.eqb_spec (length x_pred) (length rows')); [|done].
      by injection He0 as ->. }
    assert (forall rows, r0 = Some rows -> length rows = length x_pred) as Hr.
    { intros rows ->. destruct y_ref as [[rows'|]|]; try done.
      destruct (Nat.eqb_spec (length x_pred) (length rows')); [|done].
      by injection Hr0 as ->. }
    destruct (remove_missing_pred_input_lengths c x_pred x1 e0 e1 r0 r1
                Hrem He Hr) as (He1 & Hr1 & Hse & Hsr & Hx).
    split; [done|]. split; [done|]. split; [done|].
    split.
    { rewrite Hse. destruct x_err as [rows|].
      - destruct (length x_pred =? length rows)%nat; [|done].
        injection He0 as <-. by split; eauto.
      - injection He0 as <-. split; by intros [? ?]. }
    split.
    { rewrite Hsr. destruct y_ref as [[rows|]|].
      - destruct (length x_pred =? length rows)%nat; [|done].
        injection Hr0 as <-. split; eauto.
      - injection Hr0 as <-. split; [by intros [? ?]|by intros [? ?]].
      - injection Hr0 as <-. split; [by intros [? ?]|by intros [? ?]]. }
    split; [done|]. split; [done|].
    intros Hs Hlen Hsub. simpl.
    rewrite zip_with_orb_subset;
      [|unfold missing; by rewrite List.length_map|done].
    rewrite Hx, Hs. simpl. apply count_unmasked_filter.
Qed.

Lemma extract_prediction_input_spec_witness :
  let c := {| MLRPipeline.imputation_strategy := "remove";
              MLRPipeline.standardize_data := true;
              MLRPipeline.pca := false;
              MLRPipeline.cache_intermediate_results := true;
              MLRPipeline.n_jobs := Some 1;
              MLRPipeline.mlr_work_dir := "work";
              MLRPipeline.accept_only_scalar_data := false |} in
  let x_pred := [[Some 1; Some 2]; [None; Some 4]; [Some 5; Some 6]] in
  let cube := {| MLRData.cube_shape := [3%nat];
                 MLRData.cube_mask := [false; true; false] |} in
  let x_err := [[Some 0; Some 0]; [Some 1; Some 1]; [Some 2; Some 2]] in
  raises (MLRData._extract_prediction_input c x_pred cube
            (Some (Some [Some 7])) None) ValueError
  /\
  raises (MLRData._extract_prediction_input c x_pred cube None
            (Some [[Some 0; Some 0]])) ValueError
  /\
  raises (MLRData._extract_prediction_input c x_pred
            {| MLRData.cube_shape := [2%nat; 2%nat];
               MLRData.cube_mask := [false; false; false; false] |}
            None None) ValueError
  /\
  MLRData.count_true
    (map negb (MLRData.cube_mask
                 {| MLRData.cube_shape := [3%nat];
                    MLRData.cube_mask := [false; true; false] |})) =
  length [[Some 1; Some 2]; [Some 5; Some 6]].
Proof.
  intros c x_pred cube x_err.
  split; [|split; [|split]].
  - apply (proj1 (extract_prediction_input_spec c x_pred cube
                    (Some (Some [Some 7])) None) [Some 7]); [done|].
    simpl. lia.
  - apply (proj1 (proj2 (extract_prediction_input_spec c x_pred cube None
                           (Some [[Some 0; Some 0]])))
             [[Some 0; Some 0]]); [done|].
    simpl. lia.
  - apply (proj1 (proj2 (proj2 (extract_prediction_input_spec c x_pred
             {| MLRData.cube_shape := [2%nat; 2%nat];
                MLRData.cube_mask := [false; false; false; false] |}
             None None)))).
    simpl. lia.
  - apply (proj2 (proj2 (proj2 (extract_prediction_input_spec c x_pred cube
             None (Some x_err))))
             [[Some 1; Some 2]; [Some 5; Some 6]]
             (Some [[Some 0; Some 0]; [Some 2; Some 2]]) None
             {| MLRData.cube_shape := [3%nat];
                MLRData.cube_mask := [false; true; false] |}).
    + reflexivity.
    + reflexivity.
    + reflexivity.
    + intros [|[|[|i]]] Hi; try done.
Defined.

(** X11: [_mask_prediction_array] puts the predictions back where the
    points came from.  For a one-dimensional prediction with one value for
    each unmasked cell of the reference cube, the array returned has one
    entry per cell of the cube; its entries at the unmasked cells, read in
    their order, are the predictions (masked where a prediction is NaN or
    infinite), and every cell masked in the cube holds NaN.  A prediction of
    another length, which is neither one value nor one value per cell, is a
    ValueError. *)
Theorem mask_prediction_array_spec {F : Type} (nan uninitialized : F)
    (is_invalid : F -> bool) (y_pred : list F) (cube : MLRData.x_cube) :
  let mask := MLRData.cube_mask cube in
  let unmasked := MLRData.count_true (map negb mask) in
  let masked_array :=
    MLRData._mask_prediction_array nan uninitialized is_invalid 1 y_pred
      cube in
  (length y_pred = unmasked ->
   exists out,
     masked_array = Ok out /\
     length out = length mask /\
     MLRPipeline.drop_masked IndexError out mask =
       Ok (MLRData.masked_invalid F is_invalid y_pred) /\
     (forall i,
        mask !! i = Some true ->
        out !! i = Some {| Gtfgco2.value := nan;
                           Gtfgco2.masked := is_invalid nan |}))
  /\
  (length y_pred <> length mask -> length y_pred <> 1%nat ->
   length y_pred <> unmasked ->
   raises masked_array ValueError).
Proof.
  intros mask unmasked masked_array. split.
  - apply mask_prediction_array_scatter.
  - apply mask_prediction_array_mismatch.
Qed.

Lemma mask_prediction_array_spec_witness :
  let cube := {| MLRData.cube_shape := [2%nat; 2%nat];
                 MLRData.cube_mask := [false; true; true; false] |} in
  (exists out,
     MLRData._mask_prediction_array (-1) 0 (fun v => (v <? 0)%Z) 1%nat [7; 9]
       cube = Ok out /\
     length out = length (MLRData.cube_mask cube) /\
     MLRPipeline.drop_masked IndexError out (MLRData.cube_mask cube) =
       Ok (MLRData.masked_invalid Z (fun v => (v <? 0)%Z) [7; 9]) /\
     (forall i,
        MLRData.cube_mask cube !! i = Some true ->
        out !! i = Some {| Gtfgco2.value := -1;
                           Gtfgco2.masked := (-1 <? 0)%Z |}))
  /\
  raises (MLRData._mask_prediction_array (-1) 0 (fun v => (v <? 0)%Z) 1%nat
            [7; 8; 9] cube) ValueError.
Proof.
  intros cube. split.
  - apply (proj1 (mask_prediction_array_spec (-1) 0 (fun v => (v <? 0)%Z) [7; 9]
                    cube)).
    reflexivity.
  - apply (proj2 (mask_prediction_array_spec (-1) 0 (fun v => (v <? 0)%Z)
                    [7; 8; 9] cube)); vm_compute; lia.
Defined.

(** ** Extraction of cubes *)

Section ExtractFacts.

Import MLRChecks MLRExtract.

Context {U value : Type}.
Variable Unit : string -> result U.
Variable unit_ne : U -> U -> bool.
Variable allclose : list Q -> list Q -> bool.
Variable _load_cube : dataset -> result cube.
Variable _get_cube_data : cube -> list (option value).
Variable select_var_type : list dataset -> string -> list dataset.
Variable select_group : list dataset -> option string -> list dataset.

Lemma check_dataset_Some c m datasets vt tg d :
  _check_dataset U Unit unit_ne c m datasets vt tg = Ok (Some d) ->
  select_metadata datasets tg vt = [d] /\
  exists expected found,
    expected_units U m vt tg = Ok expected /\
    Unit (units d) = Ok found /\ unit_ne expected found = false.
Proof.
  unfold _check_dataset.
  destruct (select_metadata datasets tg vt) as [|d0 [|d1 rest]] eqn:Hsel.
  - repeat case_match; done.
  - simpl. intros Hr.
    apply bind_Ok in Hr as (expected & He & Hr).
    apply bind_Ok in Hr as (found & Hf & Hr).
    destruct (unit_ne expected found) eqn:Hne; [done|].
    injection Hr as <-. split; [done|]. by exists expected, found.
  - done.
Qed.

Lemma check_dataset_None c m datasets vt tg :
  _check_dataset U Unit unit_ne c m datasets vt tg = Ok None ->
  select_metadata datasets tg vt = [] /\
  (vt = "prediction_input_error" \/ vt = "prediction_reference" \/
   (vt <> "label" /\ allow_missing_features c = true)).
Proof.
  unfold _check_dataset.
  destruct (select_metadata datasets tg vt) as [|d0 [|d1 rest]] eqn:Hsel.
  - intros Hr. split; [done|].
    destruct (String.eqb_spec vt "prediction_input_error"); [by left|].
    destruct (String.eqb_spec vt "prediction_reference"); [by right; left|].
    destruct (String.eqb_spec vt "label"); [done|].
    destruct (allow_missing_features c); [|done]. by right; right.
  - simpl. intros Hr.
    apply bind_Ok in Hr as (expected & He & Hr).
    apply bind_Ok in Hr as (found & Hf & Hr).
    by destruct (unit_ne expected found).
  - done.
Qed.

Lemma extract_y_loop_Some c m datasets vt label groups y_data y :
  extract_y_loop U Unit unit_ne allclose value _load_cube _get_cube_data
    select_group c m datasets vt label groups y_data = Ok (Some y) ->
  exists cubes,
    Forall2 (contributes _load_cube select_group c datasets vt label)
      groups cubes /\
    y = y_data ++ flat_map _get_cube_data cubes.
Proof.
  revert y_data. induction groups as [|g groups IH]; intros y_data; simpl.
  - intros [= <-]. exists []. split; [constructor|]. by rewrite app_nil_r.
  - intros Hr. apply bind_Ok in Hr as ([d|] & Hd & Hr); [|done].
    apply bind_Ok in Hr as (cb & Hcb & Hr).
    apply bind_Ok in Hr as (w & Hw & Hr).
    apply IH in Hr as (cubes & Hcubes & ->).
    exists (cb :: cubes). split.
    + constructor; [|done]. exists d.
      apply check_dataset_Some in Hd as [Hsel _].
      split; [done|]. split; [done|]. intros Hscalar.
      unfold _check_cube_dimensions in Hw. rewrite Hscalar in Hw.
      case_bool_decide as Hin; [|done].
      rewrite !elem_of_cons in Hin. destruct Hin as [?|[?|Hin]]; auto.
      by apply elem_of_nil in Hin.
    + simpl. by rewrite <- app_assoc.
Qed.

Lemma extract_y_loop_label_not_None c m datasets label groups y_data :
  extract_y_loop U Unit unit_ne allclose value _load_cube _get_cube_data
    select_group c m datasets "label" label groups y_data <> Ok None.
Proof.
  revert y_data. induction groups as [|g groups IH]; intros y_data; simpl;
    [done|].
  intros Hr. apply bind_Ok in Hr as ([d|] & Hd & Hr).
  - apply bind_Ok in Hr as (cb & Hcb & Hr).
    apply bind_Ok in Hr as (w & Hw & Hr). by apply IH in Hr.
  - apply check_dataset_None in Hd as [_ [Hd|[Hd|[Hd _]]]]; done.
Qed.

Lemma extract_y_data_cases c m group_attributes label datasets vt :
  let extracted :=
    _extract_y_data U Unit unit_ne allclose value _load_cube _get_cube_data
      select_var_type select_group c m group_attributes label datasets vt in
  (vt <> "label" -> vt <> "prediction_reference" ->
   raises extracted ValueError)
  /\
  (vt = "label" -> extracted <> Ok None)
  /\
  (vt = "prediction_reference" ->
   select_metadata (select_group (select_var_type datasets vt) None)
     label vt = [] ->
   extracted = Ok None)
  /\
  (forall y,
     extracted = Ok (Some y) ->
     exists cubes,
       Forall2 (contributes _load_cube select_group c
                  (select_var_type datasets vt) vt label)
         (if (vt =? "label")%string then group_attributes else [None])
         cubes /\
       y = flat_map _get_cube_data cubes).
Proof.
  intros extracted. unfold extracted, _extract_y_data.
  split; [|split; [|split]].
  - intros H1 H2. rewrite bool_decide_eq_false_2; [done|].
    rewrite !elem_of_cons, elem_of_nil. tauto.
  - intros ->. simpl. apply extract_y_loop_label_not_None.
  - intros -> Hsel. simpl. unfold _check_dataset. by rewrite Hsel.
  - intros y. case_bool_decide as Hin; [|done]. simpl.
    intros Hr. by apply extract_y_loop_Some in Hr.
Qed.

Lemma reference_cube_loop_Ok c m datasets vt features cb :
  reference_cube_loop U Unit unit_ne _load_cube c m datasets vt features =
    Ok cb ->
  exists skipped tag rest d,
    features = skipped ++ tag :: rest /\
    Forall (fun t => select_metadata datasets t vt = []) skipped /\
    select_metadata datasets tag vt = [d] /\ _load_cube d = Ok cb.
Proof.
  induction features as [|tag features IH]; simpl; [done|].
  intros Hr. apply bind_Ok in Hr as ([d|] & Hd & Hr).
  - exists [], tag, features, d. split; [done|]. split; [constructor|].
    by apply check_dataset_Some in Hd as [Hsel _].
  - apply IH in Hr as (skipped & t & rest & d & -> & Hsk & Hsel & Hload).
    exists (tag :: skipped), t, rest, d. split; [done|].
    split; [|done]. constructor; [|done].
    by apply check_dataset_None in Hd as [Hd _].
Qed.

Lemma reference_cube_loop_first c m datasets vt tag rest :
  allow_missing_features c = false ->
  vt = "feature" \/ vt = "prediction_input" ->
  let found :=
    reference_cube_loop U Unit unit_ne _load_cube c m datasets vt
      (tag :: rest) in
  (forall cb, found = Ok cb ->
     exists d, select_metadata datasets tag vt = [d] /\ _load_cube d = Ok cb)
  /\
  (select_metadata datasets tag vt = [] -> raises found ValueError).
Proof.
  intros Hallow Hvt found. unfold found. simpl. split.
  - intros cb Hr. apply bind_Ok in Hr as ([d|] & Hd & Hr).
    + exists d. by apply check_dataset_Some in Hd as [Hsel _].
    + apply check_dataset_None in Hd as [_ [Hd|[Hd|[_ Hd]]]];
        destruct Hvt; congruence.
  - intros Hsel. unfold _check_dataset. rewrite Hsel, Hallow.
    by destruct Hvt as [-> | ->].
Qed.

End ExtractFacts.

(** X12: what [_check_dataset] returns when it does not raise.  A dataset
    returned is the only dataset with the tag and the variable type asked
    for, and its units are the units expected.  None is returned only when
    there is no such dataset, and only for a prediction input error, for a
    prediction reference, or for another type than the label when missing
    features are allowed. *)
Theorem check_dataset_result_spec {U : Type}
    (Unit : string -> result U) (unit_ne : U -> U -> bool)
    (c : MLRChecks.cfg) (m : MLRChecks.units_table U)
    (datasets : list MLRChecks.dataset) (vt tg : string) :
  let checked := MLRChecks._check_dataset U Unit unit_ne c m datasets vt tg in
  (forall d,
     checked = Ok (Some d) ->
     MLRChecks.select_metadata datasets tg vt = [d] /\
     d ∈ datasets /\ MLRChecks.tag d = tg /\ MLRChecks.var_type d = vt /\
     exists expected found,
       MLRChecks.expected_units U m vt tg = Ok expected /\
       Unit (MLRChecks.units d) = Ok found /\
       unit_ne expected found = false)
  /\
  (checked = Ok None ->
   MLRChecks.select_metadata datasets tg vt = [] /\
   (vt = "prediction_input_error" \/ vt = "prediction_reference" \/
    (vt <> "label" /\ MLRChecks.allow_missing_features c = true))).
Proof.
  intros checked. split.
  - intros d Hd. apply check_dataset_Some in Hd as [Hsel Hunits].
    split; [done|].
    assert (d ∈ MLRChecks.select_metadata datasets tg vt) as Hin
      by (rewrite Hsel; by left).
    unfold MLRChecks.select_metadata in Hin.
    apply list_elem_of_filter in Hin as [[Ht Hv] Hin].
    by repeat split.
  - apply check_dataset_None.
Qed.

Lemma check_dataset_result_spec_witness :
  let Unit := fun s : string => Ok s in
  let unit_ne := fun a b : string => negb (a =? b)%string in
  let lenient := {| MLRChecks.accept_only_scalar_data := false;
                    MLRChecks.allow_missing_features := true |} in
  let m := {| MLRChecks.label_units := "K";
              MLRChecks.features_units := {["tas" := "K"]} |} in
  let tas := {| MLRChecks.filename := "tas.nc"; MLRChecks.tag := "tas";
                MLRChecks.var_type := "feature"; MLRChecks.units := "K" |} in
  (MLRChecks.select_metadata [tas] "tas" "feature" = [tas] /\
   tas ∈ [tas] /\ MLRChecks.tag tas = "tas" /\
   MLRChecks.var_type tas = "feature" /\
   exists expected found,
     MLRChecks.expected_units string m "feature" "tas" = Ok expected /\
     Unit (MLRChecks.units tas) = Ok found /\
     unit_ne expected found = false)
  /\
  (MLRChecks.select_metadata [tas] "pr" "feature" = [] /\
   ("feature" = "prediction_input_error" \/
    "feature" = "prediction_reference" \/
    ("feature" <> "label" /\
     MLRChecks.allow_missing_features lenient = true))).
Proof.
  intros Unit unit_ne lenient m tas. split.
  - apply (proj1 (check_dataset_result_spec Unit unit_ne lenient m [tas]
                    "feature" "tas")).
    reflexivity.
  - apply (proj2 (check_dataset_result_spec Unit unit_ne lenient m [tas]
                    "feature" "pr")).
    reflexivity.
Defined.

(** X13: the label data that [_extract_y_data] extracts.  Another variable
    type than 'label' and 'prediction_reference' is a ValueError.  For the
    label the function never returns None: it returns the data or raises.
    For a prediction reference it returns None when there is no dataset with
    the tag of the label.  When data are returned, every group (for the
    label: every group attribute in turn, otherwise the one group None) has
    exactly one dataset with the tag of the label, the data are the data of
    the cubes of these datasets in the order of the groups, and every such
    cube is scalar when only scalar data are accepted. *)
Theorem extract_y_data_spec {U value : Type}
    (Unit : string -> result U) (unit_ne : U -> U -> bool)
    (allclose : list Q -> list Q -> bool)
    (_load_cube : MLRChecks.dataset -> result MLRChecks.cube)
    (_get_cube_data : MLRChecks.cube -> list (option value))
    (select_var_type : list MLRChecks.dataset -> string ->
                       list MLRChecks.dataset)
    (select_group : list MLRChecks.dataset -> option string ->
                    list MLRChecks.dataset)
    (c : MLRChecks.cfg) (m : MLRChecks.units_table U)
    (group_attributes : list (option string)) (label : string)
    (datasets : list MLRChecks.dataset) (vt : string) :
  let extracted :=
    MLRExtract._extract_y_data U Unit unit_ne allclose value _load_cube
      _get_cube_data select_var_type select_group c m group_attributes label
      datasets vt in
  (vt <> "label" -> vt <> "prediction_reference" ->
   raises extracted ValueError)
  /\
  (vt = "label" -> extracted <> Ok None)
  /\
  (vt = "prediction_reference" ->
   MLRChecks.select_metadata
     (select_group (select_var_type datasets vt) None) label vt = [] ->
   extracted = Ok None)
  /\
  (forall y,
     extracted = Ok (Some y) ->
     exists cubes,
       Forall2
         (fun group_attr cb =>
            exists d,
              MLRChecks.select_metadata
                (select_group (select_var_type datasets vt) group_attr)
                label vt = [d] /\
              _load_cube d = Ok cb /\
              (MLRChecks.accept_only_scalar_data c = true ->
               MLRChecks.shape cb = [] \/ MLRChecks.shape cb = [1%nat]))
         (if (vt =? "label")%string then group_attributes else [None])
         cubes /\
       y = flat_map _get_cube_data cubes).
Proof.
  apply extract_y_data_cases.
Qed.

Lemma extract_y_data_spec_witness :
  let Unit := fun s : string => Ok s in
  let unit_ne := fun a b : string => negb (a =? b)%string in
  let allclose := fun _ _ : list Q => true in
  let scalar := {| MLRChecks.shape := [1%nat]; MLRChecks.dim_coords := [] |} in
  let _load_cube := fun _ : MLRChecks.dataset => Ok scalar in
  let _get_cube_data := fun _ : MLRChecks.cube => [Some 5] in
  let select_var_type := fun (ds : list MLRChecks.dataset) (vt : string) =>
    filter (fun d => MLRChecks.var_type d = vt) ds in
  let select_group := fun (ds : list MLRChecks.dataset) (_ : option string) =>
    ds in
  let c := {| MLRChecks.accept_only_scalar_data := true;
              MLRChecks.allow_missing_features := false |} in
  let m := {| MLRChecks.label_units := "K";
              MLRChecks.features_units := ∅ |} in
  let gpp := {| MLRChecks.filename := "gpp.nc"; MLRChecks.tag := "gpp";
                MLRChecks.var_type := "label"; MLRChecks.units := "K" |} in
  let extract :=
    MLRExtract._extract_y_data string Unit unit_ne allclose Z _load_cube
      _get_cube_data select_var_type select_group c m [None] "gpp" [gpp] in
  raises (extract "feature") ValueError
  /\
  extract "label" <> Ok None
  /\
  extract "prediction_reference" = Ok None
  /\
  exists cubes,
    Forall2
      (fun group_attr cb =>
         exists d,
           MLRChecks.select_metadata
             (select_group (select_var_type [gpp] "label") group_attr)
             "gpp" "label" = [d] /\
           _load_cube d = Ok cb /\
           (MLRChecks.accept_only_scalar_data c = true ->
            MLRChecks.shape cb = [] \/ MLRChecks.shape cb = [1%nat]))
      [None] cubes /\
    [Some 5] = flat_map _get_cube_data cubes.
Proof.
  intros Unit unit_ne allclose scalar _load_cube _get_cube_data
    select_var_type select_group c m gpp extract.
  split; [|split; [|split]].
  - apply (proj1 (extract_y_data_spec Unit unit_ne allclose _load_cube
                    _get_cube_data select_var_type select_group c m [None]
                    "gpp" [gpp] "feature")); done.
  - apply (proj1 (proj2 (extract_y_data_spec Unit unit_ne allclose _load_cube
                    _get_cube_data select_var_type select_group c m [None]
                    "gpp" [gpp] "label"))).
    reflexivity.
  - apply (proj1 (proj2 (proj2 (extract_y_data_spec Unit unit_ne allclose
                    _load_cube _get_cube_data select_var_type select_group
                    c m [None] "gpp" [gpp] "prediction_reference"))));
      reflexivity.
  - apply (proj2 (proj2 (proj2 (extract_y_data_spec Unit unit_ne allclose
                    _load_cube _get_cube_data select_var_type select_group
                    c m [None] "gpp" [gpp] "label"))) [Some 5]).
    reflexivity.
Defined.

(** X14: the cube that [_get_reference_cube] takes as reference.  When it
    returns a cube, this is the cube of the only dataset of the first
    regular feature that has a dataset of the variable type at all.  Unless
    missing features are allowed, only the first regular feature counts for
    the types 'feature' and 'prediction_input': the cube is the cube of its
    dataset, and the function raises ValueError when this feature has no
    dataset, whatever the other features have.  Without regular features
    the function raises ValueError. *)
Theorem get_reference_cube_spec {U : Type}
    (Unit : string -> result U) (unit_ne : U -> U -> bool)
    (_load_cube : MLRChecks.dataset -> result MLRChecks.cube)
    (c : MLRChecks.cfg) (m : MLRChecks.units_table U)
    (features_types : list (string * string))
    (datasets : list MLRChecks.dataset) (vt : string) :
  let found :=
    MLRExtract._get_reference_cube U Unit unit_ne _load_cube c m
      features_types datasets vt in
  let regular := MLRExtract.regular_features features_types in
  (forall cb,
     found = Ok cb ->
     exists skipped tag rest d,
       regular = skipped ++ tag :: rest /\
       Forall (fun t => MLRChecks.select_metadata datasets t vt = [])
         skipped /\
       MLRChecks.select_metadata datasets tag vt = [d] /\
       _load_cube d = Ok cb)
  /\
  (MLRChecks.allow_missing_features c = false ->
   vt = "feature" \/ vt = "prediction_input" ->
   forall tag rest,
     regular = tag :: rest ->
     (forall cb,
        found = Ok cb ->
        exists d, MLRChecks.select_metadata datasets tag vt = [d] /\
                  _load_cube d = Ok cb) /\
     (MLRChecks.select_metadata datasets tag vt = [] ->
      raises found ValueError))
  /\
  (regular = [] -> raises found ValueError).
Proof.
  intros found regular. unfold found, MLRExtract._get_reference_cube.
  fold regular. split; [|split].
  - intros cb. apply reference_cube_loop_Ok.
  - intros Hallow Hvt tag rest ->.
    by apply reference_cube_loop_first.
  - by intros ->.
Qed.

Lemma get_reference_cube_spec_witness :
  let Unit := fun s : string => Ok s in
  let unit_ne := fun a b : string => negb (a =? b)%string in
  let grid := {| MLRChecks.shape := [2%nat]; MLRChecks.dim_coords := [] |} in
  let _load_cube := fun _ : MLRChecks.dataset => Ok grid in
  let strict := {| MLRChecks.accept_only_scalar_data := false;
                   MLRChecks.allow_missing_features := false |} in
  let m := {| MLRChecks.label_units := "K";
              MLRChecks.features_units := {["tas" := "K"; "pr" := "mm"]} |} in
  let pr := {| MLRChecks.filename := "pr.nc"; MLRChecks.tag := "pr";
               MLRChecks.var_type := "feature"; MLRChecks.units := "mm" |} in
  let features_types := [("lat", "coordinate"); ("pr", "regular");
                         ("tas", "regular")] in
  let found :=
    MLRExtract._get_reference_cube string Unit unit_ne _load_cube strict m
      [("tas", "regular"); ("pr", "regular")] [pr] "feature" in
  (exists skipped tag rest d,
     MLRExtract.regular_features features_types = skipped ++ tag :: rest /\
     Forall (fun t => MLRChecks.select_metadata [pr] t "feature" = [])
       skipped /\
     MLRChecks.select_metadata [pr] tag "feature" = [d] /\
     _load_cube d = Ok grid)
  /\
  ((forall cb,
      found = Ok cb ->
      exists d, MLRChecks.select_metadata [pr] "tas" "feature" = [d] /\
                _load_cube d = Ok cb) /\
   (MLRChecks.select_metadata [pr] "tas" "feature" = [] ->
    raises found ValueError))
  /\
  raises (MLRExtract._get_reference_cube string Unit unit_ne _load_cube
            strict m [("lat", "coordinate")] [pr] "feature") ValueError.
Proof.
  intros Unit unit_ne grid _load_cube strict m pr features_types found.
  split; [|split].
  - apply (proj1 (get_reference_cube_spec Unit unit_ne _load_cube strict m
                    features_types [pr] "feature") grid).
    reflexivity.
  - apply (proj1 (proj2 (get_reference_cube_spec Unit unit_ne _load_cube
                    strict m [("tas", "regular"); ("pr", "regular")] [pr]
                    "feature")) eq_refl (or_introl eq_refl) "tas" ["pr"]).
    reflexivity.
  - apply (proj2 (proj2 (get_reference_cube_spec Unit unit_ne _load_cube
                    strict m [("lat", "coordinate")] [pr] "feature"))).
    reflexivity.
Defined.

(** ** The registry of models *)

Section RegistryFacts.

Import MLRRegistry.

Context {C : Type}.

Lemma getitem_setitem (d : models C) key value :
  getitem (setitem d key value) key = Ok value.
Proof.
  induction d as [|[k v] d IH]; simpl.
  - by rewrite String.eqb_refl.
  - destruct (String.eqb_spec k key) as [->|Hne]; simpl.
    + by rewrite String.eqb_refl.
    + by rewrite (proj2 (String.eqb_neq k key) Hne).
Qed.

Lemma getitem_setitem_ne (d : models C) key value other :
  other <> key -> getitem (setitem d key value) other = getitem d other.
Proof.
  intros Hne. induction d as [|[k v] d IH]; simpl.
  - by rewrite (proj2 (String.eqb_neq key other)).
  - destruct (String.eqb_spec k key) as [->|Hk]; simpl.
    + by rewrite (proj2 (String.eqb_neq key other)).
    + by rewrite IH.
Qed.

Lemma keys_setitem (d : models C) key value other :
  other ∈ map fst (setitem d key value) <->
  other = key \/ other ∈ map fst d.
Proof.
  induction d as [|[k v] d IH]; simpl.
  - rewrite list_elem_of_singleton, elem_of_nil. tauto.
  - destruct (String.eqb_spec k key) as [->|Hk]; simpl.
    + rewrite !elem_of_cons. tauto.
    + rewrite !elem_of_cons, IH. tauto.
Qed.

Lemma getitem_key (d : models C) key :
  key ∈ map fst d -> exists c, getitem d key = Ok c /\ c ∈ map snd d.
Proof.
  induction d as [|[k v] d IH]; simpl; [by intros ?%elem_of_nil|].
  intros Hin. destruct (String.eqb_spec k key) as [->|Hne].
  - exists v. split; [done|]. by left.
  - apply elem_of_cons in Hin as [->|Hin]; [done|].
    destruct (IH Hin) as (c & Hc & Hcin). exists c. split; [done|].
    by right.
Qed.

Lemma first_key_setitem (d : models C) key value k v rest :
  d = (k, v) :: rest ->
  exists v' rest', setitem d key value = (k, v') :: rest'.
Proof.
  intros ->. simpl. destruct (k =? key)%string; by eexists _, _.
Qed.

End RegistryFacts.

(** X15: the factory [MLRModel.create] and the decorator
    [register_mlr_model], for model types that are strings.  When the
    dictionary of models that [create] finds after loading the models is
    the one in which a type was registered last with a class, [create] for
    this type is the constructor call of that class, whatever was
    registered before.  Registering a type does not change what [create]
    does for another registered type.  For a type that is not registered,
    [create] falls back to the type that was registered first, and this
    default is not changed by later registrations; without any registered
    type it is the constructor call of the base class.  [create] raises
    only what loading the models raises and what the constructor of the
    base class or of a registered class raises: looking up the class raises
    nothing. *)
Theorem create_register_spec {C Args I : Type}
    (construct : C -> Args -> result I) (cls : C)
    (_MODELS : MLRRegistry.models C) (model_type : string) (subclass : C)
    (args : Args) :
  let registered :=
    MLRRegistry.register_mlr_model _MODELS model_type subclass in
  MLRRegistry.create construct cls (Ok registered) model_type args
    = construct subclass args
  /\
  (forall other,
     other <> model_type -> other ∈ map fst _MODELS ->
     MLRRegistry.create construct cls (Ok registered) other args =
       MLRRegistry.create construct cls (Ok _MODELS) other args)
  /\
  (forall other default_type default_class rest,
     _MODELS = (default_type, default_class) :: rest ->
     other ∉ map fst _MODELS ->
     MLRRegistry.create construct cls (Ok _MODELS) other args
       = construct default_class args /\
     (other <> model_type -> default_type <> model_type ->
      MLRRegistry.create construct cls (Ok registered) other args
        = construct default_class args))
  /\
  (forall other,
     MLRRegistry.create construct cls (Ok []) other args
       = construct cls args)
  /\
  (forall loaded other e,
     raises (MLRRegistry.create construct cls loaded other args) e ->
     raises loaded e \/
     exists c,
       raises (construct c args) e /\
       (c = cls \/ exists d, loaded = Ok d /\ c ∈ map snd d)).
Proof.
  intros registered. unfold registered, MLRRegistry.register_mlr_model.
  split; [|split; [|split; [|split]]].
  - unfold MLRRegistry.create. cbn [bind].
    destruct (MLRRegistry.setitem _MODELS model_type subclass)
      as [|[k v] rest] eqn:Hset.
    { by destruct _MODELS as [|[k v] d]; simpl in Hset;
        [|destruct (k =? model_type)%string]. }
    rewrite <- Hset, bool_decide_eq_true_2
      by (apply keys_setitem; by left).
    cbn [negb]. by rewrite getitem_setitem.
  - intros other Hne Hin. unfold MLRRegistry.create. cbn [bind].
    destruct _MODELS as [|[k v] d] eqn:Hd; [by apply elem_of_nil in Hin|].
    rewrite <- Hd in *.
    destruct (first_key_setitem _MODELS model_type subclass k v d Hd)
      as (v' & rest' & Hset).
    rewrite Hset, <- Hset.
    rewrite !bool_decide_eq_true_2; [|done|apply keys_setitem; by right].
    cbn [negb]. by rewrite getitem_setitem_ne.
  - intros other default_type default_class rest -> Hnotin. split.
    + unfold MLRRegistry.create. cbn [bind].
      rewrite bool_decide_eq_false_2 by done.
      simpl. by rewrite String.eqb_refl.
    + intros Hne Hdef. unfold MLRRegistry.create. cbn [bind].
      destruct (first_key_setitem ((default_type, default_class) :: rest)
                  model_type subclass default_type default_class rest
                  eq_refl) as (v' & rest' & Hset).
      rewrite Hset, <- Hset.
      rewrite bool_decide_eq_false_2
        by (rewrite keys_setitem; tauto).
      cbn [negb]. rewrite getitem_setitem_ne by done.
      simpl. by rewrite String.eqb_refl.
  - done.
  - intros loaded other e. unfold raises, MLRRegistry.create.
    destruct loaded as [d|e'];
      [|intros Hr; cbn [bind] in Hr; injection Hr as ->; by left].
    cbn [bind]. intros Hr. right.
    destruct d as [|[k v] rest] eqn:Hd; [exists cls; by split; [|left]|].
    rewrite <- Hd in *.
    assert (exists c, MLRRegistry.getitem d
              (if negb (bool_decide (other ∈ map fst d)) then k else other)
              = Ok c /\ c ∈ map snd d) as (c & Hc & Hin).
    { apply getitem_key. case_bool_decide as Hin; simpl; [done|].
      rewrite Hd. simpl. by left. }
    rewrite Hc in Hr. exists c. split; [exact Hr|]. right. by exists d.
Qed.

Lemma create_register_spec_witness :
  let _MODELS := [("gbr_sklearn", 1%nat); ("gpr_sklearn", 2%nat)] in
  let registered :=
    MLRRegistry.register_mlr_model _MODELS "gbr_xgboost" 3%nat in
  let construct := fun (c : nat) (cfg : option string) =>
    match cfg with
    | Some work_dir => Ok (c, work_dir)
    | None => Raise KeyError
    end in
  MLRRegistry.create construct 0%nat (Ok registered) "gpr_sklearn" (Some "w")
    = MLRRegistry.create construct 0%nat (Ok _MODELS) "gpr_sklearn"
        (Some "w")
  /\
  (MLRRegistry.create construct 0%nat (Ok _MODELS) "svr" (Some "w")
     = Ok (1%nat, "w") /\
   ("svr" <> "gbr_xgboost" -> "gbr_sklearn" <> "gbr_xgboost" ->
    MLRRegistry.create construct 0%nat (Ok registered) "svr" (Some "w")
      = Ok (1%nat, "w")))
  /\
  (raises (MLRRegistry.create construct 0%nat (Ok _MODELS) "svr" None)
     KeyError /\
   (raises (Ok _MODELS) KeyError \/
    exists c,
      raises (construct c None) KeyError /\
      (c = 0%nat \/ exists d, Ok _MODELS = Ok d /\ c ∈ map snd d))).
Proof.
  intros _MODELS registered construct. split; [|split].
  - apply (proj1 (proj2 (create_register_spec construct 0%nat _MODELS
                           "gbr_xgboost" 3%nat (Some "w")))
             "gpr_sklearn"); [done|].
    apply list_elem_of_In. simpl. tauto.
  - apply (proj1 (proj2 (proj2 (create_register_spec construct 0%nat _MODELS
                                  "gbr_xgboost" 3%nat (Some "w"))))
             "svr" "gbr_sklearn" 1%nat [("gpr_sklearn", 2%nat)]);
      [reflexivity|].
    rewrite list_elem_of_In. simpl. intros [H|[H|[]]]; discriminate.
  - split; [reflexivity|].
    apply (proj2 (proj2 (proj2 (proj2 (create_register_spec construct 0%nat
                                         _MODELS "gbr_xgboost" 3%nat None))))
             (Ok _MODELS) "svr" KeyError).
    reflexivity.
Defined.

(** X16: the error estimate of [_estimate_mlr_model_error].  When the
    function returns, the array has one entry for each prediction point and
    all entries hold the same number, and the type returned is 'test' or
    'cv'.  It is 'test' only when the recipe asks for 'test' and test data
    exist: the number is then the mean squared error on the test data.  In
    every other case (no type or another type in the recipe, or no test
    data) it is 'cv' and the number is the mean of the cross-validation
    scores, negated when the name of the scoring starts with 'neg_' and
    squared when the name does not contain 'squared'; for the default
    scoring 'neg_mean_squared_error' it is the negated mean. *)
Theorem estimate_mlr_model_error_spec {F : Type} `{Arith F}
    (neg : F -> F) (np_mean : list F -> F)
    (test_error : option (result F))
    (cross_val_score : MLRPredict.pyval -> string -> result (list F))
    (repr_float : Q -> string)
    (Unit : string -> result UnitsPower.cf_unit)
    (unit_pow : UnitsPower.cf_unit -> UnitsPower.number ->
                result UnitsPower.cf_unit)
    (label_units : UnitsPower.cf_unit)
    (cfg : MLRModelError.estimate_cfg) (target_length : nat) :
  let cv := default (MLRPredict.PyInt 5) (MLRModelError.estimate_cv cfg) in
  let scoring :=
    default "neg_mean_squared_error" (MLRModelError.estimate_scoring cfg) in
  (forall error_array err_type,
     MLRModelError._estimate_mlr_model_error neg np_mean test_error
       cross_val_score repr_float Unit unit_pow label_units cfg
       target_length = Ok (error_array, err_type) ->
     exists error,
       error_array = replicate target_length error /\
       length error_array = target_length /\
       ((err_type = "test" /\
         MLRModelError.estimate_type cfg = Some "test" /\
         test_error = Some (Ok error)) \/
        (err_type = "cv" /\
         (MLRModelError.estimate_type cfg = Some "test" ->
          test_error = None) /\
         exists scores,
           cross_val_score cv scoring = Ok scores /\
           error = MLRModelError.cv_error neg np_mean scoring scores)))
  /\
  (forall scores,
     MLRModelError.cv_error neg np_mean "neg_mean_squared_error" scores =
       neg (np_mean scores) /\
     MLRModelError.cv_error neg np_mean "neg_mean_absolute_error" scores =
       mul (neg (np_mean scores)) (neg (np_mean scores)) /\
     MLRModelError.cv_error neg np_mean "r2" scores =
       mul (np_mean scores) (np_mean scores)).
Proof.
  intros cv scoring. split; [|done].
  intros error_array err_type.
  unfold MLRModelError._estimate_mlr_model_error. fold cv scoring.
  set (cfg_type := default "cv" (MLRModelError.estimate_type cfg)).
  intros Hr.
  apply bind_Ok in Hr as ([error0 t] & Hfirst & Hr).
  apply bind_Ok in Hr as (error & Herror & Hr).
  apply bind_Ok in Hr as (units & _ & Hr).
  injection Hr as <- <-.
  exists error. split; [done|]. split; [by rewrite length_replicate|].
  assert ((t = "test" /\ cfg_type = "test" /\
           test_error = Some (Ok error) /\ error0 = Some error) \/
          (t = "cv" /\ (cfg_type = "test" -> test_error = None) /\
           exists scores, cross_val_score cv scoring = Ok scores /\
             error = MLRModelError.cv_error neg np_mean scoring scores))
    as [(-> & Hc & Ht & _)|(-> & Hnone & Hcv)].
  { case_bool_decide as Hin; simpl in Hfirst.
    - rewrite !elem_of_cons, elem_of_nil in Hin.
      destruct Hin as [Hin|[Hin|[]]]; rewrite Hin in Hfirst |- *;
        simpl in Hfirst.
      + destruct test_error as [[e|err]|]; simpl in Hfirst; try done.
        * injection Hfirst as <- <-. simpl in Herror.
          injection Herror as <-. by left.
        * injection Hfirst as <- <-. simpl in Herror.
          apply bind_Ok in Herror as (scores & Hscores & [= <-]).
          right. split; [done|]. split; [done|]. by exists scores.
      + injection Hfirst as <- <-. simpl in Herror.
        apply bind_Ok in Herror as (scores & Hscores & [= <-]).
        right. split; [done|]. split; [done|]. by exists scores.
    - injection Hfirst as <- <-. simpl in Herror.
      apply bind_Ok in Herror as (scores & Hscores & [= <-]).
      right. split; [done|]. split; [|by exists scores].
      intros Hc. destruct Hin. rewrite Hc. by left. }
  - left. split; [done|]. split; [|done].
    unfold cfg_type in Hc.
    by destruct (MLRModelError.estimate_type cfg) as [s|]; simpl in Hc;
      [rewrite Hc|].
  - right. split; [done|]. split; [|done].
    intros Hc. apply Hnone. unfold cfg_type. by rewrite Hc.
Qed.

Lemma estimate_mlr_model_error_spec_witness :
  let cross_val_score := fun (_ : MLRPredict.pyval) (_ : string) =>
    Ok [-4; -6] in
  let np_mean := fun scores : list Z => sum_list scores / 2 in
  let Unit := fun s : string =>
    Ok {| UnitsPower.unit_category := UnitsPower.Udunits;
          UnitsPower.origin := Some s |} in
  let unit_pow := fun (u : UnitsPower.cf_unit) (_ : UnitsPower.number) =>
    Ok u in
  let kelvin := {| UnitsPower.unit_category := UnitsPower.Udunits;
                   UnitsPower.origin := Some "K" |} in
  let cfg := {| MLRModelError.estimate_type := Some "test";
                MLRModelError.estimate_cv := None;
                MLRModelError.estimate_scoring := None |} in
  exists error,
    [5; 5; 5] = replicate 3 error /\
    length [5; 5; 5] = 3%nat /\
    (("cv" = "test" /\
      MLRModelError.estimate_type cfg = Some "test" /\
      None = Some (Ok error)) \/
     ("cv" = "cv" /\
      (MLRModelError.estimate_type cfg = Some "test" ->
       @None (result Z) = None) /\
      exists scores,
        cross_val_score (MLRPredict.PyInt 5) "neg_mean_squared_error" =
          Ok scores /\
        error = MLRModelError.cv_error Z.opp np_mean
                  "neg_mean_squared_error" scores)).
Proof.
  intros cross_val_score np_mean Unit unit_pow kelvin cfg.
  apply (proj1 (@estimate_mlr_model_error_spec Z Z_arith Z.opp np_mean None
                  cross_val_score (fun _ => "") Unit unit_pow kelvin cfg 3)
           [5; 5; 5] "cv").
  vm_compute. reflexivity.
Defined.

(** ** Metadata of prediction cubes *)

Section PredictionCubeFacts.

Import MLRPredict MLRPredictionCube.

Lemma startswith_append (p s : string) :
  PyStrings.startswith (p +:+ s) p = true.
Proof.
  induction p as [|c p IH]; [by destruct s|].
  rewrite append_cons. simpl. by rewrite Ascii.eqb_refl, IH.
Qed.

Lemma contains_append (p s : string) :
  PyStrings.contains p (p +:+ s) = true.
Proof.
  assert (forall sub t,
            PyStrings.contains sub t =
            PyStrings.startswith t sub ||
            match t with
            | EmptyString => false
            | String _ t' => PyStrings.contains sub t'
            end) as Hunfold by (by intros sub [|c t]).
  by rewrite Hunfold, startswith_append.
Qed.

Context {M : Type}.
Variable repr_float : Q -> string.
Variable Unit : string -> result UnitsPower.cf_unit.
Variable unit_pow :
  UnitsPower.cf_unit -> UnitsPower.number -> result UnitsPower.cf_unit.
Variables label features : string.

Let to_metadata :=
  _pred_type_to_metadata (M := M) repr_float Unit unit_pow label features.

(** The variable types that a prediction cube can get. *)
Let output_types : list string :=
  ["prediction_output"; "prediction_output_error"; "prediction_output_misc";
   "prediction_residual"].

Lemma set_var_type_valid (attrs : gmap string pyval) (vt : string) :
  vt ∈ output_types ->
  MLRMetadata.var_type_valid (set_var_type attrs vt) = true /\
  set_var_type attrs vt !! "var_type" = Some (PyStr vt).
Proof.
  intros Hin.
  unfold MLRMetadata.var_type_valid, set_var_type, MLRMetadata.metadata.
  rewrite lookup_insert_eq. split; [|done].
  apply bool_decide_eq_true. unfold output_types in Hin.
  unfold MLRMetadata.VAR_TYPES.
  rewrite !elem_of_cons in Hin. rewrite !elem_of_cons.
  intuition.
Qed.

Lemma pred_type_to_metadata_var_type pred_type (cube md : metadata M) :
  to_metadata pred_type cube = Ok md ->
  (exists vt, attributes md !! "var_type" = Some (PyStr vt) /\
              vt ∈ output_types) /\
  standard_name md = standard_name cube /\
  cell_methods md = cell_methods cube /\
  (forall key, key <> "var_type" -> key <> "features" -> key <> "residual" ->
               attributes md !! key = attributes cube !! key).
Proof.
  unfold to_metadata, _pred_type_to_metadata. intros Hr.
  apply bind_Ok in Hr as ([[[vn ln] u] attrs] & Hbranch & Hr).
  injection Hr as <-. simpl.
  assert (exists vt extra,
            vt ∈ output_types /\ attrs = set_var_type extra vt /\
            forall key, key <> "features" -> key <> "residual" ->
                        extra !! key = attributes cube !! key)
    as (vt & extra & Hvt & -> & Hextra).
  { assert (forall vt, vt ∈ output_types ->
              exists vt' extra,
                vt' ∈ output_types /\
                set_var_type (attributes cube) vt = set_var_type extra vt' /\
                forall key, key <> "features" -> key <> "residual" ->
                            extra !! key = attributes cube !! key) as Hplain.
    { intros vt Hvt. by exists vt, (attributes cube). }
    destruct pred_type as [[s|idx]|].
    - repeat match type of Hbranch with
        | (if ?b then _ else _) = _ => destruct b
        end;
        repeat match type of Hbranch with
          | bind _ _ = Ok _ =>
              apply bind_Ok in Hbranch as (? & _ & Hbranch)
          end;
        injection Hbranch as <- <- <- <-;
        try (apply Hplain; unfold output_types; rewrite !elem_of_cons; tauto).
      + exists "prediction_output_misc", (<[ "features" := PyStr features ]>
                                            (attributes cube)).
        split; [unfold output_types; rewrite !elem_of_cons; tauto|].
        split; [done|]. intros key Hf _. by apply lookup_insert_ne.
      + exists "prediction_residual",
          (<[ "residual" := PyStr "predicted minus true values" ]>
             (attributes cube)).
        split; [unfold output_types; rewrite !elem_of_cons; tauto|].
        split; [done|]. intros key _ Hres. by apply lookup_insert_ne.
    - apply bind_Ok in Hbranch as (? & _ & Hbranch).
      apply bind_Ok in Hbranch as (? & _ & Hbranch).
      injection Hbranch as <- <- <- <-.
      apply Hplain. unfold output_types. rewrite !elem_of_cons. tauto.
    - injection Hbranch as <- <- <- <-.
      apply Hplain. unfold output_types. rewrite !elem_of_cons. tauto. }
  split.
  - exists vt. split; [by apply set_var_type_valid|done].
  - split; [done|]. split; [done|].
    intros key Hk Hf Hres. unfold set_var_type.
    rewrite lookup_insert_ne by done. by apply Hextra.
Qed.

Lemma pred_type_to_metadata_error (s : string) (cube md : metadata M) :
  s = "var" \/ s = "cov" \/ s = "squared_propagated_input_error" \/
  (exists err_type, s = "squared_mlr_model_error_estim_" +:+ err_type) ->
  to_metadata (MLRPropagate.name s) cube = Ok md ->
  attributes md !! "var_type" = Some (PyStr "prediction_output_error") /\
  squared_units repr_float Unit unit_pow (units cube) = Ok (units md).
Proof.
  intros Hs. unfold to_metadata, _pred_type_to_metadata, MLRPropagate.name.
  intros Hr.
  apply bind_Ok in Hr as ([[[vn ln] u] attrs] & Hbranch & Hr).
  injection Hr as <-. simpl.
  assert (attrs = set_var_type (attributes cube) "prediction_output_error" /\
          squared_units repr_float Unit unit_pow (units cube) = Ok u)
    as [-> Hu].
  { destruct Hs as [->|[->|[->|[err_type ->]]]].
    - simpl in Hbranch.
      apply bind_Ok in Hbranch as (? & _ & Hbranch).
      apply bind_Ok in Hbranch as (? & _ & Hbranch).
      apply bind_Ok in Hbranch as (? & Hu & Hbranch).
      by injection Hbranch as <- <- <- <-.
    - simpl in Hbranch.
      apply bind_Ok in Hbranch as (? & _ & Hbranch).
      apply bind_Ok in Hbranch as (? & _ & Hbranch).
      apply bind_Ok in Hbranch as (? & Hu & Hbranch).
      by injection Hbranch as <- <- <- <-.
    - simpl in Hbranch.
      apply bind_Ok in Hbranch as (? & _ & Hbranch).
      apply bind_Ok in Hbranch as (? & _ & Hbranch).
      apply bind_Ok in Hbranch as (? & Hu & Hbranch).
      by injection Hbranch as <- <- <- <-.
    - assert (("squared_mlr_model_error_estim_" +:+ err_type =? "var")%string
              = false) as Hvar by reflexivity.
      assert (("squared_mlr_model_error_estim_" +:+ err_type =? "cov")%string
              = false) as Hcov by reflexivity.
      assert (PyStrings.contains "squared_mlr_model_error_estim"
                ("squared_mlr_model_error_estim_" +:+ err_type) = true)
        as Hestim.
      { apply (contains_append "squared_mlr_model_error_estim"
                 ("_" +:+ err_type)). }
      rewrite Hvar, Hcov, Hestim in Hbranch.
      apply bind_Ok in Hbranch as (? & _ & Hbranch).
      apply bind_Ok in Hbranch as (? & _ & Hbranch).
      apply bind_Ok in Hbranch as (? & Hu & Hbranch).
      by injection Hbranch as <- <- <- <-. }
  split; [|done]. unfold set_var_type. apply lookup_insert_eq.
Qed.

End PredictionCubeFacts.

(** X17: the metadata that [_pred_type_to_metadata] gives a prediction
    cube.  Whatever the prediction type, the 'var_type' set is one of
    'prediction_output', 'prediction_output_error', 'prediction_output_misc'
    and 'prediction_residual', which are all in [VAR_TYPES]: a prediction
    cube never gets a variable type that the check of the MLR attributes
    refuses.  The standard name and the cell methods are those of the cube,
    and no attribute but 'var_type', 'features' and 'residual' is changed.
    For the variance, the covariance, the squared propagated input error and
    every 'squared_mlr_model_error_estim_...' the type is
    'prediction_output_error' and the units are those of the cube raised to
    the power 2 by [units_power]. *)
Theorem pred_type_to_metadata_spec {M : Type}
    (repr_float : Q -> string)
    (Unit : string -> result UnitsPower.cf_unit)
    (unit_pow : UnitsPower.cf_unit -> UnitsPower.number ->
                result UnitsPower.cf_unit)
    (label features : string) (pred_type : MLRPropagate.pred_type)
    (cube md : MLRPredictionCube.metadata M) :
  MLRPredictionCube._pred_type_to_metadata repr_float Unit unit_pow label
    features pred_type cube = Ok md ->
  MLRMetadata.var_type_valid (MLRPredictionCube.attributes md) = true
  /\
  (exists vt,
     MLRPredictionCube.attributes md !! "var_type" =
       Some (MLRPredict.PyStr vt) /\
     vt ∈ ["prediction_output"; "prediction_output_error";
           "prediction_output_misc"; "prediction_residual"])
  /\
  MLRPredictionCube.standard_name md = MLRPredictionCube.standard_name cube
  /\
  MLRPredictionCube.cell_methods md = MLRPredictionCube.cell_methods cube
  /\
  (forall key,
     key <> "var_type" -> key <> "features" -> key <> "residual" ->
     MLRPredictionCube.attributes md !! key =
       MLRPredictionCube.attributes cube !! key)
  /\
  (forall s,
     pred_type = MLRPropagate.name s ->
     s = "var" \/ s = "cov" \/ s = "squared_propagated_input_error" \/
     (exists err_type, s = "squared_mlr_model_error_estim_" +:+ err_type) ->
     MLRPredictionCube.attributes md !! "var_type" =
       Some (MLRPredict.PyStr "prediction_output_error") /\
     UnitsPower.units_power repr_float Unit unit_pow
       (MLRPredictionCube.units cube) (UnitsPower.PyInt 2) =
       Ok (MLRPredictionCube.units md)).
Proof.
  intros Hr.
  destruct (pred_type_to_metadata_var_type repr_float Unit unit_pow label
              features pred_type cube md Hr)
    as ((vt & Hvt & Hin) & Hsn & Hcm & Hattrs).
  split.
  { unfold MLRMetadata.var_type_valid, MLRMetadata.metadata.
    rewrite Hvt. apply bool_decide_eq_true.
    unfold MLRMetadata.VAR_TYPES. rewrite !elem_of_cons in Hin.
    rewrite !elem_of_cons. intuition. }
  split; [by exists vt|]. split; [done|]. split; [done|]. split; [done|].
  intros s -> Hs.
  by apply (pred_type_to_metadata_error repr_float Unit unit_pow label
              features s cube md).
Qed.

Lemma pred_type_to_metadata_spec_witness :
  let Unit := fun s : string =>
    Ok {| UnitsPower.unit_category := UnitsPower.Udunits;
          UnitsPower.origin := Some s |} in
  let unit_pow := fun (u : UnitsPower.cf_unit) (_ : UnitsPower.number) =>
    Ok u in
  let cube :=
    {| MLRPredictionCube.standard_name := Some "air_temperature";
       MLRPredictionCube.long_name := Some "Temperature";
       MLRPredictionCube.var_name := Some "tas";
       MLRPredictionCube.units :=
         {| UnitsPower.unit_category := UnitsPower.Udunits;
            UnitsPower.origin := Some "K" |};
       MLRPredictionCube.attributes :=
         {[ "tag" := MLRPredict.PyStr "tas" ]};
       MLRPredictionCube.cell_methods := tt |} in
  exists md,
    MLRPredictionCube._pred_type_to_metadata (fun _ => "") Unit unit_pow "tas"
      "{0: 'pr'}" (MLRPropagate.name "squared_mlr_model_error_estim_cv")
      cube = Ok md /\
    MLRMetadata.var_type_valid (MLRPredictionCube.attributes md) = true /\
    MLRPredictionCube.units md =
      {| UnitsPower.unit_category := UnitsPower.Udunits;
         UnitsPower.origin := Some "K2" |}.
Proof.
  intros Unit unit_pow cube. eexists. split; [reflexivity|].
  split.
  - eapply (pred_type_to_metadata_spec (fun _ => "") Unit unit_pow "tas"
              "{0: 'pr'}" (MLRPropagate.name "squared_mlr_model_error_estim_cv")
              cube).
    reflexivity.
  - reflexivity.
Defined.

(** ** Broadcasting *)

Section BroadcastFacts.

Import MLRBroadcast.

Lemma expand_loop_merge (tgt : nat -> nat) (axes : list nat) (m a : nat)
    (front : list nat) :
  length front = a ->
  expand_loop (front ++ map tgt (filter (fun k => k ∈ axes) (seq a m)))
    (filter (fun k => k ∉ axes) (seq a m)) =
  Ok (front ++ map (fun k => if decide (k ∈ axes) then tgt k else 1%nat)
                (seq a m)).
Proof.
  revert a front. induction m as [|m IH]; intros a front Hl; simpl.
  - done.
  - rewrite !filter_cons. destruct (decide (a ∈ axes)) as [Hin|Hin].
    + rewrite decide_False by (by intros H). simpl.
      rewrite (cons_middle (tgt a)), app_assoc.
      rewrite IH by (rewrite length_app; simpl; lia).
      by rewrite <- app_assoc.
    + rewrite decide_True by done. simpl. unfold expand_dims.
      rewrite length_app, Hl.
      destruct (Nat.leb_spec a (a + length (map tgt
                   (filter (fun k => k ∈ axes) (seq (S a) m))))) as [_|Hlt];
        [|lia].
      simpl. rewrite <- Hl, take_app_length, drop_app_length.
      rewrite (cons_middle 1%nat), app_assoc.
      rewrite IH by (rewrite length_app; simpl; lia).
      by rewrite <- app_assoc.
Qed.

Lemma broadcast_to_same_length (shape target_shape : list nat) :
  Forall2 (fun s t => s = t \/ s = 1%nat) shape target_shape ->
  broadcast_to shape target_shape = Ok target_shape.
Proof.
  intros Hall. unfold broadcast_to.
  rewrite (Forall2_length _ _ _ Hall), Nat.leb_refl. simpl.
  assert (forallb (fun st : nat * nat => (st.1 =? st.2)%nat || (st.1 =? 1)%nat)
            (zip (reverse shape) (reverse target_shape)) = true) as ->; [|done].
  apply forallb_forall. intros [s t] Hin%list_elem_of_In.
  apply list_elem_of_lookup in Hin as [i Hi].
  apply lookup_zip_Some in Hi as [Hs Ht]. simpl.
  apply Forall2_reverse in Hall.
  destruct (Forall2_lookup_l _ _ _ _ _ Hall Hs) as (t' & Ht' & [->| ->]).
  - rewrite Ht in Ht'. injection Ht' as <-. by rewrite Nat.eqb_refl.
  - by rewrite orb_true_r.
Qed.

Lemma map_result_normalize (n : nat) (obj : list Z) :
  Forall (fun i => - Z.of_nat n <= i < Z.of_nat n) obj ->
  map_result (normalize_index n) obj =
    Ok (map (fun i => Z.to_nat (if (i <? 0)%Z then i + Z.of_nat n else i))
          obj).
Proof.
  induction 1 as [|i obj Hi _ IH]; [done|].
  simpl. unfold normalize_index at 1.
  destruct (Z.ltb_spec i (- Z.of_nat n)); [lia|].
  destruct (Z.leb_spec (Z.of_nat n) i); [lia|].
  simpl. by rewrite IH.
Qed.

Lemma map_result_normalize_raises (n : nat) (obj : list Z) :
  ~ Forall (fun i => - Z.of_nat n <= i < Z.of_nat n) obj ->
  map_result (normalize_index n) obj = Raise IndexError.
Proof.
  induction obj as [|i obj IH]; intros Hn.
  - destruct Hn. constructor.
  - simpl. unfold normalize_index at 1.
    destruct (Z.ltb_spec i (- Z.of_nat n)); [done|].
    destruct (Z.leb_spec (Z.of_nat n) i); [done|].
    simpl. rewrite IH; [done|].
    intros Hf. apply Hn. constructor; [lia|done].
Qed.

(** What the loop over the coordinates leaves as it is. *)
Let skeleton (co : coord) : string * list nat * bool * list nat :=
  (metadata co, dims co, dim_coord co, points_shape co).

Lemma matching_coords_skeleton (l l' : list coord) (a : nat) (idx : Z) :
  map skeleton l = map skeleton l' ->
  Forall2 (fun p p' : nat * coord =>
             p.1 = p'.1 /\ skeleton p.2 = skeleton p'.2 /\
             l !! (p.1 - a)%nat = Some p.2 /\ l' !! (p.1 - a)%nat = Some p'.2)
    (filter (fun p : nat * coord => map Z.of_nat (dims p.2) = [idx])
       (zip (seq a (length l)) l))
    (filter (fun p : nat * coord => map Z.of_nat (dims p.2) = [idx])
       (zip (seq a (length l')) l')).
Proof.
  revert l' a. induction l as [|co l IH]; intros [|co' l'] a Hsk; try done.
  pose proof (f_equal head Hsk) as Hco. pose proof (f_equal tail Hsk) as Hsk'.
  cbn [map head tail] in Hco, Hsk'. apply (inj Some) in Hco.
  assert (dims co = dims co') as Hd
    by (unfold skeleton in Hco; congruence).
  specialize (IH l' (S a) Hsk'). simpl.
  assert (Forall2
            (fun p p' : nat * coord =>
               p.1 = p'.1 /\ skeleton p.2 = skeleton p'.2 /\
               (co :: l) !! (p.1 - a)%nat = Some p.2 /\
               (co' :: l') !! (p.1 - a)%nat = Some p'.2)
            (filter (fun p : nat * coord => map Z.of_nat (dims p.2) = [idx])
               (zip (seq (S a) (length l)) l))
            (filter (fun p : nat * coord => map Z.of_nat (dims p.2) = [idx])
               (zip (seq (S a) (length l')) l'))) as Hrest.
  { assert (Forall (fun p : nat * coord => (S a <= p.1)%nat)
              (filter (fun p : nat * coord =>
                         map Z.of_nat (dims p.2) = [idx])
                 (zip (seq (S a) (length l)) l))) as Hge.
    { apply Forall_forall. intros [k c] Hin.
      apply list_elem_of_filter in Hin as [_ Hin].
      apply elem_of_zip_l in Hin. apply elem_of_seq in Hin. simpl. lia. }
    revert Hge. induction IH as [|p p' ps ps' (H1 & H2 & H3 & H4) _ IH'];
      intros Hge; constructor.
    - apply Forall_cons in Hge as [Hp _].
      split; [done|]. split; [done|].
      replace (p.1 - a)%nat with (S (p.1 - S a)) by lia. by simpl.
    - apply IH'. by apply Forall_cons in Hge as [_ ?]. }
  rewrite !filter_cons. simpl. rewrite <- Hd.
  case_decide; [|done]. constructor; [|done]. simpl.
  rewrite Nat.sub_diag. by simpl.
Qed.

Lemma coord_by_dimensions_skeleton (c c' : cube) (idx : Z) :
  map skeleton (coords c) = map skeleton (coords c') ->
  (forall k co,
     coord_by_dimensions c idx = Ok (k, co) ->
     exists co',
       coord_by_dimensions c' idx = Ok (k, co') /\
       skeleton co = skeleton co' /\ coords c' !! k = Some co') /\
  (forall e, coord_by_dimensions c idx = Raise e ->
             coord_by_dimensions c' idx = Raise e).
Proof.
  intros Hsk. unfold coord_by_dimensions.
  pose proof (matching_coords_skeleton (coords c) (coords c') 0 idx Hsk)
    as Hall.
  destruct Hall as [|p p' ps ps' (H1 & H2 & H3 & H4) Hrest]; [by split|].
  destruct Hrest as [|q q' qs qs' _ _]; [|by split].
  split; [|done]. intros k co [= ->]. exists p'.2.
  rewrite Nat.sub_0_r in H4. simpl in *. split; [|by split].
  rewrite H1. by destruct p'.
Qed.

Lemma coord_like_skeleton (c : cube) (co co' : coord) :
  skeleton co = skeleton co' -> coord_like c co = coord_like c co'.
Proof.
  intros Hsk. unfold coord_like.
  assert (metadata co = metadata co') as ->
    by (unfold skeleton in Hsk; congruence).
  done.
Qed.

Lemma set_points_skeleton (co co' : coord) shp pts :
  skeleton co = skeleton co' ->
  (forall new_coord,
     set_points co shp pts = Ok new_coord ->
     exists new_coord',
       set_points co' shp pts = Ok new_coord' /\
       skeleton new_coord' = skeleton co') /\
  (forall e, set_points co shp pts = Raise e ->
             set_points co' shp pts = Raise e).
Proof.
  intros Hsk. unfold set_points, skeleton in *.
  injection Hsk as -> -> -> ->.
  destruct (negb _); [by split|]. destruct (_ && _); [by split|].
  split; [|done]. intros new_coord _. by eexists.
Qed.

Lemma skeleton_insert (l : list coord) (k : nat) (co new_coord : coord) :
  l !! k = Some co -> skeleton new_coord = skeleton co ->
  map skeleton (<[k := new_coord]> l) = map skeleton l.
Proof.
  intros Hk Hsk.
  change (skeleton <$> <[k:=new_coord]> l = skeleton <$> l).
  rewrite list_fmap_insert, Hsk. apply list_insert_id.
  by rewrite list_lookup_fmap, Hk.
Qed.

Lemma coord_by_dimensions_lookup (c : cube) (idx : Z) k co :
  coord_by_dimensions c idx = Ok (k, co) ->
  coords c !! k = Some co /\ map Z.of_nat (dims co) = [idx].
Proof.
  unfold coord_by_dimensions. intros Hc.
  assert ((k, co) ∈ filter (fun p : nat * coord =>
                              map Z.of_nat (dims p.2) = [idx])
                      (zip (seq 0 (length (coords c))) (coords c))) as Hin.
  { destruct (filter _ _) as [|p [|q rest]]; try done.
    injection Hc as ->. by left. }
  apply list_elem_of_filter in Hin as [Hd Hin]. split; [|done].
  apply list_elem_of_lookup in Hin as [i Hi].
  apply lookup_zip_Some in Hi as [Hs Hco].
  apply lookup_seq in Hs as [-> _]. done.
Qed.

Lemma coord_by_dimensions_negative (c : cube) (idx : Z) :
  (idx < 0)%Z -> coord_by_dimensions c idx = Raise CoordinateNotFoundError.
Proof.
  intros Hneg. unfold coord_by_dimensions.
  assert (filter (fun p : nat * coord => map Z.of_nat (dims p.2) = [idx])
            (zip (seq 0 (length (coords c))) (coords c)) = []) as ->; [|done].
  induction (zip (seq 0 (length (coords c))) (coords c)) as [|[k co] l IH];
    [done|].
  rewrite filter_cons, decide_False; [done|]. simpl. intros Hd.
  destruct (dims co) as [|d [|d' ds]]; try done.
  simpl in Hd. injection Hd as Hd. lia.
Qed.

(** The loop on a cube that has the coordinates of the reference cube but
    for their points. *)
Lemma coord_loop_returns (ref_cube loaded : cube) (broadcast_from : list Z) :
  Forall (fun idx =>
            exists k co source,
              coord_by_dimensions ref_cube idx = Ok (k, co) /\
              coord_like loaded co = Ok source /\
              returns (set_points co (points_shape source) (points source)))
    broadcast_from ->
  forall new_cube,
    map skeleton (coords new_cube) = map skeleton (coords ref_cube) ->
    exists c,
      coord_loop new_cube loaded broadcast_from = Ok c /\
      shape c = shape new_cube /\
      map skeleton (coords c) = map skeleton (coords ref_cube).
Proof.
  induction 1 as [|idx rest (k & co & source & Hfind & Hlike & Hset) _ IH];
    intros new_cube Hsk; [by exists new_cube|].
  simpl.
  destruct (proj1 (coord_by_dimensions_skeleton ref_cube new_cube idx
                     (eq_sym Hsk)) k co Hfind) as (co' & Hfind' & Hco & Hk).
  rewrite Hfind'. cbn [bind snd fst].
  rewrite <- (coord_like_skeleton loaded co co' Hco), Hlike. cbn [bind].
  destruct Hset as [new_coord Hset].
  destruct (proj1 (set_points_skeleton co co' _ _ Hco) new_coord Hset)
    as (new_coord' & Hset' & Hnew).
  rewrite Hset'. cbn [bind].
  destruct (IH {| shape := shape new_cube;
                  coords := <[k := new_coord']> (coords new_cube) |})
    as (c & Hc & Hshape & Hcsk).
  { cbn [coords]. by rewrite (skeleton_insert _ k co' new_coord'). }
  exists c. by split.
Qed.

Lemma coord_loop_Ok (new_cube loaded : cube) (broadcast_from : list Z) c :
  coord_loop new_cube loaded broadcast_from = Ok c ->
  shape c = shape new_cube /\
  map skeleton (coords c) = map skeleton (coords new_cube) /\
  Forall (fun idx => 0 <= idx)%Z broadcast_from.
Proof.
  revert new_cube. induction broadcast_from as [|idx rest IH];
    intros new_cube Hc.
  - injection Hc as <-. by repeat split.
  - simpl in Hc. apply bind_Ok in Hc as ([k co] & Hfind & Hc).
    apply bind_Ok in Hc as (source & _ & Hc).
    apply bind_Ok in Hc as (new_coord & Hset & Hc).
    apply IH in Hc as (Hshape & Hsk & Hall). cbn [shape coords fst snd] in *.
    apply coord_by_dimensions_lookup in Hfind as Hk. destruct Hk as [Hk _].
    split; [done|]. split.
    + rewrite Hsk. apply (skeleton_insert _ k co); [done|].
      unfold set_points in Hset. destruct (negb _); [done|].
      destruct (_ && _); [done|]. by injection Hset as <-.
    + constructor; [|done].
      destruct (Z.lt_ge_cases idx 0) as [Hneg|?]; [|done].
      by rewrite coord_by_dimensions_negative in Hfind.
Qed.

Lemma broadcasted_shape_Ok target_shape data_shape broadcast_from shp :
  broadcasted_shape target_shape data_shape broadcast_from = Ok shp ->
  shp = target_shape.
Proof.
  unfold broadcasted_shape. intros Hb.
  apply bind_Ok in Hb as (pos & _ & Hb).
  apply bind_Ok in Hb as (expanded & _ & Hb).
  unfold broadcast_to in Hb. destruct (_ && _); [|done]. by injection Hb.
Qed.

End BroadcastFacts.

(** X18: [_get_broadcasted_cube] for a list [broadcast_from] of integers.
    An index outside the dimensions of the reference cube is an IndexError.
    With all indices within them (negative ones count from the end for
    numpy), data whose axes have the lengths of the listed axes of the
    reference cube, in the order of the axes of that cube and whatever the
    order of the list, are expanded and broadcast to the shape of the
    reference cube without an error.  The points are then copied: when for
    every index the reference cube has exactly one coordinate of exactly
    this dimension, the cube loaded has exactly one coordinate with its
    metadata, and the points of that coordinate can be assigned, the
    function returns a cube with the shape of the reference cube and its
    coordinates, but for their points.  A negative index is never the
    dimension of a coordinate: the function raises
    CoordinateNotFoundError when the first index is negative, and it
    returns only when all indices are within the dimensions and none is
    negative. *)
Theorem broadcasted_shape_spec (ref_cube cube_to_broadcast : MLRBroadcast.cube)
    (broadcast_from : list Z) :
  let target_shape := MLRBroadcast.shape ref_cube in
  let n := length target_shape in
  let in_bounds := Forall (fun i => - Z.of_nat n <= i < Z.of_nat n)
                     broadcast_from in
  let axes :=
    map (fun i => Z.to_nat (if (i <? 0)%Z then i + Z.of_nat n else i))
      broadcast_from in
  let skeleton := fun co =>
    (MLRBroadcast.metadata co, MLRBroadcast.dims co,
     MLRBroadcast.dim_coord co, MLRBroadcast.points_shape co) in
  let run :=
    MLRBroadcast._get_broadcasted_cube broadcast_from ref_cube
      cube_to_broadcast in
  (~ in_bounds -> raises run IndexError)
  /\
  (in_bounds ->
   MLRBroadcast.shape cube_to_broadcast
     = MLRBroadcast.lengths_at target_shape axes ->
   MLRBroadcast.broadcasted_shape target_shape
     (MLRBroadcast.shape cube_to_broadcast) broadcast_from = Ok target_shape
   /\
   (Forall (fun idx =>
              exists k co source,
                MLRBroadcast.coord_by_dimensions ref_cube idx = Ok (k, co) /\
                MLRBroadcast.coord_like cube_to_broadcast co = Ok source /\
                returns (MLRBroadcast.set_points co
                           (MLRBroadcast.points_shape source)
                           (MLRBroadcast.points source)))
      broadcast_from ->
    exists new_cube,
      run = Ok new_cube /\
      MLRBroadcast.shape new_cube = target_shape /\
      map skeleton (MLRBroadcast.coords new_cube)
        = map skeleton (MLRBroadcast.coords ref_cube))
   /\
   (forall idx rest,
      broadcast_from = idx :: rest -> (idx < 0)%Z ->
      raises run CoordinateNotFoundError))
  /\
  (forall new_cube,
     run = Ok new_cube ->
     Forall (fun i => 0 <= i < Z.of_nat n) broadcast_from /\
     MLRBroadcast.shape new_cube = target_shape /\
     map skeleton (MLRBroadcast.coords new_cube)
       = map skeleton (MLRBroadcast.coords ref_cube)).
Proof.
  intros target_shape n in_bounds axes skeleton_ run.
  assert (in_bounds ->
          MLRBroadcast.shape cube_to_broadcast
            = MLRBroadcast.lengths_at target_shape axes ->
          MLRBroadcast.broadcasted_shape target_shape
            (MLRBroadcast.shape cube_to_broadcast) broadcast_from
            = Ok target_shape) as Hnumpy.
  { intros Hb ->. unfold MLRBroadcast.broadcasted_shape,
      MLRBroadcast.delete_arange. fold n.
    rewrite map_result_normalize by done. fold axes. cbn [bind].
    pose proof (expand_loop_merge (fun k => nth k target_shape 0%nat) axes
                  n 0 [] eq_refl) as Hexp.
    rewrite !app_nil_l in Hexp.
    unfold MLRBroadcast.lengths_at. fold n.
    rewrite Hexp. cbn [bind].
    apply broadcast_to_same_length.
    apply Forall2_same_length_lookup. split.
    { rewrite List.length_map, length_seq. done. }
    intros i s t Hs Ht.
    assert (i < n)%nat as Hi by (by apply lookup_lt_Some in Ht).
    assert (s = if decide (i ∈ axes) then nth i target_shape 0%nat
                else 1%nat) as ->.
    { pose proof (list_lookup_fmap
                    (fun k => if decide (k ∈ axes)
                              then nth k target_shape 0%nat else 1%nat)
                    (seq 0 n) i) as Hf.
      rewrite lookup_seq_lt in Hf by done. simpl in Hf.
      apply (inj Some). rewrite <- Hs. exact Hf. }
    case_decide; [left|by right].
    by apply nth_lookup_Some with (d := 0%nat) in Ht. }
  split; [|split].
  - intros Hn. unfold run, raises, MLRBroadcast._get_broadcasted_cube,
      MLRBroadcast.broadcasted_shape, MLRBroadcast.delete_arange.
    fold target_shape. fold n.
    by rewrite map_result_normalize_raises.
  - intros Hb Hshape. specialize (Hnumpy Hb Hshape).
    split; [exact Hnumpy|]. split.
    + intros Hcoords. unfold run, MLRBroadcast._get_broadcasted_cube.
      fold target_shape. rewrite Hnumpy. cbn [bind].
      destruct (coord_loop_returns ref_cube cube_to_broadcast broadcast_from
                  Hcoords
                  {| MLRBroadcast.shape := target_shape;
                     MLRBroadcast.coords := MLRBroadcast.coords ref_cube |}
                  eq_refl) as (c & Hc & Hcshape & Hsk).
      exists c. by split.
    + intros idx rest -> Hneg.
      unfold run, raises, MLRBroadcast._get_broadcasted_cube.
      fold target_shape. rewrite Hnumpy. cbn [bind]. simpl.
      by rewrite coord_by_dimensions_negative.
  - intros new_cube Hrun.
    unfold run, MLRBroadcast._get_broadcasted_cube in Hrun.
    fold target_shape in Hrun.
    apply bind_Ok in Hrun as (shp & Hshp & Hloop).
    apply coord_loop_Ok in Hloop as (Hshape & Hsk & Hpos).
    cbn [MLRBroadcast.shape MLRBroadcast.coords] in *.
    apply broadcasted_shape_Ok in Hshp as Heq. subst shp.
    split; [|by split].
    destruct (decide in_bounds) as [Hb|Hn].
    + unfold in_bounds in Hb. rewrite Forall_forall in Hb, Hpos.
      apply Forall_forall. intros i Hi.
      specialize (Hb i Hi). specialize (Hpos i Hi). lia.
    + unfold MLRBroadcast.broadcasted_shape, MLRBroadcast.delete_arange
        in Hshp. fold n in Hshp.
      by rewrite map_result_normalize_raises in Hshp.
Qed.

Lemma broadcasted_shape_spec_witness :
  let axis := fun nm d (pts : list Q) =>
    {| MLRBroadcast.metadata := nm; MLRBroadcast.dims := [d];
       MLRBroadcast.dim_coord := true;
       MLRBroadcast.points_shape := [length pts];
       MLRBroadcast.points := pts |} in
  let ref_cube :=
    {| MLRBroadcast.shape := [2; 3; 2]%nat;
       MLRBroadcast.coords :=
         [axis "time" 0%nat [0%Q; 1%Q];
          axis "latitude" 1%nat [(-1)%Q; 0%Q; 1%Q];
          axis "longitude" 2%nat [0%Q; 1%Q]] |} in
  let loaded :=
    {| MLRBroadcast.shape := [2; 2]%nat;
       MLRBroadcast.coords :=
         [axis "time" 0%nat [5%Q; 6%Q];
          axis "longitude" 1%nat [7%Q; 8%Q]] |} in
  MLRBroadcast._get_broadcasted_cube [2; 0] ref_cube loaded =
    Ok {| MLRBroadcast.shape := [2; 3; 2]%nat;
          MLRBroadcast.coords :=
            [axis "time" 0%nat [5%Q; 6%Q];
             axis "latitude" 1%nat [(-1)%Q; 0%Q; 1%Q];
             axis "longitude" 2%nat [7%Q; 8%Q]] |}
  /\
  raises (MLRBroadcast._get_broadcasted_cube [-1; 0] ref_cube loaded)
    CoordinateNotFoundError
  /\
  raises (MLRBroadcast._get_broadcasted_cube [3] ref_cube loaded) IndexError.
Proof.
  intros axis ref_cube loaded. split; [|split].
  - destruct (proj1 (proj2 (proj1 (proj2 (broadcasted_shape_spec ref_cube
                                            loaded [2; 0]))
                             ltac:(repeat constructor; simpl; lia)
                             eq_refl)))
      as (new_cube & Hrun & _).
    { repeat constructor.
      - eexists _, _, _. split; [reflexivity|]. split; [reflexivity|].
        by eexists.
      - eexists _, _, _. split; [reflexivity|]. split; [reflexivity|].
        by eexists. }
    rewrite Hrun. vm_compute in Hrun. by injection Hrun as <-.
  - apply (proj2 (proj2 (proj1 (proj2 (broadcasted_shape_spec ref_cube
                                         loaded [-1; 0]))
                          ltac:(repeat constructor; simpl; lia)
                          eq_refl)) (-1) [0]); [reflexivity|lia].
  - apply (proj1 (broadcasted_shape_spec ref_cube loaded [3])).
    intros Hf. apply Forall_cons in Hf as [Hf _]. simpl in Hf. lia.
Defined.

(** ** Names of features *)

Lemma range_length (n : Z) :
  length (MLRFeatureNames.range n) = Z.to_nat n.
Proof.
  unfold MLRFeatureNames.range. by rewrite List.length_map, length_seq.
Qed.

Lemma created_pipeline_pca {params : Type} (cls : MLRPipeline.clf_type)
    (c : MLRPipeline.cfg) (fs : list MLRPipeline.feature) (iv fp : params)
    (p : MLRPipeline.pipeline params) :
  MLRPipeline._create_pipeline (Some cls) c fs iv fp = Ok (Some p) ->
  "pca" ∈ map fst (MLRPipeline.steps p) <-> MLRPipeline.pca c = true.
Proof.
  intros Hp.
  destruct (create_pipeline_steps cls c fs iv fp) as (idx & p' & Hp' & _ & Hs).
  rewrite Hp in Hp'. injection Hp' as <-. rewrite Hs.
  unfold MLRPipeline.spec_steps.
  case_bool_decide; destruct (MLRPipeline.standardize_data c),
    (MLRPipeline.pca c); simpl; rewrite !elem_of_cons, elem_of_nil;
    split; try done; intuition discriminate.
Qed.

(** X19: the names that [features_after_preprocessing] gives the columns
    of the transformed training data of a pipeline built by
    [_create_pipeline].  Without PCA in the recipe there is one name for
    each column: the features themselves when their number is the number of
    columns, and 'Unknown feature 0', 'Unknown feature 1', ... otherwise.
    With PCA there is one name for each column as long as there are at
    least as many columns as categorical features: the principal components
    come first and the names of the categorical features are the last
    names.  With fewer columns than categorical features the names are the
    categorical features alone, which are more than the columns. *)
Theorem features_after_preprocessing_spec {params : Type}
    (cls : MLRPipeline.clf_type) (c : MLRPipeline.cfg)
    (fs : list MLRPipeline.feature) (iv fp : params)
    (p : MLRPipeline.pipeline params)
    (x_trans_columns : nat) (features categorical_features : list string) :
  MLRPipeline._create_pipeline (Some cls) c fs iv fp = Ok (Some p) ->
  let names :=
    MLRFeatureNames.features_after_preprocessing
      (map fst (MLRPipeline.steps p)) x_trans_columns features
      categorical_features in
  (MLRPipeline.pca c = false ->
   length names = x_trans_columns /\
   (x_trans_columns = length features -> names = features))
  /\
  (MLRPipeline.pca c = true ->
   (length categorical_features <= x_trans_columns)%nat ->
   length names = x_trans_columns /\
   drop (x_trans_columns - length categorical_features) names =
     categorical_features)
  /\
  (MLRPipeline.pca c = true ->
   (x_trans_columns < length categorical_features)%nat ->
   names = categorical_features).
Proof.
  intros Hp names. pose proof (created_pipeline_pca cls c fs iv fp p Hp) as Hpca.
  unfold names, MLRFeatureNames.features_after_preprocessing.
  split; [|split].
  - intros Hc. rewrite bool_decide_eq_false_2
      by (rewrite Hpca, Hc; discriminate).
    destruct (Nat.eqb_spec x_trans_columns (length features)) as [Heq|Hne];
      simpl.
    + by split.
    + split; [|done]. rewrite List.length_map, range_length. lia.
  - intros Hc Hle. rewrite bool_decide_eq_true_2 by (by apply Hpca).
    assert (length (map (fun idx => "Principal component " +:+
                                    UnitsPower.str_int idx)
                      (MLRFeatureNames.range
                         (Z.of_nat x_trans_columns -
                          Z.of_nat (length categorical_features)))) =
            (x_trans_columns - length categorical_features)%nat) as Hlen
      by (rewrite List.length_map, range_length; lia).
    split.
    + rewrite length_app, Hlen. lia.
    + rewrite <- Hlen. apply drop_app_length.
  - intros Hc Hlt. rewrite bool_decide_eq_true_2 by (by apply Hpca).
    unfold MLRFeatureNames.range.
    replace (Z.to_nat (Z.of_nat x_trans_columns -
                       Z.of_nat (length categorical_features)))
      with 0%nat by lia.
    done.
Qed.

Lemma features_after_preprocessing_spec_witness :
  let c := {| MLRPipeline.imputation_strategy := "remove";
              MLRPipeline.standardize_data := true;
              MLRPipeline.pca := true;
              MLRPipeline.cache_intermediate_results := true;
              MLRPipeline.n_jobs := Some 1;
              MLRPipeline.mlr_work_dir := "work";
              MLRPipeline.accept_only_scalar_data := false |} in
  let fs := [ {| MLRPipeline.ftag := "land"; MLRPipeline.categorical := true |};
              {| MLRPipeline.ftag := "pr"; MLRPipeline.categorical := false |};
              {| MLRPipeline.ftag := "tas";
                 MLRPipeline.categorical := false |} ] in
  exists p,
    MLRPipeline._create_pipeline (Some MLRPipeline.GradientBoostingRegressor)
      c fs tt tt = Ok (Some p) /\
    let names :=
      MLRFeatureNames.features_after_preprocessing
        (map fst (MLRPipeline.steps p)) 2 ["land"; "pr"; "tas"] ["land"] in
    length names = 2%nat /\ drop (2 - length ["land"]) names = ["land"].
Proof.
  intros c fs. eexists. split; [reflexivity|].
  apply (proj1 (proj2 (features_after_preprocessing_spec
                         MLRPipeline.GradientBoostingRegressor c fs tt tt _
                         2 ["land"; "pr"; "tas"] ["land"] eq_refl)));
    [reflexivity|simpl; lia].
Defined.

(** ** The prediction dictionary *)

Section PredictionDictFacts.

Import MLRPredict MLRPropagate.
Context {F : Type} `{Arith F}.
Variables features categorical_features : list string.
Variable explain_instance : list F -> result (list (nat * F)).
Variable scaler_scale_ : list F.
Variable imputer : option (list (list F) -> list (list F)).
Variable clf_predict :
  list (list F) -> gmap string pyval -> result (prediction (list F)).
Variable _estimate_mlr_model_error : nat -> result (list F * string).
Variable _get_lime_feature_importance : list (list F) -> result (list F).

Lemma prediction_to_dict_single (p : list F) kwargs :
  _prediction_to_dict (Prediction p) kwargs = {[ None := p ]}.
Proof.
  unfold _prediction_to_dict. simpl.
  repeat case_bool_decide;
    rewrite ?lookup_insert_ne, ?lookup_singleton_eq by done; done.
Qed.

Lemma prediction_to_dict_pair (p e : list F) kwargs :
  _prediction_to_dict (PredictionWithError p e) kwargs =
    <[ (if bool_decide (is_Some (kwargs !! "return_var")) then name "var"
        else if bool_decide (is_Some (kwargs !! "return_cov"))
             then name "cov"
             else Some (inr 1%nat)) := e ]> {[ None := p ]}.
Proof.
  unfold _prediction_to_dict. simpl.
  repeat case_bool_decide;
    rewrite ?lookup_insert_eq, ?lookup_insert_ne, ?lookup_singleton_eq,
      ?lookup_singleton_ne by done; done.
Qed.

Lemma squared_name_ne (err_type s : string) :
  (forall t, s <> String "s" t) ->
  name ("squared_mlr_model_error_estim_" +:+ err_type) <> name s.
Proof.
  intros Hs [= Heq].
  apply (Hs ("quared_mlr_model_error_estim_" +:+ err_type)).
  by rewrite <- Heq.
Qed.

Lemma get_prediction_dict_steps c x_pred x_err y_ref kwargs pred_dict :
  _get_prediction_dict features categorical_features explain_instance
    scaler_scale_ imputer clf_predict _estimate_mlr_model_error
    _get_lime_feature_importance c x_pred x_err y_ref kwargs = Ok pred_dict ->
  exists y_preds d,
    clf_predict x_pred kwargs = Ok y_preds /\
    (forall k,
       k <> name "residual" -> k <> name "lime" ->
       k <> name "squared_propagated_input_error" ->
       (forall err_type,
          k <> name ("squared_mlr_model_error_estim_" +:+ err_type)) ->
       d !! k = _prediction_to_dict y_preds kwargs !! k) /\
    d !! name "residual" = None /\
    match y_ref with
    | Some y_ref =>
        exists y_pred residual,
          d !! None = Some y_pred /\
          _get_residuals y_pred y_ref = Ok residual /\
          pred_dict = <[ name "residual" := residual ]> d
    | None => pred_dict = d
    end.
Proof.
  unfold _get_prediction_dict. intros Hd.
  apply bind_Ok in Hd as (y_preds & Hy & Hd).
  apply bind_Ok in Hd as (d1 & Hd1 & Hd).
  apply bind_Ok in Hd as (d2 & Hd2 & Hd).
  apply bind_Ok in Hd as (d3 & Hd3 & Hd).
  apply bind_Ok in Hd as (d4 & Hd4 & Hd).
  destruct (d4 !! None); [|done]. injection Hd as <-.
  exists y_preds, d3. split; [done|].
  assert (forall k,
            k <> name "residual" -> k <> name "lime" ->
            k <> name "squared_propagated_input_error" ->
            (forall err_type,
               k <> name ("squared_mlr_model_error_estim_" +:+ err_type)) ->
            d3 !! k = _prediction_to_dict y_preds kwargs !! k) as Hsame.
  { intros k Hr Hl Hp He.
    assert (d1 !! k = _prediction_to_dict y_preds kwargs !! k) as H1.
    { destruct (estimate_mlr_model_error c); [|by injection Hd1 as <-].
      apply bind_Ok in Hd1 as ([pred_error err_type] & _ & [= <-]).
      by rewrite lookup_insert_ne. }
    assert (d2 !! k = d1 !! k) as H2.
    { destruct (truthy _), x_err; try by injection Hd2 as <-.
      apply bind_Ok in Hd2 as (arr & _ & [= <-]).
      by rewrite lookup_insert_ne. }
    assert (d3 !! k = d2 !! k) as H3.
    { destruct (return_lime_importance c); [|by injection Hd3 as <-].
      apply bind_Ok in Hd3 as (lime & _ & [= <-]).
      by rewrite lookup_insert_ne. }
    congruence. }
  split; [exact Hsame|].
  assert (_prediction_to_dict y_preds kwargs !! name "residual" = None) as Hn.
  { destruct y_preds as [p|p e].
    - by rewrite prediction_to_dict_single.
    - rewrite prediction_to_dict_pair.
      by repeat case_bool_decide. }
  assert (d3 !! name "residual" = None) as Hres.
  { assert (d1 !! name "residual" = None) as H1.
    { destruct (estimate_mlr_model_error c); [|by injection Hd1 as <-].
      apply bind_Ok in Hd1 as ([pred_error err_type] & _ & [= <-]).
      rewrite lookup_insert_ne; [done|].
      apply squared_name_ne. by intros t. }
    assert (d2 !! name "residual" = None) as H2.
    { destruct (truthy _), x_err; try by injection Hd2 as <-.
      apply bind_Ok in Hd2 as (arr & _ & [= <-]).
      by rewrite lookup_insert_ne. }
    destruct (return_lime_importance c); [|by injection Hd3 as <-].
    apply bind_Ok in Hd3 as (lime & _ & [= <-]).
    by rewrite lookup_insert_ne. }
  split; [exact Hres|].
  destruct y_ref as [y_ref|].
  - apply bind_Ok in Hd4 as (y_pred & Hyp & Hd4).
    apply bind_Ok in Hd4 as (residual & Hr & [= <-]).
    exists y_pred, residual. split; [|done].
    by destruct (d3 !! None) as [y|]; [injection Hyp as <-|].
  - by injection Hd4 as <-.
Qed.

End PredictionDictFacts.

(** X20: what is in the dictionary that [_get_prediction_dict] returns.  The
    prediction of the model is under the key None.  A second output of the
    model is under 'var' when the keywords have 'return_var', under 'cov'
    when they have 'return_cov' only, and under the index 1 otherwise.  With
    reference data the function returns only when reference and prediction
    have the same number of values or one of them has a single value, and
    for the same number of values 'residual' holds prediction minus
    reference, point by point; without reference data there is no
    'residual'. *)
Theorem get_prediction_dict_spec {F : Type} `{Arith F}
    (features categorical_features : list string)
    (explain_instance : list F -> result (list (nat * F)))
    (scaler_scale_ : list F)
    (imputer : option (list (list F) -> list (list F)))
    (clf_predict :
       list (list F) -> gmap string MLRPredict.pyval ->
       result (MLRPredict.prediction (list F)))
    (_estimate_mlr_model_error : nat -> result (list F * string))
    (_get_lime_feature_importance : list (list F) -> result (list F))
    (c : MLRPropagate.cfg) (x_pred : list (list F))
    (x_err : option (list (list F))) (y_ref : option (list F))
    (kwargs : gmap string MLRPredict.pyval)
    (pred_dict : gmap MLRPropagate.pred_type (list F)) :
  MLRPropagate._get_prediction_dict features categorical_features
    explain_instance scaler_scale_ imputer clf_predict
    _estimate_mlr_model_error _get_lime_feature_importance
    c x_pred x_err y_ref kwargs = Ok pred_dict ->
  exists y_preds,
    clf_predict x_pred kwargs = Ok y_preds /\
    let pred := match y_preds with
                | MLRPredict.Prediction p
                | MLRPredict.PredictionWithError p _ => p
                end in
    pred_dict !! None = Some pred /\
    (forall p e,
       y_preds = MLRPredict.PredictionWithError p e ->
       pred_dict !!
         (if bool_decide (is_Some (kwargs !! "return_var"))
          then MLRPropagate.name "var"
          else if bool_decide (is_Some (kwargs !! "return_cov"))
               then MLRPropagate.name "cov"
               else Some (inr 1%nat)) = Some e) /\
    match y_ref with
    | Some y_ref =>
        (length y_ref = length pred \/ length y_ref = 1%nat \/
         length pred = 1%nat) /\
        (length y_ref = length pred ->
         pred_dict !! MLRPropagate.name "residual" =
           Some (zip_with sub pred y_ref))
    | None => pred_dict !! MLRPropagate.name "residual" = None
    end.
Proof.
  intros Hd.
  apply get_prediction_dict_steps in Hd
    as (y_preds & d & Hy & Hsame & Hres & Hd).
  exists y_preds. split; [done|]. intros pred.
  assert (d !! None = Some pred) as Hpred.
  { rewrite Hsame by done. unfold pred. destruct y_preds as [p|p e].
    - by rewrite prediction_to_dict_single.
    - rewrite prediction_to_dict_pair.
      by repeat case_bool_decide. }
  assert (forall p e,
            y_preds = MLRPredict.PredictionWithError p e ->
            d !! (if bool_decide (is_Some (kwargs !! "return_var"))
                  then MLRPropagate.name "var"
                  else if bool_decide (is_Some (kwargs !! "return_cov"))
                       then MLRPropagate.name "cov"
                       else Some (inr 1%nat)) = Some e) as Herr.
  { intros p e ->. rewrite Hsame.
    - rewrite prediction_to_dict_pair. by rewrite lookup_insert_eq.
    - by repeat case_bool_decide.
    - by repeat case_bool_decide.
    - by repeat case_bool_decide.
    - intros err_type.
      repeat case_bool_decide; try done; apply not_eq_sym, squared_name_ne;
        by intros t. }
  destruct y_ref as [y_ref|].
  - destruct Hd as (y_pred & residual & Hyp & Hr & ->).
    rewrite Hpred in Hyp. injection Hyp as <-.
    split; [by rewrite lookup_insert_ne|]. split.
    + intros p e Hpe. rewrite lookup_insert_ne; [by eapply Herr|].
      by repeat case_bool_decide.
    + unfold MLRPropagate._get_residuals, np_binop in Hr. split.
      * destruct (Nat.eqb_spec (length pred) (length y_ref)) as [Hl|Hl];
          [by left|].
        right. destruct y_ref as [|r [|r' y_ref]]; [| by left |].
        -- destruct pred as [|q [|q' pred']]; [done| by right |done].
        -- destruct pred as [|q [|q' pred']]; [done| by right |done].
      * intros Hl. rewrite lookup_insert_eq. f_equal.
        rewrite Hl, Nat.eqb_refl in Hr. by injection Hr as <-.
  - subst d. done.
Qed.

Lemma get_prediction_dict_spec_witness :
  let clf_predict :=
    fun (x : list (list Z)) (_ : gmap string MLRPredict.pyval) =>
      Ok (MLRPredict.PredictionWithError (map (fun row => sum_list row) x)
            (map (fun _ => 4) x)) in
  let c := {| MLRPropagate.estimate_mlr_model_error := false;
              MLRPropagate.propagate_input_errors := None;
              MLRPropagate.return_lime_importance := false |} in
  let kwargs : gmap string MLRPredict.pyval :=
    {[ "return_var" := MLRPredict.PyBool true ]} in
  exists pred_dict,
    MLRPropagate._get_prediction_dict [] [] (fun _ => Raise ValueError) []
      None clf_predict (fun _ => Raise ValueError)
      (fun _ => Raise ValueError) c [[1; 2]; [3; 4]] None (Some [1; 10])
      kwargs = Ok pred_dict /\
    pred_dict !! None = Some [3; 7] /\
    pred_dict !! MLRPropagate.name "var" = Some [4; 4] /\
    pred_dict !! MLRPropagate.name "residual" = Some [2; -3].
Proof.
  intros clf_predict c kwargs.
  destruct (MLRPropagate._get_prediction_dict [] [] (fun _ => Raise ValueError)
              [] None clf_predict (fun _ => Raise ValueError)
              (fun _ => Raise ValueError) c [[1; 2]; [3; 4]] None
              (Some [1; 10]) kwargs) as [pred_dict|] eqn:Hrun;
    [|by vm_compute in Hrun].
  exists pred_dict. split; [done|].
  destruct (get_prediction_dict_spec [] [] (fun _ => Raise ValueError) []
              None clf_predict (fun _ => Raise ValueError)
              (fun _ => Raise ValueError) c [[1; 2]; [3; 4]] None
              (Some [1; 10]) kwargs pred_dict Hrun)
    as (y_preds & [= <-] & Hpred & Herr & _ & Hres).
  split; [exact Hpred|]. split.
  - exact (Herr _ _ eq_refl).
  - exact (Hres eq_refl).
Defined.

Section PredictKeysFacts.

Import MLRPredict MLRPropagate.
Variable ndarray : Type.
Variables ndim shape1 : ndarray -> nat.
Variables reshape_column squeeze1 squared : ndarray -> ndarray.
Variable times : ndarray -> ndarray -> ndarray.
Variable regressor_predict : ndarray -> gmap string pyval -> result ndarray.
Variables regressor_predict_std regressor_predict_cov :
  ndarray -> gmap string pyval -> result (ndarray * ndarray).

Lemma predict_outputs (self : regressor_state ndarray) x_data
    always_return_1d kwargs y_preds :
  predict ndim shape1 reshape_column squeeze1 times squared
    regressor_predict regressor_predict_std regressor_predict_cov
    self x_data always_return_1d kwargs = Ok y_preds ->
  let asked key := truthy (default (PyBool false) (kwargs !! key)) in
  match y_preds with
  | Prediction _ => asked "return_var" = false /\ asked "return_cov" = false
  | PredictionWithError _ _ =>
      asked "return_var" = true \/ asked "return_cov" = true
  end.
Proof.
  unfold predict, pop. destruct (fitted self); [|done]. simpl.
  rewrite lookup_delete_ne by done.
  destruct (kwargs !! "return_var") as [rv|],
    (kwargs !! "return_cov") as [rc|]; simpl;
    try destruct (truthy rv); try destruct (truthy rc); simpl;
    intros Hp; apply bind_Ok in Hp as (pred & _ & Hp);
    try (injection Hp as <-; by auto);
    apply bind_Ok in Hp as (y_err & _ & [= <-]); by auto.
Qed.

Lemma predict_calls_kwargs cfg_kwargs kwargs names pred_name kw :
  (pred_name, kw) ∈ predict_calls true cfg_kwargs kwargs names ->
  let merged := update cfg_kwargs kwargs in
  kw !! "return_var" = merged !! "return_var" /\
  kw !! "return_cov" =
    match merged !! "return_var" with
    | Some _ => None
    | None => merged !! "return_cov"
    end.
Proof.
  intros Hin merged. unfold predict_calls in Hin. simpl in Hin.
  apply list_elem_of_fmap in Hin as (n & [= _ ->] & _). fold merged.
  destruct (merged !! "return_var") as [rv|] eqn:Hv,
    (merged !! "return_cov") as [rc|] eqn:Hc.
  - rewrite !bool_decide_eq_true_2 by done. simpl.
    by rewrite lookup_delete_ne, lookup_delete_eq.
  - rewrite bool_decide_eq_true_2 by done.
    rewrite bool_decide_eq_false_2 by (by intros [? ?]). done.
  - rewrite bool_decide_eq_false_2 by (by intros [? ?]). done.
  - rewrite bool_decide_eq_false_2 by (by intros [? ?]). done.
Qed.

End PredictKeysFacts.

(** X21: which outputs a prediction of [MLRModel.predict] has, by the
    keywords given in the recipe and in the call.  For every call that
    [MLRModel.predict] makes, when the regressor returns, the dictionary
    made of its output by [_prediction_to_dict] has the prediction under
    None; it has 'var' exactly when 'return_var' is given and true; it has
    'cov' exactly when 'return_cov' is given and true and 'return_var' is
    not given at all, so 'return_var=False' together with 'return_cov=True'
    gives no covariance; and it has no other key. *)
Theorem predict_output_keys_spec {F : Type}
    (ndim shape1 : list F -> nat)
    (reshape_column squeeze1 squared : list F -> list F)
    (times : list F -> list F -> list F)
    (regressor_predict :
       list F -> gmap string MLRPredict.pyval -> result (list F))
    (regressor_predict_std regressor_predict_cov :
       list F -> gmap string MLRPredict.pyval -> result (list F * list F))
    (self : MLRPredict.regressor_state (list F)) (x_data : list F)
    (cfg_kwargs kwargs : gmap string MLRPredict.pyval) (names : list string)
    (pred_name : string) (kw : gmap string MLRPredict.pyval)
    (y_preds : MLRPredict.prediction (list F)) :
  (pred_name, kw) ∈ MLRPredict.predict_calls true cfg_kwargs kwargs names ->
  MLRPredict.predict ndim shape1 reshape_column squeeze1 times squared
    regressor_predict regressor_predict_std regressor_predict_cov
    self x_data true kw = Ok y_preds ->
  let merged := MLRPredict.update cfg_kwargs kwargs in
  let asked key :=
    MLRPredict.truthy
      (default (MLRPredict.PyBool false) (merged !! key)) in
  let pred_dict := MLRPropagate._prediction_to_dict y_preds kw in
  is_Some (pred_dict !! None) /\
  (is_Some (pred_dict !! MLRPropagate.name "var") <->
   asked "return_var" = true) /\
  (is_Some (pred_dict !! MLRPropagate.name "cov") <->
   asked "return_cov" = true /\ merged !! "return_var" = None) /\
  (forall key,
     is_Some (pred_dict !! key) ->
     key = None \/ key = MLRPropagate.name "var" \/
     key = MLRPropagate.name "cov").
Proof.
  intros Hin Hp merged asked pred_dict.
  apply predict_calls_kwargs in Hin as [Hv Hc]. fold merged in Hv, Hc.
  apply predict_outputs in Hp. simpl in Hp. rewrite Hv, Hc in Hp.
  unfold pred_dict, asked. clear pred_dict asked.
  destruct y_preds as [p|p e].
  - rewrite prediction_to_dict_single. destruct Hp as [Hpv Hpc].
    split; [by eexists|]. split; [|split].
    + rewrite Hpv. split; [by intros [? ?]|done].
    + split; [by intros [? ?]|]. intros [Hcov Hnone].
      rewrite Hnone in Hpc. congruence.
    + intros key [v Hk]. left.
      apply lookup_singleton_Some in Hk as [<- _]. done.
  - rewrite prediction_to_dict_pair, Hv, Hc.
    destruct (merged !! "return_var") as [rv|] eqn:Hrv.
    + rewrite bool_decide_eq_true_2 by done. simpl in Hp.
      destruct Hp as [Hp|Hp]; [|done]. cbn [from_option id]. rewrite Hp.
      split; [by eexists|]. split; [|split].
      * by rewrite lookup_insert_eq.
      * split; [by intros [? ?]|by intros [_ ?]].
      * intros key [v Hk]. apply lookup_insert_Some in Hk as [[<- _]|[_ Hk]];
          [by auto|].
        apply lookup_singleton_Some in Hk as [<- _]. by left.
    + rewrite bool_decide_eq_false_2 by (by intros [? ?]). simpl in Hp.
      destruct Hp as [Hp|Hp]; [done|].
      destruct (merged !! "return_cov") as [rc|] eqn:Hrc; [|done].
      cbn [from_option id] in *. rewrite Hp.
      rewrite bool_decide_eq_true_2 by done.
      split; [by eexists|]. split; [|split].
      * split; [by intros [? ?]|done].
      * by rewrite lookup_insert_eq.
      * intros key [v Hk]. apply lookup_insert_Some in Hk as [[<- _]|[_ Hk]];
          [by auto|].
        apply lookup_singleton_Some in Hk as [<- _]. by left.
Qed.

Lemma predict_output_keys_spec_witness :
  let cfg_kwargs : gmap string MLRPredict.pyval :=
    {[ "return_var" := MLRPredict.PyBool false ]} in
  let kwargs : gmap string MLRPredict.pyval :=
    {[ "return_cov" := MLRPredict.PyBool true ]} in
  let kw : gmap string MLRPredict.pyval :=
    {[ "return_var" := MLRPredict.PyBool false ]} in
  let self := {| MLRPredict.fitted := true;
                 MLRPredict.inverse_transform := fun y : list Z => y;
                 MLRPredict.scale_ := None;
                 MLRPredict._training_dim := 1 |} in
  let pred_dict :=
    MLRPropagate._prediction_to_dict
      (MLRPredict.Prediction [5; 6] : MLRPredict.prediction (list Z)) kw in
  is_Some (pred_dict !! None) /\
  (is_Some (pred_dict !! MLRPropagate.name "var") <-> false = true) /\
  (is_Some (pred_dict !! MLRPropagate.name "cov") <->
   true = true /\
   MLRPredict.update cfg_kwargs kwargs !! "return_var" = None) /\
  (forall key,
     is_Some (pred_dict !! key) ->
     key = None \/ key = MLRPropagate.name "var" \/
     key = MLRPropagate.name "cov").
Proof.
  intros cfg_kwargs kwargs kw self pred_dict.
  apply (predict_output_keys_spec (fun _ => 1%nat) (fun _ => 1%nat) id id id
           (fun a _ => a) (fun x _ => Ok x) (fun x _ => Ok (x, x))
           (fun x _ => Ok (x, x)) self [5; 6] cfg_kwargs kwargs ["obs"]
           "obs" kw (MLRPredict.Prediction [5; 6])).
  - vm_compute. apply list_elem_of_In. by left.
  - reflexivity.
Defined.

(** ** What the derivation of gtfgco2 needs *)

Section Gtfgco2Requirements.

Import Gtfgco2.
Context {F : Type} `{Arith F} {U : Type}.
Variable unit_mul : U -> U -> result U.
Variable nan : F.

Lemma extract_strict_count (cubes : list (cube F U)) (nm : string) :
  (length (filter (fun c => name c = nm) cubes) <> 1%nat ->
   extract_strict cubes nm = Raise ConstraintMismatchError) /\
  (forall c, extract_strict cubes nm = Ok c ->
             length (filter (fun c => name c = nm) cubes) = 1%nat).
Proof.
  unfold extract_strict.
  destruct (filter (fun c => name c = nm) cubes) as [|c [|c' rest]];
    simpl; split; try done.
Qed.

Lemma extract_strict_In (cubes : list (cube F U)) (nm : string) c :
  extract_strict cubes nm = Ok c -> c ∈ cubes.
Proof.
  unfold extract_strict. intros Hc.
  assert (c ∈ filter (fun c => name c = nm) cubes) as Hin.
  { destruct (filter (fun c => name c = nm) cubes) as [|c' [|c'' rest]];
      try done.
    injection Hc as ->. by left. }
  by apply list_elem_of_filter in Hin as [_ Hin].
Qed.

Lemma total_flux_loop_Ok (flux area : ndarray F) (times : list Q) (i : nat)
    out :
  total_flux_loop flux area i times = Ok out ->
  length out = length times /\
  forall k, (k < length times)%nat ->
    exists slice,
      getitem0 flux (i + k) = Ok (ItemArray slice) /\
      returns (broadcast_shapes (shape slice) (shape area)).
Proof.
  revert i out. induction times as [|t times IH]; intros i out Hl.
  - injection Hl as <-. split; [done|]. intros k Hk. simpl in Hk. lia.
  - simpl in Hl. apply bind_Ok in Hl as (it & Hget & Hl).
    destruct it as [slice|]; [|done].
    apply bind_Ok in Hl as (product & Hm & Hl).
    apply bind_Ok in Hl as (total & _ & Hl).
    apply bind_Ok in Hl as (rest & Hrest & [= <-]).
    apply IH in Hrest as [Hlen Hpts]. split; [simpl; by rewrite Hlen|].
    intros [|k] Hk.
    + exists slice. rewrite Nat.add_0_r. split; [done|].
      unfold ma_mul in Hm. apply bind_Ok in Hm as (shp & Hshp & _).
      by exists shp.
    + destruct (Hpts k) as (s & Hk' & Hshape); [simpl in Hk; lia|].
      exists s. split; [|done].
      by replace (i + S k)%nat with (S i + k)%nat by lia.
Qed.

Lemma calculate_requirements (cubes : list (cube F U)) r :
  calculate unit_mul nan cubes = Ok r ->
  exists fgco2_cube cube_area times,
    extract_strict cubes
      "surface_downward_mass_flux_of_carbon_dioxide_expressed_as_carbon" =
      Ok fgco2_cube /\
    extract_strict cubes "cell_area" = Ok cube_area /\
    coord_points fgco2_cube "time" = Ok times /\
    returns (coord_points fgco2_cube "latitude") /\
    returns (coord_points fgco2_cube "longitude") /\
    unit_mul (units fgco2_cube) (units cube_area) = Ok (result_units r) /\
    length (result_data r) = length times /\
    forall t, (t < length times)%nat ->
      exists slice,
        getitem0 (data fgco2_cube) t = Ok (ItemArray slice) /\
        returns (broadcast_shapes (shape slice) (shape (data cube_area))).
Proof.
  unfold calculate. intros Hc.
  apply bind_Ok in Hc as (fgco2_cube & Hflux & Hc).
  destruct (extract_strict cubes "cell_area") as [cube_area|]; [|done].
  apply bind_Ok in Hc as (total_flux & Htot & Hc).
  apply bind_Ok in Hc as (ds & Hdims & Hc).
  apply bind_Ok in Hc as (u & Hu & Hc).
  unfold calculate_total_flux in Htot.
  apply bind_Ok in Htot as (times & Htimes & Htot).
  apply bind_Ok in Htot as (data_ & Hloop & [= <-]).
  apply total_flux_loop_Ok in Hloop as [Hlen Hpts].
  unfold collapsed in Hdims. apply bind_Ok in Hdims as (pts & Hcoords & _).
  simpl in Hcoords.
  apply bind_Ok in Hcoords as (lats & Hlat & Hcoords).
  apply bind_Ok in Hcoords as (rest & Hcoords & _).
  apply bind_Ok in Hcoords as (lons & Hlon & _).
  destruct (_ || _); [|done]. injection Hc as <-.
  exists fgco2_cube, cube_area, times. simpl.
  repeat split; try done.
  - by exists lats.
  - by exists lons.
  - unfold np_array. by rewrite List.length_map.
Qed.

End Gtfgco2Requirements.

(** X22: what [DerivedVariable.calculate] of gtfgco2 needs.  Unless the
    cubes hold exactly one flux cube, it raises ConstraintMismatchError.
    With one flux cube, unless the cubes hold exactly one cell-area cube,
    it raises UnboundLocalError: the ConstraintMismatchError of the missing
    cell areas is swallowed and the name is unbound where it is used.  And
    it returns only when the flux cube has exactly one coordinate of each of
    the names time, latitude and longitude, the units of the two cubes have
    a product, which is the units of the value, the value has one number
    for each time point, and for each time point the data of the flux have
    a slice along their first axis, of more than no axis or masked, whose
    shape goes together with the shape of the cell areas by the
    broadcasting of numpy. *)
Theorem gtfgco2_calculate_requirements_spec {F : Type} `{Arith F} {U : Type}
    (unit_mul : U -> U -> result U) (nan : F)
    (cubes : list (Gtfgco2.cube F U)) :
  let n_flux :=
    length
      (filter
         (fun c =>
            Gtfgco2.name c =
              "surface_downward_mass_flux_of_carbon_dioxide_expressed_as_carbon")
         cubes) in
  let n_area :=
    length (filter (fun c => Gtfgco2.name c = "cell_area") cubes) in
  (n_flux <> 1%nat ->
   raises (Gtfgco2.calculate unit_mul nan cubes) ConstraintMismatchError)
  /\
  (n_flux = 1%nat -> n_area <> 1%nat ->
   raises (Gtfgco2.calculate unit_mul nan cubes) UnboundLocalError)
  /\
  (forall r,
     Gtfgco2.calculate unit_mul nan cubes = Ok r ->
     n_flux = 1%nat /\ n_area = 1%nat /\
     exists fgco2_cube cube_area times,
       fgco2_cube ∈ cubes /\ cube_area ∈ cubes /\
       Gtfgco2.coord_points fgco2_cube "time" = Ok times /\
       returns (Gtfgco2.coord_points fgco2_cube "latitude") /\
       returns (Gtfgco2.coord_points fgco2_cube "longitude") /\
       unit_mul (Gtfgco2.units fgco2_cube) (Gtfgco2.units cube_area)
         = Ok (Gtfgco2.result_units r) /\
       length (Gtfgco2.result_data r) = length times /\
       forall t, (t < length times)%nat ->
         exists slice,
           Gtfgco2.getitem0 (Gtfgco2.data fgco2_cube) t
             = Ok (Gtfgco2.ItemArray slice) /\
           returns (Gtfgco2.broadcast_shapes (Gtfgco2.shape slice)
                      (Gtfgco2.shape (Gtfgco2.data cube_area)))).
Proof.
  intros n_flux n_area. split; [|split].
  - intros Hn. unfold Gtfgco2.calculate.
    by rewrite (proj1 (extract_strict_count cubes _) Hn).
  - intros Hf Hn. unfold Gtfgco2.calculate.
    rewrite (proj1 (extract_strict_count cubes "cell_area") Hn).
    destruct (Gtfgco2.extract_strict cubes
                "surface_downward_mass_flux_of_carbon_dioxide_expressed_as_carbon")
      as [c|e] eqn:He; [done|].
    unfold Gtfgco2.extract_strict in He. unfold n_flux in Hf.
    by destruct (filter _ cubes) as [|c [|c' rest]].
  - intros r Hr.
    apply calculate_requirements in Hr
      as (fgco2_cube & cube_area & times & Hflux & Harea & Hrest).
    split; [by eapply extract_strict_count|].
    split; [by eapply extract_strict_count|].
    exists fgco2_cube, cube_area, times.
    split; [by eapply extract_strict_In|].
    split; [by eapply extract_strict_In|exact Hrest].
Qed.

Lemma gtfgco2_calculate_requirements_spec_witness :
  let fgco2_cube : Gtfgco2.cube (option Z) string :=
    {| Gtfgco2.name :=
         "surface_downward_mass_flux_of_carbon_dioxide_expressed_as_carbon";
       Gtfgco2.units := "kg m-2 s-1";
       Gtfgco2.dim_coords :=
         [("time", [0%Q]); ("latitude", [0%Q]); ("longitude", [0%Q; 1%Q])];
       Gtfgco2.data :=
         {| Gtfgco2.shape := [1; 1; 2]%nat; Gtfgco2.entries := [Some 3; Some 5];
            Gtfgco2.mask := None |} |} in
  let cube_area : Gtfgco2.cube (option Z) string :=
    {| Gtfgco2.name := "cell_area";
       Gtfgco2.units := "m2";
       Gtfgco2.dim_coords := [("longitude", [0%Q; 1%Q])];
       Gtfgco2.data :=
         {| Gtfgco2.shape := [2]%nat; Gtfgco2.entries := [Some 2; Some 7];
            Gtfgco2.mask := None |} |} in
  let unit_mul := fun a b : string => Ok (a +:+ " " +:+ b) in
  let calculate_ := @Gtfgco2.calculate _ Z_nan_arith _ unit_mul None in
  raises (calculate_ [cube_area]) ConstraintMismatchError /\
  raises (calculate_ [fgco2_cube]) UnboundLocalError /\
  raises (calculate_ [fgco2_cube; cube_area; cube_area])
    UnboundLocalError /\
  exists r,
    calculate_ [cube_area; fgco2_cube] = Ok r /\
    Gtfgco2.result_data r = [Some 41] /\
    exists flux areas times,
      flux ∈ [cube_area; fgco2_cube] /\ areas ∈ [cube_area; fgco2_cube] /\
      Gtfgco2.coord_points flux "time" = Ok times /\
      returns (Gtfgco2.coord_points flux "latitude") /\
      returns (Gtfgco2.coord_points flux "longitude") /\
      unit_mul (Gtfgco2.units flux) (Gtfgco2.units areas)
        = Ok (Gtfgco2.result_units r) /\
      length (Gtfgco2.result_data r) = length times /\
      forall t, (t < length times)%nat ->
        exists slice,
          Gtfgco2.getitem0 (Gtfgco2.data flux) t
            = Ok (Gtfgco2.ItemArray slice) /\
          returns (Gtfgco2.broadcast_shapes (Gtfgco2.shape slice)
                     (Gtfgco2.shape (Gtfgco2.data areas))).
Proof.
  intros fgco2_cube cube_area unit_mul calculate_. unfold calculate_.
  pose proof (@gtfgco2_calculate_requirements_spec _ Z_nan_arith _ unit_mul
                None) as Hspec.
  split; [|split; [|split]].
  - apply (proj1 (Hspec [cube_area])). vm_compute. lia.
  - apply (proj1 (proj2 (Hspec [fgco2_cube]))).
    + reflexivity.
    + vm_compute. lia.
  - apply (proj1 (proj2 (Hspec [fgco2_cube; cube_area; cube_area]))).
    + reflexivity.
    + vm_compute. lia.
  - destruct (@Gtfgco2.calculate _ Z_nan_arith _ unit_mul None
                [cube_area; fgco2_cube]) as [r|] eqn:Hr;
      [|by vm_compute in Hr].
    exists r. split; [done|].
    split; [vm_compute in Hr; by injection Hr as <-|].
    exact (proj2 (proj2 (proj2 (proj2 (Hspec [cube_area; fgco2_cube])) r
                           Hr))).
Defined.

(** ** Errors of the ERA5 CMORizer *)

Section Era5ErrorFacts.

Import Era5.
Context {U D A : Type}.
Variable valid_standard_name : string -> bool.
Variable guessed : list Q -> list (Q * Q).
Variable convert : U -> U -> option (D -> D).
Variable reverse_axis1 : D -> D.

Lemma fix_coord_cases co :
  (exists co', fix_coord guessed co = Ok co') \/
  (fix_coord guessed co = Raise ValueError /\
   (is_Some (bounds co) \/ (length (points co) < 2)%nat)).
Proof.
  unfold fix_coord. simpl. destruct (bounds co) as [b|].
  - right. split; [done|]. left. by eexists.
  - destruct (Nat.ltb_spec (length (points co)) 2).
    + right. split; [done|]. by right.
    + left. by eexists.
Qed.

Lemma extract_variable_raises definition atts (loaded : cube U D A) e :
  _extract_variable valid_standard_name guessed convert reverse_axis1
    definition atts loaded = Raise e ->
  e = ValueError.
Proof.
  unfold _extract_variable, set_standard_name.
  destruct (accepted_standard_name valid_standard_name
              (def_standard_name definition)); simpl.
  all: destruct (fix_coord_cases (set_coord_var_name (latitude loaded) "lat"))
         as [[lat ->]|[-> _]]; simpl; [|congruence];
       destruct (fix_coord_cases (set_coord_var_name (longitude loaded) "lon"))
         as [[lon ->]|[-> _]]; simpl; [|congruence];
       destruct (fix_coord_cases (time loaded))
         as [[tim ->]|[-> _]]; simpl; [|congruence];
       destruct (convert _ _); congruence.
Qed.

Lemma extract_variable_not_guessable definition atts (loaded : cube U D A) :
  ~ (guessable (latitude loaded) /\ guessable (longitude loaded) /\
     guessable (time loaded)) ->
  _extract_variable valid_standard_name guessed convert reverse_axis1
    definition atts loaded = Raise ValueError.
Proof.
  intros Hn.
  destruct (_extract_variable valid_standard_name guessed convert
              reverse_axis1 definition atts loaded) as [saved|e] eqn:Hrun.
  - destruct Hn.
    assert (returns (_extract_variable valid_standard_name guessed convert
                       reverse_axis1 definition atts loaded)) as Hr
      by (by exists saved).
    apply extract_variable_returns in Hr. tauto.
  - f_equal. by eapply extract_variable_raises.
Qed.

End Era5ErrorFacts.

(** X23: two ways in which [_extract_variable] of the ERA5 CMORizer fails
    once the cube is loaded, with a latitude, a longitude and a time
    coordinate of one dimension each, and the definition of the variable is
    found.  It raises ValueError for every cube with fewer than two time
    steps: the bounds of some coordinate cannot be guessed.  And it raises
    ValueError for every cube that is the value of a run of its own,
    whatever the definition: the coordinates of such a cube have bounds
    already. *)
Theorem extract_variable_errors_spec {U D A : Type}
    (valid_standard_name : string -> bool)
    (guessed : list Q -> list (Q * Q))
    (convert : U -> U -> option (D -> D)) (reverse_axis1 : D -> D)
    (definition : Era5.variable_info U) (atts : A)
    (loaded : Era5.cube U D A) :
  let run := Era5._extract_variable valid_standard_name guessed convert
               reverse_axis1 definition atts loaded in
  ((length (Era5.points (Era5.time loaded)) < 2)%nat ->
   raises run ValueError)
  /\
  (forall saved,
     run = Ok saved ->
     forall definition' atts',
       raises
         (Era5._extract_variable valid_standard_name guessed convert
            reverse_axis1 definition' atts' saved) ValueError).
Proof.
  intros run. split.
  - intros Hl. apply extract_variable_not_guessable.
    intros (_ & _ & [_ Ht]). lia.
  - intros saved Hs definition' atts'.
    apply extract_variable_not_guessable.
    apply extract_variable_saved in Hs as (conv & _ & ->). simpl.
    by intros ([? _] & _).
Qed.

Lemma extract_variable_errors_spec_witness :
  let valid := fun s => (s =? "air_temperature")%string in
  let guessed := fun pts : list Q => map (fun p => (p, p)) pts in
  let convert := fun a b : string =>
    if (a =? b)%string then Some (fun d : list Z => d) else None in
  let definition :=
    {| Era5.short_name := "tas";
       Era5.def_standard_name := Some "air_temperature";
       Era5.def_long_name := "Near-Surface Air Temperature";
       Era5.def_units := "K" |} in
  let axis := fun pts =>
    {| Era5.coord_var_name := None; Era5.points_dtype := "float32";
       Era5.points := pts; Era5.bounds := None |} in
  let loaded := fun months =>
    {| Era5.var_name := Some "t2m"; Era5.standard_name := None;
       Era5.long_name := Some "2 metre temperature";
       Era5.dtype := "int16"; Era5.units := "K";
       Era5.time := axis months;
       Era5.latitude := axis [90%Q; 0%Q; (-90)%Q];
       Era5.longitude := axis [0%Q; 180%Q];
       Era5.data := [1; 2; 3]; Era5.attributes := "raw" |} in
  raises (Era5._extract_variable valid guessed convert (@rev Z) definition
            "cmor" (loaded [0%Q])) ValueError /\
  exists saved,
    Era5._extract_variable valid guessed convert (@rev Z) definition "cmor"
      (loaded [0%Q; 31%Q]) = Ok saved /\
    raises (Era5._extract_variable valid guessed convert (@rev Z) definition
              "cmor" saved) ValueError.
Proof.
  intros valid guessed convert definition axis loaded. split.
  - apply (proj1 (extract_variable_errors_spec valid guessed convert
                    (@rev Z) definition "cmor" (loaded [0%Q]))).
    simpl. lia.
  - eexists. split; [reflexivity|].
    apply (proj2 (extract_variable_errors_spec valid guessed convert
                    (@rev Z) definition "cmor" (loaded [0%Q; 31%Q]))
             _ eq_refl).
Defined.
